(** * The I3D exporter of the Blender add-on, embedded in Rocq

    A shallow embedding of [addon/i3dio/i3d_exporter.py]: the scene graph
    builder, the node compiler, the resource tables (files, materials,
    shapes) and the vertex cache, followed by the properties of the
    specification that were checked against them.

    Conventions of the embedding.
    - Python [str] is [string]; a Python [dict] is an association list in
      insertion order ([dict_get], [dict_set]); Python [int] identifiers
      and counters are [nat].
    - An [xml.etree.ElementTree.Element] is the inductive [Element].
    - The exporter object is the record [Exporter]; its methods are
      computations in the state-and-exception monad [M].
    - The host (Blender's [bpy], [mathutils], the file system) is outside
      the repository: its data are records, its numeric types and functions
      are the classes [PyFloat], [MatrixOps], [Mathutils] and [BMesh], and the
      outcomes of its effects are fields of [Host]. *)

From Stdlib Require Import List String Ascii Bool Arith Lia.
From Stdlib Require Import ZArith Decimal DecimalNat DecimalZ DecimalString.
Import ListNotations.
Local Open Scope list_scope.
Local Open Scope string_scope.

Set Implicit Arguments.
Set Warnings "-register-all".

(* ================================================================== *)
(** * Python values: integers, strings, dictionaries *)
(* ================================================================== *)

Module Py.

(** [f"{n:d}"] *)
Definition int_str (n : nat) : string := NilZero.string_of_uint (Nat.to_uint n).

(** [int(s)] on a string of decimal digits; [None] stands for [ValueError]. *)
Definition int_parse (s : string) : option nat :=
  option_map Nat.of_uint (NilZero.uint_of_string s).

(** [f"{z:d}"] and [str(z)] for a signed integer. *)
Definition z_str (z : Z) : string := NilZero.string_of_int (Z.to_int z).

(** [f"{b!s}".lower()] *)
Definition bool_str (b : bool) : string := if b then "true" else "false".

(** [len(s)] *)
Definition len (s : string) : nat := String.length s.

(** [s[a:b]] for [0 <= a], [0 <= b]. *)
Definition slice (s : string) (a b : nat) : string := substring a (b - a) s.

(** [s.rfind(c) + 1] for a one-character [c]: the position after the last
    occurrence, [0] when there is none (as [rfind] gives [-1]). *)
Fixpoint rfind_succ (s : string) (c : ascii) : nat :=
  match s with
  | EmptyString => 0
  | String a s' =>
      match rfind_succ s' c with
      | 0 => if Ascii.eqb a c then 1 else 0
      | S k => S (S k)
      end
  end.

(** [s.index(sub)]; [None] stands for [ValueError]. *)
Definition index (s sub : string) : option nat := String.index 0 sub s.

(** [s.replace(old, new)] for a non-empty [old]: occurrences are replaced
    from the left and do not overlap.  [skip] counts the characters of an
    occurrence that are still to be dropped. *)
Fixpoint replace_from (skip : nat) (old new s : string) : string :=
  match s with
  | EmptyString => EmptyString
  | String a s' =>
      match skip with
      | S k => replace_from k old new s'
      | 0 =>
          if prefix old s
          then new ++ replace_from (String.length old - 1) old new s'
          else String a (replace_from 0 old new s')
      end
  end.

(** [s.replace("", new)]: [new] goes before every character and at the end. *)
Fixpoint intersperse (new s : string) : string :=
  match s with
  | EmptyString => new
  | String a s' => new ++ String a (intersperse new s')
  end.

Definition replace (s old new : string) : string :=
  match old with
  | EmptyString => intersperse new s
  | _ => replace_from 0 old new s
  end.

(** [s.count(sub)] for a non-empty [sub]: occurrences that do not overlap. *)
Fixpoint count_from (skip : nat) (sub s : string) : nat :=
  match s with
  | EmptyString => 0
  | String _ s' =>
      match skip with
      | S k => count_from k sub s'
      | 0 =>
          if prefix sub s
          then S (count_from (String.length sub - 1) sub s')
          else count_from 0 sub s'
      end
  end.

Definition count (s sub : string) : nat :=
  match sub with
  | EmptyString => S (String.length s)
  | _ => count_from 0 sub s
  end.

(** [sep.join(l)] *)
Definition join (sep : string) (l : list string) : string := String.concat sep l.

(** ** [repr] of a string

    A character of a string is a code point below 256.  [repr(s)] as
    CPython computes it on these: the enclosing quote is the double quote
    when [s] holds a single quote and no double quote, the single quote
    otherwise; the backslash and the enclosing quote are escaped with a
    backslash, tab, newline and carriage return are written [\t], [\n],
    [\r], and every other character that [str.isprintable] refuses (the
    code points below 32, 127 to 160, and 173) in [\xNN] form. *)

Definition backslash : ascii := "\"%char.
Definition squote : ascii := "'"%char.
Definition dquote : ascii := ascii_of_nat 34.

Fixpoint contains (c : ascii) (s : string) : bool :=
  match s with
  | EmptyString => false
  | String a s' => Ascii.eqb a c || contains c s'
  end.

Definition repr_quote (s : string) : ascii :=
  if contains squote s && negb (contains dquote s) then dquote else squote.

Definition hex_digit (n : nat) : ascii :=
  match n with
  | 0 => "0" | 1 => "1" | 2 => "2" | 3 => "3" | 4 => "4" | 5 => "5"
  | 6 => "6" | 7 => "7" | 8 => "8" | 9 => "9" | 10 => "a" | 11 => "b"
  | 12 => "c" | 13 => "d" | 14 => "e" | _ => "f"
  end%char.

Definition repr_char (q a : ascii) : string :=
  let n := nat_of_ascii a in
  if Ascii.eqb a backslash then String backslash (String backslash EmptyString)
  else if Ascii.eqb a q then String backslash (String q EmptyString)
  else if Nat.eqb n 9 then String backslash "t"
  else if Nat.eqb n 10 then String backslash "n"
  else if Nat.eqb n 13 then String backslash "r"
  else if Nat.ltb n 32 || (Nat.leb 127 n && Nat.leb n 160) || Nat.eqb n 173
       then String backslash
              (String "x" (String (hex_digit (n / 16))
                             (String (hex_digit (n mod 16)) EmptyString)))
  else String a EmptyString.

Fixpoint repr_body (q : ascii) (s : string) : string :=
  match s with
  | EmptyString => EmptyString
  | String a s' => repr_char q a ++ repr_body q s'
  end.

Definition repr (s : string) : string :=
  let q := repr_quote s in
  String q (repr_body q s ++ String q EmptyString).

(** [s.strip()] leaves nothing: [s] holds white space only, which for
    [str.isspace] is 9 to 13, 28 to 32, 133 and 160 among the code points
    below 256. *)
Definition is_space (a : ascii) : bool :=
  let n := nat_of_ascii a in
  (Nat.leb 9 n && Nat.leb n 13) || (Nat.leb 28 n && Nat.leb n 32)
  || Nat.eqb n 133 || Nat.eqb n 160.

Fixpoint all_space (s : string) : bool :=
  match s with
  | EmptyString => true
  | String a s' => is_space a && all_space s'
  end.

(** ["\n"] and [k * s] *)
Definition newline : string := String (ascii_of_nat 10) EmptyString.

Fixpoint times (k : nat) (s : string) : string :=
  match k with
  | 0 => EmptyString
  | S k' => s ++ times k' s
  end.

(** [s.strip(' ')] *)
Fixpoint lstrip_spaces (s : string) : string :=
  match s with
  | String a s' => if Ascii.eqb a " " then lstrip_spaces s' else s
  | EmptyString => EmptyString
  end.

Fixpoint rstrip_spaces (s : string) : string :=
  match s with
  | EmptyString => EmptyString
  | String a s' =>
      match rstrip_spaces s' with
      | EmptyString => if Ascii.eqb a " " then EmptyString else String a EmptyString
      | r => String a r
      end
  end.

Definition strip_spaces (s : string) : string := rstrip_spaces (lstrip_spaces s).

(** [str(d)] of a dictionary from strings to strings. *)
Definition dict_item_str (kv : string * string) : string :=
  repr (fst kv) ++ ": " ++ repr (snd kv).

Definition dict_str (d : list (string * string)) : string :=
  "{" ++ join ", " (List.map dict_item_str d) ++ "}".

(** ** Dictionaries in insertion order *)

Section Dict.
Variables (K V : Type) (eqb : K -> K -> bool).

Fixpoint dict_get (d : list (K * V)) (k : K) : option V :=
  match d with
  | [] => None
  | (k', v) :: d' => if eqb k' k then Some v else dict_get d' k
  end.

(** [k in d] *)
Definition dict_mem (d : list (K * V)) (k : K) : bool :=
  match dict_get d k with Some _ => true | None => false end.

(** [d[k] = v]: an existing key keeps its place, a new one goes last. *)
Fixpoint dict_set (d : list (K * V)) (k : K) (v : V) : list (K * V) :=
  match d with
  | [] => [(k, v)]
  | (k', v') :: d' =>
      if eqb k' k then (k', v) :: d' else (k', v') :: dict_set d' k v
  end.
End Dict.

End Py.

(* ================================================================== *)
(** * ElementTree elements *)
(* ================================================================== *)

Inductive Element : Type :=
  mkElement (tag : string) (attrib : list (string * string))
            (text tail : option string) (children : list Element).

Definition tag (e : Element) : string :=
  let 'mkElement t _ _ _ _ := e in t.
Definition attrib (e : Element) : list (string * string) :=
  let 'mkElement _ a _ _ _ := e in a.
Definition text (e : Element) : option string :=
  let 'mkElement _ _ x _ _ := e in x.
Definition tail (e : Element) : option string :=
  let 'mkElement _ _ _ x _ := e in x.
Definition children (e : Element) : list Element :=
  let 'mkElement _ _ _ _ c := e in c.

Module ET.

(** [ET.Element(tag)] *)
Definition new (t : string) : Element := mkElement t [] None None [].

(** [e.set(key, value)] *)
Definition set (e : Element) (k v : string) : Element :=
  let 'mkElement t a x y c := e in
  mkElement t (Py.dict_set String.eqb a k v) x y c.

(** [e.get(key)] *)
Definition get (e : Element) (k : string) : option string :=
  Py.dict_get String.eqb (attrib e) k.

(** [parent.append(child)].  [ET.SubElement] attaches the child on
    creation and the code completes it in place; the model appends the
    child once it is complete.  The two trees agree whenever the routine
    that fills the child returns.  When it raises, the exception leaves
    [Exporter.__init__] and the tree is dropped with the exporter, so the
    sections of the state after a raise are the ones before the child was
    begun. *)
Definition append (parent child : Element) : Element :=
  let 'mkElement t a x y c := parent in
  mkElement t a x y (c ++ [child])%list.

Definition set_children (e : Element) (c : list Element) : Element :=
  let 'mkElement t a x y _ := e in mkElement t a x y c.

End ET.

(* ================================================================== *)
(** * Exceptions and the exporter monad *)
(* ================================================================== *)

(** The Python exceptions the exporter can meet. *)
Inductive exn : Type :=
| KeyError (key : string)
| IndexError
| AttributeError (attribute : string)
| ValueError (message : string)
| SyntaxError (message : string)
| OSError (message : string)
| SameFileError.

Inductive Outcome (A : Type) : Type :=
| Ok (a : A)
| Raise (e : exn).
Arguments Ok {A} a.
Arguments Raise {A} e.

(** A computation over a mutable state [S]: the state survives a raised
    exception, as the mutations of a Python object do. *)
Definition M (S A : Type) : Type := S -> Outcome A * S.

Definition ret {S A} (a : A) : M S A := fun s => (Ok a, s).

Definition bind {S A B} (m : M S A) (k : A -> M S B) : M S B :=
  fun s =>
    match m s with
    | (Ok a, s') => k a s'
    | (Raise e, s') => (Raise e, s')
    end.

Definition raise {S A} (e : exn) : M S A := fun s => (Raise e, s).
Definition get {S} : M S S := fun s => (Ok s, s).
Definition modify {S} (f : S -> S) : M S unit := fun s => (Ok tt, f s).

(** [try: m  except E: handler], where [catches] tells which exceptions
    the clause names. *)
Definition try_except {S A} (m : M S A) (catches : exn -> bool)
           (handler : exn -> M S A) : M S A :=
  fun s =>
    match m s with
    | (Raise e, s') => if catches e then handler e s' else (Raise e, s')
    | r => r
    end.

(** A lookup that raises when the host gives nothing. *)
Definition expect {S A} (o : option A) (e : exn) : M S A :=
  match o with Some a => ret a | None => raise e end.

Declare Scope monad_scope.
Delimit Scope monad_scope with monad.
Notation "x <- m ;; k" := (bind m (fun x => k))
  (at level 61, m at next level, right associativity) : monad_scope.
Notation "m ;; k" := (bind m (fun _ => k))
  (at level 61, right associativity) : monad_scope.
Local Open Scope monad_scope.

(** [for x in l: body x] *)
Fixpoint for_each {S A} (l : list A) (body : A -> M S unit) : M S unit :=
  match l with
  | [] => ret tt
  | x :: l' => body x ;; for_each l' body
  end.

(** [if c: m] *)
Definition when {S} (c : bool) (m : M S unit) : M S unit :=
  if c then m else ret tt.

(* ================================================================== *)
(** * The exporter object *)
(* ================================================================== *)

(** The export options, [bpy.context.scene.i3dio]. *)
Record Settings : Type := {
  selection : string;
  object_types_to_export : list string;
  apply_modifiers : bool;
  apply_unit_scale : bool;
  copy_files : bool;
  overwrite_files : bool;
  file_structure : string
}.

(** What the host answers to the calls that do not depend on the export:
    [bpy.path.abspath], [bpy.path.native_pathsep],
    [bpy.path.display_name_from_filepath], the version in [bl_info], and
    what is the host's to decide:

    - [write_error path]: the exception with which [ElementTree.write]
      to [path] fails, if it fails; [write_opens path]: whether, when it
      fails, it had opened the file before, which cuts the file to
      nothing ([open(path, "w")]) and leaves in it what was written by
      then;
    - [makedirs_error disk path] and [copy_error disk src dst]: the
      exception with which the file system refuses [os.makedirs] or
      [shutil.copy] (no permission, a file in the way, a full disk),
      given the paths that are on the disk;
    - [find_path root path]: the exception with which [root.find(path)]
      of ElementPath ends, if it raises; asked only for the paths whose
      reading depends on the tokenizer of the library (see
      [find_by_name]). *)
Record Host : Type := {
  abspath : string -> string;
  native_pathsep : string -> string;
  display_name_from_filepath : string -> string;
  bl_info_version : string;
  write_error : string -> option exn;
  write_opens : string -> bool;
  makedirs_error : list string -> string -> option exn;
  copy_error : list string -> string -> string -> option exn;
  find_path : Element -> string -> option exn
}.

(** The mutable state of one export: the fields of [Exporter] that change
    ([_file_indexes], [shape_material_indexes], [ids]), the sections of
    [_tree] that are filled, what was printed, and the state of the host
    that the exporter changes: the files on disk, the objects that hold a
    mesh made by [to_mesh] and not yet cleared, the object copies, whether
    [bpy.data.materials] holds the default material, and the document
    written.  [_filepath], [_global_matrix] and [_scene_graph] are set once
    and are passed as arguments. *)
Record Exporter : Type := {
  _file_indexes : list (string * nat);
  shape_material_indexes : list (nat * string);
  ids_shape : nat;
  ids_material : nat;
  ids_file : nat;
  Files : Element;
  Materials : Element;
  Shapes : Element;
  Scene : Element;
  stdout : list string;
  disk : list string;
  meshes_alive : list string;
  object_copies : list string;
  default_material_exists : bool;
  written : option Element
}.

Definition X (A : Type) : Type := M Exporter A.

(** Field updates. *)
Definition upd_file_indexes (f : list (string * nat) -> list (string * nat)) (st : Exporter) : Exporter :=
  {| _file_indexes := f (_file_indexes st);
     shape_material_indexes := shape_material_indexes st;
     ids_shape := ids_shape st;
     ids_material := ids_material st;
     ids_file := ids_file st;
     Files := Files st;
     Materials := Materials st;
     Shapes := Shapes st;
     Scene := Scene st;
     stdout := stdout st;
     disk := disk st;
     meshes_alive := meshes_alive st;
     object_copies := object_copies st;
     default_material_exists := default_material_exists st;
     written := written st |}.

Definition upd_shape_material_indexes (f : list (nat * string) -> list (nat * string)) (st : Exporter) : Exporter :=
  {| _file_indexes := _file_indexes st;
     shape_material_indexes := f (shape_material_indexes st);
     ids_shape := ids_shape st;
     ids_material := ids_material st;
     ids_file := ids_file st;
     Files := Files st;
     Materials := Materials st;
     Shapes := Shapes st;
     Scene := Scene st;
     stdout := stdout st;
     disk := disk st;
     meshes_alive := meshes_alive st;
     object_copies := object_copies st;
     default_material_exists := default_material_exists st;
     written := written st |}.

Definition upd_ids_shape (f : nat -> nat) (st : Exporter) : Exporter :=
  {| _file_indexes := _file_indexes st;
     shape_material_indexes := shape_material_indexes st;
     ids_shape := f (ids_shape st);
     ids_material := ids_material st;
     ids_file := ids_file st;
     Files := Files st;
     Materials := Materials st;
     Shapes := Shapes st;
     Scene := Scene st;
     stdout := stdout st;
     disk := disk st;
     meshes_alive := meshes_alive st;
     object_copies := object_copies st;
     default_material_exists := default_material_exists st;
     written := written st |}.

Definition upd_ids_material (f : nat -> nat) (st : Exporter) : Exporter :=
  {| _file_indexes := _file_indexes st;
     shape_material_indexes := shape_material_indexes st;
     ids_shape := ids_shape st;
     ids_material := f (ids_material st);
     ids_file := ids_file st;
     Files := Files st;
     Materials := Materials st;
     Shapes := Shapes st;
     Scene := Scene st;
     stdout := stdout st;
     disk := disk st;
     meshes_alive := meshes_alive st;
     object_copies := object_copies st;
     default_material_exists := default_material_exists st;
     written := written st |}.

Definition upd_ids_file (f : nat -> nat) (st : Exporter) : Exporter :=
  {| _file_indexes := _file_indexes st;
     shape_material_indexes := shape_material_indexes st;
     ids_shape := ids_shape st;
     ids_material := ids_material st;
     ids_file := f (ids_file st);
     Files := Files st;
     Materials := Materials st;
     Shapes := Shapes st;
     Scene := Scene st;
     stdout := stdout st;
     disk := disk st;
     meshes_alive := meshes_alive st;
     object_copies := object_copies st;
     default_material_exists := default_material_exists st;
     written := written st |}.

Definition upd_Files (f : Element -> Element) (st : Exporter) : Exporter :=
  {| _file_indexes := _file_indexes st;
     shape_material_indexes := shape_material_indexes st;
     ids_shape := ids_shape st;
     ids_material := ids_material st;
     ids_file := ids_file st;
     Files := f (Files st);
     Materials := Materials st;
     Shapes := Shapes st;
     Scene := Scene st;
     stdout := stdout st;
     disk := disk st;
     meshes_alive := meshes_alive st;
     object_copies := object_copies st;
     default_material_exists := default_material_exists st;
     written := written st |}.

Definition upd_Materials (f : Element -> Element) (st : Exporter) : Exporter :=
  {| _file_indexes := _file_indexes st;
     shape_material_indexes := shape_material_indexes st;
     ids_shape := ids_shape st;
     ids_material := ids_material st;
     ids_file := ids_file st;
     Files := Files st;
     Materials := f (Materials st);
     Shapes := Shapes st;
     Scene := Scene st;
     stdout := stdout st;
     disk := disk st;
     meshes_alive := meshes_alive st;
     object_copies := object_copies st;
     default_material_exists := default_material_exists st;
     written := written st |}.

Definition upd_Shapes (f : Element -> Element) (st : Exporter) : Exporter :=
  {| _file_indexes := _file_indexes st;
     shape_material_indexes := shape_material_indexes st;
     ids_shape := ids_shape st;
     ids_material := ids_material st;
     ids_file := ids_file st;
     Files := Files st;
     Materials := Materials st;
     Shapes := f (Shapes st);
     Scene := Scene st;
     stdout := stdout st;
     disk := disk st;
     meshes_alive := meshes_alive st;
     object_copies := object_copies st;
     default_material_exists := default_material_exists st;
     written := written st |}.

Definition upd_Scene (f : Element -> Element) (st : Exporter) : Exporter :=
  {| _file_indexes := _file_indexes st;
     shape_material_indexes := shape_material_indexes st;
     ids_shape := ids_shape st;
     ids_material := ids_material st;
     ids_file := ids_file st;
     Files := Files st;
     Materials := Materials st;
     Shapes := Shapes st;
     Scene := f (Scene st);
     stdout := stdout st;
     disk := disk st;
     meshes_alive := meshes_alive st;
     object_copies := object_copies st;
     default_material_exists := default_material_exists st;
     written := written st |}.

Definition upd_stdout (f : list string -> list string) (st : Exporter) : Exporter :=
  {| _file_indexes := _file_indexes st;
     shape_material_indexes := shape_material_indexes st;
     ids_shape := ids_shape st;
     ids_material := ids_material st;
     ids_file := ids_file st;
     Files := Files st;
     Materials := Materials st;
     Shapes := Shapes st;
     Scene := Scene st;
     stdout := f (stdout st);
     disk := disk st;
     meshes_alive := meshes_alive st;
     object_copies := object_copies st;
     default_material_exists := default_material_exists st;
     written := written st |}.

Definition upd_disk (f : list string -> list string) (st : Exporter) : Exporter :=
  {| _file_indexes := _file_indexes st;
     shape_material_indexes := shape_material_indexes st;
     ids_shape := ids_shape st;
     ids_material := ids_material st;
     ids_file := ids_file st;
     Files := Files st;
     Materials := Materials st;
     Shapes := Shapes st;
     Scene := Scene st;
     stdout := stdout st;
     disk := f (disk st);
     meshes_alive := meshes_alive st;
     object_copies := object_copies st;
     default_material_exists := default_material_exists st;
     written := written st |}.

Definition upd_meshes_alive (f : list string -> list string) (st : Exporter) : Exporter :=
  {| _file_indexes := _file_indexes st;
     shape_material_indexes := shape_material_indexes st;
     ids_shape := ids_shape st;
     ids_material := ids_material st;
     ids_file := ids_file st;
     Files := Files st;
     Materials := Materials st;
     Shapes := Shapes st;
     Scene := Scene st;
     stdout := stdout st;
     disk := disk st;
     meshes_alive := f (meshes_alive st);
     object_copies := object_copies st;
     default_material_exists := default_material_exists st;
     written := written st |}.

Definition upd_object_copies (f : list string -> list string) (st : Exporter) : Exporter :=
  {| _file_indexes := _file_indexes st;
     shape_material_indexes := shape_material_indexes st;
     ids_shape := ids_shape st;
     ids_material := ids_material st;
     ids_file := ids_file st;
     Files := Files st;
     Materials := Materials st;
     Shapes := Shapes st;
     Scene := Scene st;
     stdout := stdout st;
     disk := disk st;
     meshes_alive := meshes_alive st;
     object_copies := f (object_copies st);
     default_material_exists := default_material_exists st;
     written := written st |}.

Definition upd_default_material_exists (f : bool -> bool) (st : Exporter) : Exporter :=
  {| _file_indexes := _file_indexes st;
     shape_material_indexes := shape_material_indexes st;
     ids_shape := ids_shape st;
     ids_material := ids_material st;
     ids_file := ids_file st;
     Files := Files st;
     Materials := Materials st;
     Shapes := Shapes st;
     Scene := Scene st;
     stdout := stdout st;
     disk := disk st;
     meshes_alive := meshes_alive st;
     object_copies := object_copies st;
     default_material_exists := f (default_material_exists st);
     written := written st |}.

Definition upd_written (f : option Element -> option Element) (st : Exporter) : Exporter :=
  {| _file_indexes := _file_indexes st;
     shape_material_indexes := shape_material_indexes st;
     ids_shape := ids_shape st;
     ids_material := ids_material st;
     ids_file := ids_file st;
     Files := Files st;
     Materials := Materials st;
     Shapes := Shapes st;
     Scene := Scene st;
     stdout := stdout st;
     disk := disk st;
     meshes_alive := meshes_alive st;
     object_copies := object_copies st;
     default_material_exists := default_material_exists st;
     written := f (written st) |}.

(** [print(line)] *)
Definition print (line : string) : X unit :=
  modify (upd_stdout (fun out => (out ++ [line])%list)).

(** The four attribute writers. *)
Definition _xml_write_int (element : Element) (attribute : string) (value : nat) : Element :=
  ET.set element attribute (Py.int_str value).

Definition _xml_write_bool (element : Element) (attribute : string) (value : bool) : Element :=
  ET.set element attribute (Py.bool_str value).

Definition _xml_write_string (element : Element) (attribute : string) (value : string) : Element :=
  ET.set element attribute value.

(* ================================================================== *)
(** * Host numerics *)
(* ================================================================== *)

(** Python floats, as far as the exporter uses them: fixed-point
    formatting [f"{x:.{k}f}"] (the bare [f"{x:f}"] is [fmt 6]), [str(x)],
    multiplication, the literal [5.0] and [math.degrees]. *)
Class PyFloat : Type := {
  float : Type;
  fmt : nat -> float -> string;
  float_str : float -> string;
  fmul : float -> float -> float;
  f5 : float;
  degrees : float -> float
}.

(** [mathutils.Matrix] with [@] and [inverted()]. *)
Class MatrixOps : Type := {
  Matrix : Type;
  matmul : Matrix -> Matrix -> Matrix;
  inverted : Matrix -> Matrix
}.

(** The rest of [mathutils.Matrix]: [to_translation()],
    [to_euler('XYZ')], [to_scale()], [Matrix.Scale(s, 4)] and
    [is_negative]. *)
Class Mathutils (F : PyFloat) (MO : MatrixOps) : Type := {
  to_translation : Matrix -> float * float * float;
  to_euler_XYZ : Matrix -> float * float * float;
  to_scale : Matrix -> float * float * float;
  Matrix_Scale : float -> Matrix;
  is_negative : Matrix -> bool
}.

Declare Scope matrix_scope.
Delimit Scope matrix_scope with matrix.
Infix "@" := matmul (at level 40, left associativity) : matrix_scope.

(* ================================================================== *)
(** * ElementPath lookups by name *)
(* ================================================================== *)

(** [root.find(f".{tag}[@name={name!r}]")], for a tag that is a plain
    name, as the two tags are that the exporter asks for.

    ElementPath reads the predicate value as the text between the opening
    quote and the next occurrence of the same quote, and compares it with
    the attribute as it stands: the escapes that [repr] wrote are not
    undone.  The first child with the tag and that value under [name] is
    the answer.  When the body of [repr(name)] holds its own quote (a name
    with both kinds of quote), the quoted token ends early and what
    follows it is read as more of the path.  Every quote of the name is
    escaped in the repr, so it is never the start of a quoted token, and
    the closing quote of the repr ends the last token of the path: a path
    that can be read at all ends in a test for a child or an attribute
    whose name ends in a quote.  No element of the document has one, so
    nothing is found; whether the path can be read ([SyntaxError] and
    [KeyError] otherwise) is the host's to say. *)
Definition find_by_name (host : Host) (root : Element) (tag_name name : string)
  : Outcome (option Element) :=
  let q := Py.repr_quote name in
  let value := Py.repr_body q name in
  if Py.contains q value
  then
    match find_path host root ("." ++ tag_name ++ "[@name=" ++ Py.repr name ++ "]") with
    | Some exception => Raise exception
    | None => Ok None
    end
  else
    Ok (List.find
          (fun e => String.eqb (tag e) tag_name &&
                    match ET.get e "name" with
                    | Some v => String.eqb v value
                    | None => false
                    end)
          (children root)).

Definition lift {S A} (o : Outcome A) : M S A :=
  match o with Ok a => ret a | Raise e => raise e end.

Notation "' pat <- m ;; k" := (bind m (fun x => match x with pat => k end))
  (at level 61, pat pattern, m at next level, right associativity) : monad_scope.

(* ================================================================== *)
(** * Resource table: files *)
(* ================================================================== *)

Section FileTable.

Variable host : Host.
Variable settings : Settings.
Variable _filepath : string.

(** The file system, as far as the exporter touches it: [disk] holds the
    paths that are there, those of the files and those of the directories
    that were made, the latter as they were given to [os.makedirs]. *)
Definition os_path_exists (path : string) : X bool :=
  st <- get ;; ret (existsb (String.eqb path) (disk st)).

(** [os.makedirs(path, exist_ok=True)]: a refusal of the file system is
    raised; the empty path is refused by every file system
    ([FileNotFoundError], an [OSError]); otherwise the directory is there
    afterwards, made now or found. *)
Definition os_makedirs (path : string) : X unit :=
  st <- get ;;
  match makedirs_error host (disk st) path with
  | Some exception => raise exception
  | None =>
      if String.eqb path ""
      then raise (OSError "[Errno 2] No such file or directory: ''")
      else
        when (negb (existsb (String.eqb path) (disk st)))
             (modify (upd_disk (fun d => (d ++ [path])%list)))
  end.

(** [shutil.copy(src, dst_dir)]: the source must exist, copying a file
    onto itself raises [SameFileError], and the file system may refuse
    the copy. *)
Definition shutil_copy (src dst_dir : string) : X unit :=
  st <- get ;;
  let dst := dst_dir ++ Py.slice src (Py.rfind_succ src Py.backslash) (Py.len src) in
  if negb (existsb (String.eqb src) (disk st))
  then raise (OSError "No such file or directory")
  else if String.eqb src dst then raise SameFileError
  else
    match copy_error host (disk st) src dst with
    | Some exception => raise exception
    | None => modify (upd_disk (fun d => (d ++ [dst])%list))
    end.

Definition is_SameFileError (e : exn) : bool :=
  match e with SameFileError => true | _ => false end.

(** [relative_filter = 'data\shared'] and the rewriting of the absolute
    path: everything before the first occurrence of the marker becomes
    ["$"] (wherever that prefix occurs in the path). *)
Definition relative_filter : string := "data\shared".

Definition shared_data_rewrite (filepath_absolute : string) : string :=
  match Py.index filepath_absolute relative_filter with
  | Some i =>
      Py.replace filepath_absolute (Py.slice filepath_absolute 0 i) "$"
  | None => filepath_absolute
  end.

(** The directory part of the resolved path under the three layouts. *)
Definition output_dir_of (filepath filepath_absolute file_folder : string) : string :=
  let file_structure := file_structure settings in
  if String.eqb file_structure "FLAT" then ""
  else if String.eqb file_structure "MODHUB" then file_folder ++ "\"
  else if String.eqb file_structure "BLENDER" then
    if Nat.leb (Py.count filepath "..\") 3
    then Py.slice filepath 2 (Py.rfind_succ filepath Py.backslash)
    else Py.slice filepath_absolute 0 (Py.rfind_succ filepath_absolute Py.backslash)
  else "".

Definition _xml_add_file (filepath : string) (file_folder : string) : X nat :=
  print ("Relative path: " ++ filepath) ;;
  let filepath_absolute := abspath host filepath in
  print ("Absolute path: " ++ filepath_absolute) ;;
  print ("Path sep: " ++ native_pathsep host filepath) ;;
  let filename :=
    Py.slice filepath_absolute (Py.rfind_succ filepath_absolute Py.backslash)
             (Py.len filepath_absolute) in
  let filepath_i3d := Py.slice _filepath 0 (Py.rfind_succ _filepath Py.backslash) in
  let filepath_resolved := shared_data_rewrite filepath_absolute in
  (* Resolve the filename and write the file *)
  first <- expect (String.get 0 filepath_resolved) IndexError ;;
  filepath_resolved <-
    (if negb (Ascii.eqb first "$") && copy_files settings then
       let output_dir := output_dir_of filepath filepath_absolute file_folder in
       let filepath_resolved := output_dir ++ filename in
       st <- get ;;
       when (negb (String.eqb filepath_resolved filepath_absolute) &&
             negb (Py.dict_mem String.eqb (_file_indexes st) filepath_resolved))
         (present <- os_path_exists (filepath_i3d ++ output_dir ++ filename) ;;
          when (overwrite_files settings || negb present)
            (print ("Path: " ++ filepath_i3d ++ output_dir) ;;
             os_makedirs (filepath_i3d ++ output_dir) ;;
             try_except (shutil_copy filepath_absolute (filepath_i3d ++ output_dir))
                        is_SameFileError
                        (fun _ => ret tt))) ;;
       ret filepath_resolved
     else ret filepath_resolved) ;;
  st <- get ;;
  match Py.dict_get String.eqb (_file_indexes st) filepath_resolved with
  | Some file_id => ret file_id
  | None =>
      let file_id := ids_file st in
      modify (upd_ids_file S) ;;
      modify (upd_file_indexes (fun d => Py.dict_set String.eqb d filepath_resolved file_id)) ;;
      let file_element := ET.new "File" in
      let file_element := _xml_write_int file_element "fileId" file_id in
      let file_element := _xml_write_string file_element "filename" filepath_resolved in
      modify (upd_Files (fun files_root => ET.append files_root file_element)) ;;
      ret file_id
  end.

(** The key under which [_xml_add_file] registers a path: the [$]-form of
    a shared-data path, the destination of the copy when files are copied,
    the absolute path otherwise; [None] when the absolute path is empty
    (the function then raises [IndexError]). *)
Definition resolved_path (filepath file_folder : string) : option string :=
  let filepath_absolute := abspath host filepath in
  let filepath_resolved := shared_data_rewrite filepath_absolute in
  match String.get 0 filepath_resolved with
  | None => None
  | Some first =>
      if negb (Ascii.eqb first "$") && copy_files settings
      then Some (output_dir_of filepath filepath_absolute file_folder ++
                 Py.slice filepath_absolute
                          (Py.rfind_succ filepath_absolute Py.backslash)
                          (Py.len filepath_absolute))
      else Some filepath_resolved
  end.

End FileTable.

(* ================================================================== *)
(** * Host data: materials and meshes *)
(* ================================================================== *)

Section HostData.

Context {F : PyFloat}.

(** A node of a material's shading graph, as far as the exporter walks
    it: its [bl_idname], [outputs[0].default_value], its [image] (given by
    the image's [filepath]) and the node that feeds [inputs['Color']],
    when that socket is linked. *)
Inductive ShaderNode : Type :=
  mkShaderNode (bl_idname : string)
               (output_default_value : float * float * float * float)
               (image : option string)
               (color_from_node : option ShaderNode).

Definition bl_idname (n : ShaderNode) : string :=
  let 'mkShaderNode i _ _ _ := n in i.
Definition output_default_value (n : ShaderNode) : float * float * float * float :=
  let 'mkShaderNode _ v _ _ := n in v.
Definition image (n : ShaderNode) : option string :=
  let 'mkShaderNode _ _ i _ := n in i.
Definition color_from_node (n : ShaderNode) : option ShaderNode :=
  let 'mkShaderNode _ _ _ c := n in c.

(** The node named ['Principled BSDF']: the default values of its inputs
    and, for the linked ones, [links[0].from_node]. *)
Record PrincipledBSDF : Type := {
  base_color_default : float * float * float * float;
  base_color_from_node : option ShaderNode;
  roughness_default : float;
  specular_default : float;
  metallic_default : float;
  normal_from_node : option ShaderNode
}.

(** [material.node_tree.nodes]: the two nodes the exporter asks for by
    name; for ['Separate RGB'] the node feeding [inputs['Image']] when the
    node is there, and in it whether the socket is linked. *)
Record NodeTree : Type := {
  principled_bsdf : option PrincipledBSDF;
  separate_rgb : option (option ShaderNode)
}.

Record Material : Type := {
  material_name : string;
  use_nodes : bool;
  node_tree : NodeTree;
  diffuse_color : float * float * float * float;
  roughness : float;
  metallic : float
}.

(** The mesh that [to_mesh] gives and [transform], [calc_loop_triangles]
    and [calc_normals_split] have worked on. *)
Record MeshVertex : Type := { co : float * float * float }.

Record MeshLoop : Type := {
  vertex_index : nat;
  normal : float * float * float
}.

Record MeshLoopTriangle : Type := {
  loops : nat * nat * nat;
  material_index : nat
}.

(** [uv.data[loop_index].uv] for one UV layer. *)
Record MeshUVLoopLayer : Type := { data : list (float * float) }.

(** [materials] holds [None] for an empty material slot. *)
Record Mesh : Type := {
  mesh_name : string;
  vertices : list MeshVertex;
  mesh_loops : list MeshLoop;
  loop_triangles : list MeshLoopTriangle;
  uv_layers : list MeshUVLoopLayer;
  materials : list (option Material)
}.

End HostData.

(* ================================================================== *)
(** * Resource table: materials *)
(* ================================================================== *)

Section Materials.

Context {F : PyFloat}.
Variable host : Host.
Variable settings : Settings.
Variable _filepath : string.

Definition fmt4 (k : nat) (v : float * float * float * float) : string :=
  let '(r, g, b, a) := v in
  fmt k r ++ " " ++ fmt k g ++ " " ++ fmt k b ++ " " ++ fmt k a.

Definition fmt3 (k : nat) (v : float * float * float) : string :=
  let '(x, y, z) := v in
  fmt k x ++ " " ++ fmt k y ++ " " ++ fmt k z.

(** An image texture node with an image registers the file and hangs a
    child with its [fileId] under the material. *)
Definition add_texture_child (child_tag : string) (texture_node : ShaderNode)
           (material_element : Element) : X Element :=
  match image texture_node with
  | Some image_filepath =>
      file_id <- _xml_add_file host settings _filepath image_filepath "textures" ;;
      let texture_element := ET.new child_tag in
      let texture_element :=
        _xml_write_string texture_element "fileId" (Py.int_str file_id) in
      ret (ET.append material_element texture_element)
  | None => ret material_element
  end.

Definition _xml_add_material (material : Material) : X nat :=
  st <- get ;;
  let materials_root := Materials st in
  found <- lift (find_by_name host materials_root "Material" (material_name material)) ;;
  material_element <-
    match found with
    | Some material_element => ret material_element
    | None =>
        let material_element := ET.new "Material" in
        let material_element :=
          _xml_write_string material_element "name" (material_name material) in
        let material_element :=
          _xml_write_int material_element "materialId" (ids_material st) in
        material_element <-
          (if use_nodes material then
             material_element <-
               match principled_bsdf (node_tree material) with
               | Some material_node =>
                   (* Diffuse *)
                   let diffuse := base_color_default material_node in
                   '(diffuse, material_element) <-
                     match base_color_from_node material_node with
                     | Some connected_node =>
                         if String.eqb (bl_idname connected_node) "ShaderNodeRGB" then
                           ret (output_default_value connected_node, material_element)
                         else if String.eqb (bl_idname connected_node) "ShaderNodeTexImage" then
                           material_element <-
                             add_texture_child "Texture" connected_node material_element ;;
                           ret (diffuse, material_element)
                         else
                           print ("Unsupported input " ++ Py.repr (bl_idname connected_node)
                                  ++ " on 'Color' socket in 'Principled BSDF' of material "
                                  ++ Py.repr (material_name material)) ;;
                           ret (diffuse, material_element)
                     | None => ret (diffuse, material_element)
                     end ;;
                   let material_element :=
                     _xml_write_string material_element "diffuseColor" (fmt4 6 diffuse) in
                   (* Specular *)
                   let material_element :=
                     _xml_write_string material_element "specularColor"
                       (fmt 6 (roughness_default material_node) ++ " " ++
                        fmt 6 (specular_default material_node) ++ " " ++
                        fmt 6 (metallic_default material_node)) in
                   (* Normal *)
                   match normal_from_node material_node with
                   | Some normal_map_node =>
                       if String.eqb (bl_idname normal_map_node) "ShaderNodeNormalMap" then
                         match color_from_node normal_map_node with
                         | Some texture_node =>
                             if String.eqb (bl_idname texture_node) "ShaderNodeTexImage" then
                               add_texture_child "Normalmap" texture_node material_element
                             else
                               print ("Unknown color input of type: "
                                      ++ Py.repr (bl_idname normal_map_node)
                                      ++ " for normal map") ;;
                               ret material_element
                         | None => ret material_element
                         end
                       else
                         print ("Unknown normal input of type: "
                                ++ Py.repr (bl_idname normal_map_node) ++ " for bdsf") ;;
                         ret material_element
                   | None => ret material_element
                   end
               | None => ret material_element
               end ;;
             match separate_rgb (node_tree material) with
             | Some (Some gloss_image_node) =>
                 if String.eqb (bl_idname gloss_image_node) "ShaderNodeTexImage" then
                   add_texture_child "Glossmap" gloss_image_node material_element
                 else
                   print ("Unknown image input of type: "
                          ++ Py.repr (bl_idname gloss_image_node) ++ " for Separate RGB") ;;
                   ret material_element
             | _ => ret material_element
             end
           else
             let material_element :=
               _xml_write_string material_element "diffuseColor"
                                 (fmt4 6 (diffuse_color material)) in
             let material_element :=
               _xml_write_string material_element "specularColor"
                 (fmt 6 (roughness material) ++ " 1.000000 " ++ fmt 6 (metallic material)) in
             ret material_element) ;;
        modify (upd_ids_material S) ;;
        modify (upd_Materials (fun materials_root => ET.append materials_root material_element)) ;;
        ret material_element
    end ;;
  expect (match ET.get material_element "materialId" with
          | Some v => Py.int_parse v
          | None => None
          end)
         (ValueError "invalid literal for int()").

End Materials.

(* ================================================================== *)
(** * Geometry: the vertex cache and the subsets of a mesh *)
(* ================================================================== *)

(** [vertex_data]: the dictionary with keys ['p'], ['n'] and ['uvs']. *)
Record VertexData : Type := {
  vd_p : string;
  vd_n : string;
  vd_uvs : list (string * string)
}.

(** [VertexItem(vertex_item, material_name)]: the item is its string
    [_str], by which it is hashed and compared. *)
Definition VertexItem (vertex_item : VertexData) (material_name : string) : string :=
  material_name ++ " " ++ vd_p vertex_item ++ " " ++ vd_n vertex_item
                ++ " " ++ Py.dict_str (vd_uvs vertex_item).

(** The variables of the extraction loops of [_xml_scene_object_shape]. *)
Record Extraction : Type := {
  added_vertices : list (string * nat);
  vertex_counter : nat;
  indices_total : nat;
  vertices_element : Element;
  triangles_element : Element;
  subsets_element : Element;
  printed : list string
}.

Definition E (A : Type) : Type := M Extraction A.

Definition upd_added_vertices (f : list (string * nat) -> list (string * nat))
           (x : Extraction) : Extraction :=
  {| added_vertices := f (added_vertices x); vertex_counter := vertex_counter x;
     indices_total := indices_total x; vertices_element := vertices_element x;
     triangles_element := triangles_element x;
     subsets_element := subsets_element x; printed := printed x |}.

Definition upd_vertex_counter (f : nat -> nat) (x : Extraction) : Extraction :=
  {| added_vertices := added_vertices x; vertex_counter := f (vertex_counter x);
     indices_total := indices_total x; vertices_element := vertices_element x;
     triangles_element := triangles_element x;
     subsets_element := subsets_element x; printed := printed x |}.

Definition upd_indices_total (f : nat -> nat) (x : Extraction) : Extraction :=
  {| added_vertices := added_vertices x; vertex_counter := vertex_counter x;
     indices_total := f (indices_total x); vertices_element := vertices_element x;
     triangles_element := triangles_element x;
     subsets_element := subsets_element x; printed := printed x |}.

Definition upd_vertices_element (f : Element -> Element) (x : Extraction) : Extraction :=
  {| added_vertices := added_vertices x; vertex_counter := vertex_counter x;
     indices_total := indices_total x; vertices_element := f (vertices_element x);
     triangles_element := triangles_element x;
     subsets_element := subsets_element x; printed := printed x |}.

Definition upd_triangles_element (f : Element -> Element) (x : Extraction) : Extraction :=
  {| added_vertices := added_vertices x; vertex_counter := vertex_counter x;
     indices_total := indices_total x; vertices_element := vertices_element x;
     triangles_element := f (triangles_element x);
     subsets_element := subsets_element x; printed := printed x |}.

Definition upd_subsets_element (f : Element -> Element) (x : Extraction) : Extraction :=
  {| added_vertices := added_vertices x; vertex_counter := vertex_counter x;
     indices_total := indices_total x; vertices_element := vertices_element x;
     triangles_element := triangles_element x;
     subsets_element := f (subsets_element x); printed := printed x |}.

Definition upd_printed (f : list string -> list string) (x : Extraction) : Extraction :=
  {| added_vertices := added_vertices x; vertex_counter := vertex_counter x;
     indices_total := indices_total x; vertices_element := vertices_element x;
     triangles_element := triangles_element x;
     subsets_element := subsets_element x; printed := f (printed x) |}.

Section Geometry.

Context {F : PyFloat}.

Variable mesh : Mesh.

(** [for count, uv in enumerate(mesh.uv_layers)]: the first four layers
    go into [vertex_data['uvs']] and are announced on the [Vertices]
    element; the others are reported. *)
Fixpoint uv_layers_loop (count : nat) (layers : list MeshUVLoopLayer)
         (loop_index : nat) (uvs : list (string * string))
  : E (list (string * string)) :=
  match layers with
  | [] => ret uvs
  | uv :: layers' =>
      uvs <-
        (if Nat.ltb count 4 then
           modify (upd_vertices_element
                     (fun e => _xml_write_bool e ("uv" ++ Py.int_str count) true)) ;;
           d <- expect (nth_error (data uv) loop_index) IndexError ;;
           ret (Py.dict_set String.eqb uvs ("t" ++ Py.int_str count)
                            (fmt 6 (fst d) ++ " " ++ fmt 6 (snd d)))
         else
           modify (upd_printed (fun out =>
             (out ++ ["Currently only supports four uv layers per vertex"])%list)) ;;
           ret uvs) ;;
      uv_layers_loop (S count) layers' loop_index uvs
  end.

(** The [vertex_data] of a loop. *)
Definition vertex_data_of_loop (loop_index : nat) : E VertexData :=
  l <- expect (nth_error (mesh_loops mesh) loop_index) IndexError ;;
  vertex <- expect (nth_error (vertices mesh) (vertex_index l)) IndexError ;;
  let normal := normal l in
  uvs <- uv_layers_loop 0 (uv_layers mesh) loop_index [] ;;
  ret {| vd_p := fmt3 6 (co vertex); vd_n := fmt3 6 normal; vd_uvs := uvs |}.

(** The body of [for loop_index in triangle.loops]: [acc] carries
    [triangle_vertex_index] and [number_of_vertices]. *)
Definition loop_pass (mat : string) (acc : string * nat) (loop_index : nat)
  : E (string * nat) :=
  let '(triangle_vertex_index, number_of_vertices) := acc in
  vertex_data <- vertex_data_of_loop loop_index ;;
  let vertex_item := VertexItem vertex_data mat in
  x <- get ;;
  number_of_vertices <-
    (if negb (Py.dict_mem String.eqb (added_vertices x) vertex_item) then
       modify (upd_added_vertices
                 (fun d => Py.dict_set String.eqb d vertex_item (vertex_counter x))) ;;
       let vertex_element := ET.new "v" in
       let vertex_element := _xml_write_string vertex_element "n" (vd_n vertex_data) in
       let vertex_element := _xml_write_string vertex_element "p" (vd_p vertex_data) in
       let vertex_element :=
         fold_left (fun e kv => _xml_write_string e (fst kv) (snd kv))
                   (vd_uvs vertex_data) vertex_element in
       modify (upd_vertices_element (fun e => ET.append e vertex_element)) ;;
       modify (upd_vertex_counter S) ;;
       ret (S number_of_vertices)
     else ret number_of_vertices) ;;
  x <- get ;;
  index <- expect (Py.dict_get String.eqb (added_vertices x) vertex_item)
                  (KeyError vertex_item) ;;
  ret (triangle_vertex_index ++ Py.int_str index ++ " ", number_of_vertices).

(** The body of [for triangle in subset]: [acc] carries
    [number_of_indices] and [number_of_vertices]. *)
Definition triangle_pass (mat : string) (acc : nat * nat) (triangle : MeshLoopTriangle)
  : E (nat * nat) :=
  let '(number_of_indices, number_of_vertices) := acc in
  let '(l0, l1, l2) := loops triangle in
  a <- loop_pass mat ("", number_of_vertices) l0 ;;
  a <- loop_pass mat a l1 ;;
  a <- loop_pass mat a l2 ;;
  let '(triangle_vertex_index, number_of_vertices) := a in
  let triangle_element := ET.new "t" in
  let triangle_element :=
    _xml_write_string triangle_element "vi" (Py.strip_spaces triangle_vertex_index) in
  modify (upd_triangles_element (fun e => ET.append e triangle_element)) ;;
  ret (number_of_indices + 3, number_of_vertices).

Fixpoint triangles_loop (mat : string) (acc : nat * nat) (subset : list MeshLoopTriangle)
  : E (nat * nat) :=
  match subset with
  | [] => ret acc
  | triangle :: subset' =>
      acc <- triangle_pass mat acc triangle ;;
      triangles_loop mat acc subset'
  end.

(** The body of [for mat, subset in triangle_subsets.items()]. *)
Definition subset_pass (entry : string * list MeshLoopTriangle) : E unit :=
  let '(mat, subset) := entry in
  x <- get ;;
  let subset_element := ET.new "Subset" in
  let subset_element := _xml_write_int subset_element "firstIndex" (indices_total x) in
  let subset_element := _xml_write_int subset_element "firstVertex" (vertex_counter x) in
  '(number_of_indices, number_of_vertices) <- triangles_loop mat (0, 0) subset ;;
  let subset_element := _xml_write_int subset_element "numIndices" number_of_indices in
  let subset_element := _xml_write_int subset_element "numVertices" number_of_vertices in
  modify (upd_subsets_element (fun e => ET.append e subset_element)) ;;
  modify (upd_indices_total (fun t => t + number_of_indices)).

(** The extraction proper: all subsets, then the closing attributes of
    the [Vertices] element. *)
Definition extract (triangle_subsets : list (string * list MeshLoopTriangle)) : E unit :=
  for_each triangle_subsets subset_pass ;;
  x <- get ;;
  modify (upd_vertices_element (fun e => _xml_write_int e "count" (vertex_counter x))) ;;
  modify (upd_vertices_element (fun e => _xml_write_bool e "normal" true)) ;;
  modify (upd_vertices_element (fun e => _xml_write_bool e "tangent" true)).

(** The state in which the extraction starts. *)
Definition extraction_start (vertices_element triangles_element subsets_element : Element)
  : Extraction :=
  {| added_vertices := []; vertex_counter := 0; indices_total := 0;
     vertices_element := vertices_element;
     triangles_element := triangles_element;
     subsets_element := subsets_element;
     printed := [] |}.

End Geometry.

(* ================================================================== *)
(** * Host data: the scene *)
(* ================================================================== *)

(** A value of a property: Python tells [float], [bool], [int] and [str]
    apart at run time. *)
Inductive PyValue {F : PyFloat} : Type :=
| VFloat (x : float)
| VBool (b : bool)
| VInt (z : Z)
| VStr (s : string).

(** A member of a property group: [prop.name_i3d], [prop.value_i3d]. *)
Record Property {F : PyFloat} : Type := {
  name_i3d : string;
  value_i3d : PyValue
}.

Record Light {F : PyFloat} : Type := {
  light_type : string;
  falloff_type : string;
  spot_size : float;
  spot_blend : float;
  color : float * float * float;
  distance : float;
  use_shadow : bool
}.

Record Camera {F : PyFloat} : Type := {
  lens : float;
  clip_start : float;
  clip_end : float;
  camera_type : string;
  ortho_scale : float
}.

(** [blender_object.data]: for a mesh object the mesh data and what the
    object evaluated by the dependency graph gives to [to_mesh]. *)
Inductive ObjectData {F : PyFloat} : Type :=
| DataNone
| DataMesh (mesh evaluated : Mesh)
| DataLight (light : Light)
| DataCamera (camera : Camera).

(** What the exporter reads of an object itself.  [parent] is the [type]
    of the parent object, [None] for an object without parent;
    [data_i3d_attributes] is [data.i3d_attributes] when the data has that
    attribute. *)
Record ObjectInfo {F : PyFloat} {MO : MatrixOps} : Type := {
  object_name : string;
  object_type : string;
  parent : option string;
  matrix_local : Matrix;
  object_data : ObjectData;
  data_i3d_attributes : option (list Property);
  i3d_attributes : list Property
}.

(** [bpy.types.Object] and [bpy.types.Collection].  The scene is given by
    its unfolding: an object with its instanced collection and its child
    objects, a collection with its child collections and its objects.  A
    scene in which a collection instances itself has no finite unfolding;
    on it the recursion of the builder does not end. *)
Inductive Object {F : PyFloat} {MO : MatrixOps} : Type :=
  mkObject (info : ObjectInfo) (instance_collection : option Collection)
           (object_children : list Object)
with Collection {F : PyFloat} {MO : MatrixOps} : Type :=
  mkCollection (collection_name : string) (collection_children : list Collection)
               (objects : list Object).

(** [Union[bpy.types.Object, bpy.types.Collection]] *)
Inductive Entity {F : PyFloat} {MO : MatrixOps} : Type :=
| AnObject (o : Object)
| ACollection (c : Collection).

(** [bpy.context]: the scene collection, the active collection and the
    selected objects. *)
Record BpyContext {F : PyFloat} {MO : MatrixOps} : Type := {
  scene_collection : Collection;
  active_collection : Collection;
  selected_objects : list Object
}.

(** What the host does to the temporary mesh: [mesh.transform(m)],
    [mesh.flip_normals()], [mesh.calc_loop_triangles()] and
    [mesh.calc_normals_split()]. *)
Class BMesh (F : PyFloat) (MO : MatrixOps) : Type := {
  transform : Matrix -> Mesh -> Mesh;
  flip_normals : Mesh -> Mesh;
  calc_loop_triangles : Mesh -> Mesh;
  calc_normals_split : Mesh -> Mesh
}.

(* ================================================================== *)
(** * The scene graph *)
(* ================================================================== *)

(** [SceneGraph.Node].  The [children] dictionary is keyed by the ids of
    the children, which are fresh, so it is the list of the children in
    the order they were added; the [nodes] table of the graph is the
    nodes of the tree under the root. *)
Inductive Node {F : PyFloat} {MO : MatrixOps} : Type :=
  mkNode (id : nat) (blender_object : option Entity) (node_children : list Node).

Record SceneGraph {F : PyFloat} {MO : MatrixOps} : Type := {
  ids_node : nat;
  root : Node
}.

Section Nodes.
Context {F : PyFloat} {MO : MatrixOps}.

(** [node.id] *)
Definition node_id (node : Node) : nat := let 'mkNode i _ _ := node in i.
Definition blender_object (node : Node) : option Entity :=
  let 'mkNode _ b _ := node in b.
Definition node_children (node : Node) : list Node :=
  let 'mkNode _ _ c := node in c.

Definition info (o : Object) : ObjectInfo := let 'mkObject i _ _ := o in i.
Definition instance_collection (o : Object) : option Collection :=
  let 'mkObject _ c _ := o in c.
Definition object_children (o : Object) : list Object :=
  let 'mkObject _ _ l := o in l.
Definition collection_name (c : Collection) : string :=
  let 'mkCollection s _ _ := c in s.
Definition collection_children (c : Collection) : list Collection :=
  let 'mkCollection _ l _ := c in l.
Definition objects (c : Collection) : list Object :=
  let 'mkCollection _ _ l := c in l.

(** [blender_object.name] *)
Definition entity_name (e : Entity) : string :=
  match e with
  | AnObject o => object_name (info o)
  | ACollection c => collection_name c
  end.

End Nodes.

(* ================================================================== *)
(** * Scene Graph Builder *)
(* ================================================================== *)

Section Builder.

Context {F : PyFloat} {MO : MatrixOps}.
Variable settings : Settings.

(** What building changes: [self._scene_graph.ids['node']] and the lines
    printed. *)
Definition Builder : Type := (nat * list string)%type.

(** [SceneGraph.add_node]: the new node takes the current id and the
    counter moves on.  The node is created with the children it will
    have received when the recursion under it is over. *)
Definition add_node (blender_object : option Entity) (g : Builder) : nat * Builder :=
  (fst g, (S (fst g), snd g)).

Definition builder_print (line : string) (g : Builder) : Builder :=
  (fst g, (snd g ++ [line])%list).

(** [new_graph_node], once for an object and once for a collection.  The
    result is what the call adds to the children of [parent]: the new node
    with its subtree, or, when a collection is unpacked, the nodes the
    collection contributes to the caller's node. *)
Fixpoint new_graph_node_object (blender_object : Object) (unpack_collection : bool)
         (g : Builder) {struct blender_object} : list Node * Builder :=
  match blender_object with
  | mkObject this the_instance_collection the_children =>
      if negb (existsb (String.eqb (object_type this)) (object_types_to_export settings))
      then ([], g)
      else
        let '(node_id, g) :=
          if unpack_collection then (0, g)
          else
            let '(i, g) := add_node (Some (AnObject blender_object)) g in
            (i, builder_print ("Added Node with ID " ++ Py.int_str i ++ " and name "
                                ++ Py.repr (object_name this)) g) in
        (* Expand collection tree into the collection instance *)
        let '(expanded, g) :=
          if String.eqb (object_type this) "EMPTY" then
            match the_instance_collection with
            | Some collection => new_graph_node_collection collection true g
            | None => ([], g)
            end
          else ([], g) in
        (* Gets child objects/collections *)
        let '(below, g) :=
          (fix children_loop (l : list Object) (g : Builder) : list Node * Builder :=
             match l with
             | [] => ([], g)
             | child :: l' =>
                 let '(a, g) := new_graph_node_object child false g in
                 let '(b, g) := children_loop l' g in
                 ((a ++ b)%list, g)
             end) the_children g in
        let added := (expanded ++ below)%list in
        if unpack_collection then (added, g)
        else ([mkNode node_id (Some (AnObject blender_object)) added], g)
  end
with new_graph_node_collection (blender_object : Collection) (unpack_collection : bool)
         (g : Builder) {struct blender_object} : list Node * Builder :=
  match blender_object with
  | mkCollection name the_children the_objects =>
      let '(node_id, g) :=
        if unpack_collection then (0, g)
        else
          let '(i, g) := add_node (Some (ACollection blender_object)) g in
          (i, builder_print ("Added Node with ID " ++ Py.int_str i ++ " and name "
                              ++ Py.repr name) g) in
      (* Gets child objects if it is a collection *)
      let '(below, g) :=
        (fix children_loop (l : list Collection) (g : Builder) : list Node * Builder :=
           match l with
           | [] => ([], g)
           | child :: l' =>
               let '(a, g) := new_graph_node_collection child false g in
               let '(b, g) := children_loop l' g in
               ((a ++ b)%list, g)
           end) the_children g in
      let '(members, g) :=
        (fix objects_loop (l : list Object) (g : Builder) : list Node * Builder :=
           match l with
           | [] => ([], g)
           | child :: l' =>
               let '(a, g) :=
                 match parent (info child) with
                 | None => new_graph_node_object child false g
                 | Some _ => ([], g)
                 end in
               let '(b, g) := objects_loop l' g in
               ((a ++ b)%list, g)
           end) the_objects g in
      let added := (below ++ members)%list in
      if unpack_collection then (added, g)
      else ([mkNode node_id (Some (ACollection blender_object)) added], g)
  end.

(** [new_graph_node(blender_object, parent)] *)
Definition new_graph_node (blender_object : Entity) (unpack_collection : bool)
           (g : Builder) : list Node * Builder :=
  match blender_object with
  | AnObject o => new_graph_node_object o unpack_collection g
  | ACollection c => new_graph_node_collection c unpack_collection g
  end.

(** [SceneGraph()]: the counter at 0 and the root node, which takes id 0. *)
Definition SceneGraph_init : Builder := (1, []).

(** [_xml_build_scene_graph]: the children of the root node (id 0) are
    what [new_graph_node] adds for the selection. *)
Definition _xml_build_scene_graph (context : BpyContext) : SceneGraph * list string :=
  let g := SceneGraph_init in
  let selection := selection settings in
  let '(added, g) :=
    if String.eqb selection "ALL" then
      new_graph_node (ACollection (scene_collection context)) false g
    else if String.eqb selection "ACTIVE_COLLECTION" then
      new_graph_node (ACollection (active_collection context)) false g
    else if String.eqb selection "SELECTED_OBJECTS" then
      (* Generate active object list and loop over that somehow *)
      ([], g)
    else ([], g) in
  ({| ids_node := fst g; root := mkNode 0 None added |}, snd g).

End Builder.

(* ================================================================== *)
(** * Node Compiler *)
(* ================================================================== *)

Section Compiler.

Context {F : PyFloat} {MO : MatrixOps} {MU : Mathutils F MO} {BM : BMesh F MO}.

Variable host : Host.
Variable settings : Settings.
Variable _filepath : string.

(** [self._global_matrix], the change of basis that [axis_conversion]
    gave, and [bpy.context.scene.unit_settings.scale_length]. *)
Variable _global_matrix : Matrix.
Variable scale_length : float.

(** [i3d_properties.defaults], a table of another module, and the [!=]
    of Python on property values. *)
Variable defaults : string -> option PyValue.
Variable value_ne : PyValue -> PyValue -> bool.

(** [bpy.data.materials.get('i3d_default_material')], once it exists. *)
Variable i3d_default_material : Material.

Local Open Scope matrix_scope.

Definition _xml_write_float (element : Element) (attribute : string) (value : float)
  : Element :=
  ET.set element attribute (fmt 7 value).

(** [_xml_write_int] on a signed value. *)
Definition _xml_write_int_signed (element : Element) (attribute : string) (value : Z)
  : Element :=
  ET.set element attribute (Py.z_str value).

(** ** Extension properties *)

Definition python_bool (b : bool) : string := if b then "True" else "False".

Definition value_str (v : PyValue) : string :=
  match v with
  | VFloat x => float_str x
  | VBool b => python_bool b
  | VInt z => Py.z_str z
  | VStr s => s
  end.

Definition type_str (v : PyValue) : string :=
  match v with
  | VFloat _ => "<class 'float'>"
  | VBool _ => "<class 'bool'>"
  | VInt _ => "<class 'int'>"
  | VStr _ => "<class 'str'>"
  end.

Definition isinstance_bool (v : PyValue) : bool :=
  match v with VBool _ => true | _ => false end.

Definition property_pass (element : Element) (prop : Property) : X Element :=
  (* Check if property is default somehow *)
  let name := name_i3d prop in
  let val := value_i3d prop in
  print ("Name: " ++ name ++ ", Value: " ++ value_str val ++ ", Type: " ++ type_str val
         ++ ", IsInstance: " ++ python_bool (isinstance_bool val)) ;;
  if negb (String.eqb name "disabled") then
    default <- expect (defaults name) (KeyError name) ;;
    if value_ne val default then
      print "Exporting property" ;;
      match val with
      | VFloat x => print "float" ;; ret (_xml_write_float element name x)
      | VBool b => print "bool" ;; ret (_xml_write_bool element name b)
      | VInt z => print "int" ;; ret (_xml_write_int_signed element name z)
      | VStr v => print "string" ;; ret (_xml_write_string element name v)
      end
    else ret element
  else ret element.

Fixpoint _xml_object_properties (propertygroup : list Property) (element : Element)
  : X Element :=
  match propertygroup with
  | [] => ret element
  | prop :: rest =>
      element <- property_pass element prop ;;
      _xml_object_properties rest element
  end.

(** ** The transform of a node *)

(** [node.blender_object == 'LIGHT']: an object compared with a string;
    the two are never equal. *)
Definition object_eq_string (blender_object : ObjectInfo) (s : string) : bool := false.

(** The [matrix] of [_xml_scene_object_general_data]. *)
Definition local_matrix (blender_object : ObjectInfo) : Matrix :=
  let matrix :=
    if object_eq_string blender_object "LIGHT"
       || String.eqb (object_type blender_object) "CAMERA"
    then _global_matrix @ matrix_local blender_object
    else _global_matrix @ matrix_local blender_object @ inverted _global_matrix in
  match parent blender_object with
  | Some parent_type =>
      if String.eqb parent_type "CAMERA" || String.eqb parent_type "LIGHT"
      then inverted _global_matrix @ matrix
      else matrix
  | None => matrix
  end.

Definition _xml_scene_object_general_data (node : Node) (node_element : Element)
  : X Element :=
  blender_object <- expect (blender_object node) (AttributeError "name") ;;
  let node_element := _xml_write_string node_element "name" (entity_name blender_object) in
  let node_element := _xml_write_int node_element "nodeId" (node_id node) in
  match blender_object with
  | ACollection _ =>
      let node_element := _xml_write_string node_element "translation" "0 0 0" in
      let node_element := _xml_write_string node_element "rotation" "0 0 0" in
      let node_element := _xml_write_string node_element "scale" "1 1 1" in
      ret node_element
  | AnObject o =>
      let matrix := local_matrix (info o) in
      let '(tx, ty, tz) := to_translation matrix in
      let node_element :=
        _xml_write_string node_element "translation"
          (fmt3 6 (fmul tx scale_length, fmul ty scale_length, fmul tz scale_length)) in
      let '(rx, ry, rz) := to_euler_XYZ matrix in
      let node_element :=
        _xml_write_string node_element "rotation"
          (fmt3 3 (degrees rx, degrees ry, degrees rz)) in
      let node_element :=
        _xml_write_string node_element "scale" (fmt3 6 (to_scale matrix)) in
      (* Write the object transform properties from the blender UI into the object *)
      _xml_object_properties (i3d_attributes (info o)) node_element
  end.

(** ** Cameras and lights *)

Definition _xml_scene_object_transform_group (node_element : Element) : X Element :=
  ret node_element.

Definition _xml_scene_object_camera (camera : Camera) (node_element : Element)
  : X Element :=
  let node_element := _xml_write_float node_element "fov" (lens camera) in
  let node_element := _xml_write_float node_element "nearClip" (clip_start camera) in
  let node_element := _xml_write_float node_element "farClip" (clip_end camera) in
  if String.eqb (camera_type camera) "ORTHO" then
    let node_element := _xml_write_bool node_element "orthographic" true in
    ret (_xml_write_float node_element "orthographicHeight" (ortho_scale camera))
  else ret node_element.

(** What [falloff_type] holds when it is written: an [int] after the
    mapping, the string of the host for the other curves. *)
Definition falloff_selector (falloff_type : string) : nat + string :=
  if String.eqb falloff_type "CONSTANT" then inl 0
  else if String.eqb falloff_type "INVERSE_LINEAR" then inl 1
  else if String.eqb falloff_type "INVERSE_SQUARE" then inl 2
  else inr falloff_type.

Definition _xml_scene_object_light (light : Light) (node_element : Element)
  : X Element :=
  let light_type := light_type light in
  '(light_type, falloff_type, node_element) <-
    (if String.eqb light_type "POINT" then
       ret ("point", Some (falloff_type light), node_element)
     else if String.eqb light_type "SUN" then
       ret ("directional", None, node_element)
     else if String.eqb light_type "SPOT" then
       let node_element :=
         _xml_write_float node_element "coneAngle" (degrees (spot_size light)) in
       (* Blender spot 0.0 -> 1.0, GE spot 0.0 -> 5.0 *)
       let node_element :=
         _xml_write_float node_element "dropOff" (fmul f5 (spot_blend light)) in
       ret ("spot", Some (falloff_type light), node_element)
     else if String.eqb light_type "AREA" then
       print "Area lights not supported in giants engine, defaulting to point" ;;
       ret ("point", None, node_element)
     else ret (light_type, None, node_element)) ;;
  let node_element := _xml_write_string node_element "type" light_type in
  let node_element := _xml_write_string node_element "color" (fmt3 6 (color light)) in
  let node_element := _xml_write_float node_element "range" (distance light) in
  let node_element := _xml_write_bool node_element "castShadowMap" (use_shadow light) in
  match falloff_type with
  | Some falloff_type =>
      match falloff_selector falloff_type with
      | inl selector => ret (_xml_write_int node_element "decayRate" selector)
      | inr _ =>
          raise (ValueError "Unknown format code 'd' for object of type 'str'")
      end
  | None => ret node_element
  end.

(** ** Shapes *)

(** [l] without the last occurrence of [x]. *)
Fixpoint remove_last (x : string) (l : list string) : list string :=
  match l with
  | [] => []
  | y :: l' =>
      if existsb (String.eqb x) l' then y :: remove_last x l'
      else if String.eqb y x then l' else y :: l'
  end.

Definition with_materials (mesh : Mesh) (materials : list (option Material)) : Mesh :=
  {| mesh_name := mesh_name mesh; vertices := vertices mesh;
     mesh_loops := mesh_loops mesh; loop_triangles := loop_triangles mesh;
     uv_layers := uv_layers mesh; materials := materials |}.

(** [for triangle in mesh.loop_triangles]: the triangles grouped by the
    name of their material, in the order in which the names are met. *)
Fixpoint group_triangles (mesh : Mesh) (shape_id : nat)
         (triangles : list MeshLoopTriangle)
         (triangle_subsets : list (string * list MeshLoopTriangle))
  : X (list (string * list MeshLoopTriangle)) :=
  match triangles with
  | [] => ret triangle_subsets
  | triangle :: triangles' =>
      slot <- expect (nth_error (materials mesh) (material_index triangle)) IndexError ;;
      triangle_material <- expect slot (AttributeError "name") ;;
      let name := material_name triangle_material in
      triangle_subsets <-
        (if negb (Py.dict_mem String.eqb triangle_subsets name) then
           let triangle_subsets := Py.dict_set String.eqb triangle_subsets name [] in
           (* Add material to material section in i3d file and append to the
              materialIds that the shape object should have *)
           material_id <- _xml_add_material host settings _filepath triangle_material ;;
           modify (upd_shape_material_indexes (fun d =>
             match Py.dict_get Nat.eqb d shape_id with
             | Some ids => Py.dict_set Nat.eqb d shape_id (ids ++ "," ++ Py.int_str material_id)
             | None => Py.dict_set Nat.eqb d shape_id (Py.int_str material_id)
             end)) ;;
           ret triangle_subsets
         else ret triangle_subsets) ;;
      (* Add triangle to subset *)
      subset <- expect (Py.dict_get String.eqb triangle_subsets name) (KeyError name) ;;
      let triangle_subsets :=
        Py.dict_set String.eqb triangle_subsets name (subset ++ [triangle])%list in
      group_triangles mesh shape_id triangles' triangle_subsets
  end.

(** The extraction loops run on their own variables; what they printed
    goes to the output and an exception of theirs goes on. *)
Definition run_extraction {A} (m : E A) (start : Extraction) : X (A * Extraction) :=
  let '(r, x) := m start in
  modify (upd_stdout (fun out => (out ++ printed x)%list)) ;;
  match r with
  | Ok a => ret (a, x)
  | Raise e => raise e
  end.

(** The compilation of a mesh that is not yet in the [Shapes] section. *)
Definition compile_shape (this : ObjectInfo) (data evaluated : Mesh) : X nat :=
  st <- get ;;
  let shape_id := ids_shape st in
  modify (upd_ids_shape S) ;;
  let indexed_triangle_element := ET.new "IndexedTriangleSet" in
  let indexed_triangle_element :=
    _xml_write_string indexed_triangle_element "name" (mesh_name data) in
  let indexed_triangle_element :=
    _xml_write_int indexed_triangle_element "shapeId" shape_id in
  (* Generate an object evaluated from the dependency graph, or copy the object *)
  modify (upd_object_copies (fun l => (l ++ [object_name this])%list)) ;;
  (* Generates a new mesh to not interfere with the existing one. *)
  let mesh := if apply_modifiers settings then evaluated else data in
  modify (upd_meshes_alive (fun l => (l ++ [object_name this])%list)) ;;
  let conversion_matrix :=
    if apply_unit_scale settings
    then Matrix_Scale scale_length @ _global_matrix
    else _global_matrix in
  let mesh := transform conversion_matrix mesh in
  let mesh := if is_negative conversion_matrix then flip_normals mesh else mesh in
  (* Calculates triangles from mesh polygons *)
  let mesh := calc_loop_triangles mesh in
  (* Recalculates normals after the scaling has messed with them *)
  let mesh := calc_normals_split mesh in
  let vertices := ET.new "Vertices" in
  let triangles := ET.new "Triangles" in
  let subsets := ET.new "Subsets" in
  let triangles :=
    _xml_write_int triangles "count" (List.length (loop_triangles mesh)) in
  (* Create and assign default material if it does not exist already. *)
  mesh <-
    (if Nat.eqb (List.length (materials mesh)) 0 then
       modify (upd_default_material_exists (fun _ => true)) ;;
       ret (with_materials mesh [Some i3d_default_material])
     else ret mesh) ;;
  (* Group triangles by subset *)
  triangle_subsets <- group_triangles mesh shape_id (loop_triangles mesh) [] ;;
  let subsets :=
    _xml_write_int subsets "count" (List.length triangle_subsets) in
  '(_, x) <- run_extraction (extract mesh triangle_subsets)
               (extraction_start vertices triangles subsets) ;;
  (* Clean out the generated mesh so it does not stay in blender memory *)
  modify (upd_meshes_alive (remove_last (object_name this))) ;;
  let indexed_triangle_element :=
    ET.set_children indexed_triangle_element
      [vertices_element x; triangles_element x; subsets_element x] in
  modify (upd_Shapes (fun shape_root => ET.append shape_root indexed_triangle_element)) ;;
  ret shape_id.

Definition _xml_scene_object_shape (this : ObjectInfo) (node_element : Element)
  : X Element :=
  match object_data this with
  | DataMesh data evaluated =>
      st <- get ;;
      let shape_root := Shapes st in
      (* Check if the mesh has already been defined in the i3d file *)
      found <- lift (find_by_name host shape_root "IndexedTriangleSet" (mesh_name data)) ;;
      shape_id <-
        match found with
        | None => compile_shape this data evaluated
        | Some indexed_triangle_element =>
            (* Mesh already exists, so find its shape it. *)
            expect (match ET.get indexed_triangle_element "shapeId" with
                    | Some v => Py.int_parse v
                    | None => None
                    end)
                   (ValueError "invalid literal for int()")
        end ;;
      let node_element := _xml_write_int node_element "shapeId" shape_id in
      st <- get ;;
      material_ids <- expect (Py.dict_get Nat.eqb (shape_material_indexes st) shape_id)
                             (KeyError (Py.int_str shape_id)) ;;
      ret (_xml_write_string node_element "materialIds" material_ids)
  | _ => raise (AttributeError "name")
  end.

(** ** The walk over the scene graph *)

(** [Exporter.blender_to_i3d] *)
Definition switcher : list (string * string) :=
  [("MESH", "Shape"); ("CURVE", "Shape"); ("EMPTY", "TransformGroup");
   ("CAMERA", "Camera"); ("LIGHT", "Light"); ("COLLECTION", "TransformGroup")].

Definition blender_to_i3d (blender_object : option Entity) : X string :=
  match blender_object with
  | Some (ACollection _) => ret "TransformGroup"
  | Some (AnObject o) =>
      expect (Py.dict_get String.eqb switcher (object_type (info o)))
             (KeyError (object_type (info o)))
  | None => raise (AttributeError "type")
  end.

(** The dispatch of [parse_node] on the kind of the node. *)
Definition compile_node (node : Node) (node_element : Element) : X Element :=
  node_element <- _xml_scene_object_general_data node node_element ;;
  match blender_object node with
  | Some (ACollection _) => _xml_scene_object_transform_group node_element
  | Some (AnObject o) =>
      let this := info o in
      let node_type := object_type this in
      node_element <-
        (if String.eqb node_type "MESH" then
           _xml_scene_object_shape this node_element
         else if String.eqb node_type "EMPTY" then
           _xml_scene_object_transform_group node_element
         else if String.eqb node_type "LIGHT" then
           match object_data this with
           | DataLight light => _xml_scene_object_light light node_element
           | _ => raise (AttributeError "type")
           end
         else if String.eqb node_type "CAMERA" then
           match object_data this with
           | DataCamera camera => _xml_scene_object_camera camera node_element
           | _ => raise (AttributeError "lens")
           end
         else ret node_element) ;;
      match data_i3d_attributes this with
      | Some propertygroup => _xml_object_properties propertygroup node_element
      | None => ret node_element
      end
  | None => raise (AttributeError "name")
  end.

(** [parse_node(node, node_element)]: the element comes back with the
    subtrees of the children under it. *)
Fixpoint parse_node (node : Node) (node_element : Element) {struct node} : X Element :=
  match node with
  | mkNode i b the_children =>
      node_element <- compile_node (mkNode i b the_children) node_element ;;
      (fix children_loop (l : list Node) (node_element : Element) : X Element :=
         match l with
         | [] => ret node_element
         | child :: l' =>
             child_tag <- blender_to_i3d (blender_object child) ;;
             child_element <- parse_node child (ET.new child_tag) ;;
             children_loop l' (ET.append node_element child_element)
         end) the_children node_element
  end.

Definition _xml_parse_scene_graph (graph : SceneGraph) : X unit :=
  for_each (node_children (root graph))
    (fun root_child =>
       root_child_tag <- blender_to_i3d (blender_object root_child) ;;
       root_child_element <- parse_node root_child (ET.new root_child_tag) ;;
       modify (upd_Scene (fun scene => ET.append scene root_child_element))).

(** ** The document *)

Definition _xml_build_skeleton_structure : X unit :=
  modify (upd_Files (fun _ => ET.new "Files")) ;;
  modify (upd_Materials (fun _ => ET.new "Materials")) ;;
  modify (upd_Shapes (fun _ => ET.new "Shapes")) ;;
  modify (upd_Scene (fun _ => ET.new "Scene")).

(** [self._tree]: the root element with the eight sections in their
    fixed order. *)
Definition _tree (st : Exporter) : Element :=
  let tree := ET.new "i3D" in
  let tree := ET.set tree "name" (display_name_from_filepath host _filepath) in
  let tree := ET.set tree "version" "1.6" in
  let tree := ET.set tree "xmlns:xsi" "http://www.w3.org/2001/XMLSchema-instance" in
  let tree := ET.set tree "xsi:noNamespaceSchemaLocation"
                     "http://i3d.giants.ch/schema/i3d-1.6.xsd" in
  let export := ET.new "Export" in
  let export := ET.set export "program" "Blender Exporter (Community)" in
  let export := ET.set export "version" (bl_info_version host) in
  ET.set_children tree
    [ET.append (ET.new "Asset") export; Files st; Materials st; Shapes st;
     ET.new "Dynamics"; Scene st; ET.new "Animation"; ET.new "UserAttributes"].

(** [not s or not s.strip()] *)
Definition blank (s : option string) : bool :=
  match s with
  | None => true
  | Some s => Py.all_space s
  end.

Definition set_tail (e : Element) (t : string) : Element :=
  let 'mkElement g a x _ c := e in mkElement g a x (Some t) c.

Fixpoint on_last (f : Element -> Element) (l : list Element) : list Element :=
  match l with
  | [] => []
  | [e] => [f e]
  | e :: l' => e :: on_last f l'
  end.

(** [Exporter._indent]: after the loop over the children the name [elem]
    is the last child, whose tail is set back to the indentation of its
    parent. *)
Fixpoint _indent (elem : Element) (level : nat) {struct elem} : Element :=
  let indents := Py.newline ++ Py.times level "  " in
  match elem with
  | mkElement g a x y [] =>
      if negb (Nat.eqb level 0) && blank y
      then mkElement g a x (Some indents) []
      else elem
  | mkElement g a x y c =>
      let x := if blank x then Some (indents ++ "  ") else x in
      let y := if blank y then Some indents else y in
      let c := List.map (fun e => _indent e (S level)) c in
      let c := on_last (fun e => if blank (tail e) then set_tail e indents else e) c in
      mkElement g a x y c
  end.

Definition exn_str (e : exn) : string :=
  match e with
  | KeyError key => Py.repr key
  | IndexError => "list index out of range"
  | AttributeError a => "'NoneType' object has no attribute " ++ Py.repr a
  | ValueError m => m
  | SyntaxError m => m
  | OSError m => m
  | SameFileError => "are the same file"
  end.

(** [_xml_export_to_file]: [except Exception] catches whatever the
    writing raises and prints it.  [written] is the document that the
    file at [_filepath] holds in full: a writing that fails after it has
    opened the file leaves none there, whatever the file held before. *)
Definition _xml_export_to_file : X unit :=
  st <- get ;;
  let tree := _indent (_tree st) 0 in
  try_except
    (match write_error host _filepath with
     | Some exception =>
         when (write_opens host _filepath) (modify (upd_written (fun _ => None))) ;;
         raise exception
     | None =>
         modify (upd_written (fun _ => Some tree)) ;;
         print ("Exported to " ++ _filepath)
     end)
    (fun _ => true)
    (fun exception => print (exn_str exception)).

(** [Exporter.__init__] *)
Definition Exporter_init (context : BpyContext) : X unit :=
  _xml_build_skeleton_structure ;;
  let '(graph, lines) := _xml_build_scene_graph settings context in
  modify (upd_stdout (fun out => (out ++ lines)%list)) ;;
  _xml_parse_scene_graph graph ;;
  _xml_export_to_file.

End Compiler.

(** The exporter before [__init__] has run, on a host with the given
    files on disk and with or without the default material. *)
Definition Exporter_new (files_on_disk : list string) (has_default_material : bool)
  : Exporter :=
  {| _file_indexes := []; shape_material_indexes := [];
     ids_shape := 1; ids_material := 1; ids_file := 1;
     Files := ET.new "Files"; Materials := ET.new "Materials";
     Shapes := ET.new "Shapes"; Scene := ET.new "Scene";
     stdout := []; disk := files_on_disk; meshes_alive := [];
     object_copies := []; default_material_exists := has_default_material;
     written := None |}.

(* ================================================================== *)
(** * Reading the document back *)
(* ================================================================== *)

(** An integer attribute of an element, as a reader of the document
    finds it. *)
Definition attr_nat (e : Element) (k : string) : option nat :=
  match ET.get e k with
  | Some v => Py.int_parse v
  | None => None
  end.

(** The [Subset] element that [subset_pass] writes for a subset that
    starts at index [first_index] and vertex [first_vertex] and holds
    [num_indices] indices and [num_vertices] new vertices. *)
Definition subset_element_of (first_index first_vertex num_indices num_vertices : nat)
  : Element :=
  let e := ET.new "Subset" in
  let e := _xml_write_int e "firstIndex" first_index in
  let e := _xml_write_int e "firstVertex" first_vertex in
  let e := _xml_write_int e "numIndices" num_indices in
  _xml_write_int e "numVertices" num_vertices.

(** Subsets that follow one another from index [i] and vertex [v] on:
    each is given by its numbers of indices and of vertices. *)
Fixpoint packed_subsets (i v : nat) (sizes : list (nat * nat)) : list Element :=
  match sizes with
  | [] => []
  | (ni, nv) :: sizes' =>
      subset_element_of i v ni nv :: packed_subsets (i + ni) (v + nv) sizes'
  end.

(** No character of [s] is a space. *)
Fixpoint no_space (s : string) : bool :=
  match s with
  | EmptyString => true
  | String a s' => negb (Ascii.eqb a " ") && no_space s'
  end.

(** The characters of a number in fixed-point notation, and of [nan] and
    [inf]: digits, sign, point and small letters. *)
Definition plain_char (a : ascii) : bool :=
  let k := nat_of_ascii a in
  (Nat.leb 48 k && Nat.leb k 57) || (Nat.leb 97 k && Nat.leb k 122)
  || Nat.eqb k 43 || Nat.eqb k 45 || Nat.eqb k 46.

Fixpoint plain (s : string) : bool :=
  match s with
  | EmptyString => true
  | String a s' => plain_char a && plain s'
  end.

(** Plain text with spaces in it. *)
Fixpoint spaced (s : string) : bool :=
  match s with
  | EmptyString => true
  | String a s' => (plain_char a || Ascii.eqb a " ") && spaced s'
  end.

(** The items of a dictionary, joined, and what closes it. *)
Definition items_then (d : list (string * string)) (closing : string) : string :=
  Py.join ", " (List.map Py.dict_item_str d) ++ closing.

(** A text with one more word after a space. *)
Definition glue (a word : string) : string := a ++ String " " word.

(** [s] cut at the last occurrence of [c]. *)
Fixpoint rsplit (c : ascii) (s : string) : option (string * string) :=
  match s with
  | EmptyString => None
  | String a s' =>
      match rsplit c s' with
      | Some (l, r) => Some (String a l, r)
      | None => if Ascii.eqb a c then Some (EmptyString, s') else None
      end
  end.

(** [s] cut at the first occurrence of [c]. *)
Fixpoint lsplit (c : ascii) (s : string) : option (string * string) :=
  match s with
  | EmptyString => None
  | String a s' =>
      if Ascii.eqb a c then Some (EmptyString, s')
      else match lsplit c s' with
           | Some (l, r) => Some (String a l, r)
           | None => None
           end
  end.

(* ================================================================== *)
(** * The vertex cache, stated on lists *)
(* ================================================================== *)

Section CacheSpec.

Context {F : PyFloat}.

(** The UV dictionary of a loop without the exporter around it: the first
    four layers, keyed [t0] to [t3]. *)
Fixpoint uvs_at (count : nat) (layers : list MeshUVLoopLayer) (loop_index : nat)
         (uvs : list (string * string)) : option (list (string * string)) :=
  match layers with
  | [] => Some uvs
  | uv :: layers' =>
      if Nat.ltb count 4 then
        match nth_error (data uv) loop_index with
        | Some d =>
            uvs_at (S count) layers' loop_index
                   (Py.dict_set String.eqb uvs ("t" ++ Py.int_str count)
                                (fmt 6 (fst d) ++ " " ++ fmt 6 (snd d)))
        | None => None
        end
      else uvs_at (S count) layers' loop_index uvs
  end.

(** The [vertex_data] of a loop of the mesh: position, normal and UV set
    in their rounded text. *)
Definition vertex_data_at (mesh : Mesh) (loop_index : nat) : option VertexData :=
  match nth_error (mesh_loops mesh) loop_index with
  | Some l =>
      match nth_error (vertices mesh) (vertex_index l) with
      | Some vertex =>
          match uvs_at 0 (uv_layers mesh) loop_index [] with
          | Some uvs =>
              Some {| vd_p := fmt3 6 (co vertex); vd_n := fmt3 6 (normal l);
                      vd_uvs := uvs |}
          | None => None
          end
      | None => None
      end
  | None => None
  end.

(** Every number of the mesh formats to plain text. *)
Definition plain3 (v : float * float * float) : bool :=
  let '(x, y, z) := v in plain (fmt 6 x) && plain (fmt 6 y) && plain (fmt 6 z).

Definition mesh_plain (mesh : Mesh) : bool :=
  forallb (fun v => plain3 (co v)) (vertices mesh)
  && forallb (fun l => plain3 (normal l)) (mesh_loops mesh)
  && forallb (fun uv =>
                forallb (fun d => plain (fmt 6 (fst d)) && plain (fmt 6 (snd d)))
                        (data uv))
             (uv_layers mesh).

End CacheSpec.

(** Vertex data made of plain numbers: three for the position, three for
    the normal, and a UV set with plain keys and two numbers a value. *)
Definition three_plain (s : string) : Prop :=
  exists x y z,
    plain x = true /\ plain y = true /\ plain z = true /\
    s = x ++ " " ++ y ++ " " ++ z.

Definition plain_uv (kv : string * string) : Prop :=
  plain (fst kv) = true /\
  exists u v, plain u = true /\ plain v = true /\ snd kv = u ++ " " ++ v.

Definition plain_data (vd : VertexData) : Prop :=
  three_plain (vd_p vd) /\ three_plain (vd_n vd) /\ Forall plain_uv (vd_uvs vd).

(** A corner: the material that owns its triangle, and its vertex data. *)
Definition Corner : Type := (string * VertexData)%type.

Definition corner_key (c : Corner) : string := VertexItem (snd c) (fst c).

(** The entries of a list that are the first with their key, in the
    order of the list. *)
Definition first_seen (l : list Corner) : list Corner :=
  fold_left
    (fun seen c =>
       if existsb (fun d => String.eqb (corner_key d) (corner_key c)) seen
       then seen else (seen ++ [c])%list)
    l [].

(** The place of the first entry with the key of [c]. *)
Fixpoint place_of (c : Corner) (l : list Corner) : nat :=
  match l with
  | [] => 0
  | d :: l' => if String.eqb (corner_key d) (corner_key c) then 0 else S (place_of c l')
  end.

(** The [v] element of a vertex and the [t] element of a triangle whose
    corners stand at the places [i], [j] and [k] of the vertex list. *)
Definition vertex_element_of (vertex_data : VertexData) : Element :=
  let e := ET.new "v" in
  let e := _xml_write_string e "n" (vd_n vertex_data) in
  let e := _xml_write_string e "p" (vd_p vertex_data) in
  fold_left (fun e kv => _xml_write_string e (fst kv) (snd kv)) (vd_uvs vertex_data) e.

Definition triangle_element_of (i j k : nat) : Element :=
  _xml_write_string (ET.new "t") "vi"
    (Py.int_str i ++ " " ++ Py.int_str j ++ " " ++ Py.int_str k).

Section ScanSpec.

Context {F : PyFloat}.
Variable mesh : Mesh.

(** The corners of a triangle of a subset, and the corners of all the
    subsets in the order of the scan: subset after subset, triangle after
    triangle, loop after loop. *)
Definition triangle_corners (mat : string) (triangle : MeshLoopTriangle)
  : option (Corner * Corner * Corner) :=
  let '(l0, l1, l2) := loops triangle in
  match vertex_data_at mesh l0, vertex_data_at mesh l1, vertex_data_at mesh l2 with
  | Some a, Some b, Some c => Some ((mat, a), (mat, b), (mat, c))
  | _, _, _ => None
  end.

Fixpoint subset_corners (mat : string) (subset : list MeshLoopTriangle)
  : option (list (Corner * Corner * Corner)) :=
  match subset with
  | [] => Some []
  | triangle :: subset' =>
      match triangle_corners mat triangle, subset_corners mat subset' with
      | Some t, Some l => Some (t :: l)
      | _, _ => None
      end
  end.

Fixpoint scan (triangle_subsets : list (string * list MeshLoopTriangle))
  : option (list (Corner * Corner * Corner)) :=
  match triangle_subsets with
  | [] => Some []
  | (mat, subset) :: rest =>
      match subset_corners mat subset, scan rest with
      | Some l, Some l' => Some (l ++ l')%list
      | _, _ => None
      end
  end.

End ScanSpec.

Definition corners_of (triangles : list (Corner * Corner * Corner)) : list Corner :=
  flat_map (fun t => let '(a, b, c) := t in [a; b; c]) triangles.

(** Two states of the extraction with the same cache, counters, triangles
    and subsets, and the same vertices written. *)
Definition same_cache (x x' : Extraction) : Prop :=
  added_vertices x' = added_vertices x /\
  vertex_counter x' = vertex_counter x /\
  indices_total x' = indices_total x /\
  triangles_element x' = triangles_element x /\
  subsets_element x' = subsets_element x /\
  children (vertices_element x') = children (vertices_element x).


(** What a corner that is not yet in the cache does to the state. *)
Definition cache_add (x : Extraction) (key : string) (vd : VertexData) : Extraction :=
  upd_vertex_counter S
    (upd_vertices_element (fun e => ET.append e (vertex_element_of vd))
       (upd_added_vertices
          (fun d => Py.dict_set String.eqb d key (vertex_counter x)) x)).


(** The cache that holds the given corners: each key with its place. *)
Definition numbered (off : nat) (l : list Corner) : list (string * nat) :=
  combine (List.map corner_key l) (seq off (List.length l)).

(** The state of the extraction after the corners [cs] have been scanned:
    the cache holds their first occurrences with their places, the counter
    is their number and the [Vertices] element holds their elements, after
    the [vs] that were there before. *)
Definition cache_inv (vs : list Element) (x : Extraction) (cs : list Corner) : Prop :=
  added_vertices x = numbered 0 (first_seen cs) /\
  vertex_counter x = List.length (first_seen cs) /\
  children (vertices_element x) =
    (vs ++ List.map (fun c => vertex_element_of (snd c)) (first_seen cs))%list.

Definition seen (c : Corner) (l : list Corner) : bool :=
  existsb (fun d => String.eqb (corner_key d) (corner_key c)) l.

(** The [t] element of a triangle, its corners looked up in the vertex
    list [l]. *)
Definition triangle_element_in (l : list Corner) (t : Corner * Corner * Corner) : Element :=
  let '(a, b, c) := t in
  triangle_element_of (place_of a l) (place_of b l) (place_of c l).

(* ================================================================== *)
(** * Two hosts to run the exporter on *)
(* ================================================================== *)

(** Decimal fixed point: a number is an integer count of 10^-7, rounded
    half to even where digits are dropped.  The formatting is the
    fixed-point formatting of Python on such a number; [str] shows all
    seven places. *)
Module Fixed.

Definition one : Z := 10000000%Z.

Definition round_div (a b : Z) : Z :=
  let q := (a / b)%Z in
  let r := (a mod b)%Z in
  if (2 * r <? b)%Z then q
  else if (b <? 2 * r)%Z then (q + 1)%Z
  else if Z.even q then q else (q + 1)%Z.

Definition pad_left (k : nat) (s : string) : string :=
  Py.times (k - String.length s) "0" ++ s.

Definition format (k : nat) (z : Z) : string :=
  let unit := (10 ^ Z.of_nat k)%Z in
  let q := round_div (Z.abs z * unit) one in
  let whole := Py.int_str (Z.to_nat (q / unit)) in
  let shown :=
    match k with
    | O => whole
    | _ => whole ++ "." ++ pad_left k (Py.int_str (Z.to_nat (q mod unit)))
    end in
  if (z <? 0)%Z then "-" ++ shown else shown.

Definition times (a b : Z) : Z :=
  let m := round_div (Z.abs a * Z.abs b) one in
  if Bool.eqb (a <? 0)%Z (b <? 0)%Z then m else (- m)%Z.

(** [math.degrees]: 180/pi to the seven places kept. *)
Definition to_degrees (a : Z) : Z := times a 572957795%Z.

Definition fixed_float : PyFloat :=
  Build_PyFloat format (format 7) times (5 * one)%Z to_degrees.

End Fixed.

(** Symbolic numbers: a number or a matrix is the text of the expression
    that denotes it, and the operations build the text of the result.  A
    literal formats as itself. *)
Module Symbolic.

Definition text_float : PyFloat :=
  Build_PyFloat (fun _ x => x) (fun x => x)
                (fun a b => a ++ "*" ++ b) "5.0"
                (fun x => "degrees(" ++ x ++ ")").

Definition text_matrix : MatrixOps :=
  @Build_MatrixOps string
                   (fun a b => "(" ++ a ++ " @ " ++ b ++ ")")
                   (fun a => a ++ ".inverted()").

Definition xyz (v : string) : string * string * string :=
  (v ++ ".x", v ++ ".y", v ++ ".z").

Definition text_mathutils : Mathutils text_float text_matrix :=
  @Build_Mathutils text_float text_matrix
    (fun m : string => xyz (m ++ ".to_translation()"))
    (fun m : string => xyz (m ++ ".to_euler('XYZ')"))
    (fun m : string => xyz (m ++ ".to_scale()"))
    (fun s : string => "Matrix.Scale(" ++ s ++ ", 4)")
    (fun _ => false).

(** The mesh operations change numbers only; the symbolic meshes stand
    for the mesh as these calls leave it. *)
Definition text_bmesh : BMesh text_float text_matrix :=
  @Build_BMesh text_float text_matrix
    (fun _ mesh => mesh) (fun mesh => mesh) (fun mesh => mesh) (fun mesh => mesh).

End Symbolic.

(* ================================================================== *)
(** * A scene to run the exporter on *)
(* ================================================================== *)

Module Example.

Import Symbolic.
#[local] Existing Instances text_float text_matrix text_mathutils text_bmesh.

Definition host : Host :=
  {| abspath := fun path => path;
     native_pathsep := fun path => path;
     display_name_from_filepath := fun _ => "scene";
     bl_info_version := "(0, 0, 1)";
     write_error := fun _ => None;
     write_opens := fun _ => true;
     makedirs_error := fun _ _ => None;
     copy_error := fun _ _ _ => None;
     find_path := fun _ _ => Some (SyntaxError "invalid predicate") |}.

Definition settings : Settings :=
  {| selection := "ALL";
     object_types_to_export := ["EMPTY"; "CAMERA"; "LIGHT"; "MESH"];
     apply_modifiers := false;
     apply_unit_scale := false;
     copy_files := false;
     overwrite_files := false;
     file_structure := "MODHUB" |}.

Definition filepath : string := "C:\mods\scene.i3d".

Definition flat_material (name : string) : @Material text_float :=
  {| material_name := name; use_nodes := false;
     node_tree := {| principled_bsdf := None; separate_rgb := None |};
     diffuse_color := ("0.800000", "0.800000", "0.800000", "1.000000");
     roughness := "0.400000"; metallic := "0.000000" |}.

Definition vertex (x y z : string) : @MeshVertex text_float := {| co := (x, y, z) |}.

Definition up_loop (v : nat) : @MeshLoop text_float :=
  {| vertex_index := v; normal := ("0.000000", "1.000000", "0.000000") |}.

Definition triangle (a b c m : nat) : MeshLoopTriangle :=
  {| loops := (a, b, c); material_index := m |}.

(** A fan of four triangles around a centre, its materials alternating
    between two slots. *)
Definition fan : @Mesh text_float :=
  {| mesh_name := "Fan";
     vertices := [vertex "0.000000" "0.000000" "0.000000";
                  vertex "1.000000" "0.000000" "0.000000";
                  vertex "0.000000" "0.000000" "-1.000000";
                  vertex "-1.000000" "0.000000" "0.000000";
                  vertex "0.000000" "0.000000" "1.000000"];
     mesh_loops := [up_loop 0; up_loop 1; up_loop 2;
                    up_loop 0; up_loop 2; up_loop 3;
                    up_loop 0; up_loop 3; up_loop 4;
                    up_loop 0; up_loop 4; up_loop 1];
     loop_triangles := [triangle 0 1 2 0; triangle 3 4 5 1;
                        triangle 6 7 8 0; triangle 9 10 11 1];
     uv_layers := [{| data := [("0.500000", "0.500000"); ("1.000000", "0.500000");
                               ("0.500000", "0.000000");
                               ("0.500000", "0.500000"); ("0.500000", "0.000000");
                               ("0.000000", "0.500000");
                               ("0.500000", "0.500000"); ("0.000000", "0.500000");
                               ("0.500000", "1.000000");
                               ("0.500000", "0.500000"); ("0.500000", "1.000000");
                               ("1.000000", "0.500000")] |}];
     materials := [Some (flat_material "Stone"); Some (flat_material "Moss")] |}.

Definition fan_object : @ObjectInfo text_float text_matrix :=
  {| object_name := "Fan"; object_type := "MESH"; parent := None;
     matrix_local := "M_fan"; object_data := DataMesh fan fan;
     data_i3d_attributes := None; i3d_attributes := [] |}.

Definition default_material : @Material text_float := flat_material "i3d_default_material".

(** The change of basis and the unit scale, left symbolic. *)
Definition G : @Matrix text_matrix := "G".
Definition unit_scale : @float text_float := "1.0".

(** The triangles of the fan grouped by material, and their extraction. *)
Definition fan_subsets : list (string * list MeshLoopTriangle) :=
  [("Stone", [triangle 0 1 2 0; triangle 6 7 8 0]);
   ("Moss", [triangle 3 4 5 1; triangle 9 10 11 1])].

Definition extract_fan : Outcome unit * Extraction :=
  extract fan fan_subsets
          (extraction_start (ET.new "Vertices") (ET.new "Triangles") (ET.new "Subsets")).

(** The fan with its second material slot left empty. *)
Definition gap : @Mesh text_float :=
  {| mesh_name := "Gap"; vertices := vertices fan; mesh_loops := mesh_loops fan;
     loop_triangles := loop_triangles fan; uv_layers := uv_layers fan;
     materials := [Some (flat_material "Stone"); None] |}.

Definition gap_object : @ObjectInfo text_float text_matrix :=
  {| object_name := "Gap"; object_type := "MESH"; parent := None;
     matrix_local := "M_gap"; object_data := DataMesh gap gap;
     data_i3d_attributes := None; i3d_attributes := [] |}.

Definition compile_gap : Outcome nat * Exporter :=
  compile_shape host settings filepath G unit_scale default_material
                gap_object gap gap (Exporter_new [] false).

(** The first compilation of the fan. *)
Definition compile_fan : Outcome nat * Exporter :=
  compile_shape host settings filepath G unit_scale default_material
                fan_object fan fan (Exporter_new [] false).

(** Two objects that use one mesh, exported one after the other. *)
Definition user (name : string) (mesh : @Mesh text_float)
  : @ObjectInfo text_float text_matrix :=
  {| object_name := name; object_type := "MESH"; parent := None;
     matrix_local := "M_" ++ name; object_data := DataMesh mesh mesh;
     data_i3d_attributes := None; i3d_attributes := [] |}.

Definition shape_twice (mesh : @Mesh text_float)
  : Outcome (Element * Element) * Exporter :=
  (first <- _xml_scene_object_shape host settings filepath G unit_scale
              default_material (user "Left" mesh) (ET.new "Shape") ;;
   second <- _xml_scene_object_shape host settings filepath G unit_scale
               default_material (user "Right" mesh) (ET.new "Shape") ;;
   ret (first, second)) (Exporter_new [] false).

(** The fan under a name that holds a backslash. *)
Definition wall : @Mesh text_float :=
  {| mesh_name := "wall\north"; vertices := vertices fan; mesh_loops := mesh_loops fan;
     loop_triangles := loop_triangles fan; uv_layers := uv_layers fan;
     materials := materials fan |}.

(** A scene: the fan and a camera in the scene collection, the fan
    selected. *)
Definition lens_camera : @Camera text_float :=
  {| lens := "50.000000"; clip_start := "0.100000"; clip_end := "1000.000000";
     camera_type := "PERSP"; ortho_scale := "6.000000" |}.

Definition camera_object : @ObjectInfo text_float text_matrix :=
  {| object_name := "Camera"; object_type := "CAMERA"; parent := None;
     matrix_local := "M_camera"; object_data := DataCamera lens_camera;
     data_i3d_attributes := None; i3d_attributes := [] |}.

Definition yard : @Collection text_float text_matrix :=
  mkCollection "Master Collection" []
               [mkObject fan_object None []; mkObject camera_object None []].

Definition context : @BpyContext text_float text_matrix :=
  {| scene_collection := yard; active_collection := yard;
     selected_objects := [mkObject fan_object None []] |}.

Definition with_selection (mode : string) : Settings :=
  {| selection := mode;
     object_types_to_export := object_types_to_export settings;
     apply_modifiers := apply_modifiers settings;
     apply_unit_scale := apply_unit_scale settings;
     copy_files := copy_files settings;
     overwrite_files := overwrite_files settings;
     file_structure := file_structure settings |}.

(** The ids and names of a tree of nodes, in the order of the walk. *)
Fixpoint outline (node : @Node text_float text_matrix) : list (nat * string) :=
  match node with
  | mkNode i o the_children =>
      (i, match o with Some entity => entity_name entity | None => "" end)
        :: flat_map outline the_children
  end.

Definition build (mode : string) : @SceneGraph text_float text_matrix * list string :=
  _xml_build_scene_graph (with_selection mode) context.

(** The whole export of a scene.  No property has a default, and two
    property values differ unless they are the same value. *)
Definition defaults (name : string) : option (@PyValue text_float) := None.

Definition value_ne (a b : @PyValue text_float) : bool :=
  negb match a, b with
       | VFloat x, VFloat y => String.eqb x y
       | VBool x, VBool y => Bool.eqb x y
       | VInt x, VInt y => Z.eqb x y
       | VStr x, VStr y => String.eqb x y
       | _, _ => false
       end.

Definition export (on : Host) (scene : @BpyContext text_float text_matrix)
  : Outcome unit * Exporter :=
  Exporter_init on settings filepath G unit_scale defaults value_ne default_material
                scene (Exporter_new [] false).



End Example.

(** A name that [repr] writes as it stands between quotes that it does
    not hold: the predicate of the lookup then carries the name itself. *)
Definition survives_repr (name : string) : bool :=
  let q := Py.repr_quote name in
  String.eqb (Py.repr_body q name) name && negb (Py.contains q name).

(* ================================================================== *)
(** * Lights to run the exporter on *)
(* ================================================================== *)

Module Lights.

#[local] Existing Instance Fixed.fixed_float.

(** A white light of the given kind with the default falloff, in the
    numbers of [Fixed]: range 40, spot size 0.7853982 rad, blend 0.5. *)
Definition white (kind falloff : string) : Light :=
  {| light_type := kind; falloff_type := falloff;
     spot_size := 7853982%Z; spot_blend := 5000000%Z;
     color := (Fixed.one, Fixed.one, Fixed.one);
     distance := (40 * Fixed.one)%Z; use_shadow := true |}.




End Lights.

(* ================================================================== *)
(** * Matrices over the integers *)
(* ================================================================== *)

(** Square matrices with integer entries, rows first.  The inverse is the
    adjugate divided by the determinant: exact on the matrices of
    determinant 1 or -1, among them the changes of basis that
    [axis_conversion] gives and the translations by whole numbers. *)
Module IntMatrix.

Definition Mat : Type := list (list Z).

Definition column (j : nat) (m : Mat) : list Z := List.map (fun row => nth j row 0%Z) m.

Definition transpose (m : Mat) : Mat :=
  List.map (fun j => column j m) (seq 0 (List.length (hd [] m))).

Definition dot (u v : list Z) : Z :=
  fold_left Z.add (List.map (fun ab => (fst ab * snd ab)%Z) (combine u v)) 0%Z.

Definition mul (a b : Mat) : Mat :=
  List.map (fun row => List.map (dot row) (transpose b)) a.

Fixpoint remove_nth {A : Type} (k : nat) (l : list A) : list A :=
  match l, k with
  | [], _ => []
  | _ :: l', O => l'
  | x :: l', S k' => x :: remove_nth k' l'
  end.

Definition sign (k : nat) : Z := if Nat.even k then 1%Z else (-1)%Z.

(** Expansion along the first row; [size] is the number of rows. *)
Fixpoint det (size : nat) (m : Mat) : Z :=
  match size, m with
  | S size', row :: rest =>
      fold_left Z.add
        (List.map (fun j => (sign j * nth j row 0 * det size' (List.map (remove_nth j) rest))%Z)
                  (seq 0 (List.length row)))
        0%Z
  | _, _ => 1%Z
  end.

Definition minor (i j : nat) (m : Mat) : Mat :=
  List.map (remove_nth j) (remove_nth i m).

Definition adjugate (m : Mat) : Mat :=
  let k := List.length m in
  List.map (fun i =>
    List.map (fun j => (sign (i + j) * det (k - 1) (minor j i m))%Z) (seq 0 k))
    (seq 0 k).

Definition inverse (m : Mat) : Mat :=
  let d := det (List.length m) m in
  List.map (List.map (fun x => (x / d)%Z)) (adjugate m).

Definition int_matrix : MatrixOps := @Build_MatrixOps Mat mul inverse.

(** The change of basis to forward -Z and up Y, and a translation. *)
Definition to_minus_z_forward_y_up : Mat :=
  [[1; 0; 0; 0]; [0; 0; 1; 0]; [0; -1; 0; 0]; [0; 0; 0; 1]]%Z.

Definition translation (x y z : Z) : Mat :=
  [[1; 0; 0; x]; [0; 1; 0; y]; [0; 0; 1; z]; [0; 0; 0; 1]]%Z.

End IntMatrix.

(* ================================================================== *)
(** * The transform of a node, as the specification words it *)
(* ================================================================== *)

Section TransformSpec.

Context {F : PyFloat} {MO : MatrixOps}.
Variable G : Matrix.

Local Open Scope matrix_scope.

Definition is_camera_or_light (kind : string) : bool :=
  String.eqb kind "CAMERA" || String.eqb kind "LIGHT".

Definition parent_is_camera_or_light (blender_object : ObjectInfo) : bool :=
  match parent blender_object with
  | Some parent_type => is_camera_or_light parent_type
  | None => false
  end.

(** The matrix of the claim: [G @ L @ G^-1], or [G @ L] for a camera or
    light; and one more [G^-1] in front for exactly the cameras and
    lights whose parent is a camera or light. *)
Definition claimed_local_matrix (blender_object : ObjectInfo) : Matrix :=
  let L := matrix_local blender_object in
  let base :=
    if is_camera_or_light (object_type blender_object)
    then G @ L else G @ L @ inverted G in
  if is_camera_or_light (object_type blender_object)
     && parent_is_camera_or_light blender_object
  then inverted G @ base else base.

End TransformSpec.

(** A mesh that is the child of a camera, one unit to the right, two up
    and three back. *)
Module Transforms.

#[local] Existing Instance Fixed.fixed_float.
#[local] Existing Instance IntMatrix.int_matrix.

Definition G : Matrix := IntMatrix.to_minus_z_forward_y_up.

Definition node (kind : string) (parent_kind : option string) : ObjectInfo :=
  {| object_name := "Node"; object_type := kind; parent := parent_kind;
     matrix_local := IntMatrix.translation 1 2 3; object_data := DataNone;
     data_i3d_attributes := None; i3d_attributes := [] |}.

Definition mesh_under_camera : ObjectInfo := node "MESH" (Some "CAMERA").
Definition free_camera : ObjectInfo := node "CAMERA" None.

End Transforms.

(* ================================================================== *)
(** * The file table, stated on lists *)
(* ================================================================== *)

(** The [File] element of a registration. *)
Definition file_element_of (registration : string * nat) : Element :=
  let e := ET.new "File" in
  let e := _xml_write_int e "fileId" (snd registration) in
  _xml_write_string e "filename" (fst registration).

(** The file table is in order: no path is registered twice, the [Files]
    section holds the [File] elements of the registrations, in their
    order, and the ids given out are below the counter. *)
Definition files_inv (st : Exporter) : Prop :=
  NoDup (List.map fst (_file_indexes st)) /\
  children (Files st) = List.map file_element_of (_file_indexes st) /\
  Forall (fun registration => snd registration < ids_file st) (_file_indexes st) /\
  NoDup (List.map snd (_file_indexes st)).

(** The file table of a state, and two states with the same file table. *)
Definition file_table (s : Exporter) : list (string * nat) * nat * Element :=
  (_file_indexes s, ids_file s, Files s).

Definition same_files (s s' : Exporter) : Prop := file_table s' = file_table s.

(** The end of [_xml_add_file]: the id of a path that is registered, a
    new registration otherwise. *)
Definition register (filepath_resolved : string) : X nat :=
  (st <- get ;;
   match Py.dict_get String.eqb (_file_indexes st) filepath_resolved with
   | Some file_id => ret file_id
   | None =>
       let file_id := ids_file st in
       modify (upd_ids_file S) ;;
       modify (upd_file_indexes (fun d => Py.dict_set String.eqb d filepath_resolved file_id)) ;;
       let file_element := ET.new "File" in
       let file_element := _xml_write_int file_element "fileId" file_id in
       let file_element := _xml_write_string file_element "filename" filepath_resolved in
       modify (upd_Files (fun files_root => ET.append files_root file_element)) ;;
       ret file_id
   end)%monad.

(** A computation that leaves a part of the state as it is, whatever its
    outcome. *)
Definition keeps {T A : Type} (part : Exporter -> T) (m : X A) : Prop :=
  forall s r s', m s = (r, s') -> part s' = part s.

(** Two textures of the shared data of the game, reached through two
    different absolute paths. *)
Module Textures.

Definition first_path : string := "C:\games\fs\data\shared\rust_diffuse.png".
Definition second_path : string := "D:\backup\fs\data\shared\rust_diffuse.png".

Definition add (path : string) : X nat :=
  _xml_add_file Example.host Example.settings Example.filepath path "textures".

(** Both registered, one after the other, in a fresh exporter. *)
Definition add_both : Outcome (nat * nat) * Exporter :=
  (a <- add first_path ;; b <- add second_path ;; ret (a, b))%monad
    (Exporter_new [] false).

End Textures.

(* ================================================================== *)
(** * The scene section against the scene graph *)
(* ================================================================== *)

(** A computation whose result, when it returns, has a property. *)
Definition returns {A : Type} (m : X A) (Q : A -> Prop) : Prop :=
  forall s a s', m s = (Ok a, s') -> Q a.

(** An element with the [nodeId] and the children of another. *)
Definition same_node (e0 e : Element) : Prop :=
  ET.get e "nodeId" = ET.get e0 "nodeId" /\ children e = children e0.

(** What adding the materials of a mesh and extracting its vertices
    leave alone: the meshes held, the shapes and the scene sections, and
    the document written. *)
Definition beside_materials (st : Exporter)
  : list string * Element * Element * option Element :=
  (meshes_alive st, Shapes st, Scene st, written st).

(** The element of a node after the general data: the id [i] of the node
    is on it, and its children are the ones of the element it was. *)
Definition bears (i : nat) (e0 e : Element) : Prop :=
  ET.get e "nodeId" = Some (Py.int_str i) /\ children e = children e0.

(** The part of the state that the compilation of a node leaves alone:
    the scene section and the document written. *)
Definition scene_and_output (st : Exporter) : Element * option Element :=
  (Scene st, written st).

Section EmittedSpec.

Context {F : PyFloat} {MO : MatrixOps}.

(** An element that stands for a node: it carries the id of the node,
    and its child elements stand for the children of the node, one for
    one and in their order. *)
Inductive emitted : Node -> Element -> Prop :=
| emitted_node (i : nat) (b : option Entity) (l : list Node) (e : Element) :
    attr_nat e "nodeId" = Some i ->
    Forall2 emitted l (children e) ->
    emitted (mkNode i b l) e.

(** No property of the group is written under the name [nodeId]. *)
Definition quiet_properties (propertygroup : list Property) : bool :=
  forallb (fun prop => negb (String.eqb (name_i3d prop) "nodeId")) propertygroup.

Definition own_quiet (b : option Entity) : bool :=
  match b with
  | Some (AnObject o) =>
      quiet_properties (i3d_attributes (info o))
      && match data_i3d_attributes (info o) with
         | Some propertygroup => quiet_properties propertygroup
         | None => true
         end
  | _ => true
  end.

(** No object of the subtree has a property of that name. *)
Fixpoint quiet (node : Node) : bool :=
  match node with
  | mkNode _ b l => own_quiet b && forallb quiet l
  end.

(** Every id of the subtree is at least [lo]. *)
Fixpoint ids_from (lo : nat) (node : Node) : bool :=
  match node with
  | mkNode i _ l => Nat.leb lo i && forallb (ids_from lo) l
  end.

(** What a call of the builder gives: the counter has not gone back, and
    the nodes it made have ids from the counter it started at. *)
Definition built (g : nat * list string) (nodes : list Node) (g' : nat * list string)
  : Prop :=
  fst g <= fst g' /\ forallb (ids_from (fst g)) nodes = true.

Definition object_built (settings : Settings) (o : Object) : Prop :=
  forall unpack g nodes g',
    new_graph_node_object settings o unpack g = (nodes, g') -> built g nodes g'.

Definition collection_built (settings : Settings) (c : Collection) : Prop :=
  forall unpack g nodes g',
    new_graph_node_collection settings c unpack g = (nodes, g') -> built g nodes g'.

End EmittedSpec.

(** The ids of the elements of a subtree, as a reader finds them. *)
Fixpoint node_ids (e : Element) : list (option nat) :=
  match e with
  | mkElement _ _ _ _ c => attr_nat e "nodeId" :: flat_map node_ids c
  end.

(* ================================================================== *)
(** * The start of the compilation *)
(* ================================================================== *)

Section StartSpec.

Context {F : PyFloat} {MO : MatrixOps}.


End StartSpec.

(* ================================================================== *)
(** * The scene graph, read as a list *)
(* ================================================================== *)

Section GraphSpec.

Context {F : PyFloat} {MO : MatrixOps}.

(** The nodes of a subtree in the order of the walk: a node, then the
    subtrees of its children. *)
Fixpoint preorder (node : Node) : list Node :=
  match node with
  | mkNode _ _ l => node :: flat_map preorder l
  end.

(** The line that the builder prints for a node it adds. *)
Definition added_line (node : Node) : string :=
  "Added Node with ID " ++ Py.int_str (node_id node) ++ " and name "
    ++ Py.repr (match blender_object node with
                | Some entity => entity_name entity
                | None => ""
                end).

(** A node that stands for a collection, or for an object of one of the
    kinds that are exported. *)
Definition exported (settings : Settings) (node : Node) : bool :=
  match blender_object node with
  | Some (ACollection _) => true
  | Some (AnObject o) =>
      existsb (String.eqb (object_type (info o))) (object_types_to_export settings)
  | None => false
  end.

(** What a call of the builder has done when it gives [nodes] and leaves
    the counter and the lines [g']: the ids of the nodes, in the order of
    the walk, are the values that the counter went through; one line was
    printed for each of them, in that order; and each of them is of an
    exported kind. *)
Definition grown (settings : Settings) (g : nat * list string) (nodes : list Node)
           (g' : nat * list string) : Prop :=
  fst g <= fst g' /\
  List.map node_id (flat_map preorder nodes) = seq (fst g) (fst g' - fst g) /\
  snd g' = (snd g ++ List.map added_line (flat_map preorder nodes))%list /\
  forallb (exported settings) (flat_map preorder nodes) = true.

End GraphSpec.

(* ================================================================== *)
(** * The tags of the scene section *)
(* ================================================================== *)

(** An element with the tag and the children of another: what writing
    attributes leaves of an element. *)
Definition rewritten (e0 e : Element) : Prop :=
  tag e = tag e0 /\ children e = children e0.

Section TagSpec.

Context {F : PyFloat} {MO : MatrixOps}.

(** The tag that [blender_to_i3d] gives for what a node stands for. *)
Definition i3d_tag (b : option Entity) : option string :=
  match b with
  | Some (ACollection _) => Some "TransformGroup"
  | Some (AnObject o) => Py.dict_get String.eqb switcher (object_type (info o))
  | None => None
  end.

(** An element whose tag is the one of the kind of the node, and whose
    child elements are so for the children of the node, one for one. *)
Inductive tagged_like : Node -> Element -> Prop :=
| tagged_like_node (i : nat) (b : option Entity) (l : list Node) (e : Element) :
    i3d_tag b = Some (tag e) ->
    Forall2 tagged_like l (children e) ->
    tagged_like (mkNode i b l) e.

End TagSpec.

(* ================================================================== *)
(** * The copy of a texture *)
(* ================================================================== *)

Section CopySpec.

Variables (host : Host) (settings : Settings) (_filepath : string).

(** The local names of [_xml_add_file]: [filename], [filepath_i3d], and
    the file that [shutil.copy] makes in the directory it is given. *)
Definition filename_of (filepath_absolute : string) : string :=
  Py.slice filepath_absolute (Py.rfind_succ filepath_absolute Py.backslash)
           (Py.len filepath_absolute).

Definition filepath_i3d : string :=
  Py.slice _filepath 0 (Py.rfind_succ _filepath Py.backslash).




(** The part of [_xml_add_file] that copies the file, for a path that is
    not rewritten to the shared data, under the setting [copy_files]. *)
Definition copy_step (filepath file_folder : string) : X unit :=
  (let filepath_absolute := abspath host filepath in
   let filename := filename_of filepath_absolute in
   let output_dir := output_dir_of settings filepath filepath_absolute file_folder in
   let filepath_resolved := output_dir ++ filename in
   st <- get ;;
   when (negb (String.eqb filepath_resolved filepath_absolute) &&
         negb (Py.dict_mem String.eqb (_file_indexes st) filepath_resolved))
     (present <- os_path_exists (filepath_i3d ++ output_dir ++ filename) ;;
      when (overwrite_files settings || negb present)
        (print ("Path: " ++ filepath_i3d ++ output_dir) ;;
         os_makedirs host (filepath_i3d ++ output_dir) ;;
         try_except (shutil_copy host filepath_absolute (filepath_i3d ++ output_dir))
                    is_SameFileError
                    (fun _ => ret tt))))%monad.

End CopySpec.

(** A texture outside the shared data, exported with the setting
    [copy_files] into the layout [MODHUB]. *)
Module Copies.

Definition settings : Settings :=
  {| selection := "ALL";
     object_types_to_export := ["EMPTY"; "CAMERA"; "LIGHT"; "MESH"];
     apply_modifiers := false;
     apply_unit_scale := false;
     copy_files := true;
     overwrite_files := false;
     file_structure := "MODHUB" |}.

Definition wood : string := "C:\art\wood.png".

Definition start : Exporter := Exporter_new [wood] false.

Definition add_wood : Outcome nat * Exporter :=
  _xml_add_file Example.host settings Example.filepath wood "textures" start.

(** The same texture, added a second time. *)
Definition add_wood_again : Outcome nat * Exporter :=
  _xml_add_file Example.host settings Example.filepath wood "textures" (snd add_wood).

(** The layout [BLENDER], and a texture four directories above the blend
    file. *)
Definition blender_settings : Settings :=
  {| selection := "ALL";
     object_types_to_export := ["EMPTY"; "CAMERA"; "LIGHT"; "MESH"];
     apply_modifiers := false;
     apply_unit_scale := false;
     copy_files := true;
     overwrite_files := false;
     file_structure := "BLENDER" |}.

Definition far_host : Host :=
  {| abspath := fun _ => "C:\art\wood.png";
     native_pathsep := fun path => path;
     display_name_from_filepath := fun _ => "scene";
     bl_info_version := "(0, 0, 1)";
     write_error := fun _ => None;
     write_opens := fun _ => true;
     makedirs_error := fun _ _ => None;
     copy_error := fun _ _ _ => None;
     find_path := fun _ _ => Some (SyntaxError "invalid predicate") |}.

Definition far_wood : string := "//..\..\..\..\art\wood.png".

End Copies.

(* ================================================================== *)
(** * The entries of the material section *)
(* ================================================================== *)

(** A [Material] element that carries a name and an id. *)
Definition material_entry (name : string) (id : nat) (e : Element) : Prop :=
  tag e = "Material" /\
  ET.get e "name" = Some name /\
  ET.get e "materialId" = Some (Py.int_str id).

(** The material section and its counter. *)
Definition material_table (st : Exporter) : Element * nat :=
  (Materials st, ids_material st).

Section MaterialBody.

Context {F : PyFloat}.
Variables (host : Host) (settings : Settings) (_filepath : string).

(** The element that [_xml_add_material] makes for a material that is not
    in the section yet, before it is counted and appended. *)
Definition new_material_element (material : Material) (material_id : nat) : X Element :=
  (let material_element := ET.new "Material" in
  let material_element :=
    _xml_write_string material_element "name" (material_name material) in
  let material_element :=
    _xml_write_int material_element "materialId" material_id in
    (if use_nodes material then
       material_element <-
         match principled_bsdf (node_tree material) with
         | Some material_node =>
             (* Diffuse *)
             let diffuse := base_color_default material_node in
             '(diffuse, material_element) <-
               match base_color_from_node material_node with
               | Some connected_node =>
                   if String.eqb (bl_idname connected_node) "ShaderNodeRGB" then
                     ret (output_default_value connected_node, material_element)
                   else if String.eqb (bl_idname connected_node) "ShaderNodeTexImage" then
                     material_element <-
                       add_texture_child host settings _filepath "Texture" connected_node material_element ;;
                     ret (diffuse, material_element)
                   else
                     print ("Unsupported input " ++ Py.repr (bl_idname connected_node)
                            ++ " on 'Color' socket in 'Principled BSDF' of material "
                            ++ Py.repr (material_name material)) ;;
                     ret (diffuse, material_element)
               | None => ret (diffuse, material_element)
               end ;;
             let material_element :=
               _xml_write_string material_element "diffuseColor" (fmt4 6 diffuse) in
             (* Specular *)
             let material_element :=
               _xml_write_string material_element "specularColor"
                 (fmt 6 (roughness_default material_node) ++ " " ++
                  fmt 6 (specular_default material_node) ++ " " ++
                  fmt 6 (metallic_default material_node)) in
             (* Normal *)
             match normal_from_node material_node with
             | Some normal_map_node =>
                 if String.eqb (bl_idname normal_map_node) "ShaderNodeNormalMap" then
                   match color_from_node normal_map_node with
                   | Some texture_node =>
                       if String.eqb (bl_idname texture_node) "ShaderNodeTexImage" then
                         add_texture_child host settings _filepath "Normalmap" texture_node material_element
                       else
                         print ("Unknown color input of type: "
                                ++ Py.repr (bl_idname normal_map_node)
                                ++ " for normal map") ;;
                         ret material_element
                   | None => ret material_element
                   end
                 else
                   print ("Unknown normal input of type: "
                          ++ Py.repr (bl_idname normal_map_node) ++ " for bdsf") ;;
                   ret material_element
             | None => ret material_element
             end
         | None => ret material_element
         end ;;
       match separate_rgb (node_tree material) with
       | Some (Some gloss_image_node) =>
           if String.eqb (bl_idname gloss_image_node) "ShaderNodeTexImage" then
             add_texture_child host settings _filepath "Glossmap" gloss_image_node material_element
           else
             print ("Unknown image input of type: "
                    ++ Py.repr (bl_idname gloss_image_node) ++ " for Separate RGB") ;;
             ret material_element
       | _ => ret material_element
       end
     else
       let material_element :=
         _xml_write_string material_element "diffuseColor"
                           (fmt4 6 (diffuse_color material)) in
       let material_element :=
         _xml_write_string material_element "specularColor"
           (fmt 6 (roughness material) ++ " 1.000000 " ++ fmt 6 (metallic material)) in
       ret material_element))%monad.

End MaterialBody.

(** Two materials of the same name, added one after the other. *)
Module Stones.

Import Symbolic.
#[local] Existing Instances text_float.

Definition polished : @Material text_float :=
  {| material_name := "Stone"; use_nodes := false;
     node_tree := {| principled_bsdf := None; separate_rgb := None |};
     diffuse_color := ("0.100000", "0.100000", "0.100000", "1.000000");
     roughness := "0.050000"; metallic := "0.000000" |}.

Definition add_stone : Outcome nat * Exporter :=
  _xml_add_material Example.host Example.settings Example.filepath
                    (Example.flat_material "Stone") (Exporter_new [] false).

Definition add_polished : Outcome nat * Exporter :=
  _xml_add_material Example.host Example.settings Example.filepath polished
                    (snd add_stone).

End Stones.

(* ================================================================== *)
(** * The mesh that is compiled *)
(* ================================================================== *)

Section PreparedMesh.

Context {F : PyFloat} {MO : MatrixOps} {MU : Mathutils F MO} {BM : BMesh F MO}.
Variable settings : Settings.
Variables (_global_matrix : Matrix) (scale_length : float).

Local Open Scope matrix_scope.

(** The mesh of [_xml_scene_object_shape] when the grouping of the
    triangles begins: the mesh of [to_mesh], transformed, its normals
    flipped under a negative matrix, its triangles and split normals
    calculated. *)
Definition prepared_mesh (data evaluated : Mesh) : Mesh :=
  let mesh := if apply_modifiers settings then evaluated else data in
  let conversion_matrix :=
    if apply_unit_scale settings
    then Matrix_Scale scale_length @ _global_matrix
    else _global_matrix in
  let mesh := transform conversion_matrix mesh in
  let mesh := if is_negative conversion_matrix then flip_normals mesh else mesh in
  calc_normals_split (calc_loop_triangles mesh).

End PreparedMesh.

(** A mesh of vertices only, as a point cloud or an empty mesh object
    has, and an object that uses it. *)
Module Points.

Import Symbolic.
#[local] Existing Instances text_float text_matrix text_mathutils text_bmesh.

Definition cloud : @Mesh text_float :=
  {| mesh_name := "Cloud";
     vertices := [Example.vertex "0.000000" "0.000000" "0.000000"];
     mesh_loops := []; loop_triangles := []; uv_layers := [];
     materials := [] |}.

Definition cloud_shape : Outcome Element * Exporter :=
  _xml_scene_object_shape Example.host Example.settings Example.filepath Example.G
                          Example.unit_scale Example.default_material
                          (Example.user "Cloud" cloud) (ET.new "Shape")
                          (Exporter_new [] false).

End Points.

(* ================================================================== *)
(** * The triangles of a mesh, grouped by material *)
(* ================================================================== *)

(** The entries of a list without their repetitions, each at the place
    where it occurs first. *)
Fixpoint distinct_in_order (l : list string) : list string :=
  match l with
  | [] => []
  | x :: l' => x :: filter (fun y => negb (String.eqb y x)) (distinct_in_order l')
  end.

Section GroupSpec.

Context {F : PyFloat}.
Variable mesh : Mesh.

(** [mesh.materials[triangle.material_index].name], where the slot is
    there and holds a material. *)
Definition material_name_at (triangle : MeshLoopTriangle) : option string :=
  match nth_error (materials mesh) (material_index triangle) with
  | Some (Some material) => Some (material_name material)
  | _ => None
  end.

Definition uses (name : string) (triangle : MeshLoopTriangle) : bool :=
  match material_name_at triangle with
  | Some n => String.eqb n name
  | None => false
  end.

Definition names_of (triangles : list MeshLoopTriangle) : list string :=
  flat_map (fun triangle =>
              match material_name_at triangle with
              | Some n => [n]
              | None => []
              end) triangles.

(** The dictionary [triangle_subsets] after the triangles [done]: its
    keys are the names of their materials in the order of first use,
    under each name stand the triangles of that name in their order, and
    nothing else. *)
Definition grouped (triangle_subsets : list (string * list MeshLoopTriangle))
           (done : list MeshLoopTriangle) : Prop :=
  List.map fst triangle_subsets = distinct_in_order (names_of done) /\
  (forall name,
      Py.dict_get String.eqb triangle_subsets name =
      match filter (uses name) done with
      | [] => None
      | l => Some l
      end) /\
  List.length (List.concat (List.map snd triangle_subsets)) = List.length done.

End GroupSpec.

(* ================================================================== *)
(** * Parts of a state that a computation leaves alone *)
(* ================================================================== *)

(** [keeps], for a computation on any state. *)
Definition keeps_in {S T A : Type} (part : S -> T) (m : M S A) : Prop :=
  forall s r s', m s = (r, s') -> part s' = part s.

(** The attributes of the [Triangles] and [Subsets] elements during the
    extraction. *)
Definition section_attributes (x : Extraction)
  : list (string * string) * list (string * string) :=
  (attrib (triangles_element x), attrib (subsets_element x)).

(* ================================================================== *)
(** * The material ids of a shape *)
(* ================================================================== *)

(** The entry of a shape in [shape_material_indexes] after the ids [ids]
    were added to it one by one: the first makes the entry, the others
    are appended after a comma. *)
Definition joined (entry : option string) (ids : list nat) : option string :=
  fold_left (fun entry id =>
               Some (match entry with
                     | Some s => s ++ "," ++ Py.int_str id
                     | None => Py.int_str id
                     end)) ids entry.

(** [id] is the [materialId] of a [Material] element among [elements]. *)
Definition is_material_id (elements : list Element) (id : nat) : Prop :=
  exists e, In e elements /\ tag e = "Material" /\ attr_nat e "materialId" = Some id.

(** The shape of the fan of the example, written on a new exporter. *)
Module Fans.

Import Symbolic.
#[local] Existing Instances text_float text_matrix text_mathutils text_bmesh.

Definition fan_shape : Outcome Element * Exporter :=
  _xml_scene_object_shape Example.host Example.settings Example.filepath
                          Example.G Example.unit_scale Example.default_material
                          Example.fan_object (ET.new "Shape") (Exporter_new [] false).

Definition fan_node : Element :=
  match fst fan_shape with
  | Ok e => e
  | Raise _ => ET.new "Shape"
  end.

End Fans.

(* ================================================================== *)
(** * Invariants of an export *)
(* ================================================================== *)

(** A computation that returns keeps the property [I] of the exporter. *)
Definition preserves {A : Type} (I : Exporter -> Prop) (m : X A) : Prop :=
  forall st a st', I st -> m st = (Ok a, st') -> I st'.

(** A computation that returns takes a state with [P] to a result and a
    state with [Q]. *)
Definition triple {A : Type} (P : Exporter -> Prop) (m : X A)
           (Q : A -> Exporter -> Prop) : Prop :=
  forall st a st', P st -> m st = (Ok a, st') -> Q a st'.

(** The shape section and its counter. *)
Definition shape_table (st : Exporter) : Element * nat := (Shapes st, ids_shape st).

(** The three resource sections with their tables and counters. *)
Definition tables (st : Exporter)
  : (list (string * nat) * nat * Element) * (Element * nat) * (Element * nat) :=
  (file_table st, material_table st, shape_table st).

(** Every element of the list has a number under [attribute]; the numbers
    differ from one another and are below [counter]. *)
Definition numbered_below (attribute : string) (counter : nat) (elements : list Element)
  : Prop :=
  exists ids,
    List.map (fun e => attr_nat e attribute) elements = List.map Some ids /\
    NoDup ids /\
    Forall (fun i => i < counter) ids.

Definition files_numbered (st : Exporter) : Prop :=
  numbered_below "fileId" (ids_file st) (children (Files st)).

Definition materials_numbered (st : Exporter) : Prop :=
  numbered_below "materialId" (ids_material st) (children (Materials st)).

Definition shapes_numbered (st : Exporter) : Prop :=
  numbered_below "shapeId" (ids_shape st) (children (Shapes st)).

(** The [fileId] of [child] is the one of a [File] element among [files]. *)
Definition refers_to (files : list Element) (child : Element) : Prop :=
  exists id file,
    attr_nat child "fileId" = Some id /\
    In file files /\ tag file = "File" /\ attr_nat file "fileId" = Some id.

(** Every child of every element of the material section refers to a file
    of the file section. *)
Definition textures_registered (st : Exporter) : Prop :=
  Forall (fun material => Forall (refers_to (children (Files st))) (children material))
         (children (Materials st)).

(** The file table is in order and the textures are registered. *)
Definition files_linked (st : Exporter) : Prop :=
  files_inv st /\ textures_registered st.

(** The element [e] of a material that is being made, at the state [st]
    of an exporter that was at [st0] when the making began. *)
Definition linking (st0 : Exporter) (e : Element) (st : Exporter) : Prop :=
  files_inv st /\
  material_table st = material_table st0 /\
  (exists more, children (Files st) = (children (Files st0) ++ more)%list) /\
  Forall (refers_to (children (Files st))) (children e).

(** A scene with a textured material: the bricks take their colour and
    their gloss from one image and their normals from another; two
    meshes use them. *)
Module Painted.

Import Symbolic.
#[local] Existing Instances text_float text_matrix text_mathutils text_bmesh.

Definition white : string * string * string * string :=
  ("1.000000", "1.000000", "1.000000", "1.000000").

Definition image_node (path : string) : @ShaderNode text_float :=
  mkShaderNode "ShaderNodeTexImage" white (Some path) None.

Definition bricks : @Material text_float :=
  {| material_name := "Bricks"; use_nodes := true;
     node_tree :=
       {| principled_bsdf :=
            Some {| base_color_default := white;
                    base_color_from_node := Some (image_node "C:\art\bricks.png");
                    roughness_default := "0.500000";
                    specular_default := "0.500000";
                    metallic_default := "0.000000";
                    normal_from_node :=
                      Some (mkShaderNode "ShaderNodeNormalMap" white None
                              (Some (image_node "C:\art\bricks_normal.png"))) |};
          separate_rgb := Some (Some (image_node "C:\art\bricks.png")) |};
     diffuse_color := white; roughness := "0.500000"; metallic := "0.000000" |}.

Definition house : @Mesh text_float :=
  {| mesh_name := "House"; vertices := vertices Example.fan;
     mesh_loops := mesh_loops Example.fan;
     loop_triangles := loop_triangles Example.fan; uv_layers := uv_layers Example.fan;
     materials := [Some bricks; Some (Example.flat_material "Moss")] |}.

Definition shed : @Mesh text_float :=
  {| mesh_name := "Shed"; vertices := vertices Example.fan;
     mesh_loops := mesh_loops Example.fan;
     loop_triangles := loop_triangles Example.fan; uv_layers := uv_layers Example.fan;
     materials := [Some (Example.flat_material "Moss"); Some bricks] |}.

Definition village : @Collection text_float text_matrix :=
  mkCollection "Master Collection" []
               [mkObject (Example.user "House" house) None [];
                mkObject (Example.user "Shed" shed) None [];
                mkObject (Example.user "Annex" house) None []].

Definition context : @BpyContext text_float text_matrix :=
  {| scene_collection := village; active_collection := village;
     selected_objects := [] |}.

Definition export : Outcome unit * Exporter :=
  Example.export Example.host context.

End Painted.

(* ================================================================== *)
(** * Elements that differ in white space only *)
(* ================================================================== *)

(** A text or tail after the indentation: what it was, or white space in
    the place of white space or of nothing. *)
Definition respaced (before after : option string) : Prop :=
  after = before \/ (blank before = true /\ blank after = true).

Inductive same_but_space : Element -> Element -> Prop :=
| same_but_space_intro (e e' : Element) :
    tag e' = tag e ->
    attrib e' = attrib e ->
    respaced (text e) (text e') ->
    respaced (tail e) (tail e') ->
    Forall2 same_but_space (children e) (children e') ->
    same_but_space e e'.

(** The tags of the four sections that the export fills. *)
Definition section_tags (st : Exporter) : string * string * string * string :=
  (tag (Files st), tag (Materials st), tag (Shapes st), tag (Scene st)).

(** Five uv layers, read at the first loop of a mesh. *)
Module Unwrapped.

Import Symbolic.
#[local] Existing Instances text_float.

Definition layer (u v : string) : @MeshUVLoopLayer text_float := {| data := [(u, v)] |}.

Definition five : list (@MeshUVLoopLayer text_float) :=
  [layer "0.000000" "0.000000"; layer "0.250000" "0.000000"; layer "0.500000" "0.000000";
   layer "0.750000" "0.000000"; layer "1.000000" "0.000000"].

Definition start : Extraction :=
  extraction_start (ET.new "Vertices") (ET.new "Triangles") (ET.new "Subsets").

Definition read : Outcome (list (string * string)) * Extraction :=
  uv_layers_loop 0 five 0 [] start.

Definition uvs : list (string * string) :=
  match fst read with
  | Ok uvs => uvs
  | Raise _ => []
  end.

End Unwrapped.

(* ================================================================== *)
(** * The general data of the scene elements *)
(* ================================================================== *)

(** The attributes that [_xml_scene_object_general_data] writes on every
    element. *)
Definition general_attributes : list string :=
  ["name"; "nodeId"; "translation"; "rotation"; "scale"].

Definition has_attributes (keys : list string) (e : Element) : Prop :=
  Forall (fun k => ET.get e k <> None) keys.

(** An element that has the general attributes, and so has every element
    below it. *)
Inductive described : Element -> Prop :=
| described_intro (e : Element) :
    has_attributes general_attributes e ->
    Forall described (children e) ->
    described e.

(** [e] has the attributes of [e0], its own perhaps, and the children of
    [e0]. *)
Definition extended (e0 e : Element) : Prop :=
  (forall k, ET.get e0 k <> None -> ET.get e k <> None) /\
  children e = children e0.

(* ================================================================== *)
(** * Properties *)
(* ================================================================== *)

(** ** Integers written and read back *)

Lemma int_parse_str (k : nat) : Py.int_parse (Py.int_str k) = Some k.
Proof.
  unfold Py.int_parse, Py.int_str.
  assert (Hnz : Nat.to_uint k <> Nil).
  { intros Hk. assert (H0 : k = 0).
    { rewrite <- (DecimalNat.Unsigned.of_to k), Hk. reflexivity. }
    subst k. discriminate Hk. }
  rewrite NilZero.usu by exact Hnz.
  simpl. rewrite DecimalNat.Unsigned.of_to. reflexivity.
Qed.

(** ** The exporter monad *)

Section MonadFacts.

Variables S A B : Type.

Lemma bind_ok (m : M S A) (k : A -> M S B) (s s' : S) (b : B) :
  bind m k s = (Ok b, s') ->
  exists a s1, m s = (Ok a, s1) /\ k a s1 = (Ok b, s').
Proof.
  unfold bind. destruct (m s) as [[a | e] s1]; intros H.
  - exists a, s1. split; [reflexivity | exact H].
  - discriminate H.
Qed.

Lemma expect_ok (o : option A) (e : exn) (s s' : S) (a : A) :
  expect o e s = (Ok a, s') -> o = Some a /\ s' = s.
Proof.
  destruct o as [a0 |]; unfold expect, ret, raise; intros H; inversion H; auto.
Qed.

Lemma ret_ok (a a' : A) (s s' : S) :
  ret a s = (Ok a', s') -> a' = a /\ s' = s.
Proof. unfold ret. intros H. inversion H. auto. Qed.

End MonadFacts.

Lemma modify_ok (S : Type) (f : S -> S) (s s' : S) (u : unit) :
  modify f s = (Ok u, s') -> s' = f s.
Proof. unfold modify. intros H. inversion H. reflexivity. Qed.

Lemma get_ok (S : Type) (s s' x : S) :
  get s = (Ok x, s') -> x = s /\ s' = s.
Proof. unfold get. intros H. inversion H. auto. Qed.

(** Taking successful runs apart into their steps. *)
Ltac run :=
  repeat match goal with
  | H : bind _ _ _ = (Ok _, _) |- _ =>
      apply bind_ok in H; destruct H as (? & ? & ? & H)
  | H : expect _ _ _ = (Ok _, _) |- _ =>
      apply expect_ok in H; destruct H as [? ?]
  | H : ret _ _ = (Ok _, _) |- _ =>
      apply ret_ok in H; destruct H as [? ?]
  | H : modify _ _ = (Ok _, _) |- _ => apply modify_ok in H
  | H : get _ = (Ok _, _) |- _ => apply get_ok in H; destruct H as [? ?]
  end; subst.

(** ** Strings *)

Lemma append_assoc (a b c : string) : (a ++ b) ++ c = a ++ (b ++ c).
Proof. induction a as [| x a IH]; simpl; [reflexivity | rewrite IH; reflexivity]. Qed.

Lemma append_nil_r (a : string) : a ++ "" = a.
Proof. induction a as [| x a IH]; simpl; [reflexivity | rewrite IH; reflexivity]. Qed.

Lemma no_space_app (a b : string) :
  no_space (a ++ b) = no_space a && no_space b.
Proof.
  induction a as [| x a IH]; simpl; [reflexivity |].
  rewrite IH, andb_assoc. reflexivity.
Qed.

Lemma string_of_uint_no_space (d : Decimal.uint) :
  no_space (NilEmpty.string_of_uint d) = true.
Proof. induction d; simpl; auto. Qed.

Lemma int_str_no_space (k : nat) : no_space (Py.int_str k) = true.
Proof.
  unfold Py.int_str, NilZero.string_of_uint.
  destruct (Nat.to_uint k) eqn:E; try reflexivity;
    rewrite <- E; apply string_of_uint_no_space.
Qed.

Lemma int_str_nonempty (k : nat) : Py.int_str k <> "".
Proof.
  unfold Py.int_str, NilZero.string_of_uint.
  destruct (Nat.to_uint k); simpl; discriminate.
Qed.

Lemma rstrip_spaces_space (w : string) :
  Py.rstrip_spaces (w ++ " ") = Py.rstrip_spaces w.
Proof.
  induction w as [| a w IH]; simpl; [reflexivity |].
  rewrite IH. reflexivity.
Qed.

Lemma rstrip_spaces_solid (s : string) :
  no_space s = true -> Py.rstrip_spaces s = s.
Proof.
  induction s as [| a s IH]; simpl; [reflexivity |].
  intros H. apply andb_true_iff in H. destruct H as [Ha Hs].
  rewrite IH by exact Hs.
  destruct s; [| reflexivity].
  destruct (Ascii.eqb a " "); [discriminate Ha | reflexivity].
Qed.

Lemma rstrip_spaces_ends_solid (u s : string) :
  s <> "" -> no_space s = true -> Py.rstrip_spaces (u ++ s) = u ++ s.
Proof.
  intros Hne Hs. induction u as [| a u IH]; simpl.
  - apply rstrip_spaces_solid. exact Hs.
  - rewrite IH. destruct (u ++ s) eqn:E; [| reflexivity].
    destruct u; simpl in E; [congruence | discriminate E].
Qed.

Lemma lstrip_spaces_solid (s r : string) :
  s <> "" -> no_space s = true -> Py.lstrip_spaces (s ++ r) = s ++ r.
Proof.
  destruct s as [| a s]; [congruence |]. simpl. intros _ H.
  apply andb_true_iff in H. destruct H as [Ha _].
  destruct (Ascii.eqb a " "); [discriminate Ha | reflexivity].
Qed.

(** The text of a triangle: the three places with spaces between. *)
Lemma triangle_text (i j k : nat) :
  Py.strip_spaces (((Py.int_str i ++ " ") ++ Py.int_str j ++ " ") ++ Py.int_str k ++ " ")
  = Py.int_str i ++ " " ++ Py.int_str j ++ " " ++ Py.int_str k.
Proof.
  unfold Py.strip_spaces.
  repeat rewrite append_assoc.
  rewrite lstrip_spaces_solid by (auto using int_str_nonempty, int_str_no_space).
  replace (Py.int_str i ++ " " ++ Py.int_str j ++ " " ++ Py.int_str k ++ " ")
    with ((Py.int_str i ++ " " ++ Py.int_str j ++ " " ++ Py.int_str k) ++ " ")
    by (repeat rewrite append_assoc; reflexivity).
  rewrite rstrip_spaces_space.
  replace (Py.int_str i ++ " " ++ Py.int_str j ++ " " ++ Py.int_str k)
    with ((Py.int_str i ++ " " ++ Py.int_str j ++ " ") ++ Py.int_str k)
    by (repeat rewrite append_assoc; reflexivity).
  apply rstrip_spaces_ends_solid; auto using int_str_nonempty, int_str_no_space.
Qed.

(** ** Dictionaries *)

Section DictFacts.

Variable V : Type.

Lemma dict_get_set_same (d : list (string * V)) (k : string) (v : V) :
  Py.dict_get String.eqb (Py.dict_set String.eqb d k v) k = Some v.
Proof.
  induction d as [| [k' v'] d IH]; simpl.
  - rewrite String.eqb_refl. reflexivity.
  - destruct (String.eqb k' k) eqn:Hk; simpl; rewrite Hk; auto.
Qed.

Lemma dict_get_set_other (d : list (string * V)) (k k' : string) (v : V) :
  String.eqb k' k = false ->
  Py.dict_get String.eqb (Py.dict_set String.eqb d k' v) k = Py.dict_get String.eqb d k.
Proof.
  intros Hne. induction d as [| [k0 v0] d IH]; simpl.
  - rewrite Hne. reflexivity.
  - destruct (String.eqb k0 k') eqn:H0; simpl.
    + apply String.eqb_eq in H0. subst k0. rewrite Hne. reflexivity.
    + rewrite IH. reflexivity.
Qed.

Lemma dict_set_new (d : list (string * V)) (k : string) (v : V) :
  Py.dict_get String.eqb d k = None ->
  Py.dict_set String.eqb d k v = (d ++ [(k, v)])%list.
Proof.
  induction d as [| [k' v'] d IH]; simpl; intros H.
  - reflexivity.
  - destruct (String.eqb k' k); [discriminate H |].
    rewrite IH by exact H. reflexivity.
Qed.

Lemma dict_mem_get (d : list (string * V)) (k : string) :
  Py.dict_mem String.eqb d k = true <-> exists v, Py.dict_get String.eqb d k = Some v.
Proof.
  unfold Py.dict_mem. destruct (Py.dict_get String.eqb d k) as [v |].
  - split; [eauto | reflexivity].
  - split; [discriminate | intros [v H]; discriminate H].
Qed.

End DictFacts.

(** ** The extraction loops and the counters *)

Lemma same_cache_refl x : same_cache x x.
Proof. repeat split. Qed.

Lemma same_cache_trans x y z : same_cache x y -> same_cache y z -> same_cache x z.
Proof.
  unfold same_cache. intros (a1 & a2 & a3 & a4 & a5 & a6) (b1 & b2 & b3 & b4 & b5 & b6).
  repeat split; congruence.
Qed.

Lemma children_set (e : Element) (k v : string) :
  children (ET.set e k v) = children e.
Proof. destruct e; reflexivity. Qed.

Lemma children_append (e c : Element) :
  children (ET.append e c) = (children e ++ [c])%list.
Proof. destruct e; reflexivity. Qed.

Section ExtractionFacts.

Context {F : PyFloat}.
Variable mesh : Mesh.

Lemma uv_layers_loop_ok layers :
  forall count loop_index uvs x uvs' x',
    uv_layers_loop count layers loop_index uvs x = (Ok uvs', x') ->
    uvs_at count layers loop_index uvs = Some uvs' /\ same_cache x x'.
Proof.
  induction layers as [| uv layers IH]; intros count loop_index uvs x uvs' x' H; simpl in *.
  - run. split; [reflexivity | apply same_cache_refl].
  - apply bind_ok in H. destruct H as (u1 & x1 & H1 & H).
    apply IH in H. destruct H as [Hu Hs].
    destruct (Nat.ltb count 4).
    + run.
      match goal with E : nth_error _ _ = Some _ |- _ => rewrite E end.
      split; [exact Hu |].
      eapply same_cache_trans; [| exact Hs].
      unfold same_cache; simpl. repeat split.
      unfold _xml_write_bool. apply children_set.
    + run. split; [exact Hu |].
      eapply same_cache_trans; [| exact Hs].
      unfold same_cache; simpl. repeat split.
Qed.

Lemma vertex_data_of_loop_ok loop_index x vd x' :
  vertex_data_of_loop mesh loop_index x = (Ok vd, x') ->
  vertex_data_at mesh loop_index = Some vd /\ same_cache x x'.
Proof.
  unfold vertex_data_of_loop, vertex_data_at. intros H.
  apply bind_ok in H. destruct H as (l & x1 & H1 & H).
  apply bind_ok in H. destruct H as (v & x2 & H2 & H).
  apply bind_ok in H. destruct H as (u & x3 & H3 & H).
  run. apply uv_layers_loop_ok in H3. destruct H3 as [Hu Hs].
  repeat match goal with E : nth_error _ _ = Some _ |- _ => rewrite E; clear E end.
  rewrite Hu. split; [reflexivity | exact Hs].
Qed.

Lemma loop_pass_ok mat tvi nv loop_index x tvi' nv' x' :
  loop_pass mesh mat (tvi, nv) loop_index x = (Ok (tvi', nv'), x') ->
  exists vd x1,
    vertex_data_at mesh loop_index = Some vd /\ same_cache x x1 /\
    match Py.dict_get String.eqb (added_vertices x1) (VertexItem vd mat) with
    | Some i => x' = x1 /\ nv' = nv /\ tvi' = tvi ++ Py.int_str i ++ " "
    | None =>
        x' = cache_add x1 (VertexItem vd mat) vd /\ nv' = S nv /\
        tvi' = tvi ++ Py.int_str (vertex_counter x1) ++ " "
    end.
Proof.
  unfold loop_pass. intros H.
  apply bind_ok in H. destruct H as (vd & x1 & H1 & H).
  apply vertex_data_of_loop_ok in H1. destruct H1 as [Hvd Hs].
  exists vd, x1. split; [exact Hvd |]. split; [exact Hs |].
  apply bind_ok in H. destruct H as (x1' & x1'' & Hg & H).
  apply get_ok in Hg. destruct Hg; subst x1' x1''.
  unfold Py.dict_mem in H.
  destruct (Py.dict_get String.eqb (added_vertices x1) (VertexItem vd mat)) as [i |] eqn:Hget;
    simpl in H; run.
  - match goal with E : Py.dict_get _ _ _ = Some _ |- _ => rewrite Hget in E; inversion E; subst end.
    match goal with E : (_, _) = (_, _) |- _ => inversion E; subst; clear E end.
    auto.
  - match goal with E : Py.dict_get _ _ _ = Some _ |- _ =>
      simpl in E; rewrite dict_get_set_same in E; inversion E; subst end.
    match goal with E : (_, _) = (_, _) |- _ => inversion E; subst; clear E end.
    auto.
Qed.

End ExtractionFacts.

(** ** The cache and the list of first occurrences *)

Lemma first_seen_snoc (cs : list Corner) (c : Corner) :
  first_seen (cs ++ [c]) =
  if seen c (first_seen cs) then first_seen cs else (first_seen cs ++ [c])%list.
Proof. unfold first_seen. rewrite fold_left_app. reflexivity. Qed.

Lemma seen_app (c : Corner) (l l' : list Corner) :
  seen c (l ++ l') = seen c l || seen c l'.
Proof. unfold seen. apply existsb_app. Qed.

Lemma numbered_get (c : Corner) (l : list Corner) :
  forall off,
    Py.dict_get String.eqb (numbered off l) (corner_key c) =
    if seen c l then Some (off + place_of c l) else None.
Proof.
  unfold numbered, seen.
  induction l as [| d l IH]; intros off; simpl; [reflexivity |].
  destruct (String.eqb (corner_key d) (corner_key c)); simpl.
  - rewrite Nat.add_0_r. reflexivity.
  - rewrite IH. destruct (existsb _ l); [| reflexivity].
    f_equal. lia.
Qed.

Lemma numbered_snoc (l : list Corner) (c : Corner) :
  forall off,
    numbered off (l ++ [c]) = (numbered off l ++ [(corner_key c, off + List.length l)])%list.
Proof.
  unfold numbered.
  induction l as [| d l IH]; intros off; simpl.
  - rewrite Nat.add_0_r. reflexivity.
  - rewrite IH. replace (S off + List.length l) with (off + S (List.length l)) by lia.
    reflexivity.
Qed.

Lemma place_of_app (c : Corner) (l l' : list Corner) :
  seen c l = true -> place_of c (l ++ l') = place_of c l.
Proof.
  unfold seen. induction l as [| d l IH]; simpl; [discriminate |].
  destruct (String.eqb (corner_key d) (corner_key c)); simpl; auto.
Qed.

Lemma place_of_new (c : Corner) (l : list Corner) :
  seen c l = false -> place_of c (l ++ [c]) = List.length l.
Proof.
  unfold seen. induction l as [| d l IH]; simpl.
  - rewrite String.eqb_refl. reflexivity.
  - destruct (String.eqb (corner_key d) (corner_key c)); simpl; [discriminate |].
    intros H. rewrite IH by exact H. reflexivity.
Qed.

Lemma seen_refl_snoc (c : Corner) (l : list Corner) : seen c (l ++ [c]) = true.
Proof.
  rewrite seen_app. unfold seen at 2. simpl.
  rewrite String.eqb_refl. apply orb_true_iff. right. reflexivity.
Qed.

(** A corner that was scanned is in the list of first occurrences. *)
Lemma seen_first_seen (cs : list Corner) :
  forall c, In c cs -> seen c (first_seen cs) = true.
Proof.
  induction cs as [| d cs IH] using rev_ind; intros c Hin; [destruct Hin |].
  rewrite first_seen_snoc. apply in_app_or in Hin.
  destruct (seen d (first_seen cs)) eqn:Hd.
  - destruct Hin as [Hin | [Heq | []]]; [auto | subst; exact Hd].
  - rewrite seen_app. apply orb_true_iff.
    destruct Hin as [Hin | [Heq | []]]; [left; auto | right; subst].
    unfold seen. simpl. rewrite String.eqb_refl. reflexivity.
Qed.

(** The list of first occurrences only grows at its end. *)
Lemma first_seen_app (cs more : list Corner) :
  exists tail, first_seen (cs ++ more) = (first_seen cs ++ tail)%list.
Proof.
  induction more as [| d more IH] using rev_ind.
  - exists []. rewrite !app_nil_r. reflexivity.
  - destruct IH as [tail IH]. rewrite app_assoc, first_seen_snoc, IH.
    destruct (seen d (first_seen cs ++ tail)).
    + exists tail. reflexivity.
    + exists (tail ++ [d])%list. rewrite app_assoc. reflexivity.
Qed.

Lemma place_of_stable (cs more : list Corner) (c : Corner) :
  In c cs -> place_of c (first_seen (cs ++ more)) = place_of c (first_seen cs).
Proof.
  intros Hin. destruct (first_seen_app cs more) as [tail ->].
  apply place_of_app. apply seen_first_seen. exact Hin.
Qed.


(** ** The extraction loops keep the cache in step with the scan *)

Section ExtractionInvariant.

Context {F : PyFloat}.
Variable mesh : Mesh.
Variable vs : list Element.

Lemma cache_inv_same (x x1 : Extraction) (cs : list Corner) :
  cache_inv vs x cs -> same_cache x x1 -> cache_inv vs x1 cs.
Proof.
  unfold cache_inv, same_cache.
  intros (a1 & a2 & a3) (b1 & b2 & b3 & b4 & b5 & b6).
  repeat split; congruence.
Qed.

Lemma loop_pass_inv mat tvi nv loop_index x tvi' nv' x' cs :
  cache_inv vs x cs ->
  loop_pass mesh mat (tvi, nv) loop_index x = (Ok (tvi', nv'), x') ->
  exists vd,
    vertex_data_at mesh loop_index = Some vd /\
    cache_inv vs x' (cs ++ [(mat, vd)]) /\
    tvi' = tvi ++ Py.int_str (place_of (mat, vd) (first_seen (cs ++ [(mat, vd)]))) ++ " " /\
    vertex_counter x' + nv = vertex_counter x + nv' /\
    indices_total x' = indices_total x /\
    triangles_element x' = triangles_element x /\
    subsets_element x' = subsets_element x.
Proof.
  intros Hinv H. apply loop_pass_ok in H.
  destruct H as (vd & x1 & Hvd & Hs & H).
  exists vd. split; [exact Hvd |].
  pose proof (cache_inv_same Hinv Hs) as Hinv1.
  destruct Hs as (s1 & s2 & s3 & s4 & s5 & s6).
  destruct Hinv1 as (i1 & i2 & i3).
  change (VertexItem vd mat) with (corner_key (mat, vd)) in H.
  rewrite i1, numbered_get in H. unfold cache_inv. rewrite !first_seen_snoc.
  destruct (seen (mat, vd) (first_seen cs)) eqn:Hseen.
  - destruct H as (-> & -> & ->). simpl.
    repeat split; try assumption; try congruence.
  - destruct H as (-> & -> & ->).
    rewrite place_of_new by exact Hseen.
    unfold cache_add; simpl.
    repeat split; try congruence; try lia.
    + rewrite i1, dict_set_new.
      * rewrite numbered_snoc, i2. reflexivity.
      * rewrite numbered_get, Hseen. reflexivity.
    + rewrite i2, length_app. simpl. lia.
    + rewrite children_append, i3, map_app, <- app_assoc. reflexivity.
Qed.

Lemma triangle_element_in_stable (cs more : list Corner) (t : Corner * Corner * Corner) :
  incl (corners_of [t]) cs ->
  triangle_element_in (first_seen (cs ++ more)) t = triangle_element_in (first_seen cs) t.
Proof.
  destruct t as [[a b] c]. unfold corners_of. simpl. intros Hin.
  rewrite !place_of_stable; [reflexivity | | |]; apply Hin; simpl; auto.
Qed.

Lemma triangle_elements_stable (cs more : list Corner) (l : list (Corner * Corner * Corner)) :
  incl (corners_of l) cs ->
  List.map (triangle_element_in (first_seen (cs ++ more))) l =
  List.map (triangle_element_in (first_seen cs)) l.
Proof.
  induction l as [| t l IH]; simpl; intros Hin; [reflexivity |].
  rewrite IH.
  - rewrite triangle_element_in_stable; [reflexivity |].
    intros c Hc. apply Hin. unfold corners_of in *. simpl in *.
    rewrite app_nil_r in Hc. apply in_or_app. left. exact Hc.
  - intros c Hc. apply Hin. unfold corners_of in *. simpl.
    apply in_or_app. right. exact Hc.
Qed.

Lemma triangle_pass_inv mat ni nv triangle x ni' nv' x' cs :
  cache_inv vs x cs ->
  triangle_pass mesh mat (ni, nv) triangle x = (Ok (ni', nv'), x') ->
  exists t cs',
    cs' = (cs ++ corners_of [t])%list /\
    triangle_corners mesh mat triangle = Some t /\
    cache_inv vs x' cs' /\
    children (triangles_element x') =
      (children (triangles_element x) ++ [triangle_element_in (first_seen cs') t])%list /\
    ni' = ni + 3 /\
    vertex_counter x' + nv = vertex_counter x + nv' /\
    indices_total x' = indices_total x /\
    subsets_element x' = subsets_element x.
Proof.
  intros Hinv H. unfold triangle_pass in H.
  destruct (loops triangle) as [[l0 l1] l2] eqn:Hl.
  apply bind_ok in H. destruct H as ([tvi0 nv0] & x0 & H0 & H).
  apply bind_ok in H. destruct H as ([tvi1 nv1] & x1 & H1 & H).
  apply bind_ok in H. destruct H as ([tvi2 nv2] & x2 & H2 & H).
  eapply loop_pass_inv in H0; [| exact Hinv].
  destruct H0 as (a & Ha & Ia & Ta & Ca & Fa1 & Fa2 & Fa3).
  eapply loop_pass_inv in H1; [| exact Ia].
  destruct H1 as (b & Hb & Ib & Tb & Cb & Fb1 & Fb2 & Fb3).
  eapply loop_pass_inv in H2; [| exact Ib].
  destruct H2 as (c & Hc & Ic & Tc & Cc & Fc1 & Fc2 & Fc3).
  run.
  match goal with E : (_, _) = (_, _) |- _ => inversion E; subst; clear E end.
  exists ((mat, a), (mat, b), (mat, c)),
         (((cs ++ [(mat, a)]) ++ [(mat, b)]) ++ [(mat, c)])%list.
  unfold triangle_corners. rewrite Hl, Ha, Hb, Hc.
  split; [unfold corners_of; simpl; rewrite <- !app_assoc; reflexivity |].
  split; [reflexivity |]. split; [exact Ic |].
  split.
  - simpl. rewrite children_append, Fc2, Fb2, Fa2. f_equal. f_equal.
    unfold triangle_element_in, triangle_element_of, _xml_write_string.
    rewrite triangle_text. simpl.
    replace (place_of (mat, a) (first_seen (((cs ++ [(mat, a)]) ++ [(mat, b)]) ++ [(mat, c)])))
      with (place_of (mat, a) (first_seen (cs ++ [(mat, a)]))).
    2:{ rewrite <- (app_assoc (cs ++ [(mat, a)])).
        symmetry. apply place_of_stable. apply in_or_app. right. simpl. auto. }
    replace (place_of (mat, b) (first_seen (((cs ++ [(mat, a)]) ++ [(mat, b)]) ++ [(mat, c)])))
      with (place_of (mat, b) (first_seen ((cs ++ [(mat, a)]) ++ [(mat, b)]))).
    2:{ symmetry. apply place_of_stable. apply in_or_app. right. simpl. auto. }
    reflexivity.
  - simpl. repeat split; try congruence; lia.
Qed.

Lemma triangles_loop_inv mat subset :
  forall ni nv x ni' nv' x' cs,
    cache_inv vs x cs ->
    triangles_loop mesh mat (ni, nv) subset x = (Ok (ni', nv'), x') ->
    exists l cs',
      cs' = (cs ++ corners_of l)%list /\
      subset_corners mesh mat subset = Some l /\
      cache_inv vs x' cs' /\
      children (triangles_element x') =
        (children (triangles_element x)
         ++ List.map (triangle_element_in (first_seen cs')) l)%list /\
      ni' = ni + 3 * List.length l /\
      vertex_counter x' + nv = vertex_counter x + nv' /\
      indices_total x' = indices_total x /\
      subsets_element x' = subsets_element x.
Proof.
  induction subset as [| triangle subset IH]; intros ni nv x ni' nv' x' cs Hinv H; simpl in H.
  - run. match goal with E : (_, _) = (_, _) |- _ => inversion E; subst; clear E end.
    exists [], cs. unfold corners_of. simpl. rewrite !app_nil_r.
    repeat split; auto; try lia; apply Hinv.
  - apply bind_ok in H. destruct H as ([ni1 nv1] & x1 & H1 & H).
    eapply triangle_pass_inv in H1; [| exact Hinv].
    destruct H1 as (t & cs1 & E1 & Ht & I1 & T1 & N1 & C1 & F1 & G1).
    eapply IH in H; [| exact I1].
    destruct H as (l & cs2 & E2 & Hl & I2 & T2 & N2 & C2 & F2 & G2).
    exists (t :: l), cs2. simpl. rewrite Ht, Hl.
    split.
    { rewrite E2, E1. unfold corners_of. simpl. rewrite app_nil_r, <- app_assoc. reflexivity. }
    split; [reflexivity |]. split; [exact I2 |].
    split.
    + rewrite T2, T1, <- app_assoc. simpl. f_equal. f_equal.
      rewrite E2. symmetry. apply triangle_element_in_stable.
      rewrite E1. intros c Hc. apply in_or_app. right. exact Hc.
    + repeat split; try congruence; lia.
Qed.

Lemma corners_of_app (l l' : list (Corner * Corner * Corner)) :
  corners_of (l ++ l') = (corners_of l ++ corners_of l')%list.
Proof. unfold corners_of. apply flat_map_app. Qed.

Lemma subset_pass_inv mat subset x x' cs :
  cache_inv vs x cs ->
  subset_pass mesh (mat, subset) x = (Ok tt, x') ->
  exists l cs' nv,
    cs' = (cs ++ corners_of l)%list /\
    subset_corners mesh mat subset = Some l /\
    cache_inv vs x' cs' /\
    children (triangles_element x') =
      (children (triangles_element x)
       ++ List.map (triangle_element_in (first_seen cs')) l)%list /\
    children (subsets_element x') =
      (children (subsets_element x)
       ++ [subset_element_of (indices_total x) (vertex_counter x)
                             (3 * List.length l) nv])%list /\
    indices_total x' = indices_total x + 3 * List.length l /\
    vertex_counter x' = vertex_counter x + nv.
Proof.
  intros Hinv H. unfold subset_pass in H.
  apply bind_ok in H. destruct H as (x0 & x0' & Hg & H).
  apply get_ok in Hg. destruct Hg; subst x0 x0'.
  apply bind_ok in H. destruct H as ([ni nv] & x1 & H1 & H).
  eapply triangles_loop_inv in H1; [| exact Hinv].
  destruct H1 as (l & cs' & E & Hl & I1 & T1 & N1 & C1 & F1 & G1).
  run. exists l, (cs ++ corners_of l)%list, nv. simpl in *.
  split; [reflexivity |]. split; [exact Hl |].
  split; [exact I1 |]. split; [exact T1 |].
  split; [| split; lia].
  rewrite children_append, G1. reflexivity.
Qed.

Lemma subsets_loop_inv triangle_subsets :
  forall x x' cs,
    cache_inv vs x cs ->
    for_each triangle_subsets (subset_pass mesh) x = (Ok tt, x') ->
    exists T cs' sizes,
      cs' = (cs ++ corners_of T)%list /\
      scan mesh triangle_subsets = Some T /\
      cache_inv vs x' cs' /\
      children (triangles_element x') =
        (children (triangles_element x)
         ++ List.map (triangle_element_in (first_seen cs')) T)%list /\
      children (subsets_element x') =
        (children (subsets_element x)
         ++ packed_subsets (indices_total x) (vertex_counter x) sizes)%list /\
      List.length sizes = List.length triangle_subsets.
Proof.
  induction triangle_subsets as [| [mat subset] rest IH]; intros x x' cs Hinv H; simpl in H.
  - run. exists [], cs, []. unfold corners_of. simpl. rewrite !app_nil_r.
    repeat split; auto; apply Hinv.
  - apply bind_ok in H. destruct H as ([] & x1 & H1 & H).
    eapply subset_pass_inv in H1; [| exact Hinv].
    destruct H1 as (l & cs1 & nv & E1 & Hl & I1 & T1 & S1 & N1 & C1).
    eapply IH in H; [| exact I1].
    destruct H as (T & cs2 & sizes & E2 & HT & I2 & T2 & S2 & Hlen).
    exists (l ++ T)%list, cs2, ((3 * List.length l, nv) :: sizes). simpl.
    rewrite Hl, HT.
    split; [rewrite E2, E1, corners_of_app, app_assoc; reflexivity |].
    split; [reflexivity |]. split; [exact I2 |].
    split; [| split].
    + rewrite T2, T1, map_app, <- app_assoc. f_equal. f_equal.
      rewrite E2. symmetry. apply triangle_elements_stable.
      rewrite E1. intros c Hc. apply in_or_app. right. exact Hc.
    + rewrite S2, S1, <- app_assoc, N1, C1. reflexivity.
    + rewrite Hlen. reflexivity.
Qed.

(** What the extraction leaves in the three elements, when it starts on
    the elements [v0], [t0] and [s0]. *)
Lemma extract_spec triangle_subsets v0 t0 s0 x' :
  extract mesh triangle_subsets (extraction_start v0 t0 s0) = (Ok tt, x') ->
  vs = children v0 ->
  exists T sizes,
    scan mesh triangle_subsets = Some T /\
    children (vertices_element x') =
      (children v0 ++ List.map (fun c => vertex_element_of (snd c))
                               (first_seen (corners_of T)))%list /\
    children (triangles_element x') =
      (children t0 ++ List.map (triangle_element_in (first_seen (corners_of T))) T)%list /\
    children (subsets_element x') = (children s0 ++ packed_subsets 0 0 sizes)%list /\
    List.length sizes = List.length triangle_subsets /\
    attr_nat (vertices_element x') "count" = Some (List.length (first_seen (corners_of T))).
Proof.
  intros H Hvs. unfold extract in H.
  apply bind_ok in H. destruct H as ([] & x1 & H1 & H).
  eapply subsets_loop_inv with (cs := []) in H1.
  2:{ unfold cache_inv, extraction_start, numbered. simpl.
      rewrite app_nil_r. auto. }
  destruct H1 as (T & cs' & sizes & E & HT & (I1 & I2 & I3) & T1 & S1 & Hlen).
  simpl in E. subst cs'. run. simpl in *.
  exists T, sizes. split; [exact HT |].
  unfold _xml_write_bool, _xml_write_int.
  rewrite !children_set.
  split; [exact I3 |]. split; [exact T1 |]. split; [exact S1 |].
  split; [exact Hlen |].
  unfold attr_nat, ET.get.
  destruct (vertices_element x1) as [g a tx tl c]. simpl.
  rewrite !dict_get_set_other by reflexivity.
  rewrite dict_get_set_same, int_parse_str, I2. reflexivity.
Qed.

End ExtractionInvariant.

(** ** Subsets follow one another *)

Lemma subset_element_attrs (fi fv ni nv : nat) :
  attr_nat (subset_element_of fi fv ni nv) "firstIndex" = Some fi /\
  attr_nat (subset_element_of fi fv ni nv) "firstVertex" = Some fv /\
  attr_nat (subset_element_of fi fv ni nv) "numIndices" = Some ni /\
  attr_nat (subset_element_of fi fv ni nv) "numVertices" = Some nv.
Proof.
  unfold attr_nat, subset_element_of, _xml_write_int, ET.get. simpl.
  rewrite !int_parse_str. auto.
Qed.

Lemma packed_consecutive (sizes : list (nat * nat)) :
  forall i v k e1 e2,
    nth_error (packed_subsets i v sizes) k = Some e1 ->
    nth_error (packed_subsets i v sizes) (S k) = Some e2 ->
    exists fi fv ni nv ni' nv',
      e1 = subset_element_of fi fv ni nv /\
      e2 = subset_element_of (fi + ni) (fv + nv) ni' nv'.
Proof.
  induction sizes as [| [ni nv] sizes IH]; intros i v k e1 e2 H1 H2.
  - destruct k; discriminate H1.
  - destruct k as [| k]; simpl in H1, H2.
    + inversion H1; subst e1. destruct sizes as [| [ni' nv'] sizes']; simpl in H2.
      * discriminate H2.
      * inversion H2; subst e2. exists i, v, ni, nv, ni', nv'. auto.
    + eapply IH; eassumption.
Qed.

Lemma packed_subsets_contiguous (sizes : list (nat * nat)) (i v k : nat) (e1 e2 : Element) :
  nth_error (packed_subsets i v sizes) k = Some e1 ->
  nth_error (packed_subsets i v sizes) (S k) = Some e2 ->
  exists fi ni fv nv,
    attr_nat e1 "firstIndex" = Some fi /\ attr_nat e1 "numIndices" = Some ni /\
    attr_nat e1 "firstVertex" = Some fv /\ attr_nat e1 "numVertices" = Some nv /\
    attr_nat e2 "firstIndex" = Some (fi + ni) /\
    attr_nat e2 "firstVertex" = Some (fv + nv).
Proof.
  intros H1 H2.
  destruct (packed_consecutive _ _ _ _ H1 H2) as (fi & fv & ni & nv & ni' & nv' & -> & ->).
  exists fi, ni, fv, nv.
  destruct (subset_element_attrs fi fv ni nv) as (a1 & a2 & a3 & a4).
  destruct (subset_element_attrs (fi + ni) (fv + nv) ni' nv') as (b1 & b2 & b3 & b4).
  auto 10.
Qed.

(** ** A compilation that succeeds ran the extraction *)

Lemma run_extraction_ok (A : Type) (m : E A) (start : Extraction) st a x st' :
  run_extraction m start st = (Ok (a, x), st') ->
  m start = (Ok a, x).
Proof.
  unfold run_extraction. destruct (m start) as [[a0 | e] x0]; intros H; run.
  - match goal with E : (_, _) = (_, _) |- _ => inversion E; subst; reflexivity end.
  - match goal with E : raise _ _ = _ |- _ => discriminate E end.
Qed.

Section CompileFacts.

Context {F : PyFloat} {MO : MatrixOps} {MU : Mathutils F MO} {BM : BMesh F MO}.
Variables (host : Host) (settings : Settings) (_filepath : string).
Variables (_global_matrix : Matrix) (scale_length : float).
Variable i3d_default_material : Material.

Lemma compile_shape_ok this data evaluated st shape_id st' :
  compile_shape host settings _filepath _global_matrix scale_length
                i3d_default_material this data evaluated st = (Ok shape_id, st') ->
  exists mesh triangle_subsets x shape_root,
    extract mesh triangle_subsets
            (extraction_start
               (ET.new "Vertices")
               (_xml_write_int (ET.new "Triangles") "count"
                               (List.length (loop_triangles mesh)))
               (_xml_write_int (ET.new "Subsets") "count"
                               (List.length triangle_subsets)))
    = (Ok tt, x) /\
    shape_id = ids_shape st /\
    Shapes st' =
      ET.append shape_root
        (ET.set_children
           (_xml_write_int
              (_xml_write_string (ET.new "IndexedTriangleSet") "name" (mesh_name data))
              "shapeId" shape_id)
           [vertices_element x; triangles_element x; subsets_element x]).
Proof.
  unfold compile_shape. intros H.
  apply bind_ok in H. destruct H as (st0 & st0' & Hg & H).
  apply get_ok in Hg. destruct Hg; subst st0 st0'.
  apply bind_ok in H. destruct H as ([] & st1 & H1 & H).
  apply bind_ok in H. destruct H as ([] & st2 & H2 & H).
  apply bind_ok in H. destruct H as ([] & st3 & H3 & H).
  apply bind_ok in H. destruct H as (mesh & st4 & H4 & H).
  apply bind_ok in H. destruct H as (ts & st5 & H5 & H).
  apply bind_ok in H. destruct H as ([[] x] & st6 & H6 & H).
  apply run_extraction_ok in H6.
  run. simpl.
  assert (Hlen : List.length (loop_triangles mesh) =
                 List.length (loop_triangles
                   (calc_normals_split (calc_loop_triangles
                     (let m := transform
                        (if apply_unit_scale settings
                         then matmul (Matrix_Scale scale_length) _global_matrix
                         else _global_matrix)
                        (if apply_modifiers settings then evaluated else data) in
                      if is_negative
                           (if apply_unit_scale settings
                            then matmul (Matrix_Scale scale_length) _global_matrix
                            else _global_matrix)
                      then flip_normals m else m))))).
  { destruct (Nat.eqb _ 0) in H4; run; reflexivity. }
  eexists mesh, ts, x, _. split; [| split; [reflexivity | reflexivity]].
  rewrite Hlen. exact H6.
Qed.

End CompileFacts.


(** ** Cutting strings at a character *)

Lemma contains_app (c : ascii) (a b : string) :
  Py.contains c (a ++ b) = Py.contains c a || Py.contains c b.
Proof.
  induction a as [| x a IH]; simpl; [reflexivity |].
  rewrite IH, orb_assoc. reflexivity.
Qed.

Lemma rsplit_none (c : ascii) (s : string) :
  Py.contains c s = false -> rsplit c s = None.
Proof.
  induction s as [| a s IH]; simpl; [reflexivity |].
  intros H. apply orb_false_iff in H. destruct H as [Ha Hs].
  rewrite IH by exact Hs. rewrite Ha. reflexivity.
Qed.

Lemma rsplit_app (c : ascii) (x y : string) :
  Py.contains c y = false -> rsplit c (x ++ String c y) = Some (x, y).
Proof.
  intros Hy. induction x as [| a x IH]; simpl.
  - rewrite rsplit_none by exact Hy. rewrite Ascii.eqb_refl. reflexivity.
  - rewrite IH. reflexivity.
Qed.

Lemma rsplit_inj (c : ascii) (x y x' y' : string) :
  Py.contains c y = false -> Py.contains c y' = false ->
  x ++ String c y = x' ++ String c y' -> x = x' /\ y = y'.
Proof.
  intros Hy Hy' H.
  assert (E : rsplit c (x ++ String c y) = rsplit c (x' ++ String c y')) by (rewrite H; reflexivity).
  rewrite !rsplit_app in E by assumption.
  inversion E. auto.
Qed.

Lemma lsplit_app (c : ascii) (x y : string) :
  Py.contains c x = false -> lsplit c (x ++ String c y) = Some (x, y).
Proof.
  induction x as [| a x IH]; simpl; intros Hx.
  - rewrite Ascii.eqb_refl. reflexivity.
  - apply orb_false_iff in Hx. destruct Hx as [Ha Hx].
    rewrite Ha, IH by exact Hx. reflexivity.
Qed.

Lemma lsplit_inj (c : ascii) (x y x' y' : string) :
  Py.contains c x = false -> Py.contains c x' = false ->
  x ++ String c y = x' ++ String c y' -> x = x' /\ y = y'.
Proof.
  intros Hx Hx' H.
  assert (E : lsplit c (x ++ String c y) = lsplit c (x' ++ String c y')) by (rewrite H; reflexivity).
  rewrite !lsplit_app in E by assumption.
  inversion E. auto.
Qed.

(** ** Plain text *)

Lemma plain_char_facts (a : ascii) :
  plain_char a = true ->
  Ascii.eqb a " " = false /\ Ascii.eqb a "{" = false /\
  Ascii.eqb a Py.squote = false /\
  Py.repr_char Py.squote a = String a EmptyString.
Proof.
  destruct a as [b0 b1 b2 b3 b4 b5 b6 b7].
  destruct b0, b1, b2, b3, b4, b5, b6, b7; intros H;
    try discriminate H; repeat split; reflexivity.
Qed.

Lemma plain_contains (s : string) :
  plain s = true ->
  Py.contains " " s = false /\ Py.contains "{" s = false /\
  Py.contains Py.squote s = false.
Proof.
  induction s as [| a s IH]; simpl; [auto |].
  intros H. apply andb_true_iff in H. destruct H as [Ha Hs].
  destruct (plain_char_facts a Ha) as (h1 & h2 & h3 & _).
  destruct (IH Hs) as (i1 & i2 & i3).
  rewrite h1, h2, h3, i1, i2, i3. auto.
Qed.

Lemma plain_app (a b : string) : plain (a ++ b) = plain a && plain b.
Proof.
  induction a as [| x a IH]; simpl; [reflexivity |].
  rewrite IH, andb_assoc. reflexivity.
Qed.

Lemma string_of_uint_plain (d : Decimal.uint) : plain (NilEmpty.string_of_uint d) = true.
Proof. induction d; simpl; auto. Qed.

Lemma int_str_plain (k : nat) : plain (Py.int_str k) = true.
Proof.
  unfold Py.int_str, NilZero.string_of_uint.
  destruct (Nat.to_uint k) eqn:E; try reflexivity;
    rewrite <- E; apply string_of_uint_plain.
Qed.

Lemma spaced_char_facts (a : ascii) :
  plain_char a || Ascii.eqb a " " = true ->
  Ascii.eqb a "{" = false /\ Ascii.eqb a Py.squote = false /\
  Py.repr_char Py.squote a = String a EmptyString.
Proof.
  destruct a as [b0 b1 b2 b3 b4 b5 b6 b7].
  destruct b0, b1, b2, b3, b4, b5, b6, b7; intros H;
    try discriminate H; repeat split; reflexivity.
Qed.

Lemma spaced_facts (s : string) :
  spaced s = true ->
  Py.contains "{" s = false /\ Py.contains Py.squote s = false /\
  Py.repr_body Py.squote s = s.
Proof.
  induction s as [| a s IH]; simpl; [auto |].
  intros H. apply andb_true_iff in H. destruct H as [Ha Hs].
  destruct (spaced_char_facts a Ha) as (h1 & h2 & h3).
  destruct (IH Hs) as (i1 & i2 & i3).
  rewrite h1, h2, h3, i1, i2, i3. auto.
Qed.

Lemma spaced_app (a b : string) : spaced (a ++ b) = spaced a && spaced b.
Proof.
  induction a as [| x a IH]; simpl; [reflexivity |].
  rewrite IH, andb_assoc. reflexivity.
Qed.

Lemma plain_spaced (s : string) : plain s = true -> spaced s = true.
Proof.
  induction s as [| a s IH]; simpl; [reflexivity |].
  intros H. apply andb_true_iff in H. destruct H as [Ha Hs].
  rewrite Ha, IH by exact Hs. reflexivity.
Qed.

(** [repr] of plain text with spaces puts it between single quotes. *)
Lemma repr_spaced (s : string) :
  spaced s = true -> Py.repr s = String Py.squote (s ++ String Py.squote EmptyString).
Proof.
  intros H. destruct (spaced_facts s H) as (_ & Hq & Hb).
  unfold Py.repr, Py.repr_quote. rewrite Hq. simpl. rewrite Hb. reflexivity.
Qed.

(** ** The key of a vertex item determines its fields *)

Lemma plain_uv_spaced (kv : string * string) :
  plain_uv kv -> spaced (fst kv) = true /\ spaced (snd kv) = true.
Proof.
  intros (Hk & u & v & Hu & Hv & E). split.
  - apply plain_spaced. exact Hk.
  - rewrite E, !spaced_app. rewrite (plain_spaced u Hu), (plain_spaced v Hv). reflexivity.
Qed.

Lemma dict_item_str_plain (kv : string * string) :
  plain_uv kv ->
  Py.dict_item_str kv =
  String Py.squote (fst kv ++ String Py.squote (": " ++ String Py.squote (snd kv ++ String Py.squote EmptyString))).
Proof.
  intros H. destruct (plain_uv_spaced H) as [Hk Hv].
  unfold Py.dict_item_str. rewrite !repr_spaced by assumption.
  simpl. rewrite append_assoc. reflexivity.
Qed.


Lemma join_cons (sep x : string) (r : list string) :
  Py.join sep (x :: r) =
  x ++ match r with [] => "" | _ => sep ++ Py.join sep r end.
Proof. destruct r; simpl; [rewrite append_nil_r |]; reflexivity. Qed.

Lemma item_then (kv : string * string) (rest : string) :
  plain_uv kv ->
  Py.dict_item_str kv ++ rest =
  String Py.squote
    (fst kv ++ String Py.squote
       (": " ++ String Py.squote (snd kv ++ String Py.squote rest))).
Proof.
  intros H. rewrite dict_item_str_plain by exact H.
  simpl. rewrite append_assoc. simpl. rewrite append_assoc. reflexivity.
Qed.

Lemma items_then_cons (kv : string * string) (r : list (string * string)) (closing : string) :
  plain_uv kv ->
  items_then (kv :: r) closing =
  String Py.squote
    (fst kv ++ String Py.squote
       (": " ++ String Py.squote
          (snd kv ++ String Py.squote
             (match r with
              | [] => closing
              | _ => ", " ++ items_then r closing
              end)))).
Proof.
  intros H. unfold items_then. simpl List.map. rewrite join_cons, append_assoc.
  rewrite item_then by exact H.
  destruct r; simpl; [reflexivity |].
  reflexivity.
Qed.

Lemma items_then_inj (d : list (string * string)) :
  forall d',
    Forall plain_uv d -> Forall plain_uv d' ->
    items_then d "}" = items_then d' "}" -> d = d'.
Proof.
  induction d as [| [k v] r IH]; intros [| [k' v'] r'] Hd Hd' H.
  - reflexivity.
  - inversion Hd'; subst. rewrite items_then_cons in H by assumption. discriminate H.
  - inversion Hd; subst. rewrite items_then_cons in H by assumption. discriminate H.
  - inversion Hd as [| ? ? Hkv Hr]; subst. inversion Hd' as [| ? ? Hkv' Hr']; subst.
    rewrite !items_then_cons in H by assumption. simpl fst in H. simpl snd in H.
    destruct (plain_uv_spaced Hkv) as [Sk Sv]. destruct (plain_uv_spaced Hkv') as [Sk' Sv'].
    simpl in Sk, Sv, Sk', Sv'.
    destruct (spaced_facts _ Sk) as (_ & Qk & _). destruct (spaced_facts _ Sv) as (_ & Qv & _).
    destruct (spaced_facts _ Sk') as (_ & Qk' & _). destruct (spaced_facts _ Sv') as (_ & Qv' & _).
    injection H as H.
    apply lsplit_inj in H; [| assumption | assumption]. destruct H as [-> H].
    simpl in H. injection H as H.
    apply lsplit_inj in H; [| assumption | assumption]. destruct H as [-> H].
    f_equal.
    destruct r as [| kv1 r1], r' as [| kv1' r1'].
    + reflexivity.
    + simpl in H. discriminate H.
    + simpl in H. discriminate H.
    + simpl in H. injection H as H. apply IH; assumption.
Qed.

Lemma items_then_no_brace (d : list (string * string)) :
  Forall plain_uv d -> Py.contains "{" (items_then d "}") = false.
Proof.
  induction d as [| [k v] r IH]; intros Hd.
  - reflexivity.
  - inversion Hd as [| ? ? Hkv Hr]; subst.
    rewrite items_then_cons by exact Hkv. simpl fst. simpl snd.
    destruct (plain_uv_spaced Hkv) as [Sk Sv]. simpl in Sk, Sv.
    destruct (spaced_facts _ Sk) as (Bk & _ & _). destruct (spaced_facts _ Sv) as (Bv & _ & _).
    simpl. rewrite contains_app, Bk. simpl. rewrite contains_app, Bv. simpl.
    destruct r; [reflexivity |]. simpl. apply IH. exact Hr.
Qed.

Lemma glue_inj (a a' w w' : string) :
  plain w = true -> plain w' = true -> glue a w = glue a' w' -> a = a' /\ w = w'.
Proof.
  intros Hw Hw' H. unfold glue in H.
  apply rsplit_inj in H; [exact H | |]; apply plain_contains; assumption.
Qed.

Lemma key_shape (m x y z x' y' z' : string) (u : list (string * string)) :
  VertexItem {| vd_p := x ++ " " ++ y ++ " " ++ z;
                vd_n := x' ++ " " ++ y' ++ " " ++ z';
                vd_uvs := u |} m
  = glue (glue (glue (glue (glue (glue (glue m x) y) z) x') y') z') ""
    ++ String "{" (items_then u "}").
Proof.
  unfold VertexItem, glue, Py.dict_str, items_then. simpl.
  repeat rewrite append_assoc. simpl.
  repeat (rewrite append_assoc; simpl). reflexivity.
Qed.

(** Two vertex items with the same string have the same material, the
    same position, the same normal and the same UV set. *)
Lemma key_injective (a b : VertexData) (m m' : string) :
  plain_data a -> plain_data b ->
  VertexItem a m = VertexItem b m' -> m = m' /\ a = b.
Proof.
  destruct a as [pa na ua], b as [pb nb ub].
  intros ((x1 & y1 & z1 & X1 & Y1 & Z1 & Ep) & (x2 & y2 & z2 & X2 & Y2 & Z2 & En) & Hu)
         ((x3 & y3 & z3 & X3 & Y3 & Z3 & Ep') & (x4 & y4 & z4 & X4 & Y4 & Z4 & En') & Hu') H.
  cbn [vd_p vd_n vd_uvs] in *. subst pa na pb nb.
  rewrite !key_shape in H.
  apply rsplit_inj in H; [| apply items_then_no_brace; assumption
                           | apply items_then_no_brace; assumption].
  destruct H as [H Hitems].
  apply items_then_inj in Hitems; [| assumption | assumption]. subst ub.
  apply glue_inj in H; [| reflexivity | reflexivity]. destruct H as [H _].
  apply glue_inj in H; [| assumption | assumption]. destruct H as [H ->].
  apply glue_inj in H; [| assumption | assumption]. destruct H as [H ->].
  apply glue_inj in H; [| assumption | assumption]. destruct H as [H ->].
  apply glue_inj in H; [| assumption | assumption]. destruct H as [H ->].
  apply glue_inj in H; [| assumption | assumption]. destruct H as [H ->].
  apply glue_inj in H; [| assumption | assumption]. destruct H as [-> ->].
  auto.
Qed.

(** ** The data of a plain mesh are plain *)

Lemma Forall_dict_set (P : string * string -> Prop) (d : list (string * string)) (k v : string) :
  Forall P d -> P (k, v) -> Forall P (Py.dict_set String.eqb d k v).
Proof.
  intros Hd Hkv. induction Hd as [| [k0 v0] d H0 Hd IH]; simpl.
  - constructor; [exact Hkv | constructor].
  - destruct (String.eqb k0 k) eqn:E.
    + apply String.eqb_eq in E. subst k0. constructor; assumption.
    + constructor; assumption.
Qed.

Section PlainMesh.

Context {F : PyFloat}.
Variable mesh : Mesh.
Hypothesis mesh_is_plain : mesh_plain mesh = true.

Lemma plain3_three (v : float * float * float) :
  plain3 v = true -> three_plain (fmt3 6 v).
Proof.
  destruct v as [[x y] z]. unfold plain3, fmt3. intros H.
  apply andb_true_iff in H. destruct H as [H Hz].
  apply andb_true_iff in H. destruct H as [Hx Hy].
  exists (fmt 6 x), (fmt 6 y), (fmt 6 z). auto.
Qed.

Lemma uvs_at_plain layers :
  forall count loop_index uvs uvs',
    forallb (fun uv =>
               forallb (fun d => plain (fmt 6 (fst d)) && plain (fmt 6 (snd d))) (data uv))
            layers = true ->
    Forall plain_uv uvs ->
    uvs_at count layers loop_index uvs = Some uvs' ->
    Forall plain_uv uvs'.
Proof.
  induction layers as [| uv layers IH]; intros count loop_index uvs uvs' Hl Hu H; simpl in H.
  - inversion H; subst. exact Hu.
  - simpl in Hl. apply andb_true_iff in Hl. destruct Hl as [Huv Hl].
    destruct (Nat.ltb count 4).
    + destruct (nth_error (data uv) loop_index) as [d |] eqn:Hd; [| discriminate H].
      eapply IH in H; [exact H | exact Hl |].
      apply Forall_dict_set; [exact Hu |].
      apply nth_error_In in Hd.
      rewrite forallb_forall in Huv. specialize (Huv d Hd).
      apply andb_true_iff in Huv. destruct Huv as [H1 H2].
      split; simpl.
      * apply int_str_plain.
      * exists (fmt 6 (fst d)), (fmt 6 (snd d)). auto.
    + eapply IH in H; eassumption.
Qed.

Lemma vertex_data_at_plain loop_index vd :
  vertex_data_at mesh loop_index = Some vd -> plain_data vd.
Proof.
  unfold vertex_data_at. intros H.
  unfold mesh_plain in mesh_is_plain.
  apply andb_true_iff in mesh_is_plain. destruct mesh_is_plain as [Hvl Huv].
  apply andb_true_iff in Hvl. destruct Hvl as [Hv Hl].
  destruct (nth_error (mesh_loops mesh) loop_index) as [l |] eqn:El; [| discriminate H].
  destruct (nth_error (vertices mesh) (vertex_index l)) as [v |] eqn:Ev; [| discriminate H].
  destruct (uvs_at 0 (uv_layers mesh) loop_index []) as [uvs |] eqn:Eu; [| discriminate H].
  inversion H; subst vd. unfold plain_data; simpl.
  apply nth_error_In in El, Ev.
  rewrite forallb_forall in Hv, Hl.
  split; [apply plain3_three, Hv, Ev |].
  split; [apply plain3_three, Hl, El |].
  eapply uvs_at_plain; [exact Huv | constructor | exact Eu].
Qed.

Lemma triangle_corners_plain mat triangle t :
  triangle_corners mesh mat triangle = Some t ->
  forall c, In c (corners_of [t]) -> plain_data (snd c).
Proof.
  unfold triangle_corners. destruct (loops triangle) as [[l0 l1] l2].
  destruct (vertex_data_at mesh l0) as [a |] eqn:Ea; [| discriminate].
  destruct (vertex_data_at mesh l1) as [b |] eqn:Eb; [| discriminate].
  destruct (vertex_data_at mesh l2) as [c0 |] eqn:Ec; [| discriminate].
  intros H c Hc. inversion H; subst t. unfold corners_of in Hc. simpl in Hc.
  destruct Hc as [<- | [<- | [<- | []]]]; simpl; eauto using vertex_data_at_plain.
Qed.

Lemma subset_corners_plain mat subset :
  forall l, subset_corners mesh mat subset = Some l ->
            forall c, In c (corners_of l) -> plain_data (snd c).
Proof.
  induction subset as [| triangle subset IH]; intros l H c Hc; simpl in H.
  - inversion H; subst. destruct Hc.
  - destruct (triangle_corners mesh mat triangle) as [t |] eqn:Et; [| discriminate H].
    destruct (subset_corners mesh mat subset) as [l' |] eqn:El; [| discriminate H].
    inversion H; subst l.
    change (t :: l') with ([t] ++ l')%list in Hc. rewrite corners_of_app in Hc.
    apply in_app_or in Hc. destruct Hc as [Hc | Hc].
    + eapply triangle_corners_plain; eassumption.
    + eapply IH; [reflexivity | exact Hc].
Qed.

Lemma scan_plain triangle_subsets :
  forall T, scan mesh triangle_subsets = Some T ->
            forall c, In c (corners_of T) -> plain_data (snd c).
Proof.
  induction triangle_subsets as [| [mat subset] rest IH]; intros T H c Hc; simpl in H.
  - inversion H; subst. destruct Hc.
  - destruct (subset_corners mesh mat subset) as [l |] eqn:El; [| discriminate H].
    destruct (scan mesh rest) as [T' |] eqn:ET; [| discriminate H].
    inversion H; subst T. rewrite corners_of_app in Hc.
    apply in_app_or in Hc. destruct Hc as [Hc | Hc].
    + eapply subset_corners_plain; eassumption.
    + eapply IH; [reflexivity | exact Hc].
Qed.

End PlainMesh.

(** ** Places in the list of first occurrences *)

Lemma first_seen_incl (l : list Corner) :
  forall e, In e (first_seen l) -> In e l.
Proof.
  induction l as [| c l IH] using rev_ind; intros e He.
  - destruct He.
  - rewrite first_seen_snoc in He. apply in_or_app.
    destruct (seen c (first_seen l)).
    + left. auto.
    + apply in_app_or in He. destruct He as [He | He]; [left; auto | right; exact He].
Qed.

Lemma seen_false_not_in (c : Corner) (l : list Corner) :
  seen c l = false -> ~ In (corner_key c) (List.map corner_key l).
Proof.
  unfold seen. induction l as [| d l IH]; simpl; intros H; [tauto |].
  apply orb_false_iff in H. destruct H as [Hd Hl].
  intros [E | Hin]; [| exact (IH Hl Hin)].
  rewrite E, String.eqb_refl in Hd. discriminate Hd.
Qed.

Lemma NoDup_snoc (A : Type) (l : list A) (x : A) :
  NoDup l -> ~ In x l -> NoDup (l ++ [x]).
Proof.
  induction l as [| y l IH]; simpl; intros Hl Hx.
  - constructor; [tauto | constructor].
  - inversion Hl as [| ? ? Hy Hl']; subst. constructor.
    + intros Hin. apply in_app_or in Hin. destruct Hin as [Hin | [E | []]]; [tauto |].
      subst. tauto.
    + apply IH; tauto.
Qed.

Lemma first_seen_keys_nodup (l : list Corner) :
  NoDup (List.map corner_key (first_seen l)).
Proof.
  induction l as [| c l IH] using rev_ind.
  - constructor.
  - rewrite first_seen_snoc. destruct (seen c (first_seen l)) eqn:Hs; [exact IH |].
    rewrite map_app. simpl.
    apply NoDup_snoc; [exact IH | apply seen_false_not_in; exact Hs].
Qed.

Lemma place_of_nth (c : Corner) (l : list Corner) :
  seen c l = true ->
  exists e, nth_error l (place_of c l) = Some e /\ corner_key e = corner_key c.
Proof.
  unfold seen. induction l as [| d l IH]; simpl; [discriminate |].
  destruct (String.eqb (corner_key d) (corner_key c)) eqn:E; simpl.
  - intros _. exists d. split; [reflexivity | apply String.eqb_eq; exact E].
  - exact IH.
Qed.

Lemma place_of_key (c d : Corner) (l : list Corner) :
  corner_key c = corner_key d -> place_of c l = place_of d l.
Proof.
  intros E. induction l as [| e l IH]; simpl; [reflexivity |].
  rewrite E, IH. reflexivity.
Qed.

Lemma corner_key_injective (c d : Corner) :
  plain_data (snd c) -> plain_data (snd d) -> corner_key c = corner_key d -> c = d.
Proof.
  destruct c as [m a], d as [m' b]. unfold corner_key. simpl.
  intros Ha Hb H. apply key_injective in H; [| assumption | assumption].
  destruct H as [-> ->]. reflexivity.
Qed.

Lemma seen_key (c d : Corner) (l : list Corner) :
  corner_key c = corner_key d -> seen c l = seen d l.
Proof. intros E. unfold seen. rewrite E. reflexivity. Qed.

Lemma seen_in_first_seen (c : Corner) (cs : list Corner) :
  seen c cs = true -> seen c (first_seen cs) = true.
Proof.
  intros H. unfold seen in H. apply existsb_exists in H.
  destruct H as (d & Hd & E). apply String.eqb_eq in E.
  rewrite (seen_key c d) by (symmetry; exact E).
  apply seen_first_seen. exact Hd.
Qed.

Lemma seen_in (c : Corner) (l : list Corner) : In c l -> seen c l = true.
Proof.
  intros H. unfold seen. apply existsb_exists. exists c.
  split; [exact H | apply String.eqb_refl].
Qed.

Lemma place_of_lt (c : Corner) (l : list Corner) :
  seen c l = true -> place_of c l < List.length l.
Proof.
  unfold seen. induction l as [| d l IH]; simpl; [discriminate |].
  destruct (String.eqb (corner_key d) (corner_key c)); simpl; [lia |].
  intros H. specialize (IH H). lia.
Qed.

(** The list of first occurrences is in the order in which the keys are
    first met. *)
Lemma first_seen_order (cs : list Corner) :
  forall i j e1 e2,
    nth_error (first_seen cs) i = Some e1 ->
    nth_error (first_seen cs) j = Some e2 ->
    i < j ->
    place_of e1 cs < place_of e2 cs.
Proof.
  induction cs as [| c cs IH] using rev_ind; intros i j e1 e2 H1 H2 Hij.
  - destruct i; discriminate H1.
  - rewrite first_seen_snoc in H1, H2.
    assert (Hold : forall k e, nth_error (first_seen cs) k = Some e ->
                               place_of e (cs ++ [c]) = place_of e cs /\
                               place_of e cs < List.length cs).
    { intros k e He. apply nth_error_In in He. apply first_seen_incl in He.
      apply seen_in in He. split; [apply place_of_app | apply place_of_lt]; exact He. }
    destruct (seen c (first_seen cs)) eqn:Hs.
    + destruct (Hold _ _ H1) as [-> _]. destruct (Hold _ _ H2) as [-> _].
      eapply IH; eassumption.
    + assert (Hi : i < List.length (first_seen cs)).
      { assert (j < List.length (first_seen cs ++ [c]))
          by (apply nth_error_Some; rewrite H2; discriminate).
        rewrite length_app in H. simpl in H. lia. }
      rewrite nth_error_app1 in H1 by exact Hi.
      destruct (Hold _ _ H1) as [-> Hlt].
      destruct (Nat.lt_ge_cases j (List.length (first_seen cs))) as [Hj | Hj].
      * rewrite nth_error_app1 in H2 by exact Hj.
        destruct (Hold _ _ H2) as [-> _]. eapply IH; eassumption.
      * rewrite nth_error_app2 in H2 by exact Hj.
        destruct (j - List.length (first_seen cs)) as [| k]; simpl in H2.
        -- inversion H2; subst e2. rewrite place_of_new; [exact Hlt |].
           destruct (seen c cs) eqn:Hc; [| reflexivity].
           apply seen_in_first_seen in Hc. congruence.
        -- destruct k; discriminate H2.
Qed.

(** ** Attributes *)

Lemma get_set_same (e : Element) (k v : string) : ET.get (ET.set e k v) k = Some v.
Proof. destruct e. unfold ET.get, ET.set. simpl. apply dict_get_set_same. Qed.

Lemma get_set_other (e : Element) (k k' v : string) :
  String.eqb k' k = false -> ET.get (ET.set e k' v) k = ET.get e k.
Proof. intros H. destruct e. unfold ET.get, ET.set. simpl. apply dict_get_set_other. exact H. Qed.

Lemma tag_set (e : Element) (k v : string) : tag (ET.set e k v) = tag e.
Proof. destruct e; reflexivity. Qed.

(** ** Parts of the state that a computation leaves alone *)

Section Keeps.

Variables T A B : Type.
Variable part : Exporter -> T.

Lemma keeps_ret (a : A) : keeps part (ret a).
Proof. intros s r s' H. inversion H. reflexivity. Qed.

Lemma keeps_raise (e : exn) : keeps part (@raise Exporter A e).
Proof. intros s r s' H. inversion H. reflexivity. Qed.

Lemma keeps_expect (o : option A) (e : exn) : keeps part (expect o e).
Proof. destruct o; [apply keeps_ret | apply keeps_raise]. Qed.

Lemma keeps_lift (o : Outcome A) : keeps part (lift o).
Proof. destruct o; [apply keeps_ret | apply keeps_raise]. Qed.

Lemma keeps_bind (m : X A) (k : A -> X B) :
  keeps part m -> (forall a, keeps part (k a)) -> keeps part (bind m k).
Proof.
  intros Hm Hk s r s' H. unfold bind in H.
  destruct (m s) as [[a | e] s1] eqn:E.
  - rewrite (Hk a _ _ _ H). eapply Hm; exact E.
  - inversion H; subst. eapply Hm; exact E.
Qed.

Lemma keeps_try_except (m : X A) (catches : exn -> bool) (handler : exn -> X A) :
  keeps part m -> (forall e, keeps part (handler e)) ->
  keeps part (try_except m catches handler).
Proof.
  intros Hm Hh s r s' H. unfold try_except in H.
  destruct (m s) as [[a | e] s1] eqn:E.
  - inversion H; subst. eapply Hm; exact E.
  - destruct (catches e).
    + rewrite (Hh e _ _ _ H). eapply Hm; exact E.
    + inversion H; subst. eapply Hm; exact E.
Qed.

Lemma keeps_modify (f : Exporter -> Exporter) :
  (forall s, part (f s) = part s) -> keeps part (modify f).
Proof. intros Hf s r s' H. inversion H. apply Hf. Qed.

Lemma keeps_get : keeps part get.
Proof. intros s r s' H. inversion H. reflexivity. Qed.

End Keeps.

Lemma keeps_when (T : Type) (part : Exporter -> T) (c : bool) (m : X unit) :
  keeps part m -> keeps part (when c m).
Proof. intros Hm. destruct c; [exact Hm | apply keeps_ret]. Qed.

Lemma keeps_for_each (T A : Type) (part : Exporter -> T) (l : list A) (body : A -> X unit) :
  (forall a, keeps part (body a)) -> keeps part (for_each l body).
Proof.
  intros Hb. induction l as [| a l IH]; simpl.
  - apply keeps_ret.
  - apply keeps_bind; [apply Hb | intros _; exact IH].
Qed.

Create HintDb keeps.
#[export] Hint Resolve keeps_ret keeps_raise keeps_expect keeps_lift keeps_get keeps_when : keeps.

(** The parts are kept by what the computation is made of. *)
Ltac keeps :=
  repeat first
    [ progress auto with keeps
    | apply keeps_bind
    | apply keeps_try_except
    | apply keeps_when
    | apply keeps_for_each
    | apply keeps_modify; intro; reflexivity
    | match goal with |- forall _, _ => intro end
    | match goal with
      | |- keeps _ (if ?c then _ else _) => destruct c
      | |- keeps _ (match ?o with _ => _ end) => destruct o
      | |- keeps _ (let '(_, _) := ?o in _) => destruct o
      end ].

Lemma keeps_print (T : Type) (part : Exporter -> T) (line : string) :
  (forall f s, part (upd_stdout f s) = part s) -> keeps part (print line).
Proof. intros H. unfold print. apply keeps_modify. intros s. apply H. Qed.

(** ** The file table *)

Lemma same_files_refl s : same_files s s.
Proof. reflexivity. Qed.

Lemma same_files_trans s1 s2 s3 : same_files s1 s2 -> same_files s2 s3 -> same_files s1 s3.
Proof. unfold same_files. congruence. Qed.

Lemma same_files_parts s s' :
  same_files s s' ->
  _file_indexes s' = _file_indexes s /\ ids_file s' = ids_file s /\ Files s' = Files s.
Proof. unfold same_files, file_table. intros H. inversion H. auto. Qed.

Lemma keeps_files_print (line : string) : keeps file_table (print line).
Proof. apply keeps_print. reflexivity. Qed.

Lemma keeps_files_shutil_copy (host : Host) (src dst_dir : string) :
  keeps file_table (shutil_copy host src dst_dir).
Proof. unfold shutil_copy. keeps. Qed.

Lemma keeps_files_os_path_exists (path : string) : keeps file_table (os_path_exists path).
Proof. unfold os_path_exists. keeps. Qed.

Lemma keeps_files_os_makedirs (host : Host) (path : string) :
  keeps file_table (os_makedirs host path).
Proof. unfold os_makedirs. keeps. Qed.

#[export] Hint Resolve keeps_files_print keeps_files_shutil_copy keeps_files_os_path_exists
  keeps_files_os_makedirs : keeps.

Lemma dict_get_none_not_in (V : Type) (d : list (string * V)) (k : string) :
  Py.dict_get String.eqb d k = None -> ~ In k (List.map fst d).
Proof.
  induction d as [| [k0 v0] d IH]; simpl; intros H; [tauto |].
  destruct (String.eqb k0 k) eqn:E; [discriminate H |].
  intros [E' | Hin]; [| exact (IH H Hin)].
  subst k0. rewrite String.eqb_refl in E. discriminate E.
Qed.

Lemma register_known (key : string) (st : Exporter) (id : nat) :
  Py.dict_get String.eqb (_file_indexes st) key = Some id ->
  register key st = (Ok id, st).
Proof. intros H. unfold register, bind, get. rewrite H. reflexivity. Qed.

Lemma register_new (key : string) (st : Exporter) :
  Py.dict_get String.eqb (_file_indexes st) key = None ->
  register key st =
  (Ok (ids_file st),
   upd_Files (fun files_root => ET.append files_root (file_element_of (key, ids_file st)))
     (upd_file_indexes (fun d => Py.dict_set String.eqb d key (ids_file st))
        (upd_ids_file S st))).
Proof. intros H. unfold register, bind, get. rewrite H. reflexivity. Qed.

Section FileTableFacts.

Variables (host : Host) (settings : Settings) (_filepath : string).

(** A call that returns went through the resolution of the path, which
    leaves the table alone, and ended in [register]. *)
Lemma add_file_ok (filepath file_folder : string) (st : Exporter) (id : nat) (st' : Exporter) :
  _xml_add_file host settings _filepath filepath file_folder st = (Ok id, st') ->
  exists key st1,
    resolved_path host settings filepath file_folder = Some key /\
    same_files st st1 /\
    register key st1 = (Ok id, st').
Proof.
  unfold _xml_add_file, resolved_path. intros H.
  apply bind_ok in H. destruct H as ([] & s1 & H1 & H).
  apply bind_ok in H. destruct H as ([] & s2 & H2 & H).
  apply bind_ok in H. destruct H as ([] & s3 & H3 & H).
  apply bind_ok in H. destruct H as (first & s4 & H4 & H).
  apply bind_ok in H. destruct H as (key & s5 & H5 & H).
  apply keeps_files_print in H1. apply keeps_files_print in H2. apply keeps_files_print in H3.
  apply expect_ok in H4. destruct H4 as [Hfirst ->].
  rewrite Hfirst.
  assert (Hs3 : same_files st s3).
  { eapply same_files_trans; [exact H1 |]. eapply same_files_trans; eassumption. }
  destruct (negb (Ascii.eqb first "$") && copy_files settings).
  - apply bind_ok in H5. destruct H5 as (s3' & s3'' & Hg & H5).
    apply get_ok in Hg. destruct Hg; subst s3' s3''.
    apply bind_ok in H5. destruct H5 as ([] & s6 & H6 & H5).
    apply ret_ok in H5. destruct H5; subst key s6.
    eexists _, s5. split; [reflexivity |]. split; [| exact H].
    eapply same_files_trans; [exact Hs3 |].
    match type of H6 with
    | ?m s3 = _ => assert (K : keeps file_table m) by keeps; exact (K _ _ _ H6)
    end.
  - apply ret_ok in H5. destruct H5; subst key s5.
    eexists _, s3. split; [reflexivity |]. split; [exact Hs3 | exact H].
Qed.

(** A path whose key is registered gets the id of the key; nothing is
    copied, nothing is created. *)
Lemma add_file_known (filepath file_folder key : string) (st : Exporter) (id : nat) :
  resolved_path host settings filepath file_folder = Some key ->
  Py.dict_get String.eqb (_file_indexes st) key = Some id ->
  exists st',
    _xml_add_file host settings _filepath filepath file_folder st = (Ok id, st') /\
    same_files st st' /\ disk st' = disk st.
Proof.
  unfold same_files, file_table, _xml_add_file, resolved_path. intros Hres Hget.
  destruct (String.get 0 (shared_data_rewrite (abspath host filepath))) as [first |];
    [| discriminate Hres].
  unfold bind at 1 2 3 4. unfold print, modify, expect, ret. unfold bind at 1.
  destruct (negb (Ascii.eqb first "$") && copy_files settings).
  - inversion Hres as [Hkey]. rewrite Hkey.
    unfold bind, get, when, ret, Py.dict_mem. simpl.
    rewrite Hget. rewrite andb_false_r. simpl. rewrite Hget.
    eexists. split; [reflexivity |]. repeat split.
  - inversion Hres as [Hkey]. rewrite Hkey.
    unfold bind, get, ret. simpl. rewrite Hget.
    eexists. split; [reflexivity |]. repeat split.
Qed.

Lemma register_keeps_inv (key : string) (st : Exporter) (id : nat) (st' : Exporter) :
  files_inv st ->
  register key st = (Ok id, st') ->
  files_inv st' /\
  Py.dict_get String.eqb (_file_indexes st') key = Some id /\
  (forall k i, Py.dict_get String.eqb (_file_indexes st) k = Some i ->
               Py.dict_get String.eqb (_file_indexes st') k = Some i) /\
  match Py.dict_get String.eqb (_file_indexes st) key with
  | Some i => id = i /\ st' = st
  | None =>
      id = ids_file st /\
      children (Files st') = (children (Files st) ++ [file_element_of (key, id)])%list
  end.
Proof.
  intros (Hnd & Hch & Hlt & Hids) H.
  destruct (Py.dict_get String.eqb (_file_indexes st) key) as [i |] eqn:Hget.
  - rewrite (register_known _ _ Hget) in H. inversion H; subst.
    repeat split; auto.
  - rewrite (register_new _ _ Hget) in H. inversion H; subst. clear H.
    unfold files_inv. simpl.
    rewrite dict_set_new by exact Hget.
    repeat split.
    + rewrite map_app. simpl. apply NoDup_snoc; [exact Hnd |].
      apply dict_get_none_not_in. exact Hget.
    + rewrite children_append, Hch, map_app. reflexivity.
    + apply Forall_app. split.
      * eapply Forall_impl; [| exact Hlt]. simpl. intros a Ha. lia.
      * constructor; [simpl; lia | constructor].
    + rewrite map_app. simpl. apply NoDup_snoc; [exact Hids |].
      intros Hin. apply in_map_iff in Hin. destruct Hin as (r & Er & Hr).
      rewrite Forall_forall in Hlt. specialize (Hlt r Hr). lia.
    + rewrite <- dict_set_new by exact Hget. apply dict_get_set_same.
    + intros k i Hk. rewrite <- dict_set_new by exact Hget.
      rewrite dict_get_set_other; [exact Hk |].
      destruct (String.eqb key k) eqn:E; [| reflexivity].
      apply String.eqb_eq in E. subst k. congruence.
    + apply children_append.
Qed.

Lemma files_inv_same (s s' : Exporter) : files_inv s -> same_files s s' -> files_inv s'.
Proof.
  intros (a & b & c & d) H. apply same_files_parts in H. destruct H as (e & f & g).
  unfold files_inv. rewrite e, f, g. auto.
Qed.

Lemma dict_get_in (V : Type) (d : list (string * V)) (k : string) (v : V) :
  Py.dict_get String.eqb d k = Some v -> In (k, v) d.
Proof.
  induction d as [| [k0 v0] d IH]; simpl; [discriminate |].
  destruct (String.eqb k0 k) eqn:E.
  - intros H. inversion H; subst. apply String.eqb_eq in E. subst. left. reflexivity.
  - intros H. right. apply IH. exact H.
Qed.

Lemma nodup_snd_key (d : list (string * nat)) (k1 k2 : string) (v : nat) :
  NoDup (List.map snd d) -> In (k1, v) d -> In (k2, v) d -> k1 = k2.
Proof.
  induction d as [| [k0 v0] d IH]; simpl; intros Hnd H1 H2; [destruct H1 |].
  inversion Hnd as [| ? ? Hnot Hnd']; subst.
  destruct H1 as [E1 | H1], H2 as [E2 | H2].
  - congruence.
  - inversion E1; subst. exfalso. apply Hnot.
    apply in_map_iff. exists (k2, v). auto.
  - inversion E2; subst. exfalso. apply Hnot.
    apply in_map_iff. exists (k1, v). auto.
  - apply IH; assumption.
Qed.

Lemma NoDup_map_injective (A B : Type) (f : A -> B) (l : list A) :
  (forall a b, f a = f b -> a = b) -> NoDup l -> NoDup (List.map f l).
Proof.
  intros Hf Hl. induction Hl as [| x l Hx Hl IH]; simpl; constructor; [| exact IH].
  intros Hin. apply in_map_iff in Hin. destruct Hin as (y & E & Hy).
  apply Hf in E. subst. tauto.
Qed.

Lemma files_inv_filenames (st : Exporter) :
  files_inv st ->
  NoDup (List.map (fun e => ET.get e "filename") (children (Files st))).
Proof.
  intros (Hnd & Hch & _). rewrite Hch, map_map.
  assert (E : List.map (fun x => ET.get (file_element_of x) "filename") (_file_indexes st)
              = List.map (fun k => Some k) (List.map fst (_file_indexes st))).
  { rewrite map_map. apply map_ext. intros [k v]. reflexivity. }
  rewrite E. apply NoDup_map_injective; [| exact Hnd].
  intros a b H. inversion H. reflexivity.
Qed.

End FileTableFacts.

(** ** What the materials of a mesh leave alone *)

Lemma bind_cases (S A B : Type) (m : M S A) (k : A -> M S B) (s s' : S) (r : Outcome B) :
  bind m k s = (r, s') ->
  (exists e, m s = (Raise e, s') /\ r = Raise e) \/
  (exists a s1, m s = (Ok a, s1) /\ k a s1 = (r, s')).
Proof.
  unfold bind. destruct (m s) as [[a | e] s1]; intros H.
  - right. exists a, s1. auto.
  - left. inversion H; subst. exists e. auto.
Qed.

Lemma remove_last_snoc (x : string) (l : list string) :
  remove_last x (l ++ [x]) = l.
Proof.
  induction l as [| y l IH]; simpl.
  - rewrite String.eqb_refl. reflexivity.
  - rewrite existsb_app. simpl. rewrite String.eqb_refl, orb_true_r. simpl.
    rewrite IH. reflexivity.
Qed.

Section KeepsBeside.

Context {F : PyFloat}.
Variables (host : Host) (settings : Settings) (_filepath : string).

Lemma keeps_beside_print (line : string) : keeps beside_materials (print line).
Proof. apply keeps_print. reflexivity. Qed.

Hint Resolve keeps_beside_print : keeps.

Lemma keeps_beside_add_file (filepath file_folder : string) :
  keeps beside_materials (_xml_add_file host settings _filepath filepath file_folder).
Proof. unfold _xml_add_file, shutil_copy, os_path_exists, os_makedirs. keeps. Qed.

Hint Resolve keeps_beside_add_file : keeps.

Lemma keeps_beside_add_material (material : Material) :
  keeps beside_materials (_xml_add_material host settings _filepath material).
Proof. unfold _xml_add_material, add_texture_child. keeps. Qed.

Hint Resolve keeps_beside_add_material : keeps.

Lemma keeps_beside_group_triangles (mesh : Mesh) (shape_id : nat) triangles :
  forall triangle_subsets,
    keeps beside_materials
          (group_triangles host settings _filepath mesh shape_id triangles triangle_subsets).
Proof.
  induction triangles as [| triangle triangles IH]; intros ts; simpl.
  - keeps.
  - apply keeps_bind; [keeps |]. intros slot.
    apply keeps_bind; [keeps |]. intros material.
    apply keeps_bind; [keeps |]. intros ts1.
    apply keeps_bind; [keeps |]. intros subset. apply IH.
Qed.

Lemma keeps_beside_run_extraction (A : Type) (m : E A) (start : Extraction) :
  keeps beside_materials (run_extraction m start).
Proof. unfold run_extraction. destruct (m start) as [[a | e] x]; keeps. Qed.

End KeepsBeside.

(** What is kept as a whole is kept in its parts. *)
Lemma keeps_part (T U A : Type) (part : Exporter -> T) (f : T -> U) (m : X A) :
  keeps part m -> keeps (fun s => f (part s)) m.
Proof. intros K s r s' H. rewrite (K _ _ _ H). reflexivity. Qed.

Lemma beside_alive (s s' : Exporter) :
  beside_materials s' = beside_materials s -> meshes_alive s' = meshes_alive s.
Proof. unfold beside_materials. intros H. inversion H. reflexivity. Qed.

Lemma beside_shapes (s s' : Exporter) :
  beside_materials s' = beside_materials s -> Shapes s' = Shapes s.
Proof. unfold beside_materials. intros H. inversion H. reflexivity. Qed.

Lemma beside_scene (s s' : Exporter) :
  beside_materials s' = beside_materials s ->
  scene_and_output s' = scene_and_output s.
Proof. unfold beside_materials, scene_and_output. intros H. inversion H. reflexivity. Qed.

(** ** The entry that a compilation adds to the shapes *)

Section CompileShapes.

Context {F : PyFloat} {MO : MatrixOps} {MU : Mathutils F MO} {BM : BMesh F MO}.
Variables (host : Host) (settings : Settings) (_filepath : string).
Variables (_global_matrix : Matrix) (scale_length : float).
Variable i3d_default_material : Material.

(** A compilation that returns has added one entry to the section; the
    entry bears the name of the mesh and the id that is returned. *)
Lemma compile_shape_entry this data evaluated st shape_id st' :
  compile_shape host settings _filepath _global_matrix scale_length
                i3d_default_material this data evaluated st = (Ok shape_id, st') ->
  exists entry,
    children (Shapes st') = (children (Shapes st) ++ [entry])%list /\
    tag entry = "IndexedTriangleSet" /\
    ET.get entry "name" = Some (mesh_name data) /\
    ET.get entry "shapeId" = Some (Py.int_str shape_id).
Proof.
  unfold compile_shape. intros H.
  apply bind_ok in H. destruct H as (st0 & st0' & Hg & H).
  apply get_ok in Hg. destruct Hg; subst st0 st0'.
  apply bind_ok in H. destruct H as ([] & st1 & H1 & H).
  apply modify_ok in H1. subst st1.
  apply bind_ok in H. destruct H as ([] & st2 & H2 & H).
  apply modify_ok in H2. subst st2.
  apply bind_ok in H. destruct H as ([] & st3 & H3 & H).
  apply modify_ok in H3. subst st3.
  apply bind_ok in H. destruct H as (mesh & st4 & H4 & H).
  assert (K4 : Shapes st4 = Shapes st).
  { destruct (Nat.eqb _ 0) in H4; run; reflexivity. }
  apply bind_ok in H. destruct H as (ts & st5 & H5 & H).
  apply keeps_beside_group_triangles, beside_shapes in H5.
  apply bind_ok in H. destruct H as ([[] x] & st6 & H6 & H).
  apply keeps_beside_run_extraction, beside_shapes in H6.
  run. simpl.
  eexists. rewrite H6, H5, K4, children_append.
  split; [reflexivity |].
  split; [reflexivity |].
  split; reflexivity.
Qed.

End CompileShapes.

(** ** The lookup of a shape by the name of its mesh *)

Lemma find_app_none (A : Type) (f : A -> bool) (l : list A) (a : A) :
  List.find f l = None -> f a = true -> List.find f (l ++ [a]) = Some a.
Proof.
  induction l as [| x l IH]; simpl.
  - intros _ ->. reflexivity.
  - destruct (f x); [discriminate |]. exact IH.
Qed.

Lemma find_by_name_survives (host : Host) (root : Element) (tag_name name : string) :
  survives_repr name = true ->
  find_by_name host root tag_name name =
  Ok (List.find
        (fun e => String.eqb (tag e) tag_name &&
                  match ET.get e "name" with
                  | Some v => String.eqb v name
                  | None => false
                  end)
        (children root)).
Proof.
  unfold survives_repr, find_by_name. intros H.
  apply andb_true_iff in H. destruct H as [Hbody Hq].
  apply String.eqb_eq in Hbody. rewrite Hbody.
  apply negb_true_iff in Hq. rewrite Hq. reflexivity.
Qed.

(** ** What a computation returns *)

Section Returns.

Variables A B : Type.

Lemma returns_ret (a : A) (Q : A -> Prop) : Q a -> returns (ret a) Q.
Proof. intros H s a' s' E. inversion E; subst. exact H. Qed.

Lemma returns_raise (e : exn) (Q : A -> Prop) : returns (raise e) Q.
Proof. intros s a s' E. discriminate E. Qed.

Lemma returns_expect (o : option A) (e : exn) (Q : A -> Prop) :
  (forall a, o = Some a -> Q a) -> returns (expect o e) Q.
Proof.
  intros H. destruct o as [a |]; [apply returns_ret; auto | apply returns_raise].
Qed.

Lemma returns_bind (m : X A) (k : A -> X B) (P : A -> Prop) (Q : B -> Prop) :
  returns m P -> (forall a, P a -> returns (k a) Q) -> returns (bind m k) Q.
Proof.
  intros Hm Hk s b s' E. apply bind_ok in E. destruct E as (a & s1 & E1 & E2).
  eapply Hk; [eapply Hm; exact E1 | exact E2].
Qed.

Lemma returns_then (m : X A) (k : A -> X B) (Q : B -> Prop) :
  (forall a, returns (k a) Q) -> returns (bind m k) Q.
Proof.
  intros Hk. apply returns_bind with (P := fun _ => True).
  - intros s a s' _. exact I.
  - intros a _. apply Hk.
Qed.

End Returns.

(** ** The id of a node element *)

Lemma same_node_refl (e : Element) : same_node e e.
Proof. split; reflexivity. Qed.

Lemma same_node_set (e0 e : Element) (k v : string) :
  String.eqb k "nodeId" = false -> same_node e0 e -> same_node e0 (ET.set e k v).
Proof.
  intros Hk [Hid Hch]. split.
  - rewrite get_set_other by exact Hk. exact Hid.
  - rewrite children_set. exact Hch.
Qed.

(** An element that went through writes under other names. *)
Ltac same_node :=
  repeat first
    [ assumption
    | apply same_node_refl
    | apply same_node_set; [reflexivity |] ].

Section NodeElements.

Context {F : PyFloat} {MO : MatrixOps} {MU : Mathutils F MO} {BM : BMesh F MO}.
Variables (host : Host) (settings : Settings) (_filepath : string).
Variables (_global_matrix : Matrix) (scale_length : float).
Variable defaults : string -> option PyValue.
Variable value_ne : PyValue -> PyValue -> bool.
Variable i3d_default_material : Material.

Lemma property_pass_same (e0 e : Element) (prop : Property) :
  String.eqb (name_i3d prop) "nodeId" = false ->
  same_node e0 e ->
  returns (property_pass defaults value_ne e prop) (same_node e0).
Proof.
  intros Hname He. unfold property_pass.
  apply returns_then. intros _.
  destruct (negb (String.eqb (name_i3d prop) "disabled"));
    [| apply returns_ret; exact He].
  apply returns_then. intros default.
  destruct (value_ne (value_i3d prop) default); [| apply returns_ret; exact He].
  apply returns_then. intros _.
  destruct (value_i3d prop); apply returns_then; intros _; apply returns_ret;
    unfold _xml_write_float, _xml_write_bool, _xml_write_int_signed, _xml_write_string;
    apply same_node_set; assumption.
Qed.

Lemma object_properties_same (propertygroup : list Property) :
  forall e0 e,
    quiet_properties propertygroup = true ->
    same_node e0 e ->
    returns (_xml_object_properties defaults value_ne propertygroup e) (same_node e0).
Proof.
  induction propertygroup as [| prop rest IH]; intros e0 e Hq He; simpl.
  - apply returns_ret. exact He.
  - simpl in Hq. apply andb_true_iff in Hq. destruct Hq as [Hp Hrest].
    apply negb_true_iff in Hp.
    eapply returns_bind.
    + apply property_pass_same; eassumption.
    + intros e1 He1. apply IH; assumption.
Qed.

Lemma camera_same (camera : Camera) (e : Element) :
  returns (_xml_scene_object_camera camera e) (same_node e).
Proof.
  unfold _xml_scene_object_camera.
  destruct (String.eqb (camera_type camera) "ORTHO"); apply returns_ret;
    unfold _xml_write_float, _xml_write_bool; same_node.
Qed.

Lemma light_same (light : Light) (e : Element) :
  returns (_xml_scene_object_light light e) (same_node e).
Proof.
  unfold _xml_scene_object_light.
  apply returns_bind with (P := fun r => same_node e (snd r)).
  - repeat match goal with
           | |- returns (if ?c then _ else _) _ => destruct c
           end;
      try (apply returns_then; intros _); apply returns_ret; simpl;
      unfold _xml_write_float; same_node.
  - intros [[light_type falloff] e1] He1. simpl in He1.
    destruct falloff as [falloff |].
    + destruct (falloff_selector falloff); [| apply returns_raise].
      apply returns_ret.
      unfold _xml_write_int, _xml_write_float, _xml_write_bool, _xml_write_string.
      same_node.
    + apply returns_ret.
      unfold _xml_write_float, _xml_write_bool, _xml_write_string. same_node.
Qed.

Lemma shape_same (this : ObjectInfo) (e : Element) :
  returns (_xml_scene_object_shape host settings _filepath _global_matrix
                                   scale_length i3d_default_material this e)
          (same_node e).
Proof.
  unfold _xml_scene_object_shape.
  destruct (object_data this); try apply returns_raise.
  apply returns_then. intros st.
  apply returns_then. intros found.
  apply returns_then. intros shape_id.
  apply returns_then. intros st1.
  apply returns_then. intros material_ids.
  apply returns_ret. unfold _xml_write_int, _xml_write_string. same_node.
Qed.

End NodeElements.

(** ** Induction on the scene graph *)

Section NodeInduction.

Context {F : PyFloat} {MO : MatrixOps}.
Variable P : Node -> Prop.
Hypothesis step : forall i b l, Forall P l -> P (mkNode i b l).

Lemma Node_forall_ind : forall node, P node.
Proof.
  fix IH 1. intros [i b l]. apply step.
  induction l as [| child l' IHl]; constructor; [apply IH | exact IHl].
Qed.

End NodeInduction.

Section NodeCompilation.

Context {F : PyFloat} {MO : MatrixOps} {MU : Mathutils F MO} {BM : BMesh F MO}.
Variables (host : Host) (settings : Settings) (_filepath : string).
Variables (_global_matrix : Matrix) (scale_length : float).
Variable defaults : string -> option PyValue.
Variable value_ne : PyValue -> PyValue -> bool.
Variable i3d_default_material : Material.

Lemma bears_same (i : nat) (e0 e1 e : Element) :
  bears i e0 e1 -> same_node e1 e -> bears i e0 e.
Proof. intros [Hid Hch] [Hid' Hch']. split; congruence. Qed.

Lemma same_bears (i : nat) (e0 e1 : Element) :
  same_node e0 e1 ->
  bears i e0 (_xml_write_int e1 "nodeId" i).
Proof.
  intros [_ Hch]. unfold _xml_write_int. split.
  - apply get_set_same.
  - rewrite children_set. exact Hch.
Qed.

Lemma general_data_bears (i : nat) (b : option Entity) (l : list Node) (e : Element) :
  own_quiet b = true ->
  returns (_xml_scene_object_general_data _global_matrix scale_length defaults value_ne
                                          (mkNode i b l) e)
          (bears i e).
Proof.
  intros Hq. unfold _xml_scene_object_general_data. simpl.
  destruct b as [[o | c] |]; simpl; [| | apply returns_raise].
  - unfold bind at 1. unfold ret at 1.
    destruct (to_translation _) as [[tx ty] tz].
    destruct (to_euler_XYZ _) as [[rx ry] rz].
    simpl in Hq. apply andb_true_iff in Hq. destruct Hq as [Hq _].
    intros s a s' E.
    eapply object_properties_same in E; [| exact Hq | apply same_node_refl].
    eapply bears_same; [| exact E].
    unfold _xml_write_string.
    repeat (eapply bears_same; [| apply same_node_set; [reflexivity | apply same_node_refl]]).
    apply same_bears. apply same_node_set; [reflexivity | apply same_node_refl].
  - unfold bind at 1. unfold ret at 1. apply returns_ret.
    unfold _xml_write_string.
    repeat (eapply bears_same; [| apply same_node_set; [reflexivity | apply same_node_refl]]).
    apply same_bears. apply same_node_set; [reflexivity | apply same_node_refl].
Qed.

End NodeCompilation.

Lemma returns_weaken (A : Type) (m : X A) (P Q : A -> Prop) :
  returns m P -> (forall a, P a -> Q a) -> returns m Q.
Proof. intros Hm HPQ s a s' E. apply HPQ. eapply Hm. exact E. Qed.

Lemma get_append (e c : Element) (k : string) : ET.get (ET.append e c) k = ET.get e k.
Proof. destruct e; reflexivity. Qed.

Section NodeWalk.

Context {F : PyFloat} {MO : MatrixOps} {MU : Mathutils F MO} {BM : BMesh F MO}.
Variables (host : Host) (settings : Settings) (_filepath : string).
Variables (_global_matrix : Matrix) (scale_length : float).
Variable defaults : string -> option PyValue.
Variable value_ne : PyValue -> PyValue -> bool.
Variable i3d_default_material : Material.

Lemma compile_node_bears (i : nat) (b : option Entity) (l : list Node) (e : Element) :
  own_quiet b = true ->
  returns (compile_node host settings _filepath _global_matrix scale_length defaults
                        value_ne i3d_default_material (mkNode i b l) e)
          (bears i e).
Proof.
  intros Hq. unfold compile_node.
  eapply returns_bind; [apply general_data_bears; exact Hq |].
  intros e1 He1. simpl.
  destruct b as [[o | c] |]; [| apply returns_ret; exact He1 | apply returns_raise].
  simpl in Hq. apply andb_true_iff in Hq. destruct Hq as [_ Hq].
  apply returns_bind with (P := bears i e).
  - eapply returns_weaken with (P := same_node e1);
      [| intros a Ha; eapply bears_same; eassumption].
    repeat match goal with
           | |- returns (if ?c then _ else _) _ => destruct c
           | |- returns (match ?d with _ => _ end) _ => destruct d
           end;
      first [ apply shape_same | apply light_same | apply camera_same
            | apply returns_raise | apply returns_ret; apply same_node_refl ].
  - intros e2 He2.
    destruct (data_i3d_attributes (info o)) as [propertygroup |];
      [| apply returns_ret; exact He2].
    eapply returns_weaken.
    + apply object_properties_same; [exact Hq | apply same_node_refl].
    + intros a Ha. eapply bears_same; eassumption.
Qed.

Lemma parse_node_emitted :
  forall node e,
    quiet node = true ->
    returns (parse_node host settings _filepath _global_matrix scale_length defaults
                        value_ne i3d_default_material node e)
            (fun e' =>
               ET.get e' "nodeId" = Some (Py.int_str (node_id node)) /\
               exists es,
                 children e' = (children e ++ es)%list /\
                 Forall2 emitted (node_children node) es).
Proof.
  intros node. induction node as [i b l IH] using Node_forall_ind.
  intros e Hq. simpl in Hq. apply andb_true_iff in Hq. destruct Hq as [Hown Hq].
  simpl.
  eapply returns_bind; [apply compile_node_bears; exact Hown |].
  intros e1 [Hid Hch].
  match goal with
  | |- returns (?loop l e1) _ =>
      assert (Hloop : forall l0,
                 Forall (fun n => forall e0, quiet n = true ->
                           returns (parse_node host settings _filepath _global_matrix
                                               scale_length defaults value_ne
                                               i3d_default_material n e0)
                                   (fun e' =>
                                      ET.get e' "nodeId" = Some (Py.int_str (node_id n)) /\
                                      exists es,
                                        children e' = (children e0 ++ es)%list /\
                                        Forall2 emitted (node_children n) es)) l0 ->
                 forallb quiet l0 = true ->
                 forall acc,
                   returns (loop l0 acc)
                           (fun e' =>
                              ET.get e' "nodeId" = ET.get acc "nodeId" /\
                              exists es,
                                children e' = (children acc ++ es)%list /\
                                Forall2 emitted l0 es))
  end.
  { clear. induction l0 as [| child l' IHl]; intros Hall Hquiet acc.
    - apply returns_ret. split; [reflexivity |].
      exists []. rewrite app_nil_r. split; [reflexivity | constructor].
    - inversion Hall as [| ? ? Hchild Hrest]; subst.
      simpl in Hquiet. apply andb_true_iff in Hquiet. destruct Hquiet as [Hqc Hql].
      apply returns_then. intros child_tag.
      eapply returns_bind; [apply Hchild; exact Hqc |].
      intros c (Hcid & es & Hces & Hem). simpl in Hces.
      eapply returns_weaken; [apply IHl; assumption |].
      intros e' (Hid' & es' & Hch' & Hem').
      rewrite get_append in Hid'. split; [exact Hid' |].
      exists (c :: es'). rewrite Hch', children_append, <- app_assoc.
      split; [reflexivity |].
      constructor; [| exact Hem'].
      destruct child as [ci cb cl]. constructor.
      + unfold attr_nat. rewrite Hcid. apply int_parse_str.
      + rewrite Hces. exact Hem. }
  eapply returns_weaken; [apply Hloop; assumption |].
  intros e' (Hid' & es & Hch' & Hem). split; [congruence |].
  exists es. split; [congruence | exact Hem].
Qed.

End NodeWalk.

(** ** The scene section while a node is compiled *)

Section KeepsScene.

Context {F : PyFloat} {MO : MatrixOps} {MU : Mathutils F MO} {BM : BMesh F MO}.
Variables (host : Host) (settings : Settings) (_filepath : string).
Variables (_global_matrix : Matrix) (scale_length : float).
Variable defaults : string -> option PyValue.
Variable value_ne : PyValue -> PyValue -> bool.
Variable i3d_default_material : Material.

Lemma keeps_scene_print (line : string) : keeps scene_and_output (print line).
Proof. apply keeps_print. reflexivity. Qed.

Hint Resolve keeps_scene_print : keeps.

Lemma keeps_scene_group_triangles (mesh : Mesh) (shape_id : nat) triangles triangle_subsets :
  keeps scene_and_output
        (group_triangles host settings _filepath mesh shape_id triangles triangle_subsets).
Proof.
  intros s r s' H. apply beside_scene. eapply keeps_beside_group_triangles. exact H.
Qed.

Lemma keeps_scene_run_extraction (A : Type) (m : E A) (start : Extraction) :
  keeps scene_and_output (run_extraction m start).
Proof.
  intros s r s' H. apply beside_scene. eapply keeps_beside_run_extraction. exact H.
Qed.

Hint Resolve keeps_scene_group_triangles keeps_scene_run_extraction : keeps.

Lemma keeps_scene_compile_shape (this : ObjectInfo) (data evaluated : Mesh) :
  keeps scene_and_output
        (compile_shape host settings _filepath _global_matrix scale_length
                       i3d_default_material this data evaluated).
Proof. unfold compile_shape. keeps. Qed.

Hint Resolve keeps_scene_compile_shape : keeps.

Lemma keeps_scene_shape (this : ObjectInfo) (e : Element) :
  keeps scene_and_output
        (_xml_scene_object_shape host settings _filepath _global_matrix scale_length
                                 i3d_default_material this e).
Proof. unfold _xml_scene_object_shape. keeps. Qed.

Lemma keeps_scene_light (light : Light) (e : Element) :
  keeps scene_and_output (_xml_scene_object_light light e).
Proof. unfold _xml_scene_object_light. keeps. Qed.

Lemma keeps_scene_camera (camera : Camera) (e : Element) :
  keeps scene_and_output (_xml_scene_object_camera camera e).
Proof. unfold _xml_scene_object_camera. keeps. Qed.

Lemma keeps_scene_properties (propertygroup : list Property) :
  forall e, keeps scene_and_output (_xml_object_properties defaults value_ne propertygroup e).
Proof.
  induction propertygroup as [| prop rest IH]; intros e; simpl.
  - keeps.
  - apply keeps_bind; [unfold property_pass; keeps | exact IH].
Qed.

Hint Resolve keeps_scene_shape keeps_scene_light keeps_scene_camera
  keeps_scene_properties : keeps.

Lemma keeps_scene_general_data (node : Node) (e : Element) :
  keeps scene_and_output
        (_xml_scene_object_general_data _global_matrix scale_length defaults value_ne
                                        node e).
Proof. unfold _xml_scene_object_general_data. keeps. Qed.

Hint Resolve keeps_scene_general_data : keeps.

Lemma keeps_scene_compile_node (node : Node) (e : Element) :
  keeps scene_and_output
        (compile_node host settings _filepath _global_matrix scale_length defaults
                      value_ne i3d_default_material node e).
Proof. unfold compile_node, _xml_scene_object_transform_group. keeps. Qed.

Lemma keeps_scene_blender_to_i3d (b : option Entity) :
  keeps scene_and_output (blender_to_i3d b).
Proof. unfold blender_to_i3d. keeps. Qed.

Lemma keeps_scene_parse_node :
  forall node e,
    keeps scene_and_output
          (parse_node host settings _filepath _global_matrix scale_length defaults
                      value_ne i3d_default_material node e).
Proof.
  intros node. induction node as [i b l IH] using Node_forall_ind.
  intros e. simpl.
  apply keeps_bind; [apply keeps_scene_compile_node |].
  intros e1. revert e1.
  induction l as [| child l' IHl]; intros acc.
  - apply keeps_ret.
  - inversion IH as [| ? ? Hchild Hrest]; subst.
    apply keeps_bind; [apply keeps_scene_blender_to_i3d |]. intros child_tag.
    apply keeps_bind; [apply Hchild |]. intros child_element.
    apply IHl. exact Hrest.
Qed.


End KeepsScene.

(** ** The ids that the builder gives *)

Section EntityInduction.

Context {F : PyFloat} {MO : MatrixOps}.
Variables (P : Object -> Prop) (Q : Collection -> Prop).

Hypothesis object_step :
  forall this inst kids,
    match inst with Some c => Q c | None => True end ->
    Forall P kids ->
    P (mkObject this inst kids).

Hypothesis collection_step :
  forall name cs os, Forall Q cs -> Forall P os -> Q (mkCollection name cs os).

Lemma Object_forall_ind : forall o, P o
with Collection_forall_ind : forall c, Q c.
Proof.
  - intros [this inst kids]. apply object_step.
    + destruct inst as [c |]; [apply Collection_forall_ind | exact I].
    + induction kids as [| kid kids IH]; constructor;
        [apply Object_forall_ind | exact IH].
  - intros [name cs os]. apply collection_step.
    + induction cs as [| c cs IH]; constructor;
        [apply Collection_forall_ind | exact IH].
    + induction os as [| o os IH]; constructor;
        [apply Object_forall_ind | exact IH].
Qed.

End EntityInduction.

Section BuiltIds.

Context {F : PyFloat} {MO : MatrixOps}.
Variable settings : Settings.

Lemma ids_from_le (lo lo' : nat) :
  lo <= lo' -> forall node, ids_from lo' node = true -> ids_from lo node = true.
Proof.
  intros Hle node. induction node as [i b l IH] using Node_forall_ind.
  simpl. intros H. apply andb_true_iff in H. destruct H as [Hi Hl].
  apply andb_true_iff. split.
  - apply Nat.leb_le. apply Nat.leb_le in Hi. lia.
  - rewrite forallb_forall in *. rewrite Forall_forall in IH.
    intros x Hx. apply IH; [exact Hx | apply Hl; exact Hx].
Qed.

Lemma built_nil (g : Builder) : built g [] g.
Proof. split; [apply Nat.le_refl | reflexivity]. Qed.

Lemma built_app (g g1 g2 : Builder) (a b : list Node) :
  built g a g1 -> built g1 b g2 -> built g (a ++ b) g2.
Proof.
  intros [Hle Ha] [Hle' Hb]. split; [lia |].
  rewrite forallb_app, Ha. simpl.
  rewrite forallb_forall in *. intros x Hx.
  eapply ids_from_le; [exact Hle | apply Hb; exact Hx].
Qed.

Lemma built_node (g g0 g1 : Builder) (b : option Entity) (added : list Node) :
  fst g0 = S (fst g) -> built g0 added g1 ->
  built g [mkNode (fst g) b added] g1.
Proof.
  intros H0 [Hle Ha]. split; [lia |]. simpl.
  rewrite Nat.leb_refl. simpl. rewrite andb_true_r.
  rewrite forallb_forall in *. intros x Hx.
  eapply ids_from_le; [| apply Ha; exact Hx]. lia.
Qed.

Lemma built_object_step (this : ObjectInfo) (inst : option Collection)
      (kids : list Object) :
  match inst with Some c => collection_built settings c | None => True end ->
  Forall (object_built settings) kids ->
  object_built settings (mkObject this inst kids).
Proof.
  intros Hinst Hkids unpack g nodes g' H.
  simpl in H.
  destruct (negb _) in H; [inversion H; subst; apply built_nil |].
  match type of H with
  | (let '(_, _) := ?start in _) = _ => destruct start as [node_id g0] eqn:Hstart
  end.
  match type of H with
  | (let '(_, _) := ?call in _) = _ => destruct call as [expanded g1] eqn:Hexpanded
  end.
  match type of H with
  | (let '(_, _) := ?call in _) = _ => destruct call as [below g2] eqn:Hbelow
  end.
  assert (B1 : built g0 expanded g1).
  { destruct (String.eqb (object_type this) "EMPTY");
      [| inversion Hexpanded; subst; apply built_nil].
    destruct inst as [collection |];
      [| inversion Hexpanded; subst; apply built_nil].
    eapply Hinst. exact Hexpanded. }
  assert (B2 : built g1 below g2).
  { clear - Hkids Hbelow. revert g1 below g2 Hbelow.
    induction Hkids as [| kid kids Hkid _ IH]; intros g1 below g2 Hbelow.
    - inversion Hbelow; subst. apply built_nil.
    - destruct (new_graph_node_object settings kid false g1) as [a ga] eqn:Ha.
      match type of Hbelow with
      | (let '(_, _) := ?call in _) = _ => destruct call as [b gb] eqn:Hb
      end.
      inversion Hbelow; subst.
      eapply built_app; [eapply Hkid; exact Ha | eapply IH; exact Hb]. }
  pose proof (built_app B1 B2) as B.
  destruct unpack.
  - inversion Hstart; subst. inversion H; subst. exact B.
  - inversion Hstart; subst. inversion H; subst.
    eapply built_node; [| exact B]. reflexivity.
Qed.

Lemma built_collection_step (name : string) (cs : list Collection) (os : list Object) :
  Forall (collection_built settings) cs ->
  Forall (object_built settings) os ->
  collection_built settings (mkCollection name cs os).
Proof.
  intros Hcs Hos unpack g nodes g' H.
  simpl in H.
  match type of H with
  | (let '(_, _) := ?start in _) = _ => destruct start as [node_id g0] eqn:Hstart
  end.
  match type of H with
  | (let '(_, _) := ?call in _) = _ => destruct call as [below g1] eqn:Hbelow
  end.
  match type of H with
  | (let '(_, _) := ?call in _) = _ => destruct call as [members g2] eqn:Hmembers
  end.
  assert (B1 : built g0 below g1).
  { clear - Hcs Hbelow. revert g0 below g1 Hbelow.
    induction Hcs as [| c cs Hc _ IH]; intros g0 below g1 Hbelow.
    - inversion Hbelow; subst. apply built_nil.
    - destruct (new_graph_node_collection settings c false g0) as [a ga] eqn:Ha.
      match type of Hbelow with
      | (let '(_, _) := ?call in _) = _ => destruct call as [b gb] eqn:Hb
      end.
      inversion Hbelow; subst.
      eapply built_app; [eapply Hc; exact Ha | eapply IH; exact Hb]. }
  assert (B2 : built g1 members g2).
  { clear - Hos Hmembers. revert g1 members g2 Hmembers.
    induction Hos as [| o os Ho _ IH]; intros g1 members g2 Hmembers.
    - inversion Hmembers; subst. apply built_nil.
    - match type of Hmembers with
      | (let '(_, _) := ?call in _) = _ => destruct call as [a ga] eqn:Ha
      end.
      match type of Hmembers with
      | (let '(_, _) := ?call in _) = _ => destruct call as [b gb] eqn:Hb
      end.
      inversion Hmembers; subst.
      eapply built_app; [| eapply IH; exact Hb].
      destruct (parent (info o));
        [inversion Ha; subst; apply built_nil | eapply Ho; exact Ha]. }
  pose proof (built_app B1 B2) as B.
  destruct unpack.
  - inversion Hstart; subst. inversion H; subst. exact B.
  - inversion Hstart; subst. inversion H; subst.
    eapply built_node; [| exact B]. reflexivity.
Qed.

Lemma built_ids_collection (c : Collection) : collection_built settings c.
Proof.
  apply (@Collection_forall_ind _ _ (object_built settings) (collection_built settings)).
  - apply built_object_step.
  - apply built_collection_step.
Qed.

End BuiltIds.

Section EmittedIds.

Context {F : PyFloat} {MO : MatrixOps}.

Lemma built_graph_ids (settings : Settings) (context : BpyContext) :
  forallb (ids_from 1)
          (node_children (root (fst (_xml_build_scene_graph settings context)))) = true.
Proof.
  unfold _xml_build_scene_graph.
  destruct (String.eqb (selection settings) "ALL").
  - simpl.
    destruct (new_graph_node_collection _ _ _ _) as [added g] eqn:H.
    apply built_ids_collection in H. exact (proj2 H).
  - destruct (String.eqb (selection settings) "ACTIVE_COLLECTION").
    + simpl.
      destruct (new_graph_node_collection _ _ _ _) as [added g] eqn:H.
      apply built_ids_collection in H. exact (proj2 H).
    + destruct (String.eqb (selection settings) "SELECTED_OBJECTS"); reflexivity.
Qed.

Lemma emitted_ids (lo : nat) :
  forall node e,
    emitted node e -> ids_from lo node = true ->
    Forall (fun i => exists j, i = Some j /\ lo <= j) (node_ids e).
Proof.
  intros node. induction node as [i b l IH] using Node_forall_ind.
  intros e Hem Hids. inversion Hem as [i' b' l' e' Hid Hall]; subst.
  simpl in Hids. apply andb_true_iff in Hids. destruct Hids as [Hi Hl].
  destruct e as [t a x y c]. cbn [node_ids]. simpl in Hall.
  constructor.
  - exists i. split; [exact Hid | apply Nat.leb_le; exact Hi].
  - clear Hid Hem Hi. revert IH Hl.
    induction Hall as [| n e l c Hne _ IHall]; intros IH Hl; simpl; [constructor |].
    inversion IH as [| ? ? Hn Hrest]; subst.
    simpl in Hl. apply andb_true_iff in Hl. destruct Hl as [Hn' Hl].
    apply Forall_app. split; [apply Hn; assumption | apply IHall; assumption].
Qed.

Lemma emitted_all_ids (lo : nat) (l : list Node) (es : list Element) :
  Forall2 emitted l es -> forallb (ids_from lo) l = true ->
  Forall (fun e => Forall (fun i => exists j, i = Some j /\ lo <= j) (node_ids e)) es.
Proof.
  induction 1 as [| n e l es Hne _ IH]; intros Hl; [constructor |].
  simpl in Hl. apply andb_true_iff in Hl. destruct Hl as [Hn Hl].
  constructor; [eapply emitted_ids; eassumption | apply IH; exact Hl].
Qed.

End EmittedIds.

Lemma keeps_scene_export_to_file (host : Host) (_filepath : string) :
  keeps Scene (_xml_export_to_file host _filepath).
Proof.
  unfold _xml_export_to_file. apply keeps_bind; [apply keeps_get |]. intros st.
  apply keeps_try_except.
  - destruct (write_error host _filepath).
    { apply keeps_bind; [| intros; apply keeps_raise].
      apply keeps_when, keeps_modify. intro. reflexivity. }
    apply keeps_bind; [apply keeps_modify; intro; reflexivity |].
    intros _. apply keeps_print. reflexivity.
  - intros e. apply keeps_print. reflexivity.
Qed.

(** ** Indentation leaves the nodes as they are *)

Section IndentFacts.

Context {F : PyFloat} {MO : MatrixOps}.

Lemma emitted_layout (node : Node) (g g' : string) a (x x' y y' : option string)
      (c : list Element) :
  emitted node (mkElement g a x y c) -> emitted node (mkElement g' a x' y' c).
Proof. intros H. inversion H; subst. constructor; assumption. Qed.

Lemma emitted_set_tail (node : Node) (e : Element) (t : string) :
  emitted node e -> emitted node (set_tail e t).
Proof. destruct e. apply emitted_layout. Qed.

Lemma Forall2_on_last (l : list Node) (f : Element -> Element) :
  (forall node e, emitted node e -> emitted node (f e)) ->
  forall es, Forall2 emitted l es -> Forall2 emitted l (on_last f es).
Proof.
  intros Hf es H. induction H as [| n e l es Hne Hrest IH]; [constructor |].
  simpl. destruct es as [| e' es'].
  - inversion Hrest; subst. constructor; [apply Hf; exact Hne | constructor].
  - constructor; [exact Hne | exact IH].
Qed.

Lemma Forall2_map_indent (l : list Node) (level : nat) :
  Forall (fun n => forall e k, emitted n e -> emitted n (_indent e k)) l ->
  forall es, Forall2 emitted l es ->
             Forall2 emitted l (map (fun e => _indent e level) es).
Proof.
  intros IH es H. induction H as [| n e l' es' Hne _ IHall]; [constructor |].
  inversion IH as [| ? ? Hn Hrest]; subst.
  simpl. constructor; [apply Hn; exact Hne | apply IHall; exact Hrest].
Qed.

Lemma blank_tail_emitted (indents : string) (node : Node) (e : Element) :
  emitted node e ->
  emitted node (if blank (tail e) then set_tail e indents else e).
Proof. intros He. destruct (blank (tail e)); [apply emitted_set_tail |]; exact He. Qed.

Lemma emitted_indent :
  forall node e level, emitted node e -> emitted node (_indent e level).
Proof.
  intros node. induction node as [i b l IH] using Node_forall_ind.
  intros e level Hem. inversion Hem as [i' b' l' e' Hid Hall]; subst.
  destruct e as [g a x y c]. destruct c as [| c0 c].
  - simpl. destruct (negb (Nat.eqb level 0) && blank y); [| exact Hem].
    eapply emitted_layout. exact Hem.
  - cbn [_indent]. constructor; [exact Hid |].
    cbn [children]. simpl in Hall.
    apply Forall2_on_last; [apply blank_tail_emitted |].
    apply Forall2_map_indent; assumption.
Qed.

(** The children of an indented element stand for the nodes that the
    children of the element stood for. *)
Lemma children_indent_emitted (l : list Node) (e : Element) (level : nat) :
  Forall2 emitted l (children e) -> Forall2 emitted l (children (_indent e level)).
Proof.
  intros H. destruct e as [g a x y c]. destruct c as [| c0 c].
  - simpl. destruct (negb (Nat.eqb level 0) && blank y); exact H.
  - cbn [_indent children]. simpl in H.
    apply Forall2_on_last; [apply blank_tail_emitted |].
    apply Forall2_map_indent; [| exact H].
    apply Forall_forall. intros n _. apply emitted_indent.
Qed.

End IndentFacts.

(** ** The document that is written *)

Lemma document_scene (host : Host) (_filepath : string) (st : Exporter) :
  nth_error (children (_indent (_tree host _filepath st) 0)) 5 =
  Some (_indent (Scene st) 1).
Proof. reflexivity. Qed.

Lemma export_writes (host : Host) (_filepath : string) (st st' : Exporter) (u : unit) :
  write_error host _filepath = None ->
  _xml_export_to_file host _filepath st = (Ok u, st') ->
  written st' = Some (_indent (_tree host _filepath st) 0).
Proof.
  intros Hw. unfold _xml_export_to_file, bind, get, try_except. rewrite Hw.
  intros H. inversion H. reflexivity.
Qed.

(* ================================================================== *)
(** * More properties *)
(* ================================================================== *)

(** ** What the builder adds *)

Section BuilderInduction.

Context {F : PyFloat} {MO : MatrixOps}.
Variable settings : Settings.

(** A relation between the builder before a call, the nodes the call
    gives and the builder after it, closed under what a call is made of. *)
Variable R : Builder -> list Node -> Builder -> Prop.

Hypothesis R_nil : forall g, R g [] g.

Hypothesis R_app :
  forall g g1 g2 a b, R g a g1 -> R g1 b g2 -> R g (a ++ b)%list g2.

Hypothesis R_node :
  forall g entity added g1,
    exported settings (mkNode (fst g) (Some entity) added) = true ->
    R (builder_print (added_line (mkNode (fst g) (Some entity) added))
                     (snd (add_node (Some entity) g)))
      added g1 ->
    R g [mkNode (fst g) (Some entity) added] g1.

Lemma builder_object_step (this : ObjectInfo) (inst : option Collection)
      (kids : list Object) :
  match inst with
  | Some c => forall unpack g nodes g',
      new_graph_node_collection settings c unpack g = (nodes, g') -> R g nodes g'
  | None => True
  end ->
  Forall (fun o => forall unpack g nodes g',
              new_graph_node_object settings o unpack g = (nodes, g') -> R g nodes g')
         kids ->
  forall unpack g nodes g',
    new_graph_node_object settings (mkObject this inst kids) unpack g = (nodes, g') ->
    R g nodes g'.
Proof.
  intros Hinst Hkids unpack g nodes g' H.
  simpl in H.
  destruct (negb _) eqn:Hkind in H; [inversion H; subst; apply R_nil |].
  apply negb_false_iff in Hkind.
  match type of H with
  | (let '(_, _) := ?start in _) = _ => destruct start as [node_id g0] eqn:Hstart
  end.
  match type of H with
  | (let '(_, _) := ?call in _) = _ => destruct call as [expanded g1] eqn:Hexpanded
  end.
  match type of H with
  | (let '(_, _) := ?call in _) = _ => destruct call as [below g2] eqn:Hbelow
  end.
  assert (B1 : R g0 expanded g1).
  { destruct (String.eqb (object_type this) "EMPTY");
      [| inversion Hexpanded; subst; apply R_nil].
    destruct inst as [collection |];
      [| inversion Hexpanded; subst; apply R_nil].
    eapply Hinst. exact Hexpanded. }
  assert (B2 : R g1 below g2).
  { clear - Hkids Hbelow R_nil R_app. revert g1 below g2 Hbelow.
    induction Hkids as [| kid kids Hkid _ IH]; intros g1 below g2 Hbelow.
    - inversion Hbelow; subst. apply R_nil.
    - destruct (new_graph_node_object settings kid false g1) as [a ga] eqn:Ha.
      match type of Hbelow with
      | (let '(_, _) := ?call in _) = _ => destruct call as [b gb] eqn:Hb
      end.
      inversion Hbelow; subst.
      eapply R_app; [eapply Hkid; exact Ha | eapply IH; exact Hb]. }
  pose proof (R_app B1 B2) as B.
  destruct unpack.
  - inversion Hstart; subst. inversion H; subst. exact B.
  - inversion Hstart; subst. inversion H; subst.
    apply R_node; [exact Hkind | exact B].
Qed.

Lemma builder_collection_step (name : string) (cs : list Collection) (os : list Object) :
  Forall (fun c => forall unpack g nodes g',
              new_graph_node_collection settings c unpack g = (nodes, g') -> R g nodes g')
         cs ->
  Forall (fun o => forall unpack g nodes g',
              new_graph_node_object settings o unpack g = (nodes, g') -> R g nodes g')
         os ->
  forall unpack g nodes g',
    new_graph_node_collection settings (mkCollection name cs os) unpack g = (nodes, g') ->
    R g nodes g'.
Proof.
  intros Hcs Hos unpack g nodes g' H.
  simpl in H.
  match type of H with
  | (let '(_, _) := ?start in _) = _ => destruct start as [node_id g0] eqn:Hstart
  end.
  match type of H with
  | (let '(_, _) := ?call in _) = _ => destruct call as [below g1] eqn:Hbelow
  end.
  match type of H with
  | (let '(_, _) := ?call in _) = _ => destruct call as [members g2] eqn:Hmembers
  end.
  assert (B1 : R g0 below g1).
  { clear - Hcs Hbelow R_nil R_app. revert g0 below g1 Hbelow.
    induction Hcs as [| c cs Hc _ IH]; intros g0 below g1 Hbelow.
    - inversion Hbelow; subst. apply R_nil.
    - destruct (new_graph_node_collection settings c false g0) as [a ga] eqn:Ha.
      match type of Hbelow with
      | (let '(_, _) := ?call in _) = _ => destruct call as [b gb] eqn:Hb
      end.
      inversion Hbelow; subst.
      eapply R_app; [eapply Hc; exact Ha | eapply IH; exact Hb]. }
  assert (B2 : R g1 members g2).
  { clear - Hos Hmembers R_nil R_app. revert g1 members g2 Hmembers.
    induction Hos as [| o os Ho _ IH]; intros g1 members g2 Hmembers.
    - inversion Hmembers; subst. apply R_nil.
    - match type of Hmembers with
      | (let '(_, _) := ?call in _) = _ => destruct call as [a ga] eqn:Ha
      end.
      match type of Hmembers with
      | (let '(_, _) := ?call in _) = _ => destruct call as [b gb] eqn:Hb
      end.
      inversion Hmembers; subst.
      eapply R_app; [| eapply IH; exact Hb].
      destruct (parent (info o));
        [inversion Ha; subst; apply R_nil | eapply Ho; exact Ha]. }
  pose proof (R_app B1 B2) as B.
  destruct unpack.
  - inversion Hstart; subst. inversion H; subst. exact B.
  - inversion Hstart; subst. inversion H; subst.
    apply R_node; [reflexivity | exact B].
Qed.

Lemma builder_collection (c : Collection) :
  forall unpack g nodes g',
    new_graph_node_collection settings c unpack g = (nodes, g') -> R g nodes g'.
Proof.
  apply (@Collection_forall_ind _ _
           (fun o => forall unpack g nodes g',
                new_graph_node_object settings o unpack g = (nodes, g') -> R g nodes g')
           (fun c => forall unpack g nodes g',
                new_graph_node_collection settings c unpack g = (nodes, g') -> R g nodes g')).
  - apply builder_object_step.
  - apply builder_collection_step.
Qed.

End BuilderInduction.

Section Grown.

Context {F : PyFloat} {MO : MatrixOps}.
Variable settings : Settings.

Lemma grown_nil (g : Builder) : grown settings g [] g.
Proof.
  unfold grown. simpl. rewrite Nat.sub_diag, app_nil_r. repeat split. apply Nat.le_refl.
Qed.

Lemma grown_app (g g1 g2 : Builder) (a b : list Node) :
  grown settings g a g1 -> grown settings g1 b g2 -> grown settings g (a ++ b)%list g2.
Proof.
  intros (Hle & Hids & Hlines & Hkinds) (Hle' & Hids' & Hlines' & Hkinds').
  unfold grown. rewrite flat_map_app, !map_app, forallb_app.
  split; [lia |]. split; [| split].
  - rewrite Hids, Hids'.
    replace (fst g2 - fst g) with ((fst g1 - fst g) + (fst g2 - fst g1)) by lia.
    rewrite seq_app. f_equal. f_equal. lia.
  - rewrite Hlines', Hlines, <- app_assoc. reflexivity.
  - rewrite Hkinds, Hkinds'. reflexivity.
Qed.

Lemma grown_node (g : Builder) (entity : Entity) (added : list Node) (g1 : Builder) :
  exported settings (mkNode (fst g) (Some entity) added) = true ->
  grown settings
        (builder_print (added_line (mkNode (fst g) (Some entity) added))
                       (snd (add_node (Some entity) g)))
        added g1 ->
  grown settings g [mkNode (fst g) (Some entity) added] g1.
Proof.
  intros Hkind (Hle & Hids & Hlines & Hkinds). simpl in Hle, Hids, Hlines.
  unfold grown. simpl flat_map. rewrite app_nil_r.
  split; [lia |]. split; [| split].
  - simpl. rewrite Hids.
    replace (fst g1 - fst g) with (S (fst g1 - S (fst g))) by lia. reflexivity.
  - rewrite Hlines. simpl. rewrite <- app_assoc. reflexivity.
  - simpl. simpl in Hkind. rewrite Hkind, Hkinds. reflexivity.
Qed.

(** Each call of the builder on a collection has grown the graph. *)
Lemma collection_grown (c : Collection) (unpack : bool) (g : Builder)
      (nodes : list Node) (g' : Builder) :
  new_graph_node_collection settings c unpack g = (nodes, g') ->
  grown settings g nodes g'.
Proof.
  apply builder_collection.
  - apply grown_nil.
  - apply grown_app.
  - apply grown_node.
Qed.

(** The graph of a scene, whatever the selection. *)
Lemma graph_grown (context : BpyContext) :
  grown settings SceneGraph_init
        (node_children (root (fst (_xml_build_scene_graph settings context))))
        (ids_node (fst (_xml_build_scene_graph settings context)),
         snd (_xml_build_scene_graph settings context)).
Proof.
  unfold _xml_build_scene_graph.
  destruct (String.eqb (selection settings) "ALL").
  - simpl. destruct (new_graph_node_collection _ _ _ _) as [added g] eqn:H.
    apply collection_grown in H. destruct g. exact H.
  - destruct (String.eqb (selection settings) "ACTIVE_COLLECTION").
    + simpl. destruct (new_graph_node_collection _ _ _ _) as [added g] eqn:H.
      apply collection_grown in H. destruct g. exact H.
    + destruct (String.eqb (selection settings) "SELECTED_OBJECTS");
        simpl; apply grown_nil.
Qed.

End Grown.

(** ** The tag of a node element *)

Lemma rewritten_refl (e : Element) : rewritten e e.
Proof. split; reflexivity. Qed.

Lemma rewritten_set (e0 e : Element) (k v : string) :
  rewritten e0 e -> rewritten e0 (ET.set e k v).
Proof.
  intros [Htag Hch]. split; [rewrite tag_set | rewrite children_set]; assumption.
Qed.

Lemma rewritten_trans (e0 e1 e2 : Element) :
  rewritten e0 e1 -> rewritten e1 e2 -> rewritten e0 e2.
Proof. intros [a b] [c d]. split; congruence. Qed.

Ltac rewritten :=
  unfold _xml_write_float, _xml_write_bool, _xml_write_int, _xml_write_int_signed,
         _xml_write_string;
  repeat first [ assumption | apply rewritten_refl | apply rewritten_set ].

Lemma tag_append (e c : Element) : tag (ET.append e c) = tag e.
Proof. destruct e; reflexivity. Qed.

Section NodeTags.

Context {F : PyFloat} {MO : MatrixOps} {MU : Mathutils F MO} {BM : BMesh F MO}.
Variables (host : Host) (settings : Settings) (_filepath : string).
Variables (_global_matrix : Matrix) (scale_length : float).
Variable defaults : string -> option PyValue.
Variable value_ne : PyValue -> PyValue -> bool.
Variable i3d_default_material : Material.

Lemma object_properties_rewritten (propertygroup : list Property) :
  forall e0 e,
    rewritten e0 e ->
    returns (_xml_object_properties defaults value_ne propertygroup e) (rewritten e0).
Proof.
  induction propertygroup as [| prop rest IH]; intros e0 e He; simpl.
  - apply returns_ret. exact He.
  - apply returns_bind with (P := rewritten e0); [| intros e1 He1; apply IH; exact He1].
    unfold property_pass. apply returns_then. intros _.
    destruct (negb (String.eqb (name_i3d prop) "disabled"));
      [| apply returns_ret; exact He].
    apply returns_then. intros default.
    destruct (value_ne (value_i3d prop) default); [| apply returns_ret; exact He].
    apply returns_then. intros _.
    destruct (value_i3d prop); apply returns_then; intros _; apply returns_ret; rewritten.
Qed.

Lemma camera_rewritten (camera : Camera) (e : Element) :
  returns (_xml_scene_object_camera camera e) (rewritten e).
Proof.
  unfold _xml_scene_object_camera.
  destruct (String.eqb (camera_type camera) "ORTHO"); apply returns_ret; rewritten.
Qed.

Lemma light_rewritten (light : Light) (e : Element) :
  returns (_xml_scene_object_light light e) (rewritten e).
Proof.
  unfold _xml_scene_object_light.
  apply returns_bind with (P := fun r => rewritten e (snd r)).
  - repeat match goal with
           | |- returns (if ?c then _ else _) _ => destruct c
           end;
      try (apply returns_then; intros _); apply returns_ret; simpl; rewritten.
  - intros [[light_type falloff] e1] He1. simpl in He1.
    destruct falloff as [falloff |].
    + destruct (falloff_selector falloff); [| apply returns_raise].
      apply returns_ret. rewritten.
    + apply returns_ret. rewritten.
Qed.

Lemma shape_rewritten (this : ObjectInfo) (e : Element) :
  returns (_xml_scene_object_shape host settings _filepath _global_matrix
                                   scale_length i3d_default_material this e)
          (rewritten e).
Proof.
  unfold _xml_scene_object_shape.
  destruct (object_data this); try apply returns_raise.
  apply returns_then. intros st.
  apply returns_then. intros found.
  apply returns_then. intros shape_id.
  apply returns_then. intros st1.
  apply returns_then. intros material_ids.
  apply returns_ret. rewritten.
Qed.

Lemma general_data_rewritten (node : Node) (e : Element) :
  returns (_xml_scene_object_general_data _global_matrix scale_length defaults value_ne
                                          node e)
          (rewritten e).
Proof.
  unfold _xml_scene_object_general_data.
  apply returns_then. intros [o | c].
  - destruct (to_translation _) as [[tx ty] tz].
    destruct (to_euler_XYZ _) as [[rx ry] rz].
    apply object_properties_rewritten. rewritten.
  - apply returns_ret. rewritten.
Qed.

Lemma compile_node_rewritten (node : Node) (e : Element) :
  returns (compile_node host settings _filepath _global_matrix scale_length defaults
                        value_ne i3d_default_material node e)
          (rewritten e).
Proof.
  unfold compile_node.
  eapply returns_bind; [apply general_data_rewritten |].
  intros e1 He1.
  destruct (blender_object node) as [[o | c] |];
    [| apply returns_ret; exact He1 | apply returns_raise].
  apply returns_bind with (P := rewritten e).
  - eapply returns_weaken with (P := rewritten e1);
      [| intros a Ha; eapply rewritten_trans; eassumption].
    repeat match goal with
           | |- returns (if ?c then _ else _) _ => destruct c
           | |- returns (match ?d with _ => _ end) _ => destruct d
           end;
      first [ apply shape_rewritten | apply light_rewritten | apply camera_rewritten
            | apply returns_raise | apply returns_ret; apply rewritten_refl ].
  - intros e2 He2.
    destruct (data_i3d_attributes (info o)) as [propertygroup |];
      [| apply returns_ret; exact He2].
    apply object_properties_rewritten. exact He2.
Qed.

Lemma blender_to_i3d_tag (b : option Entity) :
  returns (blender_to_i3d b) (fun child_tag => i3d_tag b = Some child_tag).
Proof.
  unfold blender_to_i3d, i3d_tag.
  destruct b as [[o | c] |]; [| apply returns_ret; reflexivity | apply returns_raise].
  apply returns_expect. intros a Ha. exact Ha.
Qed.

Lemma parse_node_tagged :
  forall node e,
    returns (parse_node host settings _filepath _global_matrix scale_length defaults
                        value_ne i3d_default_material node e)
            (fun e' =>
               tag e' = tag e /\
               exists es,
                 children e' = (children e ++ es)%list /\
                 Forall2 tagged_like (node_children node) es).
Proof.
  intros node. induction node as [i b l IH] using Node_forall_ind.
  intros e. simpl.
  eapply returns_bind; [apply compile_node_rewritten |].
  intros e1 [Htag Hch].
  match goal with
  | |- returns (?loop l e1) _ =>
      assert (Hloop : forall l0,
                 Forall (fun n => forall e0,
                           returns (parse_node host settings _filepath _global_matrix
                                               scale_length defaults value_ne
                                               i3d_default_material n e0)
                                   (fun e' =>
                                      tag e' = tag e0 /\
                                      exists es,
                                        children e' = (children e0 ++ es)%list /\
                                        Forall2 tagged_like (node_children n) es)) l0 ->
                 forall acc,
                   returns (loop l0 acc)
                           (fun e' =>
                              tag e' = tag acc /\
                              exists es,
                                children e' = (children acc ++ es)%list /\
                                Forall2 tagged_like l0 es))
  end.
  { clear. induction l0 as [| child l' IHl]; intros Hall acc.
    - apply returns_ret. split; [reflexivity |].
      exists []. rewrite app_nil_r. split; [reflexivity | constructor].
    - inversion Hall as [| ? ? Hchild Hrest]; subst.
      eapply returns_bind; [apply blender_to_i3d_tag |]. intros child_tag Hchild_tag.
      eapply returns_bind; [apply Hchild |].
      intros c (Hctag & es & Hces & Hem). simpl in Hctag, Hces.
      eapply returns_weaken; [apply IHl; assumption |].
      intros e' (Htag' & es' & Hch' & Hem').
      rewrite tag_append in Htag'. split; [exact Htag' |].
      exists (c :: es'). rewrite Hch', children_append, <- app_assoc.
      split; [reflexivity |].
      constructor; [| exact Hem'].
      destruct child as [ci cb cl]. constructor.
      + simpl in Hchild_tag. rewrite Hctag. exact Hchild_tag.
      + rewrite Hces. exact Hem. }
  eapply returns_weaken; [apply Hloop; assumption |].
  intros e' (Htag' & es & Hch' & Hem). split; [congruence |].
  exists es. split; [congruence | exact Hem].
Qed.

Lemma parse_scene_graph_tagged (graph : SceneGraph) (st st' : Exporter) :
  _xml_parse_scene_graph host settings _filepath _global_matrix scale_length defaults
                         value_ne i3d_default_material graph st = (Ok tt, st') ->
  exists es,
    children (Scene st') = (children (Scene st) ++ es)%list /\
    Forall2 tagged_like (node_children (root graph)) es.
Proof.
  unfold _xml_parse_scene_graph. generalize (node_children (root graph)) as l.
  intros l. revert st. induction l as [| child l IH]; intros st H.
  - inversion H; subst. exists []. rewrite app_nil_r. repeat split. constructor.
  - simpl in H.
    apply bind_ok in H. destruct H as ([] & s1 & H1 & H).
    apply bind_ok in H1. destruct H1 as (child_tag & s2 & Htag & H1).
    pose proof Htag as Hkeep2. apply keeps_scene_blender_to_i3d in Hkeep2.
    apply blender_to_i3d_tag in Htag.
    apply bind_ok in H1. destruct H1 as (c & s3 & Hc & H1).
    pose proof Hc as Hkeep. apply keeps_scene_parse_node in Hkeep.
    apply parse_node_tagged in Hc.
    destruct Hc as (Hctag & es & Hces & Hem). simpl in Hctag, Hces.
    apply modify_ok in H1. subst s1.
    destruct (IH _ H) as (es' & Hch & Hall).
    unfold scene_and_output in Hkeep2, Hkeep.
    assert (Hscene : Scene s3 = Scene st) by congruence.
    exists (c :: es'). simpl in Hch.
    rewrite Hch, children_append, Hscene, <- app_assoc.
    split; [reflexivity |].
    constructor; [| exact Hall].
    destruct child as [ci cb cl]. constructor.
    + simpl in Htag. rewrite Hctag. exact Htag.
    + rewrite Hces. exact Hem.
Qed.

End NodeTags.

(** ** The steps of an export that returns *)

Section InitSteps.

Context {F : PyFloat} {MO : MatrixOps} {MU : Mathutils F MO} {BM : BMesh F MO}.
Variables (host : Host) (settings : Settings) (_filepath : string).
Variables (_global_matrix : Matrix) (scale_length : float).
Variable defaults : string -> option PyValue.
Variable value_ne : PyValue -> PyValue -> bool.
Variable i3d_default_material : Material.

Lemma init_steps (context : BpyContext) (st st' : Exporter) :
  Exporter_init host settings _filepath _global_matrix scale_length defaults value_ne
                i3d_default_material context st = (Ok tt, st') ->
  exists s2 s3,
    Files s2 = ET.new "Files" /\ Materials s2 = ET.new "Materials" /\
    Shapes s2 = ET.new "Shapes" /\ Scene s2 = ET.new "Scene" /\
    _file_indexes s2 = _file_indexes st /\
    shape_material_indexes s2 = shape_material_indexes st /\
    ids_shape s2 = ids_shape st /\ ids_material s2 = ids_material st /\
    ids_file s2 = ids_file st /\
    stdout s2 = (stdout st ++ snd (_xml_build_scene_graph settings context))%list /\
    _xml_parse_scene_graph host settings _filepath _global_matrix scale_length defaults
                           value_ne i3d_default_material
                           (fst (_xml_build_scene_graph settings context)) s2
    = (Ok tt, s3) /\
    _xml_export_to_file host _filepath s3 = (Ok tt, st').
Proof.
  intros H. unfold Exporter_init in H.
  destruct (_xml_build_scene_graph settings context) as [graph lines].
  apply bind_ok in H. destruct H as ([] & s1 & Kskeleton & H).
  apply bind_ok in H. destruct H as ([] & s2 & Klines & H).
  apply modify_ok in Klines. subst s2.
  apply bind_ok in H. destruct H as ([] & s3 & Kparse & H).
  unfold _xml_build_skeleton_structure in Kskeleton. run.
  match type of Kparse with
  | _ ?s2 = _ => exists s2, s3
  end.
  repeat (split; [reflexivity |]). split; [exact Kparse | exact H].
Qed.

End InitSteps.

(** ** The files on disk *)

Section DiskFacts.

Variables (host : Host) (settings : Settings) (_filepath : string).



Lemma print_run (line : string) (st : Exporter) :
  print line st = (Ok tt, upd_stdout (fun out => (out ++ [line])%list) st).
Proof. reflexivity. Qed.

(** The end of [_xml_add_file], from the lookup of the resolved path on,
    leaves the disk alone. *)
Lemma keeps_disk_add_file_end (filepath_resolved : string) :
  keeps disk
        (st <- get ;;
         match Py.dict_get String.eqb (_file_indexes st) filepath_resolved with
         | Some file_id => ret file_id
         | None =>
             let file_id := ids_file st in
             modify (upd_ids_file S) ;;
             modify (upd_file_indexes
                       (fun d => Py.dict_set String.eqb d filepath_resolved file_id)) ;;
             let file_element := ET.new "File" in
             let file_element := _xml_write_int file_element "fileId" file_id in
             let file_element :=
               _xml_write_string file_element "filename" filepath_resolved in
             modify (upd_Files (fun files_root => ET.append files_root file_element)) ;;
             ret file_id
         end)%monad.
Proof. keeps. Qed.

(** [_xml_add_file], cut into its steps. *)
Lemma add_file_steps (filepath file_folder : string) (st : Exporter) :
  _xml_add_file host settings _filepath filepath file_folder st =
  (let filepath_absolute := abspath host filepath in
   let s3 :=
     upd_stdout (fun out => (out ++ [("Path sep: " ++ native_pathsep host filepath)%string])%list)
       (upd_stdout (fun out => (out ++ [("Absolute path: " ++ filepath_absolute)%string])%list)
          (upd_stdout (fun out => (out ++ [("Relative path: " ++ filepath)%string])%list) st)) in
   match String.get 0 (shared_data_rewrite filepath_absolute) with
   | None => (Raise IndexError, s3)
   | Some first =>
       bind (if negb (Ascii.eqb first "$") && copy_files settings
             then bind (copy_step host settings _filepath filepath file_folder)
                       (fun _ => ret (output_dir_of settings filepath filepath_absolute
                                                    file_folder
                                      ++ filename_of filepath_absolute))
             else ret (shared_data_rewrite filepath_absolute))
            (register) s3
   end).
Proof.
  unfold _xml_add_file. unfold bind at 1 2 3. rewrite !print_run.
  cbv zeta. unfold bind at 1.
  destruct (String.get 0 _) as [first |]; reflexivity.
Qed.

Lemma keeps_disk_register (key : string) : keeps disk (register key).
Proof. unfold register. keeps. Qed.




End DiskFacts.

(** ** Cutting a path at its last separator *)

Lemma substring_split (s : string) :
  forall k, k <= String.length s ->
            substring 0 k s ++ substring k (String.length s - k) s = s.
Proof.
  induction s as [| a s IH]; intros k Hk.
  - destruct k; reflexivity.
  - destruct k as [| k].
    + simpl. f_equal. specialize (IH 0 (Nat.le_0_l _)). simpl in IH.
      rewrite Nat.sub_0_r in IH.
      destruct s; [reflexivity |]. simpl in IH |- *. exact IH.
    + simpl. f_equal. apply IH. simpl in Hk. lia.
Qed.

Lemma rfind_succ_le (s : string) (c : ascii) : Py.rfind_succ s c <= String.length s.
Proof.
  induction s as [| a s IH]; simpl; [lia |].
  destruct (Py.rfind_succ s c); [destruct (Ascii.eqb a c); lia | lia].
Qed.

(** A path is its directory followed by its file name. *)
Lemma directory_then_filename (path : string) :
  Py.slice path 0 (Py.rfind_succ path Py.backslash) ++ filename_of path = path.
Proof.
  unfold filename_of, Py.slice, Py.len. rewrite Nat.sub_0_r.
  apply substring_split. apply rfind_succ_le.
Qed.

(** ** Replacing the directory before the shared data *)

Lemma substring_prefix (p t : string) : substring 0 (String.length p) (p ++ t) = p.
Proof.
  induction p as [| a p IH]; simpl.
  - destruct t; reflexivity.
  - rewrite IH. reflexivity.
Qed.

Lemma prefix_app (p t : string) : prefix p (p ++ t) = true.
Proof.
  induction p as [| a p IH]; simpl; [destruct t; reflexivity |].
  destruct (ascii_dec a a) as [_ | Hne]; [exact IH | contradiction].
Qed.

Lemma replace_from_skip (old new t : string) (q : string) :
  Py.replace_from (String.length q) old new (q ++ t) = Py.replace_from 0 old new t.
Proof.
  induction q as [| a q IH]; simpl; [reflexivity | exact IH].
Qed.

Lemma replace_leading (a : ascii) (p new t : string) :
  Py.replace (String a p ++ t) (String a p) new = new ++ Py.replace t (String a p) new.
Proof.
  unfold Py.replace.
  change (String a p ++ t) with (String a (p ++ t)).
  cbn [Py.replace_from].
  change (String a (p ++ t)) with (String a p ++ t).
  rewrite prefix_app. f_equal.
  replace (String.length (String a p) - 1) with (String.length p) by (simpl; lia).
  apply replace_from_skip.
Qed.

Lemma replace_absent (old new : string) :
  forall t, Py.count_from 0 old t = 0 -> Py.replace_from 0 old new t = t.
Proof.
  induction t as [| a t IH]; cbn [Py.count_from Py.replace_from]; [reflexivity |].
  destruct (prefix old (String a t)); [intros H; discriminate H |].
  intros H. rewrite IH by exact H. reflexivity.
Qed.

(** ** The material section *)

Lemma material_entry_set (name : string) (id : nat) (e : Element) (k v : string) :
  String.eqb k "name" = false -> String.eqb k "materialId" = false ->
  material_entry name id e -> material_entry name id (ET.set e k v).
Proof.
  intros Hk1 Hk2 (Htag & Hname & Hid). unfold material_entry.
  rewrite tag_set, !get_set_other by assumption. auto.
Qed.

Lemma material_entry_append (name : string) (id : nat) (e c : Element) :
  material_entry name id e -> material_entry name id (ET.append e c).
Proof.
  intros (Htag & Hname & Hid). unfold material_entry.
  rewrite tag_append, !get_append. auto.
Qed.

Section MaterialFacts.

Context {F : PyFloat}.
Variables (host : Host) (settings : Settings) (_filepath : string).

Lemma keeps_materials_add_file (filepath file_folder : string) :
  keeps material_table (_xml_add_file host settings _filepath filepath file_folder).
Proof.
  unfold _xml_add_file, shutil_copy, os_path_exists, os_makedirs.
  assert (Hprint : forall line, keeps material_table (print line))
    by (intros line; apply keeps_print; reflexivity).
  keeps.
Qed.

Lemma texture_child_entry (name : string) (id : nat) (child_tag : string)
      (texture_node : ShaderNode) (e : Element) :
  material_entry name id e ->
  returns (add_texture_child host settings _filepath child_tag texture_node e)
          (material_entry name id).
Proof.
  intros He. unfold add_texture_child.
  destruct (image texture_node); [| apply returns_ret; exact He].
  apply returns_then. intros file_id. apply returns_ret.
  apply material_entry_append. exact He.
Qed.

Lemma keeps_materials_texture_child (child_tag : string) (texture_node : ShaderNode)
      (e : Element) :
  keeps material_table (add_texture_child host settings _filepath child_tag texture_node e).
Proof.
  unfold add_texture_child. destruct (image texture_node); [| apply keeps_ret].
  apply keeps_bind; [apply keeps_materials_add_file | intros; apply keeps_ret].
Qed.

End MaterialFacts.

Section MaterialSteps.

Context {F : PyFloat}.
Variables (host : Host) (settings : Settings) (_filepath : string).

(** [_xml_add_material], cut into its steps. *)
Lemma add_material_steps (material : Material) :
  _xml_add_material host settings _filepath material =
  (st <- get ;;
   found <- lift (find_by_name host (Materials st) "Material" (material_name material)) ;;
   material_element <-
     match found with
     | Some material_element => ret material_element
     | None =>
         material_element <-
           new_material_element host settings _filepath material (ids_material st) ;;
         modify (upd_ids_material S) ;;
         modify (upd_Materials
                   (fun materials_root => ET.append materials_root material_element)) ;;
         ret material_element
     end ;;
   expect (match ET.get material_element "materialId" with
           | Some v => Py.int_parse v
           | None => None
           end)
          (ValueError "invalid literal for int()"))%monad.
Proof. reflexivity. Qed.

End MaterialSteps.

Lemma material_entry_new (name : string) (id : nat) :
  material_entry name id
    (_xml_write_int (_xml_write_string (ET.new "Material") "name" name) "materialId" id).
Proof.
  unfold material_entry, _xml_write_int, _xml_write_string.
  split; [reflexivity |]. split.
  - rewrite get_set_other by reflexivity. apply get_set_same.
  - apply get_set_same.
Qed.

Ltac material_entry :=
  unfold _xml_write_string;
  repeat first
    [ assumption
    | apply material_entry_new
    | apply material_entry_append
    | apply material_entry_set; [reflexivity | reflexivity |] ].

Section MaterialBodyFacts.

Context {F : PyFloat}.
Variables (host : Host) (settings : Settings) (_filepath : string).

Lemma new_material_element_entry (material : Material) (id : nat) :
  returns (new_material_element host settings _filepath material id)
          (material_entry (material_name material) id).
Proof.
  unfold new_material_element. cbv zeta.
  pose proof (material_entry_new (material_name material) id) as Hnew.
  destruct (use_nodes material); [| apply returns_ret; material_entry].
  apply returns_bind with (P := material_entry (material_name material) id).
  - destruct (principled_bsdf (node_tree material)) as [material_node |];
      [| apply returns_ret; exact Hnew].
    apply returns_bind
      with (P := fun r => material_entry (material_name material) id (snd r)).
    + destruct (base_color_from_node material_node) as [connected_node |];
        [| apply returns_ret; exact Hnew].
      destruct (String.eqb (bl_idname connected_node) "ShaderNodeRGB");
        [apply returns_ret; exact Hnew |].
      destruct (String.eqb (bl_idname connected_node) "ShaderNodeTexImage").
      * eapply returns_bind; [apply texture_child_entry; exact Hnew |].
        intros e He. apply returns_ret. exact He.
      * apply returns_then. intros _. apply returns_ret. exact Hnew.
    + intros [diffuse e] He. simpl in He.
      assert (He' : material_entry (material_name material) id
                      (_xml_write_string
                         (_xml_write_string e "diffuseColor" (fmt4 6 diffuse))
                         "specularColor"
                         (fmt 6 (roughness_default material_node) ++ " " ++
                          fmt 6 (specular_default material_node) ++ " " ++
                          fmt 6 (metallic_default material_node))))
        by material_entry.
      destruct (normal_from_node material_node) as [normal_map_node |];
        [| apply returns_ret; exact He'].
      destruct (String.eqb (bl_idname normal_map_node) "ShaderNodeNormalMap");
        [| apply returns_then; intros _; apply returns_ret; exact He'].
      destruct (color_from_node normal_map_node) as [texture_node |];
        [| apply returns_ret; exact He'].
      destruct (String.eqb (bl_idname texture_node) "ShaderNodeTexImage");
        [apply texture_child_entry; exact He' |].
      apply returns_then. intros _. apply returns_ret. exact He'.
  - intros e He.
    destruct (separate_rgb (node_tree material)) as [[gloss_image_node |] |];
      try (apply returns_ret; exact He).
    destruct (String.eqb (bl_idname gloss_image_node) "ShaderNodeTexImage");
      [apply texture_child_entry; exact He |].
    apply returns_then. intros _. apply returns_ret. exact He.
Qed.

Lemma keeps_materials_new_element (material : Material) (id : nat) :
  keeps material_table (new_material_element host settings _filepath material id).
Proof.
  unfold new_material_element. cbv zeta.
  assert (Hprint : forall line, keeps material_table (print line))
    by (intros line; apply keeps_print; reflexivity).
  assert (Htexture := keeps_materials_texture_child host settings _filepath).
  keeps.
Qed.

(** A material that does not use nodes asks for no file. *)
Lemma keeps_files_plain_material (material : Material) (id : nat) :
  use_nodes material = false ->
  keeps (fun st => (file_table st, disk st, stdout st))
        (new_material_element host settings _filepath material id).
Proof.
  intros Hplain. unfold new_material_element. cbv zeta. rewrite Hplain. apply keeps_ret.
Qed.

End MaterialBodyFacts.

(** ** A mesh without triangles *)

Section EmptyMesh.

Context {F : PyFloat} {MO : MatrixOps} {MU : Mathutils F MO} {BM : BMesh F MO}.
Variables (host : Host) (settings : Settings) (_filepath : string).
Variables (_global_matrix : Matrix) (scale_length : float).
Variable i3d_default_material : Material.

Lemma compile_shape_empty (this : ObjectInfo) (data evaluated : Mesh) (st : Exporter) :
  loop_triangles (prepared_mesh settings _global_matrix scale_length data evaluated) = [] ->
  exists st1,
    compile_shape host settings _filepath _global_matrix scale_length
                  i3d_default_material this data evaluated st
    = (Ok (ids_shape st), st1) /\
    ids_shape st1 = S (ids_shape st) /\
    meshes_alive st1 = meshes_alive st /\
    shape_material_indexes st1 = shape_material_indexes st /\
    exists entry,
      children (Shapes st1) = (children (Shapes st) ++ [entry])%list /\
      ET.get entry "name" = Some (mesh_name data) /\
      List.map (fun section => (tag section, children section)) (children entry) =
      [("Vertices", []); ("Triangles", []); ("Subsets", [])].
Proof.
  intros Htriangles. unfold prepared_mesh in Htriangles. cbv zeta in Htriangles.
  unfold compile_shape. cbv zeta.
  unfold bind at 1. unfold get at 1.
  unfold bind at 1. unfold modify at 1.
  unfold bind at 1. unfold modify at 1.
  unfold bind at 1. unfold modify at 1.
  rewrite Htriangles.
  unfold bind at 1.
  destruct (Nat.eqb _ 0).
  - unfold bind at 1. unfold modify at 1. unfold ret at 1.
    simpl loop_triangles. rewrite Htriangles.
    cbn [group_triangles]. unfold bind at 1. unfold ret at 1.
    unfold run_extraction, extract. cbn [for_each].
    unfold bind, ret, get, modify. simpl.
    eexists. split; [reflexivity |]. simpl.
    rewrite remove_last_snoc. repeat (split; [reflexivity |]).
    eexists. rewrite children_append. split; [reflexivity |].
    split; reflexivity.
  - unfold ret at 1. rewrite Htriangles.
    cbn [group_triangles]. unfold bind at 1. unfold ret at 1.
    unfold run_extraction, extract. cbn [for_each].
    unfold bind, ret, get, modify. simpl.
    eexists. split; [reflexivity |]. simpl.
    rewrite remove_last_snoc. repeat (split; [reflexivity |]).
    eexists. rewrite children_append. split; [reflexivity |].
    split; reflexivity.
Qed.

End EmptyMesh.

(** ** Grouping the triangles *)

Lemma filter_distinct_snoc (a x : string) (l : list string) :
  filter (fun y => negb (String.eqb y a)) (l ++ [x]) =
  (filter (fun y => negb (String.eqb y a)) l ++ (if String.eqb x a then [] else [x]))%list.
Proof. rewrite filter_app. simpl. destruct (String.eqb x a); reflexivity. Qed.

Lemma distinct_in_order_snoc (l : list string) (x : string) :
  distinct_in_order (l ++ [x]) =
  if existsb (String.eqb x) l then distinct_in_order l
  else (distinct_in_order l ++ [x])%list.
Proof.
  induction l as [| a l IH]; simpl; [reflexivity |].
  rewrite IH. destruct (String.eqb x a) eqn:Hxa; simpl.
  - destruct (existsb (String.eqb x) l); [reflexivity |].
    rewrite filter_distinct_snoc, Hxa, app_nil_r. reflexivity.
  - destruct (existsb (String.eqb x) l); [reflexivity |].
    rewrite filter_distinct_snoc, Hxa. reflexivity.
Qed.

Lemma in_distinct_in_order (l : list string) (x : string) :
  In x (distinct_in_order l) <-> In x l.
Proof.
  induction l as [| a l IH]; simpl; [tauto |].
  rewrite filter_In, IH. split.
  - intros [H | [H _]]; auto.
  - intros [H | H]; [left; exact H |].
    destruct (String.eqb x a) eqn:E.
    + apply String.eqb_eq in E. left. symmetry. exact E.
    + right. split; [exact H | reflexivity].
Qed.

Section DictKeys.

Variable V : Type.

Lemma dict_set_keys (d : list (string * V)) (k : string) (v : V) :
  List.map fst (Py.dict_set String.eqb d k v) =
  if Py.dict_mem String.eqb d k then List.map fst d else (List.map fst d ++ [k])%list.
Proof.
  unfold Py.dict_mem. induction d as [| [k0 v0] d IH]; simpl; [reflexivity |].
  destruct (String.eqb k0 k) eqn:E; simpl; [reflexivity |].
  rewrite IH. destruct (Py.dict_get String.eqb d k); reflexivity.
Qed.

Lemma dict_get_some_key (d : list (string * V)) (k : string) (v : V) :
  Py.dict_get String.eqb d k = Some v -> In k (List.map fst d).
Proof.
  intros H. apply dict_get_in in H. apply in_map_iff. exists (k, v). auto.
Qed.

End DictKeys.

Lemma dict_set_total (A : Type) (d : list (string * list A)) (k : string) (v : list A) :
  List.length (List.concat (List.map snd (Py.dict_set String.eqb d k v)))
  + List.length (match Py.dict_get String.eqb d k with Some old => old | None => [] end)
  = List.length (List.concat (List.map snd d)) + List.length v.
Proof.
  induction d as [| [k0 v0] d IH]; simpl.
  - rewrite app_nil_r. lia.
  - destruct (String.eqb k0 k); simpl; rewrite !length_app; lia.
Qed.

Section GroupFacts.

Context {F : PyFloat}.
Variables (host : Host) (settings : Settings) (_filepath : string).
Variable mesh : Mesh.
Variable shape_id : nat.

Lemma names_of_snoc (done : list MeshLoopTriangle) (triangle : MeshLoopTriangle)
      (name : string) :
  material_name_at mesh triangle = Some name ->
  names_of mesh (done ++ [triangle]) = (names_of mesh done ++ [name])%list.
Proof.
  intros H. unfold names_of. rewrite flat_map_app. simpl. rewrite H. reflexivity.
Qed.

Lemma filter_uses_snoc (done : list MeshLoopTriangle) (triangle : MeshLoopTriangle)
      (name n : string) :
  material_name_at mesh triangle = Some name ->
  filter (uses mesh n) (done ++ [triangle]) =
  (filter (uses mesh n) done ++ (if String.eqb name n then [triangle] else []))%list.
Proof.
  intros H. rewrite filter_app. simpl. unfold uses at 2. rewrite H.
  destruct (String.eqb name n); reflexivity.
Qed.

(** One more triangle under its name. *)
Lemma grouped_step (acc : list (string * list MeshLoopTriangle))
      (done : list MeshLoopTriangle) (triangle : MeshLoopTriangle) (name : string)
      (subset : list MeshLoopTriangle) :
  grouped mesh acc done ->
  material_name_at mesh triangle = Some name ->
  Py.dict_get String.eqb
              (if negb (Py.dict_mem String.eqb acc name)
               then Py.dict_set String.eqb acc name []
               else acc) name = Some subset ->
  grouped mesh
          (Py.dict_set String.eqb
                       (if negb (Py.dict_mem String.eqb acc name)
                        then Py.dict_set String.eqb acc name []
                        else acc)
                       name (subset ++ [triangle])%list)
          (done ++ [triangle]).
Proof.
  intros (Hkeys & Hcontent & Htotal) Hname Hsubset.
  unfold grouped.
  rewrite (names_of_snoc _ _ Hname), distinct_in_order_snoc.
  pose proof (Hcontent name) as Hhere.
  unfold Py.dict_mem in *.
  destruct (Py.dict_get String.eqb acc name) as [old |] eqn:Hget; simpl in Hsubset |- *.
  - (* the name is a key already *)
    rewrite Hget in Hsubset. inversion Hsubset; subst subset. clear Hsubset.
    assert (Hin : existsb (String.eqb name) (names_of mesh done) = true).
    { apply existsb_exists. exists name. split; [| apply String.eqb_refl].
      apply in_distinct_in_order. rewrite <- Hkeys.
      eapply dict_get_some_key. exact Hget. }
    rewrite Hin. split; [| split].
    + rewrite dict_set_keys. unfold Py.dict_mem. rewrite Hget. exact Hkeys.
    + intros n. rewrite (filter_uses_snoc _ _ n Hname).
      destruct (String.eqb name n) eqn:E.
      * apply String.eqb_eq in E. subst n. rewrite dict_get_set_same.
        destruct (filter (uses mesh name) done) as [| t0 l0];
          [discriminate Hhere |].
        inversion Hhere; subst old. reflexivity.
      * rewrite dict_get_set_other by exact E. rewrite app_nil_r. apply Hcontent.
    + pose proof (dict_set_total acc name (old ++ [triangle])) as Ht.
      rewrite Hget in Ht. rewrite !length_app in Ht |- *. simpl in Ht |- *. lia.
  - (* a new name *)
    rewrite dict_get_set_same in Hsubset. inversion Hsubset; subst subset. clear Hsubset.
    assert (Hout : existsb (String.eqb name) (names_of mesh done) = false).
    { apply not_true_is_false. intros E. apply existsb_exists in E.
      destruct E as (x & Hx & Heq). apply String.eqb_eq in Heq. subst x.
      apply in_distinct_in_order in Hx. rewrite <- Hkeys in Hx.
      exact (dict_get_none_not_in _ _ Hget Hx). }
    rewrite Hout. split; [| split].
    + rewrite dict_set_keys. unfold Py.dict_mem. rewrite dict_get_set_same.
      rewrite dict_set_keys. unfold Py.dict_mem. rewrite Hget, Hkeys. reflexivity.
    + intros n. rewrite (filter_uses_snoc _ _ n Hname).
      destruct (String.eqb name n) eqn:E.
      * apply String.eqb_eq in E. subst n. rewrite dict_get_set_same.
        destruct (filter (uses mesh name) done) as [| t0 l0];
          [reflexivity | discriminate Hhere].
      * rewrite !dict_get_set_other by exact E. rewrite app_nil_r. apply Hcontent.
    + pose proof (dict_set_total (Py.dict_set String.eqb acc name []) name [triangle]) as Ht.
      rewrite dict_get_set_same in Ht.
      pose proof (dict_set_total acc name (@nil MeshLoopTriangle)) as Ht0.
      rewrite Hget in Ht0. rewrite length_app. simpl in Ht, Ht0 |- *. lia.
Qed.

Lemma group_triangles_grouped (triangles : list MeshLoopTriangle) :
  forall acc done st ts st',
    grouped mesh acc done ->
    group_triangles host settings _filepath mesh shape_id triangles acc st = (Ok ts, st') ->
    grouped mesh ts (done ++ triangles) /\
    Forall (fun triangle => material_name_at mesh triangle <> None) triangles.
Proof.
  induction triangles as [| triangle triangles IH]; intros acc done st ts st' Hacc H.
  - simpl in H. inversion H; subst. rewrite app_nil_r. split; [exact Hacc | constructor].
  - simpl in H.
    apply bind_ok in H. destruct H as (slot & s1 & Hslot & H).
    apply expect_ok in Hslot. destruct Hslot as [Hslot ->].
    apply bind_ok in H. destruct H as (material & s2 & Hmaterial & H).
    apply expect_ok in Hmaterial. destruct Hmaterial as [Hmaterial ->].
    subst slot.
    assert (Hname : material_name_at mesh triangle = Some (material_name material)).
    { unfold material_name_at. rewrite Hslot. reflexivity. }
    apply bind_ok in H. destruct H as (ts1 & s3 & Hts1 & H).
    assert (Ets1 : ts1 = if negb (Py.dict_mem String.eqb acc (material_name material))
                         then Py.dict_set String.eqb acc (material_name material) []
                         else acc).
    { destruct (negb (Py.dict_mem String.eqb acc (material_name material))).
      - apply bind_ok in Hts1. destruct Hts1 as (id & s4 & _ & Hts1).
        apply bind_ok in Hts1. destruct Hts1 as ([] & s5 & _ & Hts1).
        apply ret_ok in Hts1. destruct Hts1 as [-> _]. reflexivity.
      - apply ret_ok in Hts1. destruct Hts1 as [-> _]. reflexivity. }
    apply bind_ok in H. destruct H as (subset & s4 & Hsubset & H).
    apply expect_ok in Hsubset. destruct Hsubset as [Hsubset ->].
    rewrite Ets1 in Hsubset, H.
    pose proof (@grouped_step _ _ _ _ _ Hacc Hname Hsubset) as Hstep.
    destruct (IH _ _ _ _ _ Hstep H) as [Hall Hvalid].
    rewrite <- app_assoc in Hall. split; [exact Hall |].
    constructor; [rewrite Hname; discriminate | exact Hvalid].
Qed.

End GroupFacts.

(** ** The attributes of the sections during the extraction *)

Section KeepsIn.

Variables S T A B : Type.
Variable part : S -> T.

Lemma keeps_in_ret (a : A) : keeps_in part (@ret S A a).
Proof. intros s r s' H. inversion H. reflexivity. Qed.

Lemma keeps_in_raise (e : exn) : keeps_in part (@raise S A e).
Proof. intros s r s' H. inversion H. reflexivity. Qed.

Lemma keeps_in_expect (o : option A) (e : exn) : keeps_in part (@expect S A o e).
Proof. destruct o; [apply keeps_in_ret | apply keeps_in_raise]. Qed.

Lemma keeps_in_get : keeps_in part (@get S).
Proof. intros s r s' H. inversion H. reflexivity. Qed.

Lemma keeps_in_modify (f : S -> S) :
  (forall s, part (f s) = part s) -> keeps_in part (modify f).
Proof. intros Hf s r s' H. inversion H. apply Hf. Qed.

Lemma keeps_in_bind (m : M S A) (k : A -> M S B) :
  keeps_in part m -> (forall a, keeps_in part (k a)) -> keeps_in part (bind m k).
Proof.
  intros Hm Hk s r s' H. apply bind_cases in H.
  destruct H as [(e & H & _) | (a & s1 & H1 & H)].
  - eapply Hm. exact H.
  - rewrite (Hk _ _ _ _ H). eapply Hm. exact H1.
Qed.

End KeepsIn.

Lemma keeps_in_for_each (S T A : Type) (part : S -> T) (l : list A)
      (body : A -> M S unit) :
  (forall a, keeps_in part (body a)) -> keeps_in part (for_each l body).
Proof.
  intros Hb. induction l as [| a l IH]; simpl.
  - apply keeps_in_ret.
  - apply keeps_in_bind; [apply Hb | intros _; exact IH].
Qed.

Lemma attrib_append (e c : Element) : attrib (ET.append e c) = attrib e.
Proof. destruct e; reflexivity. Qed.

Ltac keeps_in :=
  repeat first
    [ apply keeps_in_ret
    | apply keeps_in_raise
    | apply keeps_in_expect
    | apply keeps_in_get
    | apply keeps_in_bind
    | apply keeps_in_for_each
    | apply keeps_in_modify; intro; unfold section_attributes; simpl;
      rewrite ?attrib_append; reflexivity
    | match goal with |- forall _, _ => intro end
    | match goal with
      | |- keeps_in _ (if ?c then _ else _) => destruct c
      | |- keeps_in _ (match ?o with _ => _ end) => destruct o
      | |- keeps_in _ (let '(_, _) := ?o in _) => destruct o
      end ].

Section ExtractionAttributes.

Context {F : PyFloat}.
Variable mesh : Mesh.

Lemma keeps_attributes_uv_layers (layers : list MeshUVLoopLayer) :
  forall count loop_index uvs,
    keeps_in section_attributes (uv_layers_loop count layers loop_index uvs).
Proof.
  induction layers as [| uv layers IH]; intros count loop_index uvs; simpl.
  - apply keeps_in_ret.
  - apply keeps_in_bind; [keeps_in | intros; apply IH].
Qed.

Lemma keeps_attributes_loop_pass (mat : string) (acc : string * nat) (loop_index : nat) :
  keeps_in section_attributes (loop_pass mesh mat acc loop_index).
Proof.
  unfold loop_pass, vertex_data_of_loop. destruct acc as [tvi nv].
  assert (Huv := keeps_attributes_uv_layers).
  apply keeps_in_bind.
  - apply keeps_in_bind; [keeps_in |]. intros l.
    apply keeps_in_bind; [keeps_in |]. intros vertex.
    apply keeps_in_bind; [apply Huv | keeps_in].
  - keeps_in.
Qed.

Lemma keeps_attributes_triangle_pass (mat : string) (acc : nat * nat)
      (triangle : MeshLoopTriangle) :
  keeps_in section_attributes (triangle_pass mesh mat acc triangle).
Proof.
  unfold triangle_pass. destruct acc as [ni nv].
  destruct (loops triangle) as [[l0 l1] l2].
  apply keeps_in_bind; [apply keeps_attributes_loop_pass |]. intros a.
  apply keeps_in_bind; [apply keeps_attributes_loop_pass |]. intros b.
  apply keeps_in_bind; [apply keeps_attributes_loop_pass |]. intros [tvi nv'].
  keeps_in.
Qed.

Lemma keeps_attributes_triangles_loop (mat : string) (subset : list MeshLoopTriangle) :
  forall acc, keeps_in section_attributes (triangles_loop mesh mat acc subset).
Proof.
  induction subset as [| triangle subset IH]; intros acc; simpl.
  - apply keeps_in_ret.
  - apply keeps_in_bind; [apply keeps_attributes_triangle_pass | intros; apply IH].
Qed.

Lemma keeps_attributes_subsets (triangle_subsets : list (string * list MeshLoopTriangle)) :
  keeps_in section_attributes (for_each triangle_subsets (subset_pass mesh)).
Proof.
  apply keeps_in_for_each. intros [mat subset]. unfold subset_pass.
  apply keeps_in_bind; [apply keeps_in_get |]. intros x.
  apply keeps_in_bind; [apply keeps_attributes_triangles_loop |]. intros [ni nv].
  keeps_in.
Qed.

Lemma keeps_attributes_extract (triangle_subsets : list (string * list MeshLoopTriangle)) :
  keeps_in section_attributes (extract mesh triangle_subsets).
Proof.
  unfold extract.
  apply keeps_in_bind; [apply keeps_attributes_subsets |]. intros _.
  keeps_in.
Qed.

(** The corners scanned are as many as the triangles of the subsets. *)
Lemma subset_corners_length (mat : string) (subset : list MeshLoopTriangle) :
  forall l, subset_corners mesh mat subset = Some l -> List.length l = List.length subset.
Proof.
  induction subset as [| triangle subset IH]; simpl; intros l H.
  - inversion H. reflexivity.
  - destruct (triangle_corners mesh mat triangle); [| discriminate H].
    destruct (subset_corners mesh mat subset) as [l' |]; [| discriminate H].
    inversion H. simpl. rewrite (IH l' eq_refl). reflexivity.
Qed.

Lemma scan_length (triangle_subsets : list (string * list MeshLoopTriangle)) :
  forall T, scan mesh triangle_subsets = Some T ->
            List.length T = List.length (List.concat (List.map snd triangle_subsets)).
Proof.
  induction triangle_subsets as [| [mat subset] rest IH]; simpl; intros T H.
  - inversion H. reflexivity.
  - destruct (subset_corners mesh mat subset) as [l |] eqn:Hl; [| discriminate H].
    destruct (scan mesh rest) as [l' |]; [| discriminate H].
    inversion H. rewrite !length_app, (IH l' eq_refl), (subset_corners_length _ _ Hl).
    reflexivity.
Qed.

End ExtractionAttributes.

(** ** The steps of a compilation that returns *)

Lemma packed_subsets_length (sizes : list (nat * nat)) :
  forall i v, List.length (packed_subsets i v sizes) = List.length sizes.
Proof.
  induction sizes as [| [ni nv] sizes IH]; intros i v; simpl; [reflexivity |].
  rewrite IH. reflexivity.
Qed.

Lemma grouped_nil {F : PyFloat} (mesh : Mesh) : grouped mesh [] [].
Proof. repeat split. Qed.

Section CompileParts.

Context {F : PyFloat} {MO : MatrixOps} {MU : Mathutils F MO} {BM : BMesh F MO}.
Variables (host : Host) (settings : Settings) (_filepath : string).
Variables (_global_matrix : Matrix) (scale_length : float).
Variable i3d_default_material : Material.

(** The mesh that is grouped and extracted: the prepared mesh, with the
    default material in its only slot when it came without a slot. *)
Lemma compile_shape_parts this data evaluated st shape_id st' :
  compile_shape host settings _filepath _global_matrix scale_length
                i3d_default_material this data evaluated st = (Ok shape_id, st') ->
  let prepared := prepared_mesh settings _global_matrix scale_length data evaluated in
  exists mesh triangle_subsets x sa sb,
    mesh = (if Nat.eqb (List.length (materials prepared)) 0
            then with_materials prepared [Some i3d_default_material]
            else prepared) /\
    (Materials sa, shape_material_indexes sa) = (Materials st, shape_material_indexes st) /\
    group_triangles host settings _filepath mesh shape_id (loop_triangles prepared) [] sa
    = (Ok triangle_subsets, sb) /\
    (Materials st', shape_material_indexes st') = (Materials sb, shape_material_indexes sb) /\
    extract mesh triangle_subsets
            (extraction_start
               (ET.new "Vertices")
               (_xml_write_int (ET.new "Triangles") "count"
                               (List.length (loop_triangles prepared)))
               (_xml_write_int (ET.new "Subsets") "count"
                               (List.length triangle_subsets)))
    = (Ok tt, x) /\
    shape_id = ids_shape st /\
    children (Shapes st') =
      (children (Shapes st)
       ++ [ET.set_children
             (_xml_write_int
                (_xml_write_string (ET.new "IndexedTriangleSet") "name" (mesh_name data))
                "shapeId" shape_id)
             [vertices_element x; triangles_element x; subsets_element x]])%list.
Proof.
  unfold compile_shape, prepared_mesh. cbv zeta. intros H.
  apply bind_ok in H. destruct H as (st0 & st0' & Hg & H).
  apply get_ok in Hg. destruct Hg; subst st0 st0'.
  apply bind_ok in H. destruct H as ([] & st1 & H1 & H).
  apply modify_ok in H1. subst st1.
  apply bind_ok in H. destruct H as ([] & st2 & H2 & H).
  apply modify_ok in H2. subst st2.
  apply bind_ok in H. destruct H as ([] & st3 & H3 & H).
  apply modify_ok in H3. subst st3.
  apply bind_ok in H. destruct H as (mesh & st4 & H4 & H).
  apply bind_ok in H. destruct H as (ts & st5 & H5 & H).
  apply bind_ok in H. destruct H as ([[] x] & st6 & H6 & H).
  assert (K6 := H6).
  apply keeps_beside_run_extraction in K6.
  assert (M6 : (Materials st6, shape_material_indexes st6) =
               (Materials st5, shape_material_indexes st5)).
  { unfold run_extraction in H6.
    destruct (extract mesh ts _) as [[a | e] x0]; run;
      try match goal with E : raise _ _ = _ |- _ => discriminate E end;
      reflexivity. }
  apply beside_shapes in K6.
  apply run_extraction_ok in H6.
  assert (K5 := H5). apply keeps_beside_group_triangles, beside_shapes in K5.
  apply bind_ok in H. destruct H as ([] & st7 & H7 & H).
  apply modify_ok in H7. subst st7.
  apply bind_ok in H. destruct H as ([] & st8 & H8 & H).
  apply modify_ok in H8. subst st8.
  apply ret_ok in H. destruct H as [Hid Hst]. subst st' shape_id.
  exists mesh, ts, x, st4, st5.
  destruct (Nat.eqb _ 0) eqn:Hslots in H4.
  - apply bind_ok in H4. destruct H4 as ([] & st9 & H9 & H4).
    apply modify_ok in H9. subst st9.
    apply ret_ok in H4. destruct H4 as [Hmesh Hst4]. subst st4.
    rewrite Hslots. subst mesh. simpl loop_triangles in *.
    split; [reflexivity |]. split; [reflexivity |].
    split; [exact H5 |]. split; [exact M6 |].
    split; [exact H6 |]. split; [reflexivity |].
    simpl. rewrite children_append, K6, K5. reflexivity.
  - apply ret_ok in H4. destruct H4 as [Hmesh Hst4]. subst st4.
    rewrite Hslots. subst mesh.
    split; [reflexivity |]. split; [reflexivity |].
    split; [exact H5 |]. split; [exact M6 |].
    split; [exact H6 |]. split; [reflexivity |].
    simpl. rewrite children_append, K6, K5. reflexivity.
Qed.

End CompileParts.

(** ** The material ids of a shape *)

Lemma nat_dict_get_set_same (V : Type) (d : list (nat * V)) (k : nat) (v : V) :
  Py.dict_get Nat.eqb (Py.dict_set Nat.eqb d k v) k = Some v.
Proof.
  induction d as [| [k' v'] d IH]; simpl.
  - rewrite Nat.eqb_refl. reflexivity.
  - destruct (Nat.eqb k' k) eqn:Hk; simpl; rewrite Hk; auto.
Qed.

Lemma concat_snoc (sep x : string) (l : list string) :
  l <> [] -> String.concat sep (l ++ [x]) = (String.concat sep l ++ sep ++ x)%string.
Proof.
  induction l as [| a l IH]; intros Hl; [contradiction Hl; reflexivity |].
  destruct l as [| b l].
  - reflexivity.
  - change (String.concat sep ((a :: b :: l) ++ [x]))
      with (a ++ sep ++ String.concat sep ((b :: l) ++ [x]))%string.
    rewrite IH by discriminate.
    change (String.concat sep (a :: b :: l))
      with (a ++ sep ++ String.concat sep (b :: l))%string.
    rewrite <- !append_assoc. reflexivity.
Qed.

Lemma joined_some (ids : list nat) :
  forall before,
    before <> [] ->
    joined (Some (Py.join "," (List.map Py.int_str before))) ids =
    Some (Py.join "," (List.map Py.int_str (before ++ ids))).
Proof.
  unfold joined, Py.join.
  induction ids as [| id ids IH]; intros before Hbefore; cbn [fold_left].
  - rewrite app_nil_r. reflexivity.
  - rewrite <- concat_snoc.
    + rewrite <- map_last, IH.
      * rewrite <- app_assoc. reflexivity.
      * destruct before; discriminate.
    + destruct before; [contradiction Hbefore; reflexivity | discriminate].
Qed.

Lemma joined_none (id : nat) (ids : list nat) :
  joined None (id :: ids) = Some (Py.join "," (List.map Py.int_str (id :: ids))).
Proof. apply (joined_some ids (before := [id])). discriminate. Qed.

Lemma joined_app (entry : option string) (a b : list nat) :
  joined entry (a ++ b) = joined (joined entry a) b.
Proof. apply fold_left_app. Qed.

Lemma is_material_id_more (l more : list Element) (id : nat) :
  is_material_id l id -> is_material_id (l ++ more) id.
Proof.
  intros (e & Hin & He). exists e. split; [apply in_or_app; left; exact Hin | exact He].
Qed.

Section MaterialIds.

Context {F : PyFloat}.
Variables (host : Host) (settings : Settings) (_filepath : string).

Lemma keeps_indexes_add_material (material : Material) :
  keeps shape_material_indexes (_xml_add_material host settings _filepath material).
Proof.
  assert (Hprint : forall line, keeps shape_material_indexes (print line))
    by (intros line; apply keeps_print; reflexivity).
  assert (Hfile : forall filepath file_folder,
             keeps shape_material_indexes
                   (_xml_add_file host settings _filepath filepath file_folder)).
  { intros filepath file_folder.
    unfold _xml_add_file, shutil_copy, os_path_exists, os_makedirs. keeps. }
  unfold _xml_add_material, add_texture_child. keeps.
Qed.

(** The id that [_xml_add_material] returns is the id of an element of
    the section, which has grown at its end or not at all. *)
Lemma add_material_element (material : Material) (st st' : Exporter) (id : nat) :
  _xml_add_material host settings _filepath material st = (Ok id, st') ->
  (exists more, children (Materials st') = (children (Materials st) ++ more)%list) /\
  is_material_id (children (Materials st')) id.
Proof.
  intros H. rewrite add_material_steps in H.
  apply bind_ok in H. destruct H as (s0 & s0' & Hg & H).
  apply get_ok in Hg. destruct Hg; subst s0 s0'.
  apply bind_ok in H. destruct H as (found & s1 & Hfound & H).
  assert (Hknown : s1 = st /\
                   forall known, found = Some known ->
                                 In known (children (Materials st)) /\
                                 tag known = "Material").
  { unfold find_by_name in Hfound. destruct (Py.contains _ _).
    - destruct (find_path host _ _); [discriminate Hfound |].
      apply ret_ok in Hfound. destruct Hfound as [Hfound Hs1]. subst found s1.
      split; [reflexivity |]. intros known Habs. discriminate Habs.
    - apply ret_ok in Hfound. destruct Hfound as [Hfound Hs1]. subst s1.
      split; [reflexivity |]. intros known Hsome. rewrite Hsome in Hfound.
      symmetry in Hfound. apply find_some in Hfound. destruct Hfound as [Hin Hhit].
      apply andb_true_iff in Hhit. destruct Hhit as [Htag _].
      apply String.eqb_eq in Htag. split; assumption. }
  clear Hfound. destruct Hknown as [Hs1 Hknown]. subst s1.
  apply bind_ok in H. destruct H as (e & s2 & He & H).
  apply expect_ok in H. destruct H as [Hid ->].
  destruct found as [known |].
  - apply ret_ok in He. destruct He; subst.
    split; [exists []; rewrite app_nil_r; reflexivity |].
    destruct (Hknown known eq_refl) as [Hin Htag].
    exists known. split; [exact Hin |]. split; [exact Htag | exact Hid].
  - apply bind_ok in He. destruct He as (e0 & s3 & Hbody & He).
    pose proof Hbody as Hkeep. apply keeps_materials_new_element in Hkeep.
    apply new_material_element_entry in Hbody.
    apply bind_ok in He. destruct He as ([] & s4 & Hcount & He).
    apply modify_ok in Hcount. subst s4.
    apply bind_ok in He. destruct He as ([] & s5 & Happend & He).
    apply modify_ok in Happend. subst s5.
    apply ret_ok in He. destruct He; subst e s2.
    unfold material_table in Hkeep. inversion Hkeep as [[Hm Hc]].
    destruct Hbody as (Htag & Hname & Hmid).
    simpl. rewrite Hm, children_append.
    split; [exists [e0]; reflexivity |].
    exists e0. split; [apply in_or_app; right; left; reflexivity |].
    split; [exact Htag | exact Hid].
Qed.

Variable mesh : Mesh.
Variable shape_id : nat.

(** The grouping asks for the id of a material whenever it opens a subset
    and adds the id to the entry of the shape. *)
Lemma group_triangles_ids (triangles : list MeshLoopTriangle) :
  forall acc st ts st',
    group_triangles host settings _filepath mesh shape_id triangles acc st = (Ok ts, st') ->
    exists ids more,
      children (Materials st') = (children (Materials st) ++ more)%list /\
      List.length ts = List.length acc + List.length ids /\
      Py.dict_get Nat.eqb (shape_material_indexes st') shape_id =
        joined (Py.dict_get Nat.eqb (shape_material_indexes st) shape_id) ids /\
      Forall (is_material_id (children (Materials st'))) ids.
Proof.
  induction triangles as [| triangle triangles IH]; intros acc st ts st' H.
  - simpl in H. inversion H; subst. exists [], [].
    rewrite app_nil_r. simpl. repeat split; [lia | constructor].
  - simpl in H.
    apply bind_ok in H. destruct H as (slot & s1 & Hslot & H).
    apply expect_ok in Hslot. destruct Hslot as [Hslot ->].
    apply bind_ok in H. destruct H as (material & s2 & Hmaterial & H).
    apply expect_ok in Hmaterial. destruct Hmaterial as [Hmaterial ->].
    apply bind_ok in H. destruct H as (acc1 & s3 & Hopen & H).
    apply bind_ok in H. destruct H as (subset & s4 & Hsubset & H).
    apply expect_ok in Hsubset. destruct Hsubset as [Hsubset ->].
    apply IH in H. destruct H as (ids & more & Hmore & Hlen & Hentry & Hids).
    assert (Hkeys : List.length (Py.dict_set String.eqb acc1 (material_name material)
                                             (subset ++ [triangle])%list)
                    = List.length acc1).
    { rewrite <- (length_map fst), dict_set_keys.
      unfold Py.dict_mem. rewrite Hsubset. apply length_map. }
    rewrite Hkeys in Hlen. clear Hkeys.
    destruct (negb (Py.dict_mem String.eqb acc (material_name material))) eqn:Hnew.
    + apply bind_ok in Hopen. destruct Hopen as (id & s5 & Hadd & Hopen).
      apply bind_ok in Hopen. destruct Hopen as ([] & s6 & Hnote & Hopen).
      apply modify_ok in Hnote. subst s6.
      apply ret_ok in Hopen. destruct Hopen as [Hacc1 Hs3]. subst acc1 s3.
      pose proof Hadd as Hkeep. apply keeps_indexes_add_material in Hkeep.
      apply add_material_element in Hadd. destruct Hadd as [[more0 Hmore0] Hid].
      exists (id :: ids), (more0 ++ more)%list.
      simpl in Hmore, Hentry.
      split; [rewrite Hmore, Hmore0, app_assoc; reflexivity |].
      split.
      { rewrite Hlen, <- (length_map fst), dict_set_keys.
        apply negb_true_iff in Hnew. rewrite Hnew, length_app, length_map.
        simpl. lia. }
      split.
      { rewrite Hentry, Hkeep. simpl.
        destruct (Py.dict_get Nat.eqb (shape_material_indexes st) shape_id);
          rewrite nat_dict_get_set_same; reflexivity. }
      constructor; [| exact Hids].
      rewrite Hmore. apply is_material_id_more. exact Hid.
    + apply ret_ok in Hopen. destruct Hopen as [Hacc1 Hs3]. subst acc1 s3.
      exists ids, more. auto.
Qed.

End MaterialIds.

(** ** Computations that keep an invariant *)

Section Preserves.

Variable I : Exporter -> Prop.
Variables A B : Type.

Lemma preserves_ret (a : A) : preserves I (ret a).
Proof. intros st a' st' H E. inversion E; subst. exact H. Qed.

Lemma preserves_raise (e : exn) : preserves I (@raise Exporter A e).
Proof. intros st a st' H E. discriminate E. Qed.

Lemma preserves_expect (o : option A) (e : exn) : preserves I (expect o e).
Proof. destruct o; [apply preserves_ret | apply preserves_raise]. Qed.

Lemma preserves_lift (o : Outcome A) : preserves I (lift o).
Proof. destruct o; [apply preserves_ret | apply preserves_raise]. Qed.

Lemma preserves_get : preserves I get.
Proof. intros st a st' H E. inversion E; subst. exact H. Qed.

Lemma preserves_modify (f : Exporter -> Exporter) :
  (forall s, I s -> I (f s)) -> preserves I (modify f).
Proof. intros Hf st a st' H E. inversion E; subst. apply Hf. exact H. Qed.

Lemma preserves_bind (m : X A) (k : A -> X B) :
  preserves I m -> (forall a, preserves I (k a)) -> preserves I (bind m k).
Proof.
  intros Hm Hk st b st' H E. apply bind_ok in E. destruct E as (a & s1 & E1 & E).
  eapply Hk; [| exact E]. eapply Hm; eassumption.
Qed.

Lemma preserves_keeps (T : Type) (part : Exporter -> T) (m : X A) :
  (forall s s', part s' = part s -> I s -> I s') -> keeps part m -> preserves I m.
Proof. intros Hpart Hm st a st' H E. apply Hm in E. eapply Hpart; eassumption. Qed.

End Preserves.

Lemma preserves_for_each (I : Exporter -> Prop) (A : Type) (l : list A)
      (body : A -> X unit) :
  (forall a, preserves I (body a)) -> preserves I (for_each l body).
Proof.
  intros Hb. induction l as [| a l IH]; simpl.
  - apply preserves_ret.
  - apply preserves_bind; [apply Hb | intros _; exact IH].
Qed.

Create HintDb preserves.
#[export] Hint Resolve preserves_ret preserves_raise preserves_expect preserves_lift
  preserves_get : preserves.

Ltac preserves :=
  repeat first
    [ progress auto with preserves
    | apply preserves_bind
    | apply preserves_for_each
    | match goal with |- forall _, _ => intro end
    | match goal with
      | |- preserves _ (if ?c then _ else _) => destruct c
      | |- preserves _ (match ?o with _ => _ end) => destruct o
      | |- preserves _ (let '(_, _) := ?o in _) => destruct o
      end ].

(** ** What the walk leaves alone in the tables *)

Section KeepsTables.

Context {F : PyFloat} {MO : MatrixOps} {MU : Mathutils F MO} {BM : BMesh F MO}.
Variables (host : Host) (settings : Settings) (_filepath : string).
Variables (_global_matrix : Matrix) (scale_length : float).
Variable defaults : string -> option PyValue.
Variable value_ne : PyValue -> PyValue -> bool.

Lemma keeps_tables_print (line : string) : keeps tables (print line).
Proof. apply keeps_print. reflexivity. Qed.

Hint Resolve keeps_tables_print : keeps.

Lemma keeps_tables_run_extraction (A : Type) (m : E A) (start : Extraction) :
  keeps tables (run_extraction m start).
Proof. unfold run_extraction. destruct (m start) as [[a | e] x]; keeps. Qed.

Lemma keeps_tables_light (light : Light) (e : Element) :
  keeps tables (_xml_scene_object_light light e).
Proof. unfold _xml_scene_object_light. keeps. Qed.

Lemma keeps_tables_camera (camera : Camera) (e : Element) :
  keeps tables (_xml_scene_object_camera camera e).
Proof. unfold _xml_scene_object_camera. keeps. Qed.

Lemma keeps_tables_properties (propertygroup : list Property) :
  forall e, keeps tables (_xml_object_properties defaults value_ne propertygroup e).
Proof.
  induction propertygroup as [| prop rest IH]; intros e; simpl.
  - keeps.
  - apply keeps_bind; [unfold property_pass; keeps | exact IH].
Qed.

Hint Resolve keeps_tables_properties : keeps.

Lemma keeps_tables_general_data (node : Node) (e : Element) :
  keeps tables
        (_xml_scene_object_general_data _global_matrix scale_length defaults value_ne
                                        node e).
Proof. unfold _xml_scene_object_general_data. keeps. Qed.

Lemma keeps_tables_blender_to_i3d (b : option Entity) :
  keeps tables (blender_to_i3d b).
Proof. unfold blender_to_i3d. keeps. Qed.

Lemma keeps_tables_export_to_file :
  keeps tables (_xml_export_to_file host _filepath).
Proof.
  unfold _xml_export_to_file. apply keeps_bind; [apply keeps_get |]. intros st.
  apply keeps_try_except.
  - destruct (write_error host _filepath).
    { apply keeps_bind; [| intros; apply keeps_raise].
      apply keeps_when, keeps_modify. intro. reflexivity. }
    apply keeps_bind; [apply keeps_modify; intro; reflexivity |].
    intros _. apply keeps_tables_print.
  - intros e. apply keeps_tables_print.
Qed.

End KeepsTables.

(** ** An invariant of the tables goes through the walk *)

Section Walk.

Context {F : PyFloat} {MO : MatrixOps} {MU : Mathutils F MO} {BM : BMesh F MO}.
Variables (host : Host) (settings : Settings) (_filepath : string).
Variables (_global_matrix : Matrix) (scale_length : float).
Variable defaults : string -> option PyValue.
Variable value_ne : PyValue -> PyValue -> bool.
Variable i3d_default_material : Material.

Variable I : Exporter -> Prop.
Hypothesis I_tables : forall s s', tables s' = tables s -> I s -> I s'.
Hypothesis I_compile :
  forall this data evaluated,
    preserves I (compile_shape host settings _filepath _global_matrix scale_length
                               i3d_default_material this data evaluated).

Lemma preserves_shape (this : ObjectInfo) (e : Element) :
  preserves I (_xml_scene_object_shape host settings _filepath _global_matrix
                                       scale_length i3d_default_material this e).
Proof. unfold _xml_scene_object_shape. preserves. Qed.

Lemma preserves_compile_node (node : Node) (e : Element) :
  preserves I (compile_node host settings _filepath _global_matrix scale_length defaults
                            value_ne i3d_default_material node e).
Proof.
  assert (Hshape := preserves_shape).
  assert (Hlight : forall light e, preserves I (_xml_scene_object_light light e))
    by (intros; eapply preserves_keeps; [exact I_tables | apply keeps_tables_light]).
  assert (Hcamera : forall camera e, preserves I (_xml_scene_object_camera camera e))
    by (intros; eapply preserves_keeps; [exact I_tables | apply keeps_tables_camera]).
  assert (Hproperties : forall propertygroup e,
             preserves I (_xml_object_properties defaults value_ne propertygroup e))
    by (intros; eapply preserves_keeps; [exact I_tables | apply keeps_tables_properties]).
  assert (Hgeneral : forall node e,
             preserves I (_xml_scene_object_general_data _global_matrix scale_length
                                                         defaults value_ne node e))
    by (intros; eapply preserves_keeps; [exact I_tables | apply keeps_tables_general_data]).
  unfold compile_node, _xml_scene_object_transform_group. preserves.
Qed.

Lemma preserves_blender_to_i3d (b : option Entity) : preserves I (blender_to_i3d b).
Proof. eapply preserves_keeps; [exact I_tables | apply keeps_tables_blender_to_i3d]. Qed.

Lemma preserves_parse_node :
  forall node e,
    preserves I (parse_node host settings _filepath _global_matrix scale_length defaults
                            value_ne i3d_default_material node e).
Proof.
  intros node. induction node as [i b l IH] using Node_forall_ind.
  intros e. simpl.
  apply preserves_bind; [apply preserves_compile_node |].
  intros e1. revert e1.
  induction l as [| child l' IHl]; intros acc.
  - apply preserves_ret.
  - inversion IH as [| ? ? Hchild Hrest]; subst.
    apply preserves_bind; [apply preserves_blender_to_i3d |]. intros child_tag.
    apply preserves_bind; [apply Hchild |]. intros child_element.
    apply IHl. exact Hrest.
Qed.

Lemma preserves_parse_scene_graph (graph : SceneGraph) :
  preserves I (_xml_parse_scene_graph host settings _filepath _global_matrix scale_length
                                      defaults value_ne i3d_default_material graph).
Proof.
  unfold _xml_parse_scene_graph. apply preserves_for_each. intros root_child.
  apply preserves_bind; [apply preserves_blender_to_i3d |]. intros root_child_tag.
  apply preserves_bind; [apply preserves_parse_node |]. intros root_child_element.
  apply preserves_modify. intros s. apply I_tables. reflexivity.
Qed.

(** An export that starts on a new exporter ends in a state with the
    invariant, when it returns. *)
Lemma preserves_init (context : BpyContext) (files_on_disk : list string)
      (has_default_material : bool) (st' : Exporter) :
  I (Exporter_new files_on_disk has_default_material) ->
  Exporter_init host settings _filepath _global_matrix scale_length defaults value_ne
                i3d_default_material context
                (Exporter_new files_on_disk has_default_material) = (Ok tt, st') ->
  I st'.
Proof.
  intros Hnew H. apply init_steps in H.
  destruct H as (s2 & s3 & Hf & Hm & Hs & _ & Hfi & _ & Hids & Hidm & Hidf & _ & Hparse & Hexport).
  apply keeps_tables_export_to_file in Hexport.
  apply (I_tables Hexport).
  eapply preserves_parse_scene_graph; [| exact Hparse].
  apply (@I_tables (Exporter_new files_on_disk has_default_material)); [| exact Hnew].
  unfold tables, file_table, material_table, shape_table.
  rewrite Hf, Hm, Hs, Hfi, Hids, Hidm, Hidf. reflexivity.
Qed.

End Walk.

(** ** An invariant of the files and materials goes through a compilation *)

Section CompileWalk.

Context {F : PyFloat} {MO : MatrixOps} {MU : Mathutils F MO} {BM : BMesh F MO}.
Variables (host : Host) (settings : Settings) (_filepath : string).
Variables (_global_matrix : Matrix) (scale_length : float).
Variable i3d_default_material : Material.

Variable I : Exporter -> Prop.
Hypothesis I_frame :
  forall s s', (file_table s', material_table s') = (file_table s, material_table s) ->
               I s -> I s'.
Hypothesis I_material :
  forall material, preserves I (_xml_add_material host settings _filepath material).

Lemma preserves_group_triangles (mesh : Mesh) (shape_id : nat) triangles :
  forall triangle_subsets,
    preserves I (group_triangles host settings _filepath mesh shape_id triangles
                                 triangle_subsets).
Proof.
  induction triangles as [| triangle triangles IH]; intros ts; simpl.
  - apply preserves_ret.
  - apply preserves_bind; [apply preserves_expect |]. intros slot.
    apply preserves_bind; [apply preserves_expect |]. intros material.
    apply preserves_bind.
    + destruct (negb _); [| apply preserves_ret].
      apply preserves_bind; [apply I_material |]. intros material_id.
      apply preserves_bind; [| intros; apply preserves_ret].
      apply preserves_modify. intros s. apply I_frame. reflexivity.
    + intros ts1. apply preserves_bind; [apply preserves_expect |]. intros subset.
      apply IH.
Qed.

Lemma preserves_compile_shape (this : ObjectInfo) (data evaluated : Mesh) :
  preserves I (compile_shape host settings _filepath _global_matrix scale_length
                             i3d_default_material this data evaluated).
Proof.
  assert (Hmodify : forall f,
             (forall s, (file_table (f s), material_table (f s))
                        = (file_table s, material_table s)) ->
             preserves I (modify f)).
  { intros f Hf. apply preserves_modify. intros s. apply I_frame. apply Hf. }
  assert (Hrun : forall A (m : E A) start, preserves I (run_extraction m start)).
  { intros A m start. eapply preserves_keeps; [| apply keeps_tables_run_extraction].
    intros s s' Hs. apply I_frame. unfold tables in Hs. congruence. }
  unfold compile_shape. cbv zeta.
  apply preserves_bind; [apply preserves_get |]. intros st.
  apply preserves_bind; [apply Hmodify; reflexivity |]. intros _.
  apply preserves_bind; [apply Hmodify; reflexivity |]. intros _.
  apply preserves_bind; [apply Hmodify; reflexivity |]. intros _.
  apply preserves_bind.
  { destruct (Nat.eqb _ 0); [| apply preserves_ret].
    apply preserves_bind; [apply Hmodify; reflexivity | intros; apply preserves_ret]. }
  intros mesh.
  apply preserves_bind; [apply preserves_group_triangles |]. intros ts.
  apply preserves_bind; [apply Hrun |]. intros [[] x].
  apply preserves_bind; [apply Hmodify; reflexivity |]. intros _.
  apply preserves_bind; [apply Hmodify; reflexivity |]. intros _.
  apply preserves_ret.
Qed.

End CompileWalk.

(** ** Numbered elements *)

Lemma numbered_below_nil (attribute : string) (counter : nat) :
  numbered_below attribute counter [].
Proof. exists []. repeat split; constructor. Qed.

Lemma numbered_below_snoc (attribute : string) (counter : nat) (l : list Element)
      (e : Element) :
  numbered_below attribute counter l ->
  attr_nat e attribute = Some counter ->
  numbered_below attribute (S counter) (l ++ [e]).
Proof.
  intros (ids & Hmap & Hnd & Hlt) He. exists (ids ++ [counter])%list.
  rewrite !map_app, Hmap. simpl. rewrite He.
  split; [reflexivity |]. split.
  - apply NoDup_snoc; [exact Hnd |]. intros Hin.
    rewrite Forall_forall in Hlt. specialize (Hlt _ Hin). lia.
  - apply Forall_app. split.
    + eapply Forall_impl; [| exact Hlt]. simpl. intros i Hi. lia.
    + constructor; [lia | constructor].
Qed.

Section NumberedMaterials.

Context {F : PyFloat}.
Variables (host : Host) (settings : Settings) (_filepath : string).

(** The two ways in which [_xml_add_material] returns. *)
Lemma add_material_cases (material : Material) (st st' : Exporter) (id : nat) :
  _xml_add_material host settings _filepath material st = (Ok id, st') ->
  material_table st' = material_table st \/
  (id = ids_material st /\
   ids_material st' = S (ids_material st) /\
   exists entry,
     children (Materials st') = (children (Materials st) ++ [entry])%list /\
     material_entry (material_name material) id entry).
Proof.
  intros H. rewrite add_material_steps in H.
  apply bind_ok in H. destruct H as (s0 & s0' & Hg & H).
  apply get_ok in Hg. destruct Hg; subst s0 s0'.
  apply bind_ok in H. destruct H as (found & s1 & Hfound & H).
  assert (Hs1 : s1 = st).
  { destruct (find_by_name _ _ _ _); inversion Hfound; reflexivity. }
  subst s1. clear Hfound.
  apply bind_ok in H. destruct H as (e & s2 & He & H).
  apply expect_ok in H. destruct H as [Hid ->].
  destruct found as [known |].
  - apply ret_ok in He. destruct He; subst. left. reflexivity.
  - right.
    apply bind_ok in He. destruct He as (e0 & s3 & Hbody & He).
    pose proof Hbody as Hkeep. apply keeps_materials_new_element in Hkeep.
    apply new_material_element_entry in Hbody.
    apply bind_ok in He. destruct He as ([] & s4 & Hcount & He).
    apply modify_ok in Hcount. subst s4.
    apply bind_ok in He. destruct He as ([] & s5 & Happend & He).
    apply modify_ok in Happend. subst s5.
    apply ret_ok in He. destruct He; subst e s2.
    unfold material_table in Hkeep. inversion Hkeep as [[Hm Hc]].
    destruct Hbody as (Htag & Hname & Hmid).
    rewrite Hmid, int_parse_str in Hid. inversion Hid; subst id.
    simpl. rewrite Hc, Hm, children_append.
    split; [reflexivity |]. split; [reflexivity |].
    exists e0. split; [reflexivity |]. repeat split; assumption.
Qed.

Lemma preserves_materials_numbered (material : Material) :
  preserves materials_numbered (_xml_add_material host settings _filepath material).
Proof.
  intros st id st' Hst H. apply add_material_cases in H.
  unfold materials_numbered in *.
  destruct H as [Hsame | (Hid & Hcount & entry & Hchildren & _ & _ & Hentry)].
  - unfold material_table in Hsame. inversion Hsame as [[Hm Hc]].
    rewrite Hm, Hc. exact Hst.
  - rewrite Hcount, Hchildren. apply numbered_below_snoc; [exact Hst |].
    unfold attr_nat. rewrite Hentry, Hid. apply int_parse_str.
Qed.

End NumberedMaterials.

Lemma materials_numbered_frame (s s' : Exporter) :
  (file_table s', material_table s') = (file_table s, material_table s) ->
  materials_numbered s -> materials_numbered s'.
Proof.
  intros H. assert (Ht : material_table s' = material_table s) by congruence.
  unfold material_table in Ht. injection Ht as Hm Hc.
  unfold materials_numbered. rewrite Hm, Hc. auto.
Qed.

Lemma materials_numbered_tables (s s' : Exporter) :
  tables s' = tables s -> materials_numbered s -> materials_numbered s'.
Proof. unfold tables. intros H. apply materials_numbered_frame. congruence. Qed.

Section NumberedShapes.

Context {F : PyFloat} {MO : MatrixOps} {MU : Mathutils F MO} {BM : BMesh F MO}.
Variables (host : Host) (settings : Settings) (_filepath : string).
Variables (_global_matrix : Matrix) (scale_length : float).
Variable i3d_default_material : Material.

Lemma keeps_shape_table_add_material (material : Material) :
  keeps shape_table (_xml_add_material host settings _filepath material).
Proof.
  assert (Hprint : forall line, keeps shape_table (print line))
    by (intros line; apply keeps_print; reflexivity).
  assert (Hfile : forall filepath file_folder,
             keeps shape_table
                   (_xml_add_file host settings _filepath filepath file_folder)).
  { intros filepath file_folder.
    unfold _xml_add_file, shutil_copy, os_path_exists, os_makedirs. keeps. }
  unfold _xml_add_material, add_texture_child. keeps.
Qed.

Lemma keeps_shape_table_group_triangles (mesh : Mesh) (shape_id : nat) triangles :
  forall triangle_subsets,
    keeps shape_table
          (group_triangles host settings _filepath mesh shape_id triangles triangle_subsets).
Proof.
  assert (Hmaterial := keeps_shape_table_add_material).
  induction triangles as [| triangle triangles IH]; intros ts; simpl.
  - keeps.
  - keeps.
Qed.

(** A compilation that returns has used the value of the counter and
    moved the counter on by one. *)
Lemma compile_shape_counter this data evaluated st shape_id st' :
  compile_shape host settings _filepath _global_matrix scale_length
                i3d_default_material this data evaluated st = (Ok shape_id, st') ->
  shape_id = ids_shape st /\ ids_shape st' = S (ids_shape st).
Proof.
  unfold compile_shape. cbv zeta. intros H.
  apply bind_ok in H. destruct H as (st0 & st0' & Hg & H).
  apply get_ok in Hg. destruct Hg; subst st0 st0'.
  apply bind_ok in H. destruct H as ([] & st1 & H1 & H).
  apply modify_ok in H1. subst st1.
  apply bind_ok in H. destruct H as ([] & st2 & H2 & H).
  apply modify_ok in H2. subst st2.
  apply bind_ok in H. destruct H as ([] & st3 & H3 & H).
  apply modify_ok in H3. subst st3.
  apply bind_ok in H. destruct H as (mesh & st4 & H4 & H).
  assert (K4 : ids_shape st4 = S (ids_shape st)).
  { destruct (Nat.eqb _ 0) in H4; run; reflexivity. }
  apply bind_ok in H. destruct H as (ts & st5 & H5 & H).
  apply keeps_shape_table_group_triangles in H5.
  apply bind_ok in H. destruct H as ([[] x] & st6 & H6 & H).
  apply keeps_tables_run_extraction in H6.
  apply bind_ok in H. destruct H as ([] & st7 & H7 & H).
  apply modify_ok in H7. subst st7.
  apply bind_ok in H. destruct H as ([] & st8 & H8 & H).
  apply modify_ok in H8. subst st8.
  apply ret_ok in H. destruct H as [Hid Hst]. subst st' shape_id.
  split; [reflexivity |]. simpl.
  assert (T6 : shape_table st6 = shape_table st5) by (unfold tables in H6; congruence).
  unfold shape_table in H5, T6. congruence.
Qed.

Lemma preserves_shapes_numbered (this : ObjectInfo) (data evaluated : Mesh) :
  preserves shapes_numbered
            (compile_shape host settings _filepath _global_matrix scale_length
                           i3d_default_material this data evaluated).
Proof.
  intros st id st' Hst H. unfold shapes_numbered in *.
  destruct (compile_shape_counter _ _ _ _ H) as [Hid Hcount].
  apply compile_shape_entry in H. destruct H as (entry & Hchildren & _ & _ & Hentry).
  rewrite Hcount, Hchildren. apply numbered_below_snoc; [exact Hst |].
  unfold attr_nat. rewrite Hentry, Hid. apply int_parse_str.
Qed.

End NumberedShapes.

Lemma shapes_numbered_tables (s s' : Exporter) :
  tables s' = tables s -> shapes_numbered s -> shapes_numbered s'.
Proof.
  unfold tables. intros H. assert (Ht : shape_table s' = shape_table s) by congruence.
  unfold shape_table in Ht. injection Ht as Hs Hc.
  unfold shapes_numbered. rewrite Hs, Hc. auto.
Qed.

(** ** The textures of the materials are files of the file section *)

Section Triples.

Variables A B : Type.

Lemma triple_ret (P : Exporter -> Prop) (Q : A -> Exporter -> Prop) (a : A) :
  (forall s, P s -> Q a s) -> triple P (ret a) Q.
Proof. intros H st a' st' Hst E. inversion E; subst. apply H. exact Hst. Qed.

Lemma triple_bind (P : Exporter -> Prop) (Q : A -> Exporter -> Prop)
      (R : B -> Exporter -> Prop) (m : X A) (k : A -> X B) :
  triple P m Q -> (forall a, triple (Q a) (k a) R) -> triple P (bind m k) R.
Proof.
  intros Hm Hk st b st' Hst E. apply bind_ok in E. destruct E as (a & s1 & E1 & E).
  eapply Hk; [| exact E]. eapply Hm; eassumption.
Qed.

Lemma triple_pre (P P' : Exporter -> Prop) (Q : A -> Exporter -> Prop) (m : X A) :
  (forall s, P s -> P' s) -> triple P' m Q -> triple P m Q.
Proof. intros HP Hm st a st' Hst E. eapply Hm; [apply HP; exact Hst | exact E]. Qed.

End Triples.

Lemma refers_to_more (files more : list Element) (child : Element) :
  refers_to files child -> refers_to (files ++ more) child.
Proof.
  intros (id & file & Hchild & Hin & Hfile). exists id, file.
  split; [exact Hchild |]. split; [apply in_or_app; left; exact Hin | exact Hfile].
Qed.

Lemma linking_children (st0 : Exporter) (e e' : Element) (s : Exporter) :
  children e' = children e -> linking st0 e s -> linking st0 e' s.
Proof. unfold linking. intros ->. auto. Qed.

Lemma file_element_attrs (key : string) (id : nat) :
  tag (file_element_of (key, id)) = "File" /\
  attr_nat (file_element_of (key, id)) "fileId" = Some id.
Proof.
  split; [reflexivity |].
  unfold attr_nat, file_element_of, _xml_write_string, _xml_write_int. simpl fst. simpl snd.
  rewrite get_set_other by reflexivity. rewrite get_set_same. apply int_parse_str.
Qed.

Section LinkedFiles.

Context {F : PyFloat}.
Variables (host : Host) (settings : Settings) (_filepath : string).

(** A path that was added is a file of the section, which has grown at
    its end or not at all. *)
Lemma add_file_registered (filepath file_folder : string) (st st' : Exporter) (id : nat) :
  files_inv st ->
  _xml_add_file host settings _filepath filepath file_folder st = (Ok id, st') ->
  files_inv st' /\
  (exists more, children (Files st') = (children (Files st) ++ more)%list) /\
  exists file,
    In file (children (Files st')) /\ tag file = "File" /\
    attr_nat file "fileId" = Some id.
Proof.
  intros Hinv H. apply add_file_ok in H.
  destruct H as (key & st1 & _ & Hsame & Hreg).
  pose proof (files_inv_same Hinv Hsame) as Hinv1.
  destruct (register_keeps_inv _ Hinv1 Hreg) as (Hinv' & Hget' & _ & Hcase).
  apply same_files_parts in Hsame. destruct Hsame as (Sfi & Sid & Sfiles).
  split; [exact Hinv' |]. split.
  - destruct (Py.dict_get String.eqb (_file_indexes st1) key) as [i |].
    + destruct Hcase as [_ ->]. exists []. rewrite app_nil_r, Sfiles. reflexivity.
    + destruct Hcase as [_ Hc]. rewrite Hc, Sfiles. eexists. reflexivity.
  - exists (file_element_of (key, id)).
    split; [| apply file_element_attrs].
    destruct Hinv' as (_ & Hch & _). rewrite Hch.
    apply in_map. apply dict_get_in. exact Hget'.
Qed.

Variable st0 : Exporter.

Lemma print_linking (e : Element) (line : string) :
  triple (linking st0 e) (print line) (fun _ => linking st0 e).
Proof.
  intros st a st' Hst E. unfold print in E. apply modify_ok in E. subst st'. exact Hst.
Qed.

Lemma texture_child_linking (child_tag : string) (texture_node : ShaderNode)
      (e : Element) :
  triple (linking st0 e)
         (add_texture_child host settings _filepath child_tag texture_node e)
         (linking st0).
Proof.
  unfold add_texture_child.
  destruct (image texture_node) as [image_filepath |]; [| apply triple_ret; auto].
  intros st e' st' (Hinv & Htable & [more Hmore] & Hchildren) H.
  apply bind_ok in H. destruct H as (file_id & s1 & Hadd & H).
  apply ret_ok in H. destruct H as [He Hs]. subst e' s1.
  pose proof Hadd as Hkeep. apply keeps_materials_add_file in Hkeep.
  apply (add_file_registered _ _ Hinv) in Hadd.
  destruct Hadd as (Hinv' & [more' Hmore'] & file & Hin & Htag & Hid).
  split; [exact Hinv' |]. split; [congruence |]. split.
  - exists (more ++ more')%list. rewrite Hmore', Hmore, app_assoc. reflexivity.
  - rewrite children_append. apply Forall_app. split.
    + eapply Forall_impl; [| exact Hchildren]. intros child Hchild.
      rewrite Hmore'. apply refers_to_more. exact Hchild.
    + constructor; [| constructor]. exists file_id, file.
      split; [| auto].
      unfold attr_nat, _xml_write_string. rewrite get_set_same. apply int_parse_str.
Qed.

Ltac relink :=
  intros; eapply linking_children; [| eassumption];
  unfold _xml_write_string, _xml_write_int; rewrite ?children_set; reflexivity.

Ltac relinked m :=
  eapply triple_pre; [| apply m]; relink.

(** The element of a new material, when it is complete: its children
    refer to files of the section. *)
Lemma new_material_linking (material : Material) (id : nat) :
  triple (linking st0 (ET.new "Material"))
         (new_material_element host settings _filepath material id)
         (linking st0).
Proof.
  unfold new_material_element. cbv zeta.
  destruct (use_nodes material); [| apply triple_ret; relink].
  apply triple_bind with (Q := linking st0).
  - destruct (principled_bsdf (node_tree material)) as [material_node |];
      [| apply triple_ret; relink].
    apply triple_bind with (Q := fun p => linking st0 (snd p)).
    + destruct (base_color_from_node material_node) as [connected_node |];
        [| apply triple_ret; relink].
      destruct (String.eqb (bl_idname connected_node) "ShaderNodeRGB");
        [apply triple_ret; relink |].
      destruct (String.eqb (bl_idname connected_node) "ShaderNodeTexImage").
      * apply triple_bind with (Q := linking st0).
        -- relinked texture_child_linking.
        -- intros e1. apply triple_ret. auto.
      * apply triple_bind with (Q := fun _ => linking st0 (ET.new "Material")).
        -- apply print_linking.
        -- intros _. apply triple_ret. relink.
    + intros [diffuse e1]. simpl snd.
      destruct (normal_from_node material_node) as [normal_map_node |];
        [| apply triple_ret; relink].
      destruct (String.eqb (bl_idname normal_map_node) "ShaderNodeNormalMap").
      * destruct (color_from_node normal_map_node) as [texture_node |];
          [| apply triple_ret; relink].
        destruct (String.eqb (bl_idname texture_node) "ShaderNodeTexImage").
        -- relinked texture_child_linking.
        -- apply triple_bind with (Q := fun _ => linking st0 e1).
           ++ apply print_linking.
           ++ intros _. apply triple_ret. relink.
      * apply triple_bind with (Q := fun _ => linking st0 e1).
        -- apply print_linking.
        -- intros _. apply triple_ret. relink.
  - intros e2.
    destruct (separate_rgb (node_tree material)) as [[gloss_image_node |] |];
      try (apply triple_ret; auto).
    destruct (String.eqb (bl_idname gloss_image_node) "ShaderNodeTexImage").
    + apply texture_child_linking.
    + apply triple_bind with (Q := fun _ => linking st0 e2).
      * apply print_linking.
      * intros _. apply triple_ret. auto.
Qed.

End LinkedFiles.

Section LinkedMaterials.

Context {F : PyFloat}.
Variables (host : Host) (settings : Settings) (_filepath : string).

Lemma preserves_files_linked (material : Material) :
  preserves files_linked (_xml_add_material host settings _filepath material).
Proof.
  intros st id st' [Hinv Htextures] H. rewrite add_material_steps in H.
  apply bind_ok in H. destruct H as (s0 & s0' & Hg & H).
  apply get_ok in Hg. destruct Hg; subst s0 s0'.
  apply bind_ok in H. destruct H as (found & s1 & Hfound & H).
  assert (Hs1 : s1 = st).
  { destruct (find_by_name _ _ _ _); inversion Hfound; reflexivity. }
  subst s1. clear Hfound.
  apply bind_ok in H. destruct H as (e & s2 & He & H).
  apply expect_ok in H. destruct H as [_ ->].
  destruct found as [known |].
  - apply ret_ok in He. destruct He; subst. split; assumption.
  - apply bind_ok in He. destruct He as (e0 & s3 & Hbody & He).
    apply (@new_material_linking F host settings _filepath st material (ids_material st))
      in Hbody.
    2:{ split; [exact Hinv |]. split; [reflexivity |].
        split; [exists []; rewrite app_nil_r; reflexivity | constructor]. }
    destruct Hbody as (Hinv3 & Htable & [more Hmore] & Hchildren).
    apply bind_ok in He. destruct He as ([] & s4 & Hcount & He).
    apply modify_ok in Hcount. subst s4.
    apply bind_ok in He. destruct He as ([] & s5 & Happend & He).
    apply modify_ok in Happend. subst s5.
    apply ret_ok in He. destruct He; subst e s2.
    unfold material_table in Htable. injection Htable as Hm Hc.
    split; [exact Hinv3 |].
    unfold textures_registered. simpl. rewrite children_append, Hm.
    apply Forall_app. split.
    + eapply Forall_impl; [| exact Htextures]. intros known Hknown.
      eapply Forall_impl; [| exact Hknown]. intros child Hchild.
      rewrite Hmore. apply refers_to_more. exact Hchild.
    + constructor; [exact Hchildren | constructor].
Qed.

End LinkedMaterials.

Lemma files_linked_frame (s s' : Exporter) :
  (file_table s', material_table s') = (file_table s, material_table s) ->
  files_linked s -> files_linked s'.
Proof.
  intros H [Hinv Htextures].
  assert (Hf : same_files s s') by (unfold same_files; congruence).
  assert (Ht : material_table s' = material_table s) by congruence.
  split; [exact (files_inv_same Hinv Hf) |].
  apply same_files_parts in Hf. destruct Hf as (_ & _ & Hfiles).
  unfold material_table in Ht. injection Ht as Hm _.
  unfold textures_registered. rewrite Hfiles, Hm. exact Htextures.
Qed.

Lemma files_linked_tables (s s' : Exporter) :
  tables s' = tables s -> files_linked s -> files_linked s'.
Proof. unfold tables. intros H. apply files_linked_frame. congruence. Qed.

Lemma files_inv_numbered (st : Exporter) : files_inv st -> files_numbered st.
Proof.
  intros (_ & Hch & Hlt & Hnd). exists (List.map snd (_file_indexes st)).
  split; [| split; [exact Hnd |]].
  - rewrite Hch, !map_map. apply map_ext. intros [key id]. apply file_element_attrs.
  - apply Forall_map. exact Hlt.
Qed.

Lemma files_linked_new (files_on_disk : list string) (has_default_material : bool) :
  files_linked (Exporter_new files_on_disk has_default_material).
Proof.
  split.
  - unfold files_inv. simpl. repeat split; constructor.
  - constructor.
Qed.

(** ** The indentation *)

Lemma Element_forall_ind (P : Element -> Prop) :
  (forall g a x y c, Forall P c -> P (mkElement g a x y c)) ->
  forall e, P e.
Proof.
  intros H. fix IH 1. intros [g a x y c]. apply H.
  induction c as [| e c IHc]; constructor; [apply IH | exact IHc].
Qed.

Lemma all_space_app (a b : string) :
  Py.all_space (a ++ b) = Py.all_space a && Py.all_space b.
Proof.
  induction a as [| x a IH]; simpl; [reflexivity |].
  rewrite IH, andb_assoc. reflexivity.
Qed.

Lemma all_space_times (k : nat) : Py.all_space (Py.times k "  ") = true.
Proof.
  induction k as [| k IH]; [reflexivity |].
  cbn [Py.times]. rewrite all_space_app, IH. reflexivity.
Qed.

Lemma blank_indents (level : nat) (more : string) :
  Py.all_space more = true ->
  blank (Some ((Py.newline ++ Py.times level "  ") ++ more)%string) = true.
Proof.
  intros H. unfold blank. rewrite !all_space_app, all_space_times, H. reflexivity.
Qed.

Lemma respaced_refl (a : option string) : respaced a a.
Proof. left. reflexivity. Qed.

Lemma respaced_blank (a b : option string) :
  blank a = true -> blank b = true -> respaced a b.
Proof. right. auto. Qed.

Lemma respaced_indents (before after : option string) (level : nat) :
  respaced before after -> blank after = true ->
  respaced before (Some (Py.newline ++ Py.times level "  ")%string).
Proof.
  intros [-> | [Hb _]] Hafter; right; (split; [assumption |]);
    rewrite <- (append_nil_r (Py.newline ++ _)); apply blank_indents; reflexivity.
Qed.

Lemma same_but_space_tail (indents : string) (e e' : Element) :
  blank (Some indents) = true ->
  same_but_space e e' ->
  same_but_space e (if blank (tail e') then set_tail e' indents else e').
Proof.
  intros Hindents H. destruct (blank (tail e')) eqn:Hblank; [| exact H].
  inversion H as [? ? Htag Hattrib Htext Htail Hchildren]; subst.
  destruct e' as [g a x y c]. simpl in *.
  apply same_but_space_intro; simpl; try assumption.
  destruct Htail as [-> | [Hb _]]; right; auto.
Qed.

Lemma Forall2_on_last_right (R : Element -> Element -> Prop) (f : Element -> Element) :
  (forall a b, R a b -> R a (f b)) ->
  forall l l', Forall2 R l l' -> Forall2 R l (on_last f l').
Proof.
  intros Hf l l' H. induction H as [| a b l l' Hab Hrest IH]; [constructor |].
  simpl. destruct l' as [| b' l''].
  - inversion Hrest; subst. constructor; [apply Hf; exact Hab | constructor].
  - constructor; [exact Hab | exact IH].
Qed.

Lemma indent_same_but_space :
  forall e level, same_but_space e (_indent e level).
Proof.
  intros e. induction e as [g a x y c IH] using Element_forall_ind. intros level.
  assert (Hindents : blank (Some (Py.newline ++ Py.times level "  ")%string) = true).
  { rewrite <- (append_nil_r (Py.newline ++ _)). apply blank_indents. reflexivity. }
  destruct c as [| c0 c].
  - simpl. destruct (negb (Nat.eqb level 0) && blank y) eqn:Hcond.
    + apply andb_true_iff in Hcond. destruct Hcond as [_ Hy].
      apply same_but_space_intro; simpl;
        [reflexivity | reflexivity | apply respaced_refl | | constructor].
      apply respaced_blank; [exact Hy | exact Hindents].
    + apply same_but_space_intro; simpl;
        [reflexivity | reflexivity | apply respaced_refl | apply respaced_refl
        | constructor].
  - cbn [_indent].
    apply same_but_space_intro; cbn [tag attrib text tail children];
      [reflexivity | reflexivity | | |].
    + destruct (blank x) eqn:Hx; [| apply respaced_refl].
      apply respaced_blank; [exact Hx |]. apply blank_indents. reflexivity.
    + destruct (blank y) eqn:Hy; [| apply respaced_refl].
      apply respaced_blank; [exact Hy | exact Hindents].
    + apply Forall2_on_last_right.
      * intros p q. apply same_but_space_tail. exact Hindents.
      * clear - IH. induction IH as [| e l He Hl IHl]; simpl; constructor; auto.
Qed.

Lemma indent_nonleaf (g : string) (a : list (string * string)) (x y : option string)
      (c : list Element) (level : nat) :
  c <> [] ->
  _indent (mkElement g a x y c) level =
  mkElement g a
    (if blank x then Some ((Py.newline ++ Py.times level "  ") ++ "  ")%string else x)
    (if blank y then Some (Py.newline ++ Py.times level "  ")%string else y)
    (on_last (fun e => if blank (tail e)
                       then set_tail e (Py.newline ++ Py.times level "  ")%string
                       else e)
             (List.map (fun e => _indent e (S level)) c)).
Proof. destruct c; [intros H; contradiction H; reflexivity | reflexivity]. Qed.

Lemma on_last_cons (f : Element -> Element) (a : Element) (l : list Element) :
  l <> [] -> on_last f (a :: l) = a :: on_last f l.
Proof. destruct l; [intros H; contradiction H; reflexivity | reflexivity]. Qed.

Lemma on_last_not_nil (f : Element -> Element) (l : list Element) :
  l <> [] -> on_last f l <> [].
Proof.
  destruct l as [| a l]; [auto |]. intros _. destruct l; simpl; discriminate.
Qed.

(** The tail of an element decides nothing but the tail of the indented
    element. *)
Lemma indent_set_tail (e : Element) (t : string) (level : nat) :
  blank (tail e) = true -> blank (Some t) = true -> level <> 0 ->
  _indent (set_tail e t) level = _indent e level.
Proof.
  intros He Ht Hlevel. destruct e as [g a x y c]. simpl in He.
  apply Nat.eqb_neq in Hlevel.
  destruct c as [| c0 c].
  - cbn [set_tail _indent]. rewrite Hlevel, He, Ht. reflexivity.
  - cbn [set_tail]. rewrite !indent_nonleaf by discriminate. rewrite He, Ht. reflexivity.
Qed.

Lemma indent_blank_tail (e : Element) (level : nat) :
  blank (tail e) = true -> level <> 0 ->
  tail (_indent e level) = Some (Py.newline ++ Py.times level "  ")%string.
Proof.
  intros He Hlevel. destruct e as [g a x y c]. simpl in He.
  apply Nat.eqb_neq in Hlevel.
  destruct c as [| c0 c].
  - cbn [_indent]. rewrite Hlevel, He. reflexivity.
  - rewrite indent_nonleaf by discriminate. rewrite He. reflexivity.
Qed.

Lemma set_tail_same (e : Element) (t : string) :
  tail e = Some t -> set_tail e t = e.
Proof. destruct e as [g a x y c]. simpl. intros ->. reflexivity. Qed.

Lemma tail_set_tail (e : Element) (t : string) : tail (set_tail e t) = Some t.
Proof. destruct e; reflexivity. Qed.

(** The last child after a second indentation. *)
Lemma last_child_again (e : Element) (p : string) (level : nat) :
  blank (Some p) = true -> level <> 0 ->
  _indent e level = e ->
  let mend := fun e => if blank (tail e) then set_tail e p else e in
  mend (_indent (mend e) level) = mend e.
Proof.
  intros Hp Hlevel Hfixed mend. unfold mend.
  destruct (blank (tail e)) eqn:He.
  - rewrite indent_set_tail by assumption. rewrite Hfixed, He. reflexivity.
  - rewrite Hfixed, He. reflexivity.
Qed.

Lemma children_again (I mend : Element -> Element) (l : list Element) :
  (forall e, I e = e -> mend (I (mend e)) = mend e) ->
  Forall (fun e => I e = e) l ->
  on_last mend (List.map I (on_last mend l)) = on_last mend l.
Proof.
  intros Hlast H. induction H as [| e l He Hl IH]; [reflexivity |].
  destruct l as [| e' l'].
  - simpl. rewrite Hlast by exact He. reflexivity.
  - rewrite (on_last_cons mend e) by discriminate.
    cbn [List.map]. rewrite on_last_cons.
    + rewrite He, IH. reflexivity.
    + intros Hnil. apply map_eq_nil in Hnil. revert Hnil.
      apply on_last_not_nil. discriminate.
Qed.

Lemma blank_some_blank (x : option string) (s : string) :
  blank (Some s) = true ->
  blank (if blank x then Some s else x) = blank x.
Proof. intros Hs. destruct (blank x) eqn:Hx; [exact Hs | exact Hx]. Qed.

Lemma indent_again :
  forall e level, _indent (_indent e level) level = _indent e level.
Proof.
  intros e. induction e as [g a x y c IH] using Element_forall_ind. intros level.
  assert (Hindents : blank (Some (Py.newline ++ Py.times level "  ")%string) = true).
  { rewrite <- (append_nil_r (Py.newline ++ _)). apply blank_indents. reflexivity. }
  assert (Hdeeper : blank (Some ((Py.newline ++ Py.times level "  ") ++ "  ")%string) = true)
    by (apply blank_indents; reflexivity).
  destruct c as [| c0 c].
  - cbn [_indent]. destruct (negb (Nat.eqb level 0) && blank y) eqn:Hcond.
    + cbn [_indent]. apply andb_true_iff in Hcond. destruct Hcond as [Hlevel _].
      rewrite Hlevel, Hindents. reflexivity.
    + cbn [_indent]. rewrite Hcond. reflexivity.
  - rewrite (@indent_nonleaf g a x y (c0 :: c) level) by discriminate.
    rewrite indent_nonleaf.
    2:{ apply on_last_not_nil. discriminate. }
    rewrite (@blank_some_blank x _ Hdeeper), (@blank_some_blank y _ Hindents).
    f_equal.
    + destruct (blank x); reflexivity.
    + destruct (blank y); reflexivity.
    + apply children_again.
      * intros e He. apply last_child_again; [exact Hindents | discriminate | exact He].
      * apply Forall_forall. intros e He. apply in_map_iff in He.
        destruct He as (e0 & <- & Hin). rewrite Forall_forall in IH. apply IH. exact Hin.
Qed.

(** ** The tags of the sections *)

Ltac keeps_tags :=
  repeat first
    [ progress auto with keeps
    | apply keeps_bind
    | apply keeps_try_except
    | apply keeps_when
    | apply keeps_for_each
    | apply keeps_modify; intro; unfold section_tags; simpl;
      rewrite ?tag_append; reflexivity
    | match goal with |- forall _, _ => intro end
    | match goal with
      | |- keeps _ (if ?c then _ else _) => destruct c
      | |- keeps _ (match ?o with _ => _ end) => destruct o
      | |- keeps _ (let '(_, _) := ?o in _) => destruct o
      end ].

Section KeepsTags.

Context {F : PyFloat} {MO : MatrixOps} {MU : Mathutils F MO} {BM : BMesh F MO}.
Variables (host : Host) (settings : Settings) (_filepath : string).
Variables (_global_matrix : Matrix) (scale_length : float).
Variable defaults : string -> option PyValue.
Variable value_ne : PyValue -> PyValue -> bool.
Variable i3d_default_material : Material.

Lemma keeps_tags_print (line : string) : keeps section_tags (print line).
Proof. apply keeps_print. reflexivity. Qed.

Hint Resolve keeps_tags_print : keeps.

Lemma keeps_tags_add_file (filepath file_folder : string) :
  keeps section_tags (_xml_add_file host settings _filepath filepath file_folder).
Proof. unfold _xml_add_file, shutil_copy, os_path_exists, os_makedirs. keeps_tags. Qed.

Hint Resolve keeps_tags_add_file : keeps.

Lemma keeps_tags_add_material (material : Material) :
  keeps section_tags (_xml_add_material host settings _filepath material).
Proof. unfold _xml_add_material, add_texture_child. keeps_tags. Qed.

Hint Resolve keeps_tags_add_material : keeps.

Lemma keeps_tags_group_triangles (mesh : Mesh) (shape_id : nat) triangles :
  forall triangle_subsets,
    keeps section_tags
          (group_triangles host settings _filepath mesh shape_id triangles triangle_subsets).
Proof.
  induction triangles as [| triangle triangles IH]; intros ts; simpl; keeps_tags.
Qed.

Lemma keeps_tags_run_extraction (A : Type) (m : E A) (start : Extraction) :
  keeps section_tags (run_extraction m start).
Proof. unfold run_extraction. destruct (m start) as [[a | e] x]; keeps_tags. Qed.

Hint Resolve keeps_tags_group_triangles keeps_tags_run_extraction : keeps.

Lemma keeps_tags_compile_shape (this : ObjectInfo) (data evaluated : Mesh) :
  keeps section_tags
        (compile_shape host settings _filepath _global_matrix scale_length
                       i3d_default_material this data evaluated).
Proof. unfold compile_shape. keeps_tags. Qed.

Hint Resolve keeps_tags_compile_shape : keeps.

Lemma keeps_tags_shape (this : ObjectInfo) (e : Element) :
  keeps section_tags
        (_xml_scene_object_shape host settings _filepath _global_matrix scale_length
                                 i3d_default_material this e).
Proof. unfold _xml_scene_object_shape. keeps_tags. Qed.

Lemma keeps_tags_light (light : Light) (e : Element) :
  keeps section_tags (_xml_scene_object_light light e).
Proof. unfold _xml_scene_object_light. keeps_tags. Qed.

Lemma keeps_tags_camera (camera : Camera) (e : Element) :
  keeps section_tags (_xml_scene_object_camera camera e).
Proof. unfold _xml_scene_object_camera. keeps_tags. Qed.

Lemma keeps_tags_properties (propertygroup : list Property) :
  forall e, keeps section_tags (_xml_object_properties defaults value_ne propertygroup e).
Proof.
  induction propertygroup as [| prop rest IH]; intros e; simpl.
  - keeps_tags.
  - apply keeps_bind; [unfold property_pass; keeps_tags | exact IH].
Qed.

Hint Resolve keeps_tags_shape keeps_tags_light keeps_tags_camera
  keeps_tags_properties : keeps.

Lemma keeps_tags_general_data (node : Node) (e : Element) :
  keeps section_tags
        (_xml_scene_object_general_data _global_matrix scale_length defaults value_ne
                                        node e).
Proof. unfold _xml_scene_object_general_data. keeps_tags. Qed.

Hint Resolve keeps_tags_general_data : keeps.

Lemma keeps_tags_compile_node (node : Node) (e : Element) :
  keeps section_tags
        (compile_node host settings _filepath _global_matrix scale_length defaults
                      value_ne i3d_default_material node e).
Proof. unfold compile_node, _xml_scene_object_transform_group. keeps_tags. Qed.

Lemma keeps_tags_blender_to_i3d (b : option Entity) :
  keeps section_tags (blender_to_i3d b).
Proof. unfold blender_to_i3d. keeps_tags. Qed.

Lemma keeps_tags_parse_node :
  forall node e,
    keeps section_tags
          (parse_node host settings _filepath _global_matrix scale_length defaults
                      value_ne i3d_default_material node e).
Proof.
  intros node. induction node as [i b l IH] using Node_forall_ind.
  intros e. simpl.
  apply keeps_bind; [apply keeps_tags_compile_node |].
  intros e1. revert e1.
  induction l as [| child l' IHl]; intros acc.
  - apply keeps_ret.
  - inversion IH as [| ? ? Hchild Hrest]; subst.
    apply keeps_bind; [apply keeps_tags_blender_to_i3d |]. intros child_tag.
    apply keeps_bind; [apply Hchild |]. intros child_element.
    apply IHl. exact Hrest.
Qed.

Lemma keeps_tags_parse_scene_graph (graph : SceneGraph) :
  keeps section_tags
        (_xml_parse_scene_graph host settings _filepath _global_matrix scale_length
                                defaults value_ne i3d_default_material graph).
Proof.
  unfold _xml_parse_scene_graph. apply keeps_for_each. intros root_child.
  apply keeps_bind; [apply keeps_tags_blender_to_i3d |]. intros root_child_tag.
  apply keeps_bind; [apply keeps_tags_parse_node |]. intros root_child_element.
  apply keeps_modify. intro. unfold section_tags. simpl. rewrite tag_append. reflexivity.
Qed.

Lemma keeps_tags_export_to_file :
  keeps section_tags (_xml_export_to_file host _filepath).
Proof.
  unfold _xml_export_to_file. apply keeps_bind; [apply keeps_get |]. intros st.
  apply keeps_try_except.
  - destruct (write_error host _filepath).
    { apply keeps_bind; [| intros; apply keeps_raise].
      apply keeps_when, keeps_modify. intro. reflexivity. }
    apply keeps_bind; [apply keeps_modify; intro; reflexivity |].
    intros _. apply keeps_tags_print.
  - intros e. apply keeps_tags_print.
Qed.

(** After an export that returns, the four sections have their tags. *)
Lemma init_section_tags (context : BpyContext) (st st' : Exporter) :
  Exporter_init host settings _filepath _global_matrix scale_length defaults value_ne
                i3d_default_material context st = (Ok tt, st') ->
  section_tags st' = ("Files", "Materials", "Shapes", "Scene").
Proof.
  intros H. apply init_steps in H.
  destruct H as (s2 & s3 & Hf & Hm & Hs & Hc & _ & _ & _ & _ & _ & _ & Hparse & Hexport).
  apply keeps_tags_export_to_file in Hexport.
  apply keeps_tags_parse_scene_graph in Hparse.
  rewrite Hexport, Hparse. unfold section_tags. rewrite Hf, Hm, Hs, Hc. reflexivity.
Qed.

End KeepsTags.

Lemma same_but_space_tags (l l' : list Element) :
  Forall2 same_but_space l l' -> List.map tag l' = List.map tag l.
Proof.
  intros H. induction H as [| e e' l l' He _ IH]; [reflexivity |].
  simpl. rewrite IH. inversion He; subst. f_equal. assumption.
Qed.

(** ** The uv layers of a loop *)

Section UvLayers.

Context {F : PyFloat}.

(** From the fifth layer on, a layer is reported and not read. *)
Lemma uv_layers_beyond (layers : list MeshUVLoopLayer) (loop_index : nat) :
  forall count uvs x,
    4 <= count ->
    exists x',
      uv_layers_loop count layers loop_index uvs x = (Ok uvs, x') /\
      vertices_element x' = vertices_element x /\
      printed x' =
        (printed x
         ++ repeat "Currently only supports four uv layers per vertex"
                   (List.length layers))%list.
Proof.
  induction layers as [| uv layers IH]; intros count uvs x Hcount.
  - exists x. simpl. rewrite app_nil_r. auto.
  - cbn [uv_layers_loop].
    assert (Hlt : Nat.ltb count 4 = false) by (apply Nat.ltb_ge; exact Hcount).
    rewrite Hlt. unfold bind at 1. unfold bind at 1. unfold modify at 1. unfold ret at 1.
    destruct (IH (S count) uvs
                 (upd_printed
                    (fun out =>
                       (out ++ ["Currently only supports four uv layers per vertex"])%list) x))
      as (x' & Hrun & Hvertices & Hprinted); [lia |].
    exists x'. split; [exact Hrun |]. split; [exact Hvertices |].
    rewrite Hprinted. simpl. rewrite <- app_assoc. reflexivity.
Qed.

End UvLayers.

(** ** The general data of the scene elements *)

Lemma extended_refl (e : Element) : extended e e.
Proof. split; auto. Qed.

Lemma extended_set (e0 e : Element) (k v : string) :
  extended e0 e -> extended e0 (ET.set e k v).
Proof.
  intros [Hget Hch]. split; [| rewrite children_set; exact Hch].
  intros k' Hk'. destruct (String.eqb k k') eqn:E.
  - apply String.eqb_eq in E. subst k'. rewrite get_set_same. discriminate.
  - rewrite get_set_other by exact E. apply Hget. exact Hk'.
Qed.

Lemma extended_trans (e0 e1 e2 : Element) :
  extended e0 e1 -> extended e1 e2 -> extended e0 e2.
Proof. intros [a b] [c d]. split; [auto | congruence]. Qed.

Lemma extended_has (keys : list string) (e0 e : Element) :
  has_attributes keys e0 -> extended e0 e -> has_attributes keys e.
Proof.
  intros H [Hget _]. eapply Forall_impl; [| exact H]. intros k Hk. apply Hget. exact Hk.
Qed.

Lemma general_attributes_written (e : Element) (a b c d f : string) :
  has_attributes general_attributes
    (ET.set (ET.set (ET.set (ET.set (ET.set e "name" a) "nodeId" b) "translation" c)
                    "rotation" d) "scale" f).
Proof.
  unfold has_attributes, general_attributes.
  repeat (constructor;
          [rewrite ?get_set_other by reflexivity; rewrite get_set_same; discriminate |]).
  constructor.
Qed.

Ltac extended :=
  unfold _xml_write_float, _xml_write_bool, _xml_write_int, _xml_write_int_signed,
         _xml_write_string;
  repeat first [ assumption | apply extended_refl | apply extended_set ].

Section NodeData.

Context {F : PyFloat} {MO : MatrixOps} {MU : Mathutils F MO} {BM : BMesh F MO}.
Variables (host : Host) (settings : Settings) (_filepath : string).
Variables (_global_matrix : Matrix) (scale_length : float).
Variable defaults : string -> option PyValue.
Variable value_ne : PyValue -> PyValue -> bool.
Variable i3d_default_material : Material.

Lemma object_properties_extended (propertygroup : list Property) :
  forall e0 e,
    extended e0 e ->
    returns (_xml_object_properties defaults value_ne propertygroup e) (extended e0).
Proof.
  induction propertygroup as [| prop rest IH]; intros e0 e He; simpl.
  - apply returns_ret. exact He.
  - apply returns_bind with (P := extended e0); [| intros e1 He1; apply IH; exact He1].
    unfold property_pass. apply returns_then. intros _.
    destruct (negb (String.eqb (name_i3d prop) "disabled"));
      [| apply returns_ret; exact He].
    apply returns_then. intros default.
    destruct (value_ne (value_i3d prop) default); [| apply returns_ret; exact He].
    apply returns_then. intros _.
    destruct (value_i3d prop); apply returns_then; intros _; apply returns_ret; extended.
Qed.

Lemma camera_extended (camera : Camera) (e : Element) :
  returns (_xml_scene_object_camera camera e) (extended e).
Proof.
  unfold _xml_scene_object_camera.
  destruct (String.eqb (camera_type camera) "ORTHO"); apply returns_ret; extended.
Qed.

Lemma light_extended (light : Light) (e : Element) :
  returns (_xml_scene_object_light light e) (extended e).
Proof.
  unfold _xml_scene_object_light.
  apply returns_bind with (P := fun r => extended e (snd r)).
  - repeat match goal with
           | |- returns (if ?c then _ else _) _ => destruct c
           end;
      try (apply returns_then; intros _); apply returns_ret; simpl; extended.
  - intros [[light_type falloff] e1] He1. simpl in He1.
    destruct falloff as [falloff |].
    + destruct (falloff_selector falloff); [| apply returns_raise].
      apply returns_ret. extended.
    + apply returns_ret. extended.
Qed.

Lemma shape_extended (this : ObjectInfo) (e : Element) :
  returns (_xml_scene_object_shape host settings _filepath _global_matrix
                                   scale_length i3d_default_material this e)
          (extended e).
Proof.
  unfold _xml_scene_object_shape.
  destruct (object_data this); try apply returns_raise.
  apply returns_then. intros st.
  apply returns_then. intros found.
  apply returns_then. intros shape_id.
  apply returns_then. intros st1.
  apply returns_then. intros material_ids.
  apply returns_ret. extended.
Qed.

Lemma general_data_written (node : Node) (e : Element) :
  returns (_xml_scene_object_general_data _global_matrix scale_length defaults value_ne
                                          node e)
          (fun e' => has_attributes general_attributes e' /\ children e' = children e).
Proof.
  unfold _xml_scene_object_general_data.
  apply returns_then. intros [o | c].
  - destruct (to_translation _) as [[tx ty] tz].
    destruct (to_euler_XYZ _) as [[rx ry] rz].
    eapply returns_weaken; [apply object_properties_extended; apply extended_refl |].
    intros e' He'. split.
    + eapply extended_has; [| exact He'].
      unfold _xml_write_string, _xml_write_int. apply general_attributes_written.
    + destruct He' as [_ Hch]. rewrite Hch.
      unfold _xml_write_string, _xml_write_int. rewrite !children_set. reflexivity.
  - apply returns_ret. split.
    + unfold _xml_write_string, _xml_write_int. apply general_attributes_written.
    + unfold _xml_write_string, _xml_write_int. rewrite !children_set. reflexivity.
Qed.

Lemma compile_node_written (node : Node) (e : Element) :
  returns (compile_node host settings _filepath _global_matrix scale_length defaults
                        value_ne i3d_default_material node e)
          (fun e' => has_attributes general_attributes e' /\ children e' = children e).
Proof.
  unfold compile_node.
  eapply returns_bind; [apply general_data_written |].
  intros e1 [Hhas Hch].
  destruct (blender_object node) as [[o | c] |];
    [| apply returns_ret; split; assumption | apply returns_raise].
  apply returns_bind with (P := extended e1).
  - repeat match goal with
           | |- returns (if ?c then _ else _) _ => destruct c
           | |- returns (match ?d with _ => _ end) _ => destruct d
           end;
      first [ apply shape_extended | apply light_extended | apply camera_extended
            | apply returns_raise | apply returns_ret; apply extended_refl ].
  - intros e2 He2.
    eapply returns_weaken with (P := extended e1).
    + destruct (data_i3d_attributes (info o)) as [propertygroup |];
        [| apply returns_ret; exact He2].
      apply object_properties_extended. exact He2.
    + intros e3 He3. split; [eapply extended_has; eassumption |].
      destruct He3 as [_ Hch3]. congruence.
Qed.

Lemma has_attributes_append (keys : list string) (e c : Element) :
  has_attributes keys e -> has_attributes keys (ET.append e c).
Proof.
  intros H. eapply Forall_impl; [| exact H]. intros k Hk. rewrite get_append. exact Hk.
Qed.

Lemma parse_node_described :
  forall node e,
    returns (parse_node host settings _filepath _global_matrix scale_length defaults
                        value_ne i3d_default_material node e)
            (fun e' =>
               has_attributes general_attributes e' /\
               exists es,
                 children e' = (children e ++ es)%list /\ Forall described es).
Proof.
  intros node. induction node as [i b l IH] using Node_forall_ind.
  intros e. simpl.
  eapply returns_bind; [apply compile_node_written |].
  intros e1 [Hhas Hch].
  match goal with
  | |- returns (?loop l e1) _ =>
      assert (Hloop : forall l0,
                 Forall (fun n => forall e0,
                           returns (parse_node host settings _filepath _global_matrix
                                               scale_length defaults value_ne
                                               i3d_default_material n e0)
                                   (fun e' =>
                                      has_attributes general_attributes e' /\
                                      exists es,
                                        children e' = (children e0 ++ es)%list /\
                                        Forall described es)) l0 ->
                 forall acc,
                   has_attributes general_attributes acc ->
                   returns (loop l0 acc)
                           (fun e' =>
                              has_attributes general_attributes e' /\
                              exists es,
                                children e' = (children acc ++ es)%list /\
                                Forall described es))
  end.
  { clear. induction l0 as [| child l' IHl]; intros Hall acc Hacc.
    - apply returns_ret. split; [exact Hacc |].
      exists []. rewrite app_nil_r. split; [reflexivity | constructor].
    - inversion Hall as [| ? ? Hchild Hrest]; subst.
      apply returns_then. intros child_tag.
      eapply returns_bind; [apply Hchild |].
      intros c (Hc & es & Hces & Hes). simpl in Hces.
      eapply returns_weaken;
        [apply IHl; [assumption | apply has_attributes_append; exact Hacc] |].
      intros e' (Hhas' & es' & Hch' & Hes').
      split; [exact Hhas' |].
      exists (c :: es'). rewrite Hch', children_append, <- app_assoc.
      split; [reflexivity |].
      constructor; [| exact Hes'].
      constructor; [exact Hc | rewrite Hces; exact Hes]. }
  eapply returns_weaken; [apply Hloop; assumption |].
  intros e' (Hhas' & es & Hch' & Hes). split; [exact Hhas' |].
  exists es. split; [congruence | exact Hes].
Qed.

Lemma parse_scene_graph_described (graph : SceneGraph) (st st' : Exporter) :
  _xml_parse_scene_graph host settings _filepath _global_matrix scale_length defaults
                         value_ne i3d_default_material graph st = (Ok tt, st') ->
  exists es,
    children (Scene st') = (children (Scene st) ++ es)%list /\ Forall described es.
Proof.
  unfold _xml_parse_scene_graph. generalize (node_children (root graph)) as l.
  intros l. revert st. induction l as [| child l IH]; intros st H.
  - inversion H; subst. exists []. rewrite app_nil_r. repeat split. constructor.
  - simpl in H.
    apply bind_ok in H. destruct H as ([] & s1 & H1 & H).
    apply bind_ok in H1. destruct H1 as (child_tag & s2 & Htag & H1).
    apply keeps_scene_blender_to_i3d in Htag.
    apply bind_ok in H1. destruct H1 as (c & s3 & Hc & H1).
    pose proof Hc as Hkeep. apply keeps_scene_parse_node in Hkeep.
    apply parse_node_described in Hc.
    destruct Hc as (Hhas & es & Hces & Hes). simpl in Hces.
    apply modify_ok in H1. subst s1.
    destruct (IH _ H) as (es' & Hch & Hall).
    unfold scene_and_output in Htag, Hkeep.
    assert (Hscene : Scene s3 = Scene st) by congruence.
    exists (c :: es'). simpl in Hch.
    rewrite Hch, children_append, Hscene, <- app_assoc.
    split; [reflexivity |].
    constructor; [| exact Hall].
    constructor; [exact Hhas | rewrite Hces; exact Hes].
Qed.

End NodeData.

(* ================================================================== *)
(** * The claims of the specification *)
(* ================================================================== *)

Section GeometryClaims.

Context {F : PyFloat} {MO : MatrixOps} {MU : Mathutils F MO} {BM : BMesh F MO}.
Variables (host : Host) (settings : Settings) (_filepath : string).
Variables (_global_matrix : Matrix) (scale_length : float).
Variable i3d_default_material : Material.

(** C2.  When the compilation of a mesh succeeds, the shape it appends to
    the [Shapes] section carries the shape id returned and has the three
    children [Vertices], [Triangles] and [Subsets]; and for any two
    subsets that follow one another in [Subsets], the [firstIndex] of the
    second is [firstIndex + numIndices] of the first and its [firstVertex]
    is [firstVertex + numVertices] of the first. *)
Theorem subsets_are_packed this data evaluated st shape_id st' :
  compile_shape host settings _filepath _global_matrix scale_length
                i3d_default_material this data evaluated st = (Ok shape_id, st') ->
  exists before shape vertices triangles subsets,
    children (Shapes st') = (before ++ [shape])%list /\
    attr_nat shape "shapeId" = Some shape_id /\
    children shape = [vertices; triangles; subsets] /\
    forall k e1 e2,
      nth_error (children subsets) k = Some e1 ->
      nth_error (children subsets) (S k) = Some e2 ->
      exists fi ni fv nv,
        attr_nat e1 "firstIndex" = Some fi /\ attr_nat e1 "numIndices" = Some ni /\
        attr_nat e1 "firstVertex" = Some fv /\ attr_nat e1 "numVertices" = Some nv /\
        attr_nat e2 "firstIndex" = Some (fi + ni) /\
        attr_nat e2 "firstVertex" = Some (fv + nv).
Proof.
  intros H. apply compile_shape_ok in H.
  destruct H as (mesh & ts & x & shape_root & Hx & Hid & Hshapes).
  eapply extract_spec in Hx; [| reflexivity].
  destruct Hx as (T & sizes & _ & _ & _ & Hsub & _ & _).
  eexists (children shape_root), _, (vertices_element x), (triangles_element x),
          (subsets_element x).
  rewrite Hshapes, children_append.
  split; [reflexivity |]. split; [| split].
  - unfold attr_nat, ET.get, ET.set_children, _xml_write_int, _xml_write_string. simpl.
    apply int_parse_str.
  - reflexivity.
  - intros k e1 e2 H1 H2. rewrite Hsub in H1, H2. simpl in H1, H2.
    eapply packed_subsets_contiguous; eassumption.
Qed.

End GeometryClaims.

(** The fan of the example compiles, and its two subsets are packed. *)
Lemma subsets_are_packed_witness :
  exists before shape vertices triangles subsets,
    children (Shapes (snd Example.compile_fan)) = (before ++ [shape])%list /\
    attr_nat shape "shapeId" = Some 1 /\
    children shape = [vertices; triangles; subsets] /\
    forall k e1 e2,
      nth_error (children subsets) k = Some e1 ->
      nth_error (children subsets) (S k) = Some e2 ->
      exists fi ni fv nv,
        attr_nat e1 "firstIndex" = Some fi /\ attr_nat e1 "numIndices" = Some ni /\
        attr_nat e1 "firstVertex" = Some fv /\ attr_nat e1 "numVertices" = Some nv /\
        attr_nat e2 "firstIndex" = Some (fi + ni) /\
        attr_nat e2 "firstVertex" = Some (fv + nv).
Proof.
  apply (@subsets_are_packed Symbolic.text_float Symbolic.text_matrix
           Symbolic.text_mathutils Symbolic.text_bmesh
           Example.host Example.settings Example.filepath Example.G Example.unit_scale
           Example.default_material Example.fan_object Example.fan Example.fan
           (Exporter_new [] false) 1).
  vm_compute. reflexivity.
Defined.

Section VertexCacheClaim.

Context {F : PyFloat}.

(** C3.  On a mesh whose numbers format to plain text, an extraction that
    succeeds has scanned the corners [T] of the triangles, subset after
    subset, and with [vertex_list] the corners of [T] that are the first
    with their key, in the order of the scan:
    - the [v] elements written are those of [vertex_list], in that order,
      and an entry stands before another when its key was met first;
    - the [t] elements written give, for the three corners of each
      triangle, the place of the corner in [vertex_list];
    - no corner occurs twice in [vertex_list], and at the place of a
      corner stands that very corner: material, position, normal and UV
      set;
    - two corners have the same place exactly when their material,
      position, normal and UV set are the same. *)
Theorem vertex_cache_is_exact (mesh : Mesh)
        (triangle_subsets : list (string * list MeshLoopTriangle))
        (t0 s0 : Element) (x' : Extraction) :
  mesh_plain mesh = true ->
  extract mesh triangle_subsets (extraction_start (ET.new "Vertices") t0 s0) = (Ok tt, x') ->
  exists T,
    scan mesh triangle_subsets = Some T /\
    let vertex_list := first_seen (corners_of T) in
    children (vertices_element x') =
      List.map (fun c => vertex_element_of (snd c)) vertex_list /\
    (forall i j e1 e2,
        nth_error vertex_list i = Some e1 -> nth_error vertex_list j = Some e2 ->
        i < j -> place_of e1 (corners_of T) < place_of e2 (corners_of T)) /\
    children (triangles_element x') =
      (children t0 ++ List.map (triangle_element_in vertex_list) T)%list /\
    NoDup vertex_list /\
    (forall c, In c (corners_of T) ->
               nth_error vertex_list (place_of c vertex_list) = Some c) /\
    (forall c d, In c (corners_of T) -> In d (corners_of T) ->
                 (place_of c vertex_list = place_of d vertex_list <-> c = d)).
Proof.
  intros Hplain H.
  eapply extract_spec in H; [| reflexivity].
  destruct H as (T & sizes & HT & Hv & Ht & _ & _ & _).
  exists T. split; [exact HT |]. cbv zeta.
  assert (Hnth : forall c, In c (corners_of T) ->
                 nth_error (first_seen (corners_of T))
                           (place_of c (first_seen (corners_of T))) = Some c).
  { intros c Hc.
    destruct (place_of_nth c (first_seen (corners_of T))) as (e & He & Ekey).
    { apply seen_first_seen. exact Hc. }
    rewrite He. f_equal. apply corner_key_injective; [| | exact Ekey].
    - eapply scan_plain; [exact Hplain | exact HT |].
      apply first_seen_incl. eapply nth_error_In. exact He.
    - eapply scan_plain; eassumption. }
  split; [exact Hv |].
  split; [apply first_seen_order |].
  split; [exact Ht |].
  split; [eapply NoDup_map_inv; apply first_seen_keys_nodup |].
  split; [exact Hnth |].
  intros c d Hc Hd. split.
  - intros E. pose proof (Hnth c Hc) as H1. pose proof (Hnth d Hd) as H2.
    rewrite E in H1. congruence.
  - intros ->. reflexivity.
Qed.

End VertexCacheClaim.

(** The fan of the example: ten vertices for its twelve corners. *)
Lemma vertex_cache_is_exact_witness :
  exists T,
    @scan Symbolic.text_float Example.fan Example.fan_subsets = Some T /\
    let vertex_list := first_seen (corners_of T) in
    children (vertices_element (snd Example.extract_fan)) =
      List.map (fun c => vertex_element_of (snd c)) vertex_list /\
    (forall i j e1 e2,
        nth_error vertex_list i = Some e1 -> nth_error vertex_list j = Some e2 ->
        i < j -> place_of e1 (corners_of T) < place_of e2 (corners_of T)) /\
    children (triangles_element (snd Example.extract_fan)) =
      (children (ET.new "Triangles")
       ++ List.map (triangle_element_in vertex_list) T)%list /\
    NoDup vertex_list /\
    (forall c, In c (corners_of T) ->
               nth_error vertex_list (place_of c vertex_list) = Some c) /\
    (forall c d, In c (corners_of T) -> In d (corners_of T) ->
                 (place_of c vertex_list = place_of d vertex_list <-> c = d)).
Proof.
  apply (@vertex_cache_is_exact Symbolic.text_float Example.fan Example.fan_subsets
           (ET.new "Triangles") (ET.new "Subsets") (snd Example.extract_fan)).
  - vm_compute. reflexivity.
  - vm_compute. reflexivity.
Defined.

Section LightClaim.

Context {F : PyFloat}.


End LightClaim.



Section TransformClaim.

Context {F : PyFloat} {MO : MatrixOps}.
Variable _global_matrix : Matrix.

Local Open Scope matrix_scope.

(** C1, as the code has it.  For an object that is not a light, with [G]
    the change of basis and [L] the local matrix of the object: the matrix
    is [G @ L] for a camera and [G @ L @ G^-1] otherwise; and it gets one
    more [G^-1] in front exactly when the parent of the object is a camera
    or a light, whatever the kind of the object itself. *)
Theorem local_matrix_composition (blender_object : ObjectInfo) :
  object_type blender_object <> "LIGHT" ->
  let G := _global_matrix in
  let L := matrix_local blender_object in
  let base :=
    if String.eqb (object_type blender_object) "CAMERA"
    then G @ L else G @ L @ inverted G in
  local_matrix _global_matrix blender_object =
  if parent_is_camera_or_light blender_object then inverted G @ base else base.
Proof.
  intros _. cbv zeta.
  unfold local_matrix, parent_is_camera_or_light, is_camera_or_light, object_eq_string.
  simpl. destruct (parent blender_object); reflexivity.
Qed.

(** A light takes the branch of the other objects: the comparison of the
    object itself with ['LIGHT'] never holds. *)
Lemma light_local_matrix (blender_object : ObjectInfo) :
  object_type blender_object = "LIGHT" ->
  parent blender_object = None ->
  local_matrix _global_matrix blender_object =
  _global_matrix @ matrix_local blender_object @ inverted _global_matrix.
Proof.
  intros Hkind Hparent. unfold local_matrix, object_eq_string.
  rewrite Hkind, Hparent. reflexivity.
Qed.

End TransformClaim.

(** A camera without parent: [G @ L]. *)
Lemma local_matrix_composition_witness :
  local_matrix Transforms.G Transforms.free_camera =
  IntMatrix.mul Transforms.G (IntMatrix.translation 1 2 3).
Proof.
  apply (@local_matrix_composition Fixed.fixed_float IntMatrix.int_matrix
           Transforms.G Transforms.free_camera).
  discriminate.
Defined.

(** C1 as stated fails on a mesh whose parent is a camera: the mesh is no
    camera or light, so the claim gives it [G @ L @ G^-1]; the code puts
    [G^-1] in front of that. *)
Lemma mesh_under_camera_is_corrected :
  local_matrix Transforms.G Transforms.mesh_under_camera =
    [[1; 0; 0; 1]; [0; 0; -1; 2]; [0; 1; 0; 3]; [0; 0; 0; 1]]%Z /\
  claimed_local_matrix Transforms.G Transforms.mesh_under_camera =
    [[1; 0; 0; 1]; [0; 1; 0; 3]; [0; 0; 1; -2]; [0; 0; 0; 1]]%Z /\
  local_matrix Transforms.G Transforms.mesh_under_camera <>
  claimed_local_matrix Transforms.G Transforms.mesh_under_camera.
Proof.
  split; [vm_compute; reflexivity |].
  split; [vm_compute; reflexivity |].
  vm_compute. discriminate.
Qed.

Section FileClaim.

Variables (host : Host) (settings : Settings) (_filepath : string).

(** C5.  In an exporter whose file table is in order, a call of
    [_xml_add_file] that returns has resolved its path to a key and
    leaves the table in order, with the key registered under the id
    returned and that id given to no other key; the [File] elements carry
    distinct paths; the registrations of the past are kept; for a key that
    was registered the id is the one it had and no element is created, for
    a new key one [File] element is appended; and any path that resolves
    to the same key, resolved after that, gets the same id and creates
    nothing. *)
Theorem file_registration (filepath file_folder : string) (st : Exporter)
        (id : nat) (st' : Exporter) :
  files_inv st ->
  _xml_add_file host settings _filepath filepath file_folder st = (Ok id, st') ->
  exists key,
    resolved_path host settings filepath file_folder = Some key /\
    files_inv st' /\
    NoDup (List.map (fun e => ET.get e "filename") (children (Files st'))) /\
    Py.dict_get String.eqb (_file_indexes st') key = Some id /\
    In (file_element_of (key, id)) (children (Files st')) /\
    (forall k, Py.dict_get String.eqb (_file_indexes st') k = Some id -> k = key) /\
    (forall k i, Py.dict_get String.eqb (_file_indexes st) k = Some i ->
                 Py.dict_get String.eqb (_file_indexes st') k = Some i) /\
    (forall i, Py.dict_get String.eqb (_file_indexes st) key = Some i ->
               id = i /\ Files st' = Files st) /\
    (Py.dict_get String.eqb (_file_indexes st) key = None ->
     children (Files st') = (children (Files st) ++ [file_element_of (key, id)])%list) /\
    (forall filepath2 file_folder2,
        resolved_path host settings filepath2 file_folder2 = Some key ->
        exists st2,
          _xml_add_file host settings _filepath filepath2 file_folder2 st' = (Ok id, st2) /\
          Files st2 = Files st' /\ _file_indexes st2 = _file_indexes st').
Proof.
  intros Hinv H. apply add_file_ok in H.
  destruct H as (key & st1 & Hres & Hsame & Hreg).
  pose proof (files_inv_same Hinv Hsame) as Hinv1.
  destruct (register_keeps_inv _ Hinv1 Hreg) as (Hinv' & Hget' & Hkeep & Hcase).
  apply same_files_parts in Hsame. destruct Hsame as (Sfi & Sid & Sfiles).
  exists key. split; [exact Hres |]. split; [exact Hinv' |].
  split; [apply files_inv_filenames; exact Hinv' |].
  split; [exact Hget' |].
  split.
  { destruct Hinv' as (_ & Hch & _). rewrite Hch.
    apply in_map. apply dict_get_in. exact Hget'. }
  split.
  { intros k Hk. destruct Hinv' as (_ & _ & _ & Hids).
    eapply nodup_snd_key; [exact Hids | |]; apply dict_get_in; eassumption. }
  split; [intros k i Hk; apply Hkeep; rewrite Sfi; exact Hk |].
  split.
  { intros i Hi. rewrite Sfi, Hi in Hcase. destruct Hcase as [-> ->]. auto. }
  split.
  { intros Hnone. rewrite Sfi, Hnone in Hcase. destruct Hcase as [_ Hc].
    rewrite Hc, Sfiles. reflexivity. }
  intros filepath2 file_folder2 Hres2.
  destruct (add_file_known host settings _filepath _ _ st' Hres2 Hget') as (st2 & Hrun & Hs & _).
  apply same_files_parts in Hs. destruct Hs as (A & _ & C).
  exists st2. auto.
Qed.

End FileClaim.

Lemma files_inv_new : files_inv (Exporter_new [] false).
Proof. repeat split; constructor. Qed.

(** The first texture, registered in a fresh exporter, gets id 1 under the
    key ["$data\shared\rust_diffuse.png"]. *)
Lemma file_registration_witness :
  exists key,
    resolved_path Example.host Example.settings Textures.first_path "textures" = Some key /\
    files_inv (snd (Textures.add Textures.first_path (Exporter_new [] false))) /\
    NoDup (List.map (fun e => ET.get e "filename")
             (children (Files (snd (Textures.add Textures.first_path (Exporter_new [] false)))))) /\
    Py.dict_get String.eqb
      (_file_indexes (snd (Textures.add Textures.first_path (Exporter_new [] false)))) key
      = Some 1 /\
    In (file_element_of (key, 1))
       (children (Files (snd (Textures.add Textures.first_path (Exporter_new [] false))))) /\
    (forall k, Py.dict_get String.eqb
                 (_file_indexes (snd (Textures.add Textures.first_path (Exporter_new [] false)))) k
               = Some 1 -> k = key) /\
    (forall k i, Py.dict_get String.eqb (_file_indexes (Exporter_new [] false)) k = Some i ->
                 Py.dict_get String.eqb
                   (_file_indexes (snd (Textures.add Textures.first_path (Exporter_new [] false)))) k
                 = Some i) /\
    (forall i, Py.dict_get String.eqb (_file_indexes (Exporter_new [] false)) key = Some i ->
               1 = i /\
               Files (snd (Textures.add Textures.first_path (Exporter_new [] false)))
               = Files (Exporter_new [] false)) /\
    (Py.dict_get String.eqb (_file_indexes (Exporter_new [] false)) key = None ->
     children (Files (snd (Textures.add Textures.first_path (Exporter_new [] false)))) =
     (children (Files (Exporter_new [] false)) ++ [file_element_of (key, 1)])%list) /\
    (forall filepath2 file_folder2,
        resolved_path Example.host Example.settings filepath2 file_folder2 = Some key ->
        exists st2,
          _xml_add_file Example.host Example.settings Example.filepath filepath2 file_folder2
                        (snd (Textures.add Textures.first_path (Exporter_new [] false)))
          = (Ok 1, st2) /\
          Files st2 = Files (snd (Textures.add Textures.first_path (Exporter_new [] false))) /\
          _file_indexes st2 =
          _file_indexes (snd (Textures.add Textures.first_path (Exporter_new [] false)))).
Proof.
  apply (file_registration Example.host Example.settings Example.filepath
           Textures.first_path "textures" (st := Exporter_new [] false) (id := 1)).
  - exact files_inv_new.
  - vm_compute. reflexivity.
Defined.

(** Two absolute paths into the shared data of the game: one key, one
    [File] element, one id. *)
Lemma shared_data_paths_collapse :
  exists st',
    Textures.add_both = (Ok (1, 1), st') /\
    List.map (fun e => ET.get e "filename") (children (Files st'))
    = [Some "$data\shared\rust_diffuse.png"].
Proof. eexists. vm_compute. split; reflexivity. Qed.

(* ================================================================== *)
(** * The mesh made for one shape *)
(* ================================================================== *)

Section MeshClaim.

Context {F : PyFloat} {MO : MatrixOps} {MU : Mathutils F MO} {BM : BMesh F MO}.
Variables (host : Host) (settings : Settings) (_filepath : string).
Variables (_global_matrix : Matrix) (scale_length : float).
Variable i3d_default_material : Material.

(** C9, as the code has it.  [compile_shape] clears the mesh made by
    [to_mesh] when it returns: the list of objects holding such a mesh is
    then what it was before the call.  When a step between [to_mesh] and
    [to_mesh_clear] raises, the exception leaves the routine at once and
    the mesh of this object is still held. *)
Theorem mesh_cleared_on_return
    (this : ObjectInfo) (data evaluated : Mesh) (st st' : Exporter)
    (r : Outcome nat) :
  compile_shape host settings _filepath _global_matrix scale_length
                i3d_default_material this data evaluated st = (r, st') ->
  match r with
  | Ok _ => meshes_alive st' = meshes_alive st
  | Raise _ => meshes_alive st' = (meshes_alive st ++ [object_name this])%list
  end.
Proof.
  unfold compile_shape. intros H.
  apply bind_cases in H. destruct H as [(e & H & _) | (s0 & st0 & H0 & H)];
    [discriminate H |].
  inversion H0; subst s0 st0; clear H0.
  apply bind_cases in H. destruct H as [(e & H & _) | ([] & st1 & H1 & H)];
    [discriminate H |].
  inversion H1; subst st1; clear H1.
  apply bind_cases in H. destruct H as [(e & H & _) | ([] & st2 & H2 & H)];
    [discriminate H |].
  inversion H2; subst st2; clear H2.
  apply bind_cases in H. destruct H as [(e & H & _) | ([] & st3 & H3 & H)];
    [discriminate H |].
  inversion H3; subst st3; clear H3.
  match type of H with
  | bind ?m _ ?s0 = _ =>
      assert (K : keeps meshes_alive m)
        by (destruct (Nat.eqb _ 0); keeps);
      assert (Hs : meshes_alive s0 = (meshes_alive st ++ [object_name this])%list)
        by reflexivity;
      revert H Hs; generalize s0
  end.
  intros s H Hs.
  apply bind_cases in H. destruct H as [(e & H & ->) | (mesh & st4 & H4 & H)].
  { rewrite (K _ _ _ H). exact Hs. }
  apply K in H4. rewrite <- H4 in Hs. clear K H4 s.
  apply bind_cases in H. destruct H as [(e & H & ->) | (ts & st5 & H5 & H)].
  { apply keeps_beside_group_triangles, beside_alive in H. congruence. }
  apply keeps_beside_group_triangles, beside_alive in H5.
  rewrite <- H5 in Hs. clear H5 st4.
  apply bind_cases in H. destruct H as [(e & H & ->) | ([u x] & st6 & H6 & H)].
  { apply keeps_beside_run_extraction, beside_alive in H. congruence. }
  apply keeps_beside_run_extraction, beside_alive in H6.
  rewrite <- H6 in Hs. clear H6 st5.
  apply bind_cases in H. destruct H as [(e & H & _) | ([] & st7 & H7 & H)];
    [discriminate H |].
  inversion H7; subst st7; clear H7.
  apply bind_cases in H. destruct H as [(e & H & _) | ([] & st8 & H8 & H)];
    [discriminate H |].
  inversion H8; subst st8; clear H8.
  inversion H; subst r st'; clear H. simpl.
  rewrite Hs. apply remove_last_snoc.
Qed.

End MeshClaim.

(** The mesh of the fan is cleared once the fan is compiled. *)
Lemma mesh_cleared_on_return_witness :
  meshes_alive (snd Example.compile_fan) = [].
Proof.
  apply (@mesh_cleared_on_return Symbolic.text_float Symbolic.text_matrix
           Symbolic.text_mathutils Symbolic.text_bmesh
           Example.host Example.settings Example.filepath Example.G Example.unit_scale
           Example.default_material Example.fan_object Example.fan Example.fan
           (Exporter_new [] false) (snd Example.compile_fan) (Ok 1)).
  vm_compute. reflexivity.
Defined.

(** A mesh with an empty material slot: the compilation raises on the
    triangle that uses the slot, and the mesh made for it is never
    cleared. *)
Lemma empty_slot_leaves_mesh :
  fst Example.compile_gap = Raise (AttributeError "name") /\
  meshes_alive (snd Example.compile_gap) = ["Gap"].
Proof. vm_compute. split; reflexivity. Qed.

(* ================================================================== *)
(** * One shape for one mesh *)
(* ================================================================== *)

Section ShapeCache.

Context {F : PyFloat} {MO : MatrixOps} {MU : Mathutils F MO} {BM : BMesh F MO}.
Variables (host : Host) (settings : Settings) (_filepath : string).
Variables (_global_matrix : Matrix) (scale_length : float).
Variable i3d_default_material : Material.

(** Where the name of the mesh goes through [repr] as it stands, the
    shape is made once: after one object with the mesh is exported, the
    export of another object with the same mesh reads the [shapeId] of the
    entry that is there and changes nothing in the exporter. *)
Lemma shape_is_compiled_once
    (this that : ObjectInfo) (data evaluated evaluated' : Mesh)
    (e e' e1 : Element) (st st1 : Exporter) :
  survives_repr (mesh_name data) = true ->
  object_data this = DataMesh data evaluated ->
  object_data that = DataMesh data evaluated' ->
  _xml_scene_object_shape host settings _filepath _global_matrix scale_length
                          i3d_default_material this e st = (Ok e1, st1) ->
  exists shape_id material_ids,
    e1 = _xml_write_string (_xml_write_int e "shapeId" shape_id)
                           "materialIds" material_ids /\
    _xml_scene_object_shape host settings _filepath _global_matrix scale_length
                            i3d_default_material that e' st1 =
    (Ok (_xml_write_string (_xml_write_int e' "shapeId" shape_id)
                           "materialIds" material_ids), st1).
Proof.
  unfold _xml_scene_object_shape. intros Hname Hthis Hthat H.
  rewrite Hthis in H. rewrite Hthat.
  apply bind_ok in H. destruct H as (s0 & s0' & Hg & H).
  apply get_ok in Hg. destruct Hg; subst s0 s0'.
  rewrite find_by_name_survives in H by exact Hname.
  apply bind_ok in H. destruct H as (found & s1 & Hf & H).
  inversion Hf; subst found s1; clear Hf.
  apply bind_ok in H. destruct H as (shape_id & s2 & Hid & H).
  apply bind_ok in H. destruct H as (s3 & s3' & Hg & H).
  apply get_ok in Hg. destruct Hg; subst s3 s3'.
  apply bind_ok in H. destruct H as (material_ids & s4 & Hm & H).
  apply expect_ok in Hm. destruct Hm as [Hm ->].
  inversion H; subst e1 st1; clear H.
  set (hit := fun x : Element =>
                String.eqb (tag x) "IndexedTriangleSet" &&
                match ET.get x "name" with
                | Some v => String.eqb v (mesh_name data)
                | None => false
                end) in *.
  assert (Hfind : exists x, List.find hit (children (Shapes s2)) = Some x /\
                            match ET.get x "shapeId" with
                            | Some v => Py.int_parse v
                            | None => None
                            end = Some shape_id).
  { destruct (List.find hit (children (Shapes st))) as [x |] eqn:Hx.
    - apply expect_ok in Hid. destruct Hid as [Hid ->].
      exists x. split; assumption.
    - apply compile_shape_entry in Hid.
      destruct Hid as (entry & Hch & Htag & Hnm & Hsid).
      exists entry. rewrite Hch. split.
      + apply find_app_none; [exact Hx |].
        unfold hit. rewrite Htag, Hnm, String.eqb_refl. apply String.eqb_refl.
      + rewrite Hsid. apply int_parse_str. }
  destruct Hfind as (x & Hx & Hsid).
  exists shape_id, material_ids. split; [reflexivity |].
  unfold bind at 1. unfold get at 1.
  rewrite find_by_name_survives by exact Hname.
  fold hit. rewrite Hx. unfold bind, lift, ret, expect, get. rewrite Hsid.
  cbn. rewrite Hm. reflexivity.
Qed.

End ShapeCache.

(** C4 on a mesh whose name holds a backslash.  Two objects use the mesh
    named [wall\north].  The lookup asks for the name as [repr] writes it,
    with the backslash doubled, and no entry bears that name: the mesh is
    compiled for each object, the objects get the shape ids 1 and 2, and
    the section holds two entries of the same name. *)
Theorem backslash_name_is_compiled_twice :
  exists first second st,
    Example.shape_twice Example.wall = (Ok (first, second), st) /\
    ET.get first "shapeId" = Some "1" /\
    ET.get second "shapeId" = Some "2" /\
    map (fun entry => (ET.get entry "name", ET.get entry "shapeId"))
        (children (Shapes st)) =
    [(Some "wall\north", Some "1"); (Some "wall\north", Some "2")] /\
    object_copies st = ["Left"; "Right"].
Proof.
  destruct (Example.shape_twice Example.wall) as [[[first second] | e] st] eqn:H;
    [| vm_compute in H; discriminate H].
  exists first, second, st. split; [reflexivity |].
  vm_compute in H. inversion H; subst. vm_compute. repeat split.
Qed.

(** The fan, whose name is plain, is compiled for the first object only. *)
Example plain_name_is_compiled_once :
  exists first second st,
    Example.shape_twice Example.fan = (Ok (first, second), st) /\
    ET.get first "shapeId" = Some "1" /\
    ET.get second "shapeId" = Some "1" /\
    map (fun entry => (ET.get entry "name", ET.get entry "shapeId"))
        (children (Shapes st)) = [(Some "Fan", Some "1")] /\
    object_copies st = ["Left"].
Proof.
  destruct (Example.shape_twice Example.fan) as [[[first second] | e] st] eqn:H;
    [| vm_compute in H; discriminate H].
  exists first, second, st. split; [reflexivity |].
  vm_compute in H. inversion H; subst. vm_compute. repeat split.
Qed.

(* ================================================================== *)
(** * The scene graph of the three selections *)
(* ================================================================== *)

Section BuilderFacts.

Context {F : PyFloat} {MO : MatrixOps}.
Variables (settings : Settings) (context : BpyContext).

(** Whatever the selection, the graph is rooted at the node with id 0,
    which stands for no object of the scene. *)
Lemma root_has_id_zero :
  node_id (root (fst (_xml_build_scene_graph settings context))) = 0 /\
  blender_object (root (fst (_xml_build_scene_graph settings context))) = None.
Proof.
  unfold _xml_build_scene_graph.
  destruct (if String.eqb (selection settings) "ALL" then _ else _) as [added g].
  split; reflexivity.
Qed.

(** For the selected objects the branch of the builder is empty:
    nothing is put under the root and no id is given. *)
Lemma selected_objects_branch :
  selection settings = "SELECTED_OBJECTS" ->
  _xml_build_scene_graph settings context =
  ({| ids_node := 1; root := mkNode 0 None [] |}, []).
Proof. unfold _xml_build_scene_graph. intros ->. reflexivity. Qed.

End BuilderFacts.

(** C6 on a scene with the fan selected.  With the selection [ALL] and
    with [ACTIVE_COLLECTION] the root with id 0 holds the collection and,
    under it, the fan and the camera.  With [SELECTED_OBJECTS] the root
    with id 0 holds nothing: the fan, which is selected and of an exported
    kind, is not in the graph. *)
Theorem selected_objects_are_left_out :
  Example.outline (root (fst (Example.build "ALL"))) =
    [(0, ""); (1, "Master Collection"); (2, "Fan"); (3, "Camera")] /\
  Example.outline (root (fst (Example.build "ACTIVE_COLLECTION"))) =
    [(0, ""); (1, "Master Collection"); (2, "Fan"); (3, "Camera")] /\
  map (fun o => object_name (info o)) (selected_objects Example.context) = ["Fan"] /\
  Example.outline (root (fst (Example.build "SELECTED_OBJECTS"))) = [(0, "")].
Proof. vm_compute. repeat split. Qed.

(* ================================================================== *)
(** * What ends an export *)
(* ================================================================== *)

Section ExportClaim.

Context {F : PyFloat} {MO : MatrixOps} {MU : Mathutils F MO} {BM : BMesh F MO}.
Variables (host : Host) (settings : Settings) (_filepath : string).
Variables (_global_matrix : Matrix) (scale_length : float).
Variable defaults : string -> option PyValue.
Variable value_ne : PyValue -> PyValue -> bool.
Variable i3d_default_material : Material.


End ExportClaim.


(* ================================================================== *)
(** * The scene section *)
(* ================================================================== *)

Section SceneClaim.

Context {F : PyFloat} {MO : MatrixOps} {MU : Mathutils F MO} {BM : BMesh F MO}.
Variables (host : Host) (settings : Settings) (_filepath : string).
Variables (_global_matrix : Matrix) (scale_length : float).
Variable defaults : string -> option PyValue.
Variable value_ne : PyValue -> PyValue -> bool.
Variable i3d_default_material : Material.

(** The walk over the graph puts one element per child of the root at the
    end of the scene section, in the order of the children. *)
Lemma parse_scene_graph_emitted (graph : SceneGraph) (st st' : Exporter) :
  forallb quiet (node_children (root graph)) = true ->
  _xml_parse_scene_graph host settings _filepath _global_matrix scale_length defaults
                         value_ne i3d_default_material graph st = (Ok tt, st') ->
  exists es,
    children (Scene st') = (children (Scene st) ++ es)%list /\
    Forall2 emitted (node_children (root graph)) es /\
    written st' = written st.
Proof.
  unfold _xml_parse_scene_graph. generalize (node_children (root graph)) as l.
  intros l. revert st. induction l as [| child l IH]; intros st Hq H.
  - inversion H; subst. exists []. rewrite app_nil_r. repeat split. constructor.
  - simpl in Hq. apply andb_true_iff in Hq. destruct Hq as [Hqc Hql].
    simpl in H.
    apply bind_ok in H. destruct H as ([] & s1 & H1 & H).
    apply bind_ok in H1. destruct H1 as (child_tag & s2 & Htag & H1).
    apply keeps_scene_blender_to_i3d in Htag.
    apply bind_ok in H1. destruct H1 as (c & s3 & Hc & H1).
    pose proof Hc as Hkeep. apply keeps_scene_parse_node in Hkeep.
    apply parse_node_emitted in Hc; [| exact Hqc].
    destruct Hc as (Hcid & es & Hces & Hem). simpl in Hces.
    apply modify_ok in H1. subst s1.
    destruct (IH _ Hql H) as (es' & Hch & Hall & Hw).
    unfold scene_and_output in Htag, Hkeep.
    assert (Hscene : Scene s3 = Scene st) by congruence.
    assert (Hwritten : written s3 = written st) by congruence.
    exists (c :: es'). simpl in Hch, Hw.
    rewrite Hch, children_append, Hscene, <- app_assoc.
    split; [reflexivity |]. split; [| congruence].
    constructor; [| exact Hall].
    destruct child as [ci cb cl]. constructor.
    + unfold attr_nat. rewrite Hcid. apply int_parse_str.
    + rewrite Hces. exact Hem.
Qed.

(** C10.  After an export that returns, the scene section holds one
    element per child of the root of the graph, in the order of the
    children and nothing else; each element carries the id of its node,
    and so do the elements below it, one per node of the subtree.  No
    element stands for the root: every [nodeId] of the section is 1 or
    more.  When the writing goes through, the sixth section of the
    document written is that scene section, indented, and its elements
    stand for the children of the root in the same way.  The objects are
    taken to have no extension property that is itself named [nodeId]. *)
Theorem scene_holds_the_children_of_the_root
    (context : BpyContext) (st st' : Exporter) :
  forallb quiet
          (node_children (root (fst (_xml_build_scene_graph settings context)))) = true ->
  Exporter_init host settings _filepath _global_matrix scale_length defaults value_ne
                i3d_default_material context st = (Ok tt, st') ->
  node_id (root (fst (_xml_build_scene_graph settings context))) = 0 /\
  Forall2 emitted
          (node_children (root (fst (_xml_build_scene_graph settings context))))
          (children (Scene st')) /\
  Forall (fun e => Forall (fun i => exists j, i = Some j /\ 1 <= j) (node_ids e))
         (children (Scene st')) /\
  (write_error host _filepath = None ->
   exists document,
     written st' = Some document /\
     nth_error (children document) 5 = Some (_indent (Scene st') 1) /\
     Forall2 emitted
             (node_children (root (fst (_xml_build_scene_graph settings context))))
             (children (_indent (Scene st') 1))).
Proof.
  intros Hq H. unfold Exporter_init in H.
  pose proof (built_graph_ids settings context) as Hids.
  assert (Hroot : node_id (root (fst (_xml_build_scene_graph settings context))) = 0).
  { unfold _xml_build_scene_graph.
    destruct (if String.eqb (selection settings) "ALL" then _ else _). reflexivity. }
  destruct (_xml_build_scene_graph settings context) as [graph lines].
  simpl in Hq, Hids, Hroot |- *.
  apply bind_ok in H. destruct H as ([] & s1 & H1 & H).
  assert (Hs1 : children (Scene s1) = []).
  { unfold _xml_build_skeleton_structure in H1. run. reflexivity. }
  apply bind_ok in H. destruct H as ([] & s2 & H2 & H).
  apply modify_ok in H2. subst s2.
  apply bind_ok in H. destruct H as ([] & s3 & H3 & H).
  apply parse_scene_graph_emitted in H3; [| exact Hq].
  destruct H3 as (es & Hch & Hem & _). simpl in Hch. rewrite Hs1 in Hch. simpl in Hch.
  pose proof H as Hkeep. apply keeps_scene_export_to_file in Hkeep.
  rewrite Hkeep, Hch.
  split; [exact Hroot |]. split; [exact Hem |].
  split; [eapply emitted_all_ids; eassumption |].
  intros Hw. apply export_writes in H; [| exact Hw].
  exists (_indent (_tree host _filepath s3) 0).
  split; [exact H |]. split; [exact (document_scene host _filepath s3) |].
  apply children_indent_emitted. rewrite Hch. exact Hem.
Qed.

End SceneClaim.

(** The export of the example scene: the collection, and under it the
    fan and the camera. *)
Lemma scene_holds_the_children_of_the_root_witness :
  node_id (root (fst (_xml_build_scene_graph Example.settings Example.context))) = 0 /\
  Forall2 emitted
          (node_children
             (root (fst (_xml_build_scene_graph Example.settings Example.context))))
          (children (Scene (snd (Example.export Example.host Example.context)))) /\
  Forall (fun e => Forall (fun i => exists j, i = Some j /\ 1 <= j) (node_ids e))
         (children (Scene (snd (Example.export Example.host Example.context)))) /\
  (write_error Example.host Example.filepath = None ->
   exists document,
     written (snd (Example.export Example.host Example.context)) = Some document /\
     nth_error (children document) 5 =
       Some (_indent (Scene (snd (Example.export Example.host Example.context))) 1) /\
     Forall2 emitted
             (node_children
                (root (fst (_xml_build_scene_graph Example.settings Example.context))))
             (children
                (_indent (Scene (snd (Example.export Example.host Example.context))) 1))).
Proof.
  apply (@scene_holds_the_children_of_the_root
           Symbolic.text_float Symbolic.text_matrix Symbolic.text_mathutils
           Symbolic.text_bmesh Example.host Example.settings Example.filepath
           Example.G Example.unit_scale Example.defaults Example.value_ne
           Example.default_material Example.context (Exporter_new [] false)).
  - vm_compute. reflexivity.
  - vm_compute. reflexivity.
Defined.

(** What a reader finds in the scene section of that export. *)
Example scene_ids_of_the_example :
  map node_ids (children (Scene (snd (Example.export Example.host Example.context)))) =
  [[Some 1; Some 2; Some 3]].
Proof. vm_compute. reflexivity. Qed.

(* ================================================================== *)
(** * Further properties of the exporter *)
(* ================================================================== *)

(** ** The scene graph builder *)

Section BuilderExtras.

Context {F : PyFloat} {MO : MatrixOps}.
Variables (settings : Settings) (context : BpyContext).

(** X1.  The ids of a scene graph are dense: read in the order of the
    walk, root first, they are 0, 1, 2, ... up to the counter of the
    graph, which is the number of its nodes.  No id is given twice. *)
Theorem node_ids_are_consecutive :
  List.map node_id (preorder (root (fst (_xml_build_scene_graph settings context)))) =
  seq 0 (ids_node (fst (_xml_build_scene_graph settings context))).
Proof.
  destruct (graph_grown settings context) as (Hle & Hids & _ & _).
  simpl in Hle, Hids.
  assert (Hroot : exists added,
             root (fst (_xml_build_scene_graph settings context)) = mkNode 0 None added).
  { unfold _xml_build_scene_graph.
    destruct (if String.eqb (selection settings) "ALL" then _ else _) as [added g].
    exists added. reflexivity. }
  destruct Hroot as (added & Hroot). rewrite Hroot in *. simpl in Hids |- *.
  rewrite Hids.
  destruct (ids_node (fst (_xml_build_scene_graph settings context))) as [| n];
    [lia |].
  simpl. rewrite Nat.sub_0_r. reflexivity.
Qed.

(** X2.  The builder prints one line for every node it adds, in the order
    of their ids: [Added Node with ID i and name 'n'] for the node [i]
    that stands for the object or the collection named [n].  No line is
    printed for the root. *)
Theorem one_line_per_added_node :
  snd (_xml_build_scene_graph settings context) =
  List.map added_line
           (flat_map preorder
                     (node_children (root (fst (_xml_build_scene_graph settings context))))).
Proof.
  destruct (graph_grown settings context) as (_ & _ & Hlines & _).
  exact Hlines.
Qed.

(** X3.  Every node below the root stands for a collection or for an
    object whose kind is among the kinds to export: an object of another
    kind is never in the graph. *)
Theorem only_exported_kinds_are_added :
  Forall (fun node =>
            match blender_object node with
            | Some (ACollection _) => True
            | Some (AnObject o) =>
                In (object_type (info o)) (object_types_to_export settings)
            | None => False
            end)
         (flat_map preorder
                   (node_children (root (fst (_xml_build_scene_graph settings context))))).
Proof.
  destruct (graph_grown settings context) as (_ & _ & _ & Hkinds).
  apply Forall_forall. intros node Hin. rewrite forallb_forall in Hkinds.
  specialize (Hkinds node Hin). unfold exported in Hkinds.
  destruct (blender_object node) as [[o | c] |]; [| exact I | discriminate].
  apply existsb_exists in Hkinds. destruct Hkinds as (k & Hk & Heq).
  apply String.eqb_eq in Heq. subst k. exact Hk.
Qed.

End BuilderExtras.

(** ** The walk over the scene graph *)

Section WalkExtras.

Context {F : PyFloat} {MO : MatrixOps} {MU : Mathutils F MO} {BM : BMesh F MO}.
Variables (host : Host) (settings : Settings) (_filepath : string).
Variables (_global_matrix : Matrix) (scale_length : float).
Variable defaults : string -> option PyValue.
Variable value_ne : PyValue -> PyValue -> bool.
Variable i3d_default_material : Material.

(** X4.  After an export that returns, every element of the scene section
    has the tag that [blender_to_i3d] gives for the kind of its node
    ([TransformGroup] for a collection, the entry of the table for the
    type of an object), and so have the elements below it, one for each
    node of the subtree: no writing of an attribute changes a tag. *)
Theorem scene_elements_are_tagged_by_kind
    (context : BpyContext) (st st' : Exporter) :
  Exporter_init host settings _filepath _global_matrix scale_length defaults value_ne
                i3d_default_material context st = (Ok tt, st') ->
  Forall2 tagged_like
          (node_children (root (fst (_xml_build_scene_graph settings context))))
          (children (Scene st')).
Proof.
  intros H. apply init_steps in H.
  destruct H as (s2 & s3 & _ & _ & _ & Hscene & _ & _ & _ & _ & _ & _ & Hparse & Hwrite).
  apply parse_scene_graph_tagged in Hparse. destruct Hparse as (es & Hch & Hall).
  apply keeps_scene_export_to_file in Hwrite.
  rewrite Hwrite, Hch, Hscene. exact Hall.
Qed.

End WalkExtras.

(** The export of the example scene. *)
Lemma scene_elements_are_tagged_by_kind_witness :
  Forall2 tagged_like
          (node_children
             (root (fst (_xml_build_scene_graph Example.settings Example.context))))
          (children (Scene (snd (Example.export Example.host Example.context)))).
Proof.
  apply (@scene_elements_are_tagged_by_kind
           Symbolic.text_float Symbolic.text_matrix Symbolic.text_mathutils
           Symbolic.text_bmesh Example.host Example.settings Example.filepath
           Example.G Example.unit_scale Example.defaults Example.value_ne
           Example.default_material Example.context (Exporter_new [] false)).
  vm_compute. reflexivity.
Defined.


(** ** The files of the textures *)

Section FileExtras.

Variables (host : Host) (settings : Settings) (_filepath : string).



(** X7.  A path that [bpy.path.abspath] resolves to the empty string
    makes [_xml_add_file] raise [IndexError]: the first character of the
    resolved path is read before anything is registered, and the file
    table and the disk are as they were. *)
Theorem empty_path_raises_index_error
    (filepath file_folder : string) (st : Exporter) :
  abspath host filepath = "" ->
  exists st',
    _xml_add_file host settings _filepath filepath file_folder st =
      (Raise IndexError, st') /\
    file_table st' = file_table st /\ disk st' = disk st.
Proof.
  intros Hempty. rewrite add_file_steps. cbv zeta. rewrite Hempty.
  eexists. split; [reflexivity |]. split; reflexivity.
Qed.

(** X8.  In the layout [BLENDER], a texture that is more than three
    directories above the blend file is never copied, even with the
    setting [copy_files]: its resolved path is its absolute path, under
    which it is registered when it is not in the shared data. *)
Theorem far_texture_keeps_its_absolute_path
    (filepath file_folder : string) (st st' : Exporter) (r : Outcome nat) :
  file_structure settings = "BLENDER" ->
  3 < Py.count filepath "..\" ->
  Py.index (abspath host filepath) relative_filter = None ->
  _xml_add_file host settings _filepath filepath file_folder st = (r, st') ->
  disk st' = disk st /\
  forall file_id,
    r = Ok file_id ->
    Py.dict_get String.eqb (_file_indexes st') (abspath host filepath) = Some file_id.
Proof.
  intros Hlayout Hfar Hplain H.
  assert (Hkey : output_dir_of settings filepath (abspath host filepath) file_folder
                 ++ filename_of (abspath host filepath) = abspath host filepath).
  { unfold output_dir_of. rewrite Hlayout.
    change (String.eqb "BLENDER" "FLAT") with false.
    change (String.eqb "BLENDER" "MODHUB") with false.
    change (String.eqb "BLENDER" "BLENDER") with true. cbv iota.
    apply Nat.leb_gt in Hfar. rewrite Hfar. apply directory_then_filename. }
  assert (Hrewrite : shared_data_rewrite (abspath host filepath) = abspath host filepath).
  { unfold shared_data_rewrite. rewrite Hplain. reflexivity. }
  assert (Hend : forall s key id s',
             register key s = (Ok id, s') ->
             Py.dict_get String.eqb (_file_indexes s') key = Some id).
  { intros s key id s' Hr.
    destruct (Py.dict_get String.eqb (_file_indexes s) key) as [known |] eqn:Hget.
    - rewrite (register_known _ _ Hget) in Hr. inversion Hr; subst. exact Hget.
    - rewrite (register_new _ _ Hget) in Hr. inversion Hr; subst. simpl.
      apply dict_get_set_same. }
  rewrite add_file_steps in H. cbv zeta in H. rewrite Hrewrite in H.
  destruct (String.get 0 (abspath host filepath)) as [first |];
    [| inversion H; split; [reflexivity | intros id Hid; discriminate Hid]].
  apply bind_cases in H. destruct H as [(e & H & ->) | (key & s4 & H4 & H)].
  - split; [| intros id Hid; discriminate Hid].
    destruct (negb (Ascii.eqb first "$") && copy_files settings); [| discriminate H].
    apply bind_cases in H. destruct H as [(e' & H & _) | ([] & s5 & _ & H)];
      [| discriminate H].
    unfold copy_step in H. cbv zeta in H. rewrite Hkey, String.eqb_refl in H.
    inversion H.
  - assert (Hs4 : key = abspath host filepath /\ disk s4 = disk st).
    { destruct (negb (Ascii.eqb first "$") && copy_files settings).
      - apply bind_cases in H4. destruct H4 as [(e' & H4 & Habs) | ([] & s5 & H5 & H4)];
          [discriminate Habs |].
        inversion H4; subst key s5.
        unfold copy_step in H5. cbv zeta in H5. rewrite Hkey, String.eqb_refl in H5.
        inversion H5. split; [exact Hkey | reflexivity].
      - inversion H4; subst. split; reflexivity. }
    destruct Hs4 as [-> Hdisk]. split.
    + apply keeps_disk_register in H. congruence.
    + intros id ->. eapply Hend. exact H.
Qed.

End FileExtras.



Lemma empty_path_raises_index_error_witness :
  exists st',
    _xml_add_file Example.host Example.settings Example.filepath "" "textures"
                  (Exporter_new [] false) = (Raise IndexError, st') /\
    file_table st' = file_table (Exporter_new [] false) /\
    disk st' = disk (Exporter_new [] false).
Proof.
  apply (@empty_path_raises_index_error Example.host Example.settings Example.filepath
           "" "textures" (Exporter_new [] false)).
  reflexivity.
Defined.

Lemma far_texture_keeps_its_absolute_path_witness :
  disk (snd (_xml_add_file Copies.far_host Copies.blender_settings Example.filepath
                           Copies.far_wood "textures" Copies.start)) =
    disk Copies.start /\
  forall file_id,
    fst (_xml_add_file Copies.far_host Copies.blender_settings Example.filepath
                       Copies.far_wood "textures" Copies.start) = Ok file_id ->
    Py.dict_get String.eqb
      (_file_indexes (snd (_xml_add_file Copies.far_host Copies.blender_settings
                                         Example.filepath Copies.far_wood "textures"
                                         Copies.start)))
      (abspath Copies.far_host Copies.far_wood) = Some file_id.
Proof.
  apply (@far_texture_keeps_its_absolute_path Copies.far_host Copies.blender_settings
           Example.filepath Copies.far_wood "textures" Copies.start).
  - reflexivity.
  - vm_compute. lia.
  - vm_compute. reflexivity.
  - vm_compute. reflexivity.
Defined.

(** ** The shared data of the game *)

(** X9.  An absolute path that holds [data\shared], with a directory in
    front of its first occurrence, is rewritten to [$] followed by the
    rest of the path from [data\shared] on, in which every further
    occurrence of that directory is replaced by [$] as well.  Where the
    directory does not occur again, the key is [$] and the rest as it
    stands, so that all installations of the game get the same key. *)
Theorem shared_data_key (directory rest : string) :
  directory <> "" ->
  Py.index (directory ++ rest) relative_filter = Some (String.length directory) ->
  shared_data_rewrite (directory ++ rest) = "$" ++ Py.replace rest directory "$" /\
  (Py.count rest directory = 0 -> shared_data_rewrite (directory ++ rest) = "$" ++ rest).
Proof.
  intros Hdir Hindex.
  assert (Hkey : shared_data_rewrite (directory ++ rest)
                 = "$" ++ Py.replace rest directory "$").
  { unfold shared_data_rewrite. rewrite Hindex.
    unfold Py.slice. rewrite Nat.sub_0_r, substring_prefix.
    destruct directory as [| a p]; [contradiction |].
    apply replace_leading. }
  split; [exact Hkey |].
  intros Hcount. rewrite Hkey. f_equal.
  destruct directory as [| a p]; [contradiction |].
  unfold Py.replace. apply replace_absent. exact Hcount.
Qed.

Lemma shared_data_key_witness :
  shared_data_rewrite ("C:\games\fs\" ++ "data\shared\rust_diffuse.png") =
    "$" ++ Py.replace "data\shared\rust_diffuse.png" "C:\games\fs\" "$" /\
  (Py.count "data\shared\rust_diffuse.png" "C:\games\fs\" = 0 ->
   shared_data_rewrite ("C:\games\fs\" ++ "data\shared\rust_diffuse.png") =
     "$" ++ "data\shared\rust_diffuse.png").
Proof.
  apply (@shared_data_key "C:\games\fs\" "data\shared\rust_diffuse.png").
  - discriminate.
  - vm_compute. reflexivity.
Defined.

(** X10.  A path that begins with [data\shared] has nothing in front of
    the marker: the empty string is what [replace] is asked to replace,
    and the key is the path with a [$] before each of its characters and
    one more at its end. *)
Theorem shared_data_at_the_start (filepath_absolute : string) :
  Py.index filepath_absolute relative_filter = Some 0 ->
  shared_data_rewrite filepath_absolute = Py.intersperse "$" filepath_absolute.
Proof.
  intros Hindex. unfold shared_data_rewrite. rewrite Hindex.
  unfold Py.slice. simpl. destruct filepath_absolute; reflexivity.
Qed.

Lemma shared_data_at_the_start_witness :
  shared_data_rewrite "data\shared\a.png" = "$d$a$t$a$\$s$h$a$r$e$d$\$a$.$p$n$g$".
Proof.
  apply (@shared_data_at_the_start "data\shared\a.png").
  vm_compute. reflexivity.
Defined.

(** ** The material section *)

Section MaterialExtras.

Context {F : PyFloat}.
Variables (host : Host) (settings : Settings) (_filepath : string).

(** X11.  A call of [_xml_add_material] that returns has either found the
    material in the section and changed neither the section nor the
    counter, or it has appended one [Material] element that carries the
    name of the material and, as its id, the value of the counter, which
    has moved on by one.  The id returned is the one of that element. *)
Theorem material_ids_follow_the_counter
    (material : Material) (st st' : Exporter) (id : nat) :
  _xml_add_material host settings _filepath material st = (Ok id, st') ->
  material_table st' = material_table st \/
  (id = ids_material st /\
   ids_material st' = S (ids_material st) /\
   exists entry,
     children (Materials st') = (children (Materials st) ++ [entry])%list /\
     material_entry (material_name material) id entry).
Proof.
  intros H. rewrite add_material_steps in H.
  apply bind_ok in H. destruct H as (s0 & s0' & Hg & H).
  apply get_ok in Hg. destruct Hg; subst s0 s0'.
  apply bind_ok in H. destruct H as (found & s1 & Hfound & H).
  assert (Hs1 : s1 = st).
  { destruct (find_by_name _ _ _ _); inversion Hfound; reflexivity. }
  subst s1. clear Hfound.
  apply bind_ok in H. destruct H as (e & s2 & He & H).
  apply expect_ok in H. destruct H as [Hid ->].
  destruct found as [known |].
  - apply ret_ok in He. destruct He; subst. left. reflexivity.
  - right.
    apply bind_ok in He. destruct He as (e0 & s3 & Hbody & He).
    pose proof Hbody as Hkeep. apply keeps_materials_new_element in Hkeep.
    apply new_material_element_entry in Hbody.
    apply bind_ok in He. destruct He as ([] & s4 & Hcount & He).
    apply modify_ok in Hcount. subst s4.
    apply bind_ok in He. destruct He as ([] & s5 & Happend & He).
    apply modify_ok in Happend. subst s5.
    apply ret_ok in He. destruct He; subst e s2.
    unfold material_table in Hkeep. inversion Hkeep as [[Hm Hc]].
    destruct Hbody as (Htag & Hname & Hmid).
    rewrite Hmid, int_parse_str in Hid. inversion Hid; subst id.
    simpl. rewrite Hc, Hm, children_append.
    split; [reflexivity |]. split; [reflexivity |].
    exists e0. split; [reflexivity |]. repeat split; assumption.
Qed.

(** X12.  Materials are told apart by their names alone.  Where the name
    goes through [repr] as it stands, a material that was added is found
    again: a second call with a material of that name, whatever its
    colours and nodes, returns the id of the first and changes nothing in
    the exporter. *)
Theorem material_is_added_once
    (material other : Material) (st st1 : Exporter) (id : nat) :
  survives_repr (material_name material) = true ->
  material_name other = material_name material ->
  _xml_add_material host settings _filepath material st = (Ok id, st1) ->
  _xml_add_material host settings _filepath other st1 = (Ok id, st1).
Proof.
  intros Hname Hsame H. rewrite add_material_steps in H.
  apply bind_ok in H. destruct H as (s0 & s0' & Hg & H).
  apply get_ok in Hg. destruct Hg; subst s0 s0'.
  rewrite find_by_name_survives in H by exact Hname.
  apply bind_ok in H. destruct H as (found & s1 & Hfound & H).
  inversion Hfound; subst found s1; clear Hfound.
  apply bind_ok in H. destruct H as (e & s2 & He & H).
  apply expect_ok in H. destruct H as [Hid ->].
  set (hit := fun x : Element =>
                String.eqb (tag x) "Material" &&
                match ET.get x "name" with
                | Some v => String.eqb v (material_name material)
                | None => false
                end) in *.
  assert (Hfind : List.find hit (children (Materials s2)) = Some e).
  { destruct (List.find hit (children (Materials st))) as [known |] eqn:Hknown.
    - apply ret_ok in He. destruct He; subst. exact Hknown.
    - apply bind_ok in He. destruct He as (e0 & s3 & Hbody & He).
      pose proof Hbody as Hkeep. apply keeps_materials_new_element in Hkeep.
      apply new_material_element_entry in Hbody.
      apply bind_ok in He. destruct He as ([] & s4 & Hcount & He).
      apply modify_ok in Hcount. subst s4.
      apply bind_ok in He. destruct He as ([] & s5 & Happend & He).
      apply modify_ok in Happend. subst s5.
      apply ret_ok in He. destruct He; subst e s2.
      unfold material_table in Hkeep. inversion Hkeep as [[Hm Hc]].
      destruct Hbody as (Htag & Hnm & Hmid).
      simpl. rewrite Hm, children_append.
      apply find_app_none; [exact Hknown |].
      unfold hit. rewrite Htag, Hnm, String.eqb_refl. apply String.eqb_refl. }
  rewrite add_material_steps.
  unfold bind at 1. unfold get at 1.
  rewrite Hsame, find_by_name_survives by exact Hname.
  fold hit. rewrite Hfind. unfold bind, lift, ret, expect. rewrite Hid. reflexivity.
Qed.

(** X13.  A material that does not use nodes has no texture: adding it
    registers no file, copies none and prints nothing, whatever the
    outcome of the call. *)
Theorem plain_material_asks_for_no_file
    (material : Material) (st st' : Exporter) (r : Outcome nat) :
  use_nodes material = false ->
  _xml_add_material host settings _filepath material st = (r, st') ->
  file_table st' = file_table st /\ disk st' = disk st /\ stdout st' = stdout st.
Proof.
  intros Hplain H.
  assert (K : keeps (fun st => (file_table st, disk st, stdout st))
                    (_xml_add_material host settings _filepath material)).
  { rewrite add_material_steps.
    assert (Hbody := fun id => @keeps_files_plain_material F host settings _filepath
                                  material id Hplain).
    keeps. }
  apply K in H. inversion H as [[Ha Hb Hc Hd He]].
  unfold file_table. rewrite Ha, Hb, Hc. repeat split.
Qed.

End MaterialExtras.

Lemma material_ids_follow_the_counter_witness :
  material_table (snd Stones.add_stone) = material_table (Exporter_new [] false) \/
  (1 = ids_material (Exporter_new [] false) /\
   ids_material (snd Stones.add_stone) = S (ids_material (Exporter_new [] false)) /\
   exists entry,
     children (Materials (snd Stones.add_stone)) =
       (children (Materials (Exporter_new [] false)) ++ [entry])%list /\
     material_entry "Stone" 1 entry).
Proof.
  apply (@material_ids_follow_the_counter Symbolic.text_float Example.host
           Example.settings Example.filepath (Example.flat_material "Stone")
           (Exporter_new [] false) (snd Stones.add_stone) 1).
  vm_compute. reflexivity.
Defined.

(** The polished stone is taken for the stone that is there. *)
Lemma material_is_added_once_witness :
  Stones.add_polished = (Ok 1, snd Stones.add_stone).
Proof.
  apply (@material_is_added_once Symbolic.text_float Example.host Example.settings
           Example.filepath (Example.flat_material "Stone") Stones.polished
           (Exporter_new [] false) (snd Stones.add_stone) 1).
  - reflexivity.
  - reflexivity.
  - vm_compute. reflexivity.
Defined.

Lemma plain_material_asks_for_no_file_witness :
  file_table (snd Stones.add_stone) = file_table (Exporter_new [] false) /\
  disk (snd Stones.add_stone) = disk (Exporter_new [] false) /\
  stdout (snd Stones.add_stone) = stdout (Exporter_new [] false).
Proof.
  apply (@plain_material_asks_for_no_file Symbolic.text_float Example.host
           Example.settings Example.filepath (Example.flat_material "Stone")
           (Exporter_new [] false) (snd Stones.add_stone) (fst Stones.add_stone)).
  - reflexivity.
  - vm_compute. reflexivity.
Defined.

(** ** Shapes *)

Section ShapeExtras.

Context {F : PyFloat} {MO : MatrixOps} {MU : Mathutils F MO} {BM : BMesh F MO}.
Variables (host : Host) (settings : Settings) (_filepath : string).
Variables (_global_matrix : Matrix) (scale_length : float).
Variable i3d_default_material : Material.

(** X14.  A mesh without triangles cannot be exported.  Its
    [IndexedTriangleSet] is written, with no vertex, no triangle and no
    subset, and the mesh made for it is cleared; but no material was met,
    so that the shape has no entry in [shape_material_indexes], and the
    lookup of its [materialIds] raises [KeyError] with the shape id. *)
Theorem mesh_without_triangles_raises_key_error
    (this : ObjectInfo) (data evaluated : Mesh) (e : Element) (st : Exporter) :
  object_data this = DataMesh data evaluated ->
  find_by_name host (Shapes st) "IndexedTriangleSet" (mesh_name data) = Ok None ->
  loop_triangles (prepared_mesh settings _global_matrix scale_length data evaluated) = [] ->
  Py.dict_get Nat.eqb (shape_material_indexes st) (ids_shape st) = None ->
  exists st',
    _xml_scene_object_shape host settings _filepath _global_matrix scale_length
                            i3d_default_material this e st
    = (Raise (KeyError (Py.int_str (ids_shape st))), st') /\
    ids_shape st' = S (ids_shape st) /\
    meshes_alive st' = meshes_alive st /\
    exists entry,
      children (Shapes st') = (children (Shapes st) ++ [entry])%list /\
      ET.get entry "name" = Some (mesh_name data) /\
      List.map (fun section => (tag section, children section)) (children entry) =
      [("Vertices", []); ("Triangles", []); ("Subsets", [])].
Proof.
  intros Hdata Hfind Htriangles Hfresh.
  unfold _xml_scene_object_shape. rewrite Hdata.
  unfold bind at 1. unfold get at 1.
  unfold bind at 1. rewrite Hfind. unfold lift, ret at 1.
  unfold bind at 1.
  destruct (@compile_shape_empty _ _ _ _ host settings _filepath _global_matrix
              scale_length i3d_default_material this data evaluated st Htriangles)
    as (st1 & Hrun & Hcount & Halive & Hindexes & Hentry).
  rewrite Hrun. unfold bind, get, expect. rewrite Hindexes, Hfresh.
  exists st1. split; [reflexivity |]. auto.
Qed.

(** X15.  The loop that groups the triangles of a mesh, when it returns:
    the keys of [triangle_subsets] are the names of the materials of the
    triangles, each once, in the order in which the names are first used;
    under a name stand the triangles whose material has that name, in the
    order of the mesh; every triangle stands under one name, and every
    triangle has a material. *)
Theorem triangles_are_grouped_by_material_name
    (mesh : Mesh) (shape_id : nat) (triangles : list MeshLoopTriangle)
    (st st' : Exporter) (triangle_subsets : list (string * list MeshLoopTriangle)) :
  group_triangles host settings _filepath mesh shape_id triangles [] st
  = (Ok triangle_subsets, st') ->
  List.map fst triangle_subsets = distinct_in_order (names_of mesh triangles) /\
  (forall name,
      Py.dict_get String.eqb triangle_subsets name =
      match filter (uses mesh name) triangles with
      | [] => None
      | l => Some l
      end) /\
  List.length (List.concat (List.map snd triangle_subsets)) = List.length triangles /\
  Forall (fun triangle => material_name_at mesh triangle <> None) triangles.
Proof.
  intros H. eapply group_triangles_grouped with (done := []) in H.
  - destruct H as [(Hkeys & Hcontent & Htotal) Hvalid]. simpl in *. auto.
  - unfold grouped. simpl. auto.
Qed.

End ShapeExtras.

(** The fan: the stone first, then the moss. *)
Lemma triangles_are_grouped_by_material_name_witness :
  List.map fst Example.fan_subsets =
    distinct_in_order (names_of Example.fan (loop_triangles Example.fan)) /\
  (forall name,
      Py.dict_get String.eqb Example.fan_subsets name =
      match filter (uses Example.fan name) (loop_triangles Example.fan) with
      | [] => None
      | l => Some l
      end) /\
  List.length (List.concat (List.map snd Example.fan_subsets)) =
    List.length (loop_triangles Example.fan) /\
  Forall (fun triangle => material_name_at Example.fan triangle <> None)
         (loop_triangles Example.fan).
Proof.
  apply (@triangles_are_grouped_by_material_name
           Symbolic.text_float Example.host Example.settings Example.filepath
           Example.fan 1 (loop_triangles Example.fan) (Exporter_new [] false)
           (snd (group_triangles Example.host Example.settings Example.filepath
                                 Example.fan 1 (loop_triangles Example.fan) []
                                 (Exporter_new [] false)))
           Example.fan_subsets).
  vm_compute. reflexivity.
Defined.

Lemma mesh_without_triangles_raises_key_error_witness :
  exists st',
    Points.cloud_shape = (Raise (KeyError "1"), st') /\
    ids_shape st' = 2 /\
    meshes_alive st' = [] /\
    exists entry,
      children (Shapes st') = [entry] /\
      ET.get entry "name" = Some "Cloud" /\
      List.map (fun section => (tag section, children section)) (children entry) =
      [("Vertices", []); ("Triangles", []); ("Subsets", [])].
Proof.
  apply (@mesh_without_triangles_raises_key_error
           Symbolic.text_float Symbolic.text_matrix Symbolic.text_mathutils
           Symbolic.text_bmesh Example.host Example.settings Example.filepath
           Example.G Example.unit_scale Example.default_material
           (Example.user "Cloud" Points.cloud) Points.cloud Points.cloud
           (ET.new "Shape") (Exporter_new [] false)).
  - reflexivity.
  - reflexivity.
  - reflexivity.
  - reflexivity.
Defined.

Section CompiledShapeExtras.

Context {F : PyFloat} {MO : MatrixOps} {MU : Mathutils F MO} {BM : BMesh F MO}.
Variables (host : Host) (settings : Settings) (_filepath : string).
Variables (_global_matrix : Matrix) (scale_length : float).
Variable i3d_default_material : Material.

(** X16.  A shape that is compiled is consistent with itself: the [count]
    of [Vertices], of [Triangles] and of [Subsets] is the number of the
    children of each, there is one [t] for every loop triangle of the
    prepared mesh, and the three indices of every [t] are below the number
    of the vertices written. *)
Theorem compiled_shape_is_consistent
        (this : ObjectInfo) (data evaluated : Mesh) (st st' : Exporter) (shape_id : nat) :
  compile_shape host settings _filepath _global_matrix scale_length
                i3d_default_material this data evaluated st = (Ok shape_id, st') ->
  exists entry vertices triangles subsets,
    children (Shapes st') = (children (Shapes st) ++ [entry])%list /\
    children entry = [vertices; triangles; subsets] /\
    attr_nat vertices "count" = Some (List.length (children vertices)) /\
    attr_nat triangles "count" = Some (List.length (children triangles)) /\
    attr_nat subsets "count" = Some (List.length (children subsets)) /\
    List.length (children triangles) =
      List.length (loop_triangles
                     (prepared_mesh settings _global_matrix scale_length data evaluated)) /\
    Forall (fun t => exists i j k,
                t = triangle_element_of i j k /\
                i < List.length (children vertices) /\
                j < List.length (children vertices) /\
                k < List.length (children vertices))
           (children triangles).
Proof.
  intros H. apply compile_shape_parts in H. cbv zeta in H.
  destruct H as (mesh & ts & x & sa & sb & Hmesh & _ & Hgroup & _ & Hx & Hid & Hshapes).
  assert (Hattrib := keeps_attributes_extract mesh ts _ Hx).
  unfold section_attributes in Hattrib. simpl in Hattrib.
  inversion Hattrib as [[Htriangles Hsubsets]]. clear Hattrib.
  eapply extract_spec in Hx; [| reflexivity].
  destruct Hx as (T & sizes & Hscan & Hv & Ht & Hs & Hsizes & Hcount).
  simpl in Hv, Ht, Hs.
  apply scan_length in Hscan.
  eapply group_triangles_grouped in Hgroup; [| apply grouped_nil].
  destruct Hgroup as [(_ & _ & Htotal) _]. simpl in Htotal.
  eexists _, (vertices_element x), (triangles_element x), (subsets_element x).
  split; [exact Hshapes |].
  split; [reflexivity |].
  split; [rewrite Hv, length_map; exact Hcount |].
  split; [| split; [| split]].
  - unfold attr_nat, ET.get. rewrite Htriangles. simpl.
    rewrite int_parse_str, Ht, length_map, Hscan, Htotal. reflexivity.
  - unfold attr_nat, ET.get. rewrite Hsubsets. simpl.
    rewrite int_parse_str, Hs, packed_subsets_length, Hsizes. reflexivity.
  - rewrite Ht, length_map, Hscan, Htotal. reflexivity.
  - rewrite Ht, Hv, length_map. apply Forall_forall. intros t Hin.
    apply in_map_iff in Hin. destruct Hin as ([[a b] c] & <- & Hin).
    exists (place_of a (first_seen (corners_of T))),
           (place_of b (first_seen (corners_of T))),
           (place_of c (first_seen (corners_of T))).
    split; [reflexivity |].
    assert (Hcorners : forall d, In d [a; b; c] -> In d (corners_of T)).
    { intros d Hd. unfold corners_of. apply in_flat_map.
      exists (a, b, c). split; [exact Hin | exact Hd]. }
    repeat split; apply place_of_lt, seen_first_seen, Hcorners; simpl; auto.
Qed.

End CompiledShapeExtras.

(** The fan of the example: four vertices, two triangles, two subsets. *)
Lemma compiled_shape_is_consistent_witness :
  exists entry vertices triangles subsets,
    children (Shapes (snd Example.compile_fan)) =
      (children (Shapes (Exporter_new [] false)) ++ [entry])%list /\
    children entry = [vertices; triangles; subsets] /\
    attr_nat vertices "count" = Some (List.length (children vertices)) /\
    attr_nat triangles "count" = Some (List.length (children triangles)) /\
    attr_nat subsets "count" = Some (List.length (children subsets)) /\
    List.length (children triangles) =
      List.length (loop_triangles
                     (@prepared_mesh Symbolic.text_float Symbolic.text_matrix
                                     Symbolic.text_mathutils Symbolic.text_bmesh
                                     Example.settings Example.G Example.unit_scale
                                     Example.fan Example.fan)) /\
    Forall (fun t => exists i j k,
                t = triangle_element_of i j k /\
                i < List.length (children vertices) /\
                j < List.length (children vertices) /\
                k < List.length (children vertices))
           (children triangles).
Proof.
  apply (@compiled_shape_is_consistent
           Symbolic.text_float Symbolic.text_matrix Symbolic.text_mathutils
           Symbolic.text_bmesh Example.host Example.settings Example.filepath
           Example.G Example.unit_scale Example.default_material
           Example.fan_object Example.fan Example.fan
           (Exporter_new [] false) (snd Example.compile_fan) 1).
  vm_compute. reflexivity.
Defined.

Section MaterialIdsExtras.

Context {F : PyFloat} {MO : MatrixOps} {MU : Mathutils F MO} {BM : BMesh F MO}.
Variables (host : Host) (settings : Settings) (_filepath : string).
Variables (_global_matrix : Matrix) (scale_length : float).
Variable i3d_default_material : Material.

(** X17.  The node of a mesh that is compiled for it, under a shape id
    that has no entry in [shape_material_indexes] yet, gets that shape id
    and, as [materialIds], a list of numbers separated by commas: one for
    each [Subset] of the shape, each of them the [materialId] of a
    [Material] element of the material section. *)
Theorem material_ids_list_one_id_per_subset
    (this : ObjectInfo) (data evaluated : Mesh) (node_element e : Element)
    (st st' : Exporter) :
  object_data this = DataMesh data evaluated ->
  find_by_name host (Shapes st) "IndexedTriangleSet" (mesh_name data) = Ok None ->
  Py.dict_get Nat.eqb (shape_material_indexes st) (ids_shape st) = None ->
  _xml_scene_object_shape host settings _filepath _global_matrix scale_length
                          i3d_default_material this node_element st = (Ok e, st') ->
  exists ids entry vertices triangles subsets,
    ET.get e "shapeId" = Some (Py.int_str (ids_shape st)) /\
    ET.get e "materialIds" = Some (Py.join "," (List.map Py.int_str ids)) /\
    children (Shapes st') = (children (Shapes st) ++ [entry])%list /\
    children entry = [vertices; triangles; subsets] /\
    List.length ids = List.length (children subsets) /\
    Forall (is_material_id (children (Materials st'))) ids.
Proof.
  intros Hdata Hfind Hfresh H.
  unfold _xml_scene_object_shape in H. rewrite Hdata in H.
  apply bind_ok in H. destruct H as (s0 & s0' & Hg & H).
  apply get_ok in Hg. destruct Hg; subst s0 s0'.
  rewrite Hfind in H.
  apply bind_ok in H. destruct H as (found & s1 & Hfound & H).
  apply ret_ok in Hfound. destruct Hfound as [Hnone Hs1]. subst found s1.
  apply bind_ok in H. destruct H as (shape_id & s2 & Hcompile & H).
  apply bind_ok in H. destruct H as (s3 & s3' & Hg & H).
  apply get_ok in Hg. destruct Hg; subst s3 s3'.
  apply bind_ok in H. destruct H as (material_ids & s4 & Hlookup & H).
  apply expect_ok in Hlookup. destruct Hlookup as [Hlookup ->].
  apply ret_ok in H. destruct H as [He Hst]. subst e st'.
  apply compile_shape_parts in Hcompile. cbv zeta in Hcompile.
  destruct Hcompile
    as (mesh & ts & x & sa & sb & _ & Hsa & Hgroup & Hsb & Hx & Hid & Hshapes).
  subst shape_id.
  inversion Hsa as [[Hsa1 Hsa2]]. inversion Hsb as [[Hsb1 Hsb2]]. clear Hsa Hsb.
  eapply extract_spec in Hx; [| reflexivity].
  destruct Hx as (T & sizes & _ & _ & _ & Hs & Hsizes & _). simpl in Hs.
  apply group_triangles_ids in Hgroup.
  destruct Hgroup as (ids & more & _ & Hlen & Hentry & Hids).
  rewrite <- Hsb2, Hsa2, Hfresh, Hlookup in Hentry. rewrite <- Hsb1 in Hids.
  exists ids, (ET.set_children
                 (_xml_write_int
                    (_xml_write_string (ET.new "IndexedTriangleSet") "name" (mesh_name data))
                    "shapeId" (ids_shape st))
                 [vertices_element x; triangles_element x; subsets_element x]),
         (vertices_element x), (triangles_element x), (subsets_element x).
  unfold _xml_write_string at 1, _xml_write_int at 1.
  split; [rewrite get_set_other by reflexivity; apply get_set_same |].
  split.
  { rewrite get_set_same. destruct ids as [| id ids]; [discriminate Hentry |].
    rewrite joined_none in Hentry. exact Hentry. }
  split; [exact Hshapes |]. split; [reflexivity |].
  split; [| exact Hids].
  rewrite Hs, packed_subsets_length, Hsizes, Hlen. reflexivity.
Qed.

End MaterialIdsExtras.

(** The node of the fan: the stone is material 1, the moss material 2. *)
Lemma material_ids_list_one_id_per_subset_witness :
  exists ids entry vertices triangles subsets,
    ET.get (Fans.fan_node) "shapeId" = Some (Py.int_str 1) /\
    ET.get (Fans.fan_node) "materialIds" = Some (Py.join "," (List.map Py.int_str ids)) /\
    children (Shapes (snd Fans.fan_shape)) =
      (children (Shapes (Exporter_new [] false)) ++ [entry])%list /\
    children entry = [vertices; triangles; subsets] /\
    List.length ids = List.length (children subsets) /\
    Forall (is_material_id (children (Materials (snd Fans.fan_shape)))) ids.
Proof.
  apply (@material_ids_list_one_id_per_subset
           Symbolic.text_float Symbolic.text_matrix Symbolic.text_mathutils
           Symbolic.text_bmesh Example.host Example.settings Example.filepath
           Example.G Example.unit_scale Example.default_material
           Example.fan_object Example.fan Example.fan (ET.new "Shape") Fans.fan_node
           (Exporter_new [] false) (snd Fans.fan_shape)).
  - reflexivity.
  - reflexivity.
  - reflexivity.
  - vm_compute. reflexivity.
Defined.

Section InvariantExtras.

Context {F : PyFloat} {MO : MatrixOps} {MU : Mathutils F MO} {BM : BMesh F MO}.
Variables (host : Host) (settings : Settings) (_filepath : string).
Variables (_global_matrix : Matrix) (scale_length : float).
Variable defaults : string -> option PyValue.
Variable value_ne : PyValue -> PyValue -> bool.
Variable i3d_default_material : Material.

(** X18.  After an export that returns, the ids of each resource section
    are sound: every [File] has a [fileId], every [Material] a
    [materialId], every [IndexedTriangleSet] a [shapeId]; within a section
    no id occurs twice, and every id is below the counter of the section. *)
Theorem ids_are_distinct_within_a_section
        (context : BpyContext) (files_on_disk : list string)
        (has_default_material : bool) (st' : Exporter) :
  Exporter_init host settings _filepath _global_matrix scale_length defaults value_ne
                i3d_default_material context
                (Exporter_new files_on_disk has_default_material) = (Ok tt, st') ->
  numbered_below "fileId" (ids_file st') (children (Files st')) /\
  numbered_below "materialId" (ids_material st') (children (Materials st')) /\
  numbered_below "shapeId" (ids_shape st') (children (Shapes st')).
Proof.
  intros H. split; [| split].
  - apply files_inv_numbered.
    eapply (@preserves_init F MO MU BM host settings _filepath _global_matrix scale_length
              defaults value_ne i3d_default_material files_linked);
      [exact files_linked_tables | | apply files_linked_new | exact H].
    intros this data evaluated. apply preserves_compile_shape.
    + exact files_linked_frame.
    + apply preserves_files_linked.
  - eapply (@preserves_init F MO MU BM host settings _filepath _global_matrix scale_length
              defaults value_ne i3d_default_material materials_numbered);
      [exact materials_numbered_tables | | apply numbered_below_nil | exact H].
    intros this data evaluated. apply preserves_compile_shape.
    + exact materials_numbered_frame.
    + apply preserves_materials_numbered.
  - eapply (@preserves_init F MO MU BM host settings _filepath _global_matrix scale_length
              defaults value_ne i3d_default_material shapes_numbered);
      [exact shapes_numbered_tables | | apply numbered_below_nil | exact H].
    intros this data evaluated. apply preserves_shapes_numbered.
Qed.

(** X19.  After an export that returns, every [Texture], [Normalmap] and
    [Glossmap] of a material refers to a file that is there: the [fileId]
    of each child of each element of the material section is the [fileId]
    of a [File] element of the file section. *)
Theorem textures_refer_to_files
        (context : BpyContext) (files_on_disk : list string)
        (has_default_material : bool) (st' : Exporter) :
  Exporter_init host settings _filepath _global_matrix scale_length defaults value_ne
                i3d_default_material context
                (Exporter_new files_on_disk has_default_material) = (Ok tt, st') ->
  Forall (fun material =>
            Forall (fun child =>
                      exists id file,
                        attr_nat child "fileId" = Some id /\
                        In file (children (Files st')) /\
                        tag file = "File" /\ attr_nat file "fileId" = Some id)
                   (children material))
         (children (Materials st')).
Proof.
  intros H.
  assert (Hlinked : files_linked st').
  { eapply (@preserves_init F MO MU BM host settings _filepath _global_matrix scale_length
              defaults value_ne i3d_default_material files_linked);
      [exact files_linked_tables | | apply files_linked_new | exact H].
    intros this data evaluated. apply preserves_compile_shape.
    - exact files_linked_frame.
    - apply preserves_files_linked. }
  destruct Hlinked as [_ Htextures]. exact Htextures.
Qed.

End InvariantExtras.

(** The village: two files, two materials and two shapes for three
    objects. *)
Lemma ids_are_distinct_within_a_section_witness :
  numbered_below "fileId" (ids_file (snd Painted.export))
                 (children (Files (snd Painted.export))) /\
  numbered_below "materialId" (ids_material (snd Painted.export))
                 (children (Materials (snd Painted.export))) /\
  numbered_below "shapeId" (ids_shape (snd Painted.export))
                 (children (Shapes (snd Painted.export))).
Proof.
  apply (@ids_are_distinct_within_a_section
           Symbolic.text_float Symbolic.text_matrix Symbolic.text_mathutils
           Symbolic.text_bmesh Example.host Example.settings Example.filepath
           Example.G Example.unit_scale Example.defaults Example.value_ne
           Example.default_material Painted.context [] false (snd Painted.export)).
  vm_compute. reflexivity.
Defined.

Lemma textures_refer_to_files_witness :
  Forall (fun material =>
            Forall (fun child =>
                      exists id file,
                        attr_nat child "fileId" = Some id /\
                        In file (children (Files (snd Painted.export))) /\
                        tag file = "File" /\ attr_nat file "fileId" = Some id)
                   (children material))
         (children (Materials (snd Painted.export))).
Proof.
  apply (@textures_refer_to_files
           Symbolic.text_float Symbolic.text_matrix Symbolic.text_mathutils
           Symbolic.text_bmesh Example.host Example.settings Example.filepath
           Example.G Example.unit_scale Example.defaults Example.value_ne
           Example.default_material Painted.context [] false (snd Painted.export)).
  vm_compute. reflexivity.
Defined.

(** X20.  The indentation changes white space only: the indented element
    has the tag, the attributes and the children of the element, in their
    order, each child indented in the same sense; a text or tail is
    replaced only where it was missing or white space, and by white
    space.  A second indentation at the same level changes nothing. *)
Theorem indentation_changes_white_space_only (elem : Element) (level : nat) :
  same_but_space elem (_indent elem level) /\
  _indent (_indent elem level) level = _indent elem level.
Proof. split; [apply indent_same_but_space | apply indent_again]. Qed.

Section DocumentExtras.

Context {F : PyFloat} {MO : MatrixOps} {MU : Mathutils F MO} {BM : BMesh F MO}.
Variables (host : Host) (settings : Settings) (_filepath : string).
Variables (_global_matrix : Matrix) (scale_length : float).
Variable defaults : string -> option PyValue.
Variable value_ne : PyValue -> PyValue -> bool.
Variable i3d_default_material : Material.

(** X21.  Where the file can be written, an export that returns has
    written one document: its root is [i3D] with the name of the file, the
    version 1.6 and the two schema attributes, and under it stand the
    eight sections in their fixed order, whatever the scene holds.  The
    sections are the ones of the exporter, indented. *)
Theorem document_has_the_eight_sections
        (context : BpyContext) (st st' : Exporter) :
  write_error host _filepath = None ->
  Exporter_init host settings _filepath _global_matrix scale_length defaults value_ne
                i3d_default_material context st = (Ok tt, st') ->
  exists doc,
    written st' = Some doc /\
    tag doc = "i3D" /\
    attrib doc =
      [("name", display_name_from_filepath host _filepath);
       ("version", "1.6");
       ("xmlns:xsi", "http://www.w3.org/2001/XMLSchema-instance");
       ("xsi:noNamespaceSchemaLocation", "http://i3d.giants.ch/schema/i3d-1.6.xsd")] /\
    List.map tag (children doc) =
      ["Asset"; "Files"; "Materials"; "Shapes"; "Dynamics"; "Scene"; "Animation";
       "UserAttributes"] /\
    exists asset dynamics animation user_attributes,
      Forall2 same_but_space
              [asset; Files st'; Materials st'; Shapes st'; dynamics; Scene st';
               animation; user_attributes]
              (children doc).
Proof.
  intros Hwrite H.
  pose proof H as Htags. apply init_section_tags in Htags.
  apply init_steps in H.
  destruct H as (s2 & s3 & _ & _ & _ & _ & _ & _ & _ & _ & _ & _ & _ & Hexport).
  pose proof (@export_writes host _filepath s3 st' tt Hwrite Hexport) as Hwritten.
  pose proof Hexport as Htables. apply keeps_tables_export_to_file in Htables.
  pose proof Hexport as Hscene. apply keeps_scene_export_to_file in Hscene.
  assert (Hfiles : Files s3 = Files st' /\ Materials s3 = Materials st' /\
                   Shapes s3 = Shapes st' /\ Scene s3 = Scene st').
  { unfold tables, file_table, material_table, shape_table in Htables.
    inversion Htables. auto. }
  destruct Hfiles as (Hf & Hm & Hs & Hc).
  unfold section_tags in Htags. inversion Htags as [[Tf Tm Ts Tc]].
  pose proof (indent_same_but_space (_tree host _filepath s3) 0) as Hsame.
  remember (_indent (_tree host _filepath s3) 0) as doc eqn:Hdoc. clear Hdoc.
  exists doc.
  inversion Hsame as [? ? Htag Hattrib _ _ Hchildren]; subst.
  split; [exact Hwritten |].
  split; [rewrite Htag; reflexivity |].
  split; [rewrite Hattrib; reflexivity |].
  split.
  - rewrite (same_but_space_tags Hchildren). unfold _tree. simpl.
    rewrite Hf, Hm, Hs, Hc, Tf, Tm, Ts, Tc. reflexivity.
  - unfold _tree in Hchildren. simpl in Hchildren.
    rewrite Hf, Hm, Hs, Hc in Hchildren.
    eexists _, _, _, _. exact Hchildren.
Qed.

End DocumentExtras.

(** The document of the village. *)
Lemma document_has_the_eight_sections_witness :
  exists doc,
    written (snd Painted.export) = Some doc /\
    tag doc = "i3D" /\
    attrib doc =
      [("name", display_name_from_filepath Example.host Example.filepath);
       ("version", "1.6");
       ("xmlns:xsi", "http://www.w3.org/2001/XMLSchema-instance");
       ("xsi:noNamespaceSchemaLocation", "http://i3d.giants.ch/schema/i3d-1.6.xsd")] /\
    List.map tag (children doc) =
      ["Asset"; "Files"; "Materials"; "Shapes"; "Dynamics"; "Scene"; "Animation";
       "UserAttributes"] /\
    exists asset dynamics animation user_attributes,
      Forall2 same_but_space
              [asset; Files (snd Painted.export); Materials (snd Painted.export);
               Shapes (snd Painted.export); dynamics; Scene (snd Painted.export);
               animation; user_attributes]
              (children doc).
Proof.
  apply (@document_has_the_eight_sections
           Symbolic.text_float Symbolic.text_matrix Symbolic.text_mathutils
           Symbolic.text_bmesh Example.host Example.settings Example.filepath
           Example.G Example.unit_scale Example.defaults Example.value_ne
           Example.default_material Painted.context (Exporter_new [] false)
           (snd Painted.export)).
  - reflexivity.
  - vm_compute. reflexivity.
Defined.

Section LightExtras.

Context {F : PyFloat}.

(** X22.  The export of a light raises in one case only: the light is a
    point or a spot light and its falloff curve is none of [CONSTANT],
    [INVERSE_LINEAR] and [INVERSE_SQUARE].  The name of the curve then
    reaches the integer format of [_xml_write_int], which raises
    [ValueError]; nothing was printed before.  In every other case the
    element comes back. *)
Theorem light_raises_for_an_unnamed_falloff_only
        (light : Light) (node_element : Element) (st : Exporter) :
  let named :=
    falloff_type light = "CONSTANT" \/ falloff_type light = "INVERSE_LINEAR" \/
    falloff_type light = "INVERSE_SQUARE" in
  let decays := light_type light = "POINT" \/ light_type light = "SPOT" in
  match _xml_scene_object_light light node_element st with
  | (Raise exception, st') =>
      exception = ValueError "Unknown format code 'd' for object of type 'str'" /\
      st' = st /\ decays /\ ~ named
  | (Ok _, _) => decays -> named
  end.
Proof.
  cbv zeta. unfold _xml_scene_object_light, falloff_selector.
  destruct (String.eqb (light_type light) "POINT") eqn:Hpoint;
    [| destruct (String.eqb (light_type light) "SUN") eqn:Hsun;
       [| destruct (String.eqb (light_type light) "SPOT") eqn:Hspot;
          [| destruct (String.eqb (light_type light) "AREA") eqn:Harea]]];
    rewrite ?String.eqb_eq, ?String.eqb_neq in *;
    unfold bind, ret, print, modify; simpl;
    try (intros [Hp | Hs]; congruence);
    (destruct (String.eqb (falloff_type light) "CONSTANT") eqn:Hc;
     [apply String.eqb_eq in Hc; simpl; auto |];
     destruct (String.eqb (falloff_type light) "INVERSE_LINEAR") eqn:Hl;
     [apply String.eqb_eq in Hl; simpl; auto |];
     destruct (String.eqb (falloff_type light) "INVERSE_SQUARE") eqn:Hq;
     [apply String.eqb_eq in Hq; simpl; auto |];
     apply String.eqb_neq in Hc, Hl, Hq; simpl;
     repeat split; auto; intros [H | [H | H]]; congruence).
Qed.

End LightExtras.

Section UvExtras.

Context {F : PyFloat}.

(** X23.  A vertex gets four uv sets at most.  The loop over the uv
    layers of a mesh, when it returns, has read the first four layers at
    the loop index, under the keys [t0] to [t3] in this order, and has
    printed one line for every further layer. *)
Theorem four_uv_layers_at_most
        (layers : list MeshUVLoopLayer) (loop_index : nat) (x x' : Extraction)
        (uvs : list (string * string)) :
  uv_layers_loop 0 layers loop_index [] x = (Ok uvs, x') ->
  Forall2 (fun layer (kv : nat * (string * string)) =>
             fst (snd kv) = ("t" ++ Py.int_str (fst kv))%string /\
             exists d,
               nth_error (data layer) loop_index = Some d /\
               snd (snd kv) = (fmt 6 (fst d) ++ " " ++ fmt 6 (snd d))%string)
          (firstn 4 layers)
          (combine (seq 0 (List.length uvs)) uvs) /\
  List.length uvs = Nat.min 4 (List.length layers) /\
  printed x' =
    (printed x
     ++ repeat "Currently only supports four uv layers per vertex"
               (List.length layers - 4))%list.
Proof.
  intros H.
  destruct layers as [| l0 [| l1 [| l2 [| l3 rest]]]];
    cbn [uv_layers_loop] in H;
    change (Nat.ltb 0 4) with true in H; change (Nat.ltb 1 4) with true in H;
    change (Nat.ltb 2 4) with true in H; change (Nat.ltb 3 4) with true in H;
    cbv iota in H;
    unfold bind, modify, expect, ret in H;
    repeat match type of H with
           | context [nth_error (data ?l) loop_index] =>
               let d := fresh "d" in
               let Hd := fresh "Hd" in
               destruct (nth_error (data l) loop_index) as [d |] eqn:Hd;
               [| unfold raise in H; discriminate H]
           end.
  - inversion H; subst. simpl. rewrite app_nil_r. repeat split; constructor.
  - inversion H; subst. simpl. rewrite app_nil_r.
    repeat split; repeat (constructor; [simpl; eauto |]); constructor.
  - inversion H; subst. simpl. rewrite app_nil_r.
    repeat split; repeat (constructor; [simpl; eauto |]); constructor.
  - inversion H; subst. simpl. rewrite app_nil_r.
    repeat split; repeat (constructor; [simpl; eauto |]); constructor.
  - match type of H with
    | uv_layers_loop 4 rest loop_index ?u ?s = _ =>
        destruct (@uv_layers_beyond F rest loop_index 4 u s (le_n 4))
          as (x1 & Hrun & _ & Hprinted)
    end.
    rewrite Hrun in H. inversion H; subst. clear H Hrun.
    rewrite Hprinted. simpl.
    rewrite Nat.sub_0_r.
    repeat split; repeat (constructor; [simpl; eauto |]); constructor.
Qed.

End UvExtras.

(** Five layers: four are read, one is reported. *)
Lemma four_uv_layers_at_most_witness :
  Forall2 (fun layer (kv : nat * (string * string)) =>
             fst (snd kv) = ("t" ++ Py.int_str (fst kv))%string /\
             exists d,
               nth_error (data layer) 0 = Some d /\
               snd (snd kv) = (fmt 6 (fst d) ++ " " ++ fmt 6 (snd d))%string)
          (firstn 4 Unwrapped.five)
          (combine (seq 0 (List.length Unwrapped.uvs)) Unwrapped.uvs) /\
  List.length Unwrapped.uvs = Nat.min 4 (List.length Unwrapped.five) /\
  printed (snd Unwrapped.read) =
    (printed Unwrapped.start
     ++ repeat "Currently only supports four uv layers per vertex"
               (List.length Unwrapped.five - 4))%list.
Proof.
  apply (@four_uv_layers_at_most Symbolic.text_float Unwrapped.five 0 Unwrapped.start
           (snd Unwrapped.read) Unwrapped.uvs).
  vm_compute. reflexivity.
Defined.

Section SceneDataExtras.

Context {F : PyFloat} {MO : MatrixOps} {MU : Mathutils F MO} {BM : BMesh F MO}.
Variables (host : Host) (settings : Settings) (_filepath : string).
Variables (_global_matrix : Matrix) (scale_length : float).
Variable defaults : string -> option PyValue.
Variable value_ne : PyValue -> PyValue -> bool.
Variable i3d_default_material : Material.

(** X24.  After an export that returns, every element of the scene
    section, at every depth, has the attributes [name], [nodeId],
    [translation], [rotation] and [scale]: the general data are written
    first, and what is written after them adds or replaces attributes and
    removes none. *)
Theorem scene_elements_carry_the_general_data
        (context : BpyContext) (st st' : Exporter) :
  Exporter_init host settings _filepath _global_matrix scale_length defaults value_ne
                i3d_default_material context st = (Ok tt, st') ->
  Forall described (children (Scene st')).
Proof.
  intros H. apply init_steps in H.
  destruct H as (s2 & s3 & _ & _ & _ & Hscene & _ & _ & _ & _ & _ & _ & Hparse & Hwrite).
  apply parse_scene_graph_described in Hparse. destruct Hparse as (es & Hch & Hall).
  apply keeps_scene_export_to_file in Hwrite.
  rewrite Hwrite, Hch, Hscene. exact Hall.
Qed.

End SceneDataExtras.

(** The scene of the village. *)
Lemma scene_elements_carry_the_general_data_witness :
  Forall described (children (Scene (snd Painted.export))).
Proof.
  apply (@scene_elements_carry_the_general_data
           Symbolic.text_float Symbolic.text_matrix Symbolic.text_mathutils
           Symbolic.text_bmesh Example.host Example.settings Example.filepath
           Example.G Example.unit_scale Example.defaults Example.value_ne
           Example.default_material Painted.context (Exporter_new [] false)
           (snd Painted.export)).
  vm_compute. reflexivity.
Defined.
